(** * Production scheduler: a shallow embedding of [src/scheduler.py]

    The development follows the Python class [ProductionScheduler]:

    - Python dictionaries are insertion-ordered, and several places of the
      scheduler depend on that order (the first product whose task list
      contains a task, the first quality team with the least load), so a
      dictionary is an association list with in-place update ([dict]);
    - a naive [datetime] is a number of minutes ([Z]) counted from Monday
      2025-08-18 00:00, so that the scheduler's start instant
      [datetime(2025, 8, 22, 6, 0)] (a Friday) is [4 * 1440 + 360]; every
      instant the scheduler builds is aligned to a minute;
    - priorities mix Python ints and floats; they are exact rationals here;
    - exceptions are explicit results. *)

From Stdlib Require Import ZArith QArith Qround List String Bool Lia.
From Stdlib Require Import FunctionalExtensionality Permutation Sorted.
Import ListNotations.

#[global] Open Scope string_scope.
#[global] Open Scope list_scope.
#[global] Open Scope Z_scope.

(** ** Insertion-ordered dictionaries *)

Class EqKey (K : Type) := {
  key_eqb : K -> K -> bool;
  key_eqb_spec : forall x y, reflect (x = y) (key_eqb x y)
}.

#[global] Instance Z_EqKey : EqKey Z :=
  {| key_eqb := Z.eqb; key_eqb_spec := Z.eqb_spec |}.

#[global] Instance string_EqKey : EqKey string :=
  {| key_eqb := String.eqb; key_eqb_spec := String.eqb_spec |}.

Definition dict (K V : Type) : Type := list (K * V).

Section Dict.
Context {K V : Type} `{EqKey K}.

(** [d.get(k)] / [d[k]]: [None] stands for a missing key. *)
Fixpoint dict_get (k : K) (d : dict K V) : option V :=
  match d with
  | [] => None
  | (k', v) :: d' => if key_eqb k k' then Some v else dict_get k d'
  end.

(** [k in d] *)
Definition dict_mem (k : K) (d : dict K V) : bool :=
  match dict_get k d with Some _ => true | None => false end.

(** [d[k] = v]: an existing key keeps its position, a new key is appended. *)
Fixpoint dict_set (k : K) (v : V) (d : dict K V) : dict K V :=
  match d with
  | [] => [(k, v)]
  | (k', v') :: d' =>
      if key_eqb k k' then (k', v) :: d' else (k', v') :: dict_set k v d'
  end.

Definition dict_keys (d : dict K V) : list K := map fst d.
Definition dict_values (d : dict K V) : list V := map snd d.

(** [x in l] for a list or a set of keys. *)
Definition mem (k : K) (l : list K) : bool := existsb (key_eqb k) l.

(** [s.add(k)] on a set kept as a duplicate-free list. *)
Definition set_add (k : K) (l : list K) : list K :=
  if mem k l then l else l ++ [k].

(** [set(l)]: the distinct elements of [l]. *)
Definition to_set (l : list K) : list K :=
  fold_left (fun acc k => set_add k acc) l [].
End Dict.

(** ** Naive datetimes, in minutes *)

Definition datetime : Type := Z.

Definition minutes_per_day : Z := 1440.

(** [t.date()], as a day number. *)
Definition date_of (t : datetime) : Z := t / minutes_per_day.

(** [t.weekday()]: Monday is 0, Saturday 5, Sunday 6. *)
Definition weekday (t : datetime) : Z := date_of t mod 7.

(** [t.hour * 60 + t.minute] *)
Definition minute_of_day (t : datetime) : Z := t mod minutes_per_day.

(** [t.replace(hour=h, minute=m, second=0)] *)
Definition replace_time (t : datetime) (h m : Z) : datetime :=
  date_of t * minutes_per_day + h * 60 + m.

(** [timedelta(days=d)] for a rational number of days [d], in whole minutes
    (the sub-minute part is dropped: the scheduler only ever takes the
    calendar date of the sum, which whole minutes determine). *)
Definition timedelta_days (d : Q) : Z := Qfloor (d * inject_Z minutes_per_day).

(** [datetime(2025, 8, 22, 6, 0)] *)
Definition start_date : datetime := 4 * minutes_per_day + 360.

(** ** Python truthiness of the values the scheduler tests *)

Definition truthy (s : string) : bool := negb (String.eqb s "").

(** [a or b] on two results of [dict.get] that are strings when present. *)
Definition or_else (a b : option string) : option string :=
  match a with
  | Some s => if truthy s then Some s else b
  | None => b
  end.

(** [a or b] on two integers. *)
Definition or_int (a b : Z) : Z := if a =? 0 then b else a.

(** ** The data bundle *)

Record TaskInfo := {
  duration : Z;
  team : string;              (* [None] for quality tasks, where it is never read *)
  mechanics_required : Z;
  is_quality : bool;
  task_type : string
}.

(** A row of the TASK RELATIONSHIPS TABLE as [df.to_dict('records')] gives
    it: the relationship sits under either column name. *)
Record RawConstraint := {
  raw_First : Z;
  raw_Second : Z;
  raw_Relationship_Type : option string;
  raw_Relationship : option string
}.

Record LatePartConstraint := {
  lp_First : Z;
  lp_Second : Z;
  lp_On_Dock_Date : datetime;
  lp_Product_Line : option string
}.

Record ReworkConstraint := {
  rw_First : Z;
  rw_Second : Z;
  rw_Relationship : string;
  rw_Product_Line : option string
}.

(** An edge of the effective graph.  [Type_] and [Product_Line] are [None]
    when the Python dictionary has no such key. *)
Record Constraint := {
  First : Z;
  Second : Z;
  Relationship : string;
  Type_ : option string;
  Product_Line : option (option string)
}.

Record ProductionScheduler := {
  late_part_delay_days : Q;
  tasks : dict Z TaskInfo;
  quality_inspections : dict Z Z;       (* quality task |-> primary_task *)
  quality_requirements : dict Z Z;      (* primary task |-> quality task *)
  precedence_constraints : list RawConstraint;
  late_part_constraints : list LatePartConstraint;
  rework_constraints : list ReworkConstraint;
  late_part_tasks : list Z;
  rework_tasks : list Z;
  on_dock_dates : dict Z datetime;
  task_to_product : dict Z string;
  team_shifts : dict string (list string);
  team_capacity : dict string Z;
  quality_team_shifts : dict string (list string);
  quality_team_capacity : dict string Z;
  delivery_dates : dict string datetime;
  holidays : dict string (list datetime);
  product_tasks : dict string (list Z)
}.

(** ** build_dynamic_dependencies *)

Definition FINISH_LE_START : string := "Finish <= Start".
Definition FINISH_EQ_START : string := "Finish = Start".
Definition START_LE_START : string := "Start <= Start".

Definition plain_edge (a b : Z) (rel : string) : Constraint :=
  {| First := a; Second := b; Relationship := rel;
     Type_ := None; Product_Line := None |}.

Definition typed_edge (a b : Z) (rel ty : string) (product : option string)
  : Constraint :=
  {| First := a; Second := b; Relationship := rel;
     Type_ := Some ty; Product_Line := Some product |}.

(** [any(c['First'] == a and c['Second'] == b for c in dynamic_constraints)] *)
Definition has_edge (a b : Z) (dc : list Constraint) : bool :=
  existsb (fun c => (First c =? a) && (Second c =? b)) dc.

(** [constraint.get('Relationship Type') or constraint.get('Relationship')],
    [None] when the result is falsy and the row is skipped. *)
Definition relationship_of (c : RawConstraint) : option string :=
  match or_else (raw_Relationship_Type c) (raw_Relationship c) with
  | Some r => if truthy r then Some r else None
  | None => None
  end.

(** Step 1: one iteration of the loop over [precedence_constraints]. *)
Definition base_step (qr : dict Z Z) (dc : list Constraint)
  (c : RawConstraint) : list Constraint :=
  let first_task := raw_First c in
  let second_task := raw_Second c in
  match relationship_of c with
  | None => dc
  | Some relationship =>
      match dict_get first_task qr with
      | Some qi_task =>
          (dc ++ (if has_edge first_task qi_task dc then []
                  else [plain_edge first_task qi_task FINISH_EQ_START]))
          ++ [plain_edge qi_task second_task relationship]
      | None => dc ++ [plain_edge first_task second_task relationship]
      end
  end.

(** Step 2: late part constraints. *)
Definition late_part_step (dc : list Constraint) (c : LatePartConstraint)
  : list Constraint :=
  dc ++ [typed_edge (lp_First c) (lp_Second c) FINISH_LE_START "Late Part"
           (lp_Product_Line c)].

(** Step 3: rework constraints, through the rework's quality task. *)
Definition rework_step (qr : dict Z Z) (dc : list Constraint)
  (c : ReworkConstraint) : list Constraint :=
  let a := rw_First c in
  let b := rw_Second c in
  match dict_get a qr with
  | Some q =>
      (dc ++ (if has_edge a q dc then []
              else [typed_edge a q FINISH_EQ_START "Rework QI"
                      (rw_Product_Line c)]))
      ++ [typed_edge q b (rw_Relationship c) "Rework" (rw_Product_Line c)]
  | None =>
      dc ++ [typed_edge a b (rw_Relationship c) "Rework" (rw_Product_Line c)]
  end.

(** Step 4: quality links that no earlier step emitted. *)
Definition residual_step (dc : list Constraint) (link : Z * Z)
  : list Constraint :=
  let '(primary_task, qi_task) := link in
  if has_edge primary_task qi_task dc then dc
  else dc ++ [plain_edge primary_task qi_task FINISH_EQ_START].

Definition base_pass (qr : dict Z Z) (l : list RawConstraint)
  : list Constraint :=
  fold_left (base_step qr) l [].

Definition build_dynamic_dependencies (self : ProductionScheduler)
  : list Constraint :=
  let qr := quality_requirements self in
  let dc1 := base_pass qr (precedence_constraints self) in
  let dc2 := fold_left late_part_step (late_part_constraints self) dc1 in
  let dc3 := fold_left (rework_step qr) (rework_constraints self) dc2 in
  fold_left residual_step qr dc3.

(** ** Calendar *)

Definition holidays_of (self : ProductionScheduler) (product_line : string)
  : list datetime :=
  match dict_get product_line (holidays self) with
  | Some l => l
  | None => []
  end.

Definition is_working_day (self : ProductionScheduler) (d : datetime)
  (product_line : string) : bool :=
  if 5 <=? weekday d then false
  else if existsb (fun h => date_of h =? date_of d)
            (holidays_of self product_line)
  then false
  else true.

(** The three shift windows the window search hard-codes, on
    [current_minutes = hour * 60 + minute]. *)
Definition shift_window (shift : string) (current_minutes : Z) : bool :=
  ((shift =? "1st")%string && (360 <=? current_minutes)
     && (current_minutes <? 870))
  || ((shift =? "2nd")%string && (870 <=? current_minutes)
        && (current_minutes <? 1380))
  || ((shift =? "3rd")%string
        && ((1380 <=? current_minutes) || (current_minutes <? 360))).

(** ** The schedule and the capacity check *)

Record Placement := {
  start_time : datetime;
  end_time : datetime;
  sched_team : string;
  sched_product_line : string;
  sched_duration : Z;
  sched_mechanics_required : Z;
  sched_is_quality : bool;
  sched_task_type : string;
  sched_shift : string
}.

Definition Schedule : Type := dict Z Placement.

Definition get_default {K} `{EqKey K} (k : K) (d : dict K Z) (default : Z) : Z :=
  match dict_get k d with Some v => v | None => default end.

(** [self.team_capacity.get(team, 0) or self.quality_team_capacity.get(team, 0)] *)
Definition capacity_of (self : ProductionScheduler) (team : string) : Z :=
  or_int (get_default team (team_capacity self) 0)
         (get_default team (quality_team_capacity self) 0).

(** The entries of the schedule whose ['team'] is [team]. *)
Definition team_tasks (task_schedule : Schedule) (team : string)
  : list Placement :=
  filter (fun sched => (sched_team sched =? team)%string)
         (dict_values task_schedule).

(** Does the interval of [sched] contain the minute [current]? *)
Definition covers (sched : Placement) (current : datetime) : bool :=
  (start_time sched <=? current) && (current <? end_time sched).

(** The inner loop of [check_team_capacity_at_time]: the workers busy at the
    minute [current]. *)
Fixpoint usage_at (l : list Placement) (current : datetime) : Z :=
  match l with
  | [] => 0
  | sched :: l' =>
      (if covers sched current then sched_mechanics_required sched else 0)
      + usage_at l' current
  end.

(** The outer loop, [while current < end_time], minute by minute. *)
Fixpoint capacity_scan (n : nat) (l : list Placement)
  (capacity mechanics_needed : Z) (current : datetime) : bool :=
  match n with
  | O => true
  | S n' =>
      if usage_at l current + mechanics_needed >? capacity then false
      else capacity_scan n' l capacity mechanics_needed (current + 1)
  end.

Definition check_team_capacity_at_time (self : ProductionScheduler)
  (task_schedule : Schedule) (team : string)
  (start_time end_time : datetime) (mechanics_needed : Z) : bool :=
  capacity_scan (Z.to_nat (end_time - start_time))
    (team_tasks task_schedule team) (capacity_of self team)
    mechanics_needed start_time.

(** ** get_next_working_time_with_capacity *)

Definition max_search_iterations : Z := 5000.

Inductive search_result :=
| Found (t : datetime) (shift : string) (iterations : Z)
| SearchError (iterations : Z)      (* the [RuntimeError] after the loop *)
| SearchOutOfFuel.                  (* never produced, see [search_fuel] *)

(** [any(t for t, shifts in self.quality_team_shifts.items() if shift in shifts)] *)
Definition any_quality_team_works (self : ProductionScheduler)
  (shift : string) : bool :=
  existsb (fun '(t, shifts) => mem shift shifts && truthy t)
          (quality_team_shifts self).

Definition team_shifts_of (self : ProductionScheduler) (team : string)
  : list string :=
  match dict_get team (team_shifts self) with Some l => l | None => [] end.

Definition available_shift (self : ProductionScheduler) (team : string)
  (is_quality : bool) (current_minutes : Z) : option string :=
  if is_quality then
    find (fun shift => shift_window shift current_minutes
                       && any_quality_team_works self shift)
         ["1st"; "2nd"; "3rd"]
  else
    find (fun shift => shift_window shift current_minutes)
         (team_shifts_of self team).

(** "Move to next available shift". *)
Definition next_shift_start (current_time : datetime) : datetime :=
  let current_minutes := minute_of_day current_time in
  if current_minutes <? 360 then replace_time current_time 6 0
  else if current_minutes <? 870 then replace_time current_time 14 30
  else if current_minutes <? 1380 then replace_time current_time 23 0
  else replace_time current_time 6 0 + minutes_per_day.

Fixpoint next_working_loop (self : ProductionScheduler)
  (task_schedule : Schedule) (product_line team : string)
  (mechanics_needed duration : Z) (is_quality : bool)
  (fuel : nat) (iterations : Z) (current_time : datetime) : search_result :=
  match fuel with
  | O => SearchOutOfFuel
  | S fuel' =>
      if iterations <? max_search_iterations then
        let iterations := iterations + 1 in
        let continue := next_working_loop self task_schedule product_line
                          team mechanics_needed duration is_quality fuel'
                          iterations in
        if negb (is_working_day self current_time product_line) then
          continue (replace_time current_time 6 0 + minutes_per_day)
        else
          match available_shift self team is_quality
                  (minute_of_day current_time) with
          | Some shift =>
              let end_time := current_time + duration in
              if check_team_capacity_at_time self task_schedule team
                   current_time end_time mechanics_needed
              then Found current_time shift iterations
              else continue (current_time + 1)
          | None => continue (next_shift_start current_time)
          end
      else SearchError iterations
  end.

Definition search_fuel : nat := S (Z.to_nat max_search_iterations).

Definition get_next_working_time_with_capacity (self : ProductionScheduler)
  (task_schedule : Schedule) (current_time : datetime)
  (product_line team : string) (mechanics_needed duration : Z)
  (is_quality : bool) : search_result :=
  next_working_loop self task_schedule product_line team mechanics_needed
    duration is_quality search_fuel 0 current_time.

(** ** assign_quality_team_balanced *)

Definition available_teams (self : ProductionScheduler) (shift : string)
  : list string :=
  map fst (filter (fun '(_, shifts) => mem shift shifts)
                  (quality_team_shifts self)).

(** [sum(sched['duration'] * sched['mechanics_required'] ...)] over the
    entries of one team. *)
Definition scheduled_minutes (task_schedule : Schedule) (team : string) : Z :=
  fold_left (fun acc sched =>
               acc + sched_duration sched * sched_mechanics_required sched)
            (team_tasks task_schedule team) 0.

Definition team_loads (self : ProductionScheduler) (task_schedule : Schedule)
  (shift : string) (mechanics_needed : Z) : dict string Z :=
  fold_left
    (fun loads team =>
       if get_default team (quality_team_capacity self) 0 <? mechanics_needed
       then loads
       else dict_set team (scheduled_minutes task_schedule team) loads)
    (available_teams self shift) [].

(** [min(items, key=lambda x: x[1])]: the first item with the least value. *)
Fixpoint min_by_load (best : string * Z) (l : list (string * Z))
  : string * Z :=
  match l with
  | [] => best
  | x :: l' => min_by_load (if snd x <? snd best then x else best) l'
  end.

Definition assign_quality_team_balanced (self : ProductionScheduler)
  (task_schedule : Schedule) (shift : string) (mechanics_needed : Z)
  : option string :=
  match available_teams self shift with
  | [] => None
  | _ =>
      match team_loads self task_schedule shift mechanics_needed with
      | [] => None
      | x :: l => Some (fst (min_by_load x l))
      end
  end.

(** ** get_earliest_start_for_late_part *)

Definition get_earliest_start_for_late_part (self : ProductionScheduler)
  (task_id : Z) : datetime :=
  match dict_get task_id (on_dock_dates self) with
  | None => start_date
  | Some on_dock_date =>
      let earliest_start :=
        on_dock_date + timedelta_days (late_part_delay_days self) in
      replace_time earliest_start 6 0
  end.

(** ** Critical path and priority *)

(** [set(self.tasks.keys())] and its size. *)
Definition all_tasks (self : ProductionScheduler) : list Z :=
  to_set (dict_keys (tasks self)).

Definition total_tasks (self : ProductionScheduler) : Z :=
  Z.of_nat (List.length (all_tasks self)).

(** [get_path_length]: [None] is an exception, the [KeyError] of
    [self.tasks[task]] or the [RecursionError] of a cyclic graph.  The
    memoisation of the source does not change the value. *)
Fixpoint get_path_length (self : ProductionScheduler)
  (dynamic_constraints : list Constraint) (fuel : nat) (task : Z)
  : option Z :=
  match fuel with
  | O => None
  | S fuel' =>
      match dict_get task (tasks self) with
      | None => None
      | Some info =>
          let fix successors (l : list Constraint) (max_successor_path : Z)
            : option Z :=
            match l with
            | [] => Some max_successor_path
            | c :: l' =>
                if (First c =? task) && dict_mem (Second c) (tasks self) then
                  match get_path_length self dynamic_constraints fuel'
                          (Second c) with
                  | None => None
                  | Some successor_path =>
                      successors l' (Z.max max_successor_path successor_path)
                  end
                else successors l' max_successor_path
            end in
          match successors dynamic_constraints 0 with
          | None => None
          | Some max_successor_path => Some (duration info + max_successor_path)
          end
      end
  end.

Definition calculate_critical_path_length (self : ProductionScheduler)
  (task_id : Z) : option Z :=
  get_path_length self (build_dynamic_dependencies self)
    (S (List.length (all_tasks self))) task_id.

(** The first product whose task list satisfies [p]. *)
Definition first_product (self : ProductionScheduler)
  (p : list Z -> bool) : option string :=
  match find (fun '(_, l) => p l) (product_tasks self) with
  | Some (product, _) => Some product
  | None => None
  end.

(** [calculate_task_priority], reading the clock as [now] (the instant
    rounded up to a minute).  [None] is a [KeyError] or [RecursionError].
    The score of the formula is its exact rational value, where Python
    rounds the last term and the sum to a float: two scores compare the
    same way, and nothing is stated about the value of a difference of
    scores. *)
Definition calculate_task_priority (self : ProductionScheduler)
  (now : datetime) (task_id : Z) : option Q :=
  if mem task_id (late_part_tasks self) then Some (inject_Z (-2000))
  else if dict_mem task_id (quality_inspections self)
  then Some (inject_Z (-1000))
  else if mem task_id (rework_tasks self) then Some (inject_Z (-500))
  else
    let product_line :=
      match dict_get task_id (task_to_product self) with
      | Some p => Some p
      | None => first_product self (mem task_id)
      end in
    match product_line with
    | None => Some (inject_Z 999999)
    | Some product_line =>
        if negb (truthy product_line) then Some (inject_Z 999999)
        else
          match dict_get product_line (delivery_dates self) with
          | None => None
          | Some delivery_date =>
              let days_to_delivery := (delivery_date - now) / minutes_per_day in
              match calculate_critical_path_length self task_id with
              | None => None
              | Some critical_path_length =>
                  let dependent_count :=
                    Z.of_nat (List.length (filter (fun c => First c =? task_id)
                                        (build_dynamic_dependencies self))) in
                  match dict_get task_id (tasks self) with
                  | None => None
                  | Some info =>
                      Some (inject_Z ((100 - days_to_delivery) * 10
                                      + (10000 - critical_path_length) * 5
                                      + (100 - dependent_count) * 3)
                            + (inject_Z 100 - inject_Z (duration info) / inject_Z 10)
                              * inject_Z 2)%Q
                  end
              end
          end
    end.

(** ** The ready queue

    [heapq] on tuples [(priority, task_id)]: a pop returns the least tuple,
    whatever the layout of the heap. *)

Definition heap : Type := list (Q * Z).

Definition entry_ltb (a b : Q * Z) : bool :=
  match Qcompare (fst a) (fst b) with
  | Lt => true
  | Eq => snd a <? snd b
  | Gt => false
  end.

Definition entry_eqb (a b : Q * Z) : bool :=
  Qeq_bool (fst a) (fst b) && (snd a =? snd b).

Definition heappush (h : heap) (x : Q * Z) : heap := x :: h.

Fixpoint heap_min (best : Q * Z) (h : heap) : Q * Z :=
  match h with
  | [] => best
  | x :: h' => heap_min (if entry_ltb x best then x else best) h'
  end.

Fixpoint heap_remove (x : Q * Z) (h : heap) : heap :=
  match h with
  | [] => []
  | y :: h' => if entry_eqb y x then h' else y :: heap_remove x h'
  end.

Definition heappop (h : heap) : option ((Q * Z) * heap) :=
  match h with
  | [] => None
  | x :: h' => let m := heap_min x h' in Some (m, heap_remove m h)
  end.

(** ** validate_dag *)

(** [graph[first].add(second)] over every edge. *)
Definition graph_of (dynamic_constraints : list Constraint) (node : Z)
  : list Z :=
  to_set (map Second (filter (fun c => First c =? node) dynamic_constraints)).

Definition all_tasks_in_constraints (dynamic_constraints : list Constraint)
  : list Z :=
  to_set (flat_map (fun c => [First c; Second c]) dynamic_constraints).

(** [has_cycle_dfs]; the result carries the updated [visited] set.  Every
    call marks a node that was not visited, so a depth of one more than the
    number of nodes is never exceeded. *)
Fixpoint has_cycle_dfs (graph : Z -> list Z) (fuel : nat) (node : Z)
  (visited rec_stack : list Z) : bool * list Z :=
  match fuel with
  | O => (true, visited)
  | S fuel' =>
      let visited := set_add node visited in
      let rec_stack := set_add node rec_stack in
      (fix neighbors (l : list Z) (visited : list Z) : bool * list Z :=
         match l with
         | [] => (false, visited)
         | neighbor :: l' =>
             if negb (mem neighbor visited) then
               let '(found, visited') :=
                 has_cycle_dfs graph fuel' neighbor visited rec_stack in
               if found then (true, visited') else neighbors l' visited'
             else if mem neighbor rec_stack then (true, visited)
             else neighbors l' visited
         end) (graph node) visited
  end.

Fixpoint cycle_from_any (graph : Z -> list Z) (fuel : nat) (nodes : list Z)
  (visited : list Z) : bool :=
  match nodes with
  | [] => false
  | node :: nodes' =>
      if negb (mem node visited) then
        let '(found, visited') := has_cycle_dfs graph fuel node visited [] in
        if found then true else cycle_from_any graph fuel nodes' visited'
      else cycle_from_any graph fuel nodes' visited
  end.

(** [validate_dag]: false for an edge naming an undefined task or for a
    cycle; everything after the cycle check only prints. *)
Definition validate_dag (self : ProductionScheduler) : bool :=
  let dynamic_constraints := build_dynamic_dependencies self in
  let nodes := all_tasks_in_constraints dynamic_constraints in
  let missing_tasks :=
    filter (fun t => negb (dict_mem t (tasks self))) nodes in
  match missing_tasks with
  | _ :: _ => false
  | [] =>
      negb (cycle_from_any (graph_of dynamic_constraints)
              (S (List.length nodes)) nodes [])
  end.

(** ** schedule_tasks *)

Record LoopState := {
  task_schedule : Schedule;
  ready_tasks : heap;
  failed_tasks : list Z;
  task_retry_counts : dict Z Z;
  scheduled_count : Z;
  retry_count : Z;
  iteration_count : Z
}.

Definition set_ready (st : LoopState) (h : heap) : LoopState :=
  {| task_schedule := task_schedule st; ready_tasks := h;
     failed_tasks := failed_tasks st;
     task_retry_counts := task_retry_counts st;
     scheduled_count := scheduled_count st; retry_count := retry_count st;
     iteration_count := iteration_count st |}.

Definition set_failed (st : LoopState) (f : list Z) : LoopState :=
  {| task_schedule := task_schedule st; ready_tasks := ready_tasks st;
     failed_tasks := f;
     task_retry_counts := task_retry_counts st;
     scheduled_count := scheduled_count st; retry_count := retry_count st;
     iteration_count := iteration_count st |}.

Definition set_retry_counts (st : LoopState) (c : dict Z Z) : LoopState :=
  {| task_schedule := task_schedule st; ready_tasks := ready_tasks st;
     failed_tasks := failed_tasks st;
     task_retry_counts := c;
     scheduled_count := scheduled_count st; retry_count := retry_count st;
     iteration_count := iteration_count st |}.

Definition next_iteration (st : LoopState) : LoopState :=
  {| task_schedule := task_schedule st; ready_tasks := ready_tasks st;
     failed_tasks := failed_tasks st;
     task_retry_counts := task_retry_counts st;
     scheduled_count := scheduled_count st; retry_count := retry_count st;
     iteration_count := iteration_count st + 1 |}.

(** [self.task_schedule[task_id] = {...}; scheduled_count += 1; retry_count = 0] *)
Definition record_placement (st : LoopState) (task_id : Z) (p : Placement)
  : LoopState :=
  {| task_schedule := dict_set task_id p (task_schedule st);
     ready_tasks := ready_tasks st;
     failed_tasks := failed_tasks st;
     task_retry_counts := task_retry_counts st;
     scheduled_count := scheduled_count st + 1; retry_count := 0;
     iteration_count := iteration_count st |}.

Inductive step_result :=
| Continue (st : LoopState)
| Break (st : LoopState)
| Raise.

Inductive run_result :=
| Finished (st : LoopState)
| Raised
| OutOfFuel.

Definition max_retries : Z := 5.

Definition is_dependency_relationship (r : string) : bool :=
  (r =? FINISH_LE_START)%string || (r =? FINISH_EQ_START)%string
  || (r =? START_LE_START)%string.

(** [dependencies[task]] and [dependents[task]] of the two [defaultdict(set)]. *)
Definition dependencies_of (dynamic_constraints : list Constraint) (task : Z)
  : list Z :=
  to_set (map First
            (filter (fun c => is_dependency_relationship (Relationship c)
                              && (Second c =? task)) dynamic_constraints)).

Definition dependents_of (dynamic_constraints : list Constraint) (task : Z)
  : list Z :=
  to_set (map Second
            (filter (fun c => is_dependency_relationship (Relationship c)
                              && (First c =? task)) dynamic_constraints)).

(** The search for a [constraint] with ['Relationship'] = ['Finish = Start']
    from [dep] to [task_id]. *)
Definition is_finish_equals_start (dynamic_constraints : list Constraint)
  (dep task_id : Z) : bool :=
  existsb (fun c => (First c =? dep) && (Second c =? task_id)
                    && (Relationship c =? FINISH_EQ_START)%string)
          dynamic_constraints.

(** One round of the loop over [dependencies.get(task_id, set())]. *)
Definition dependency_step (dynamic_constraints : list Constraint)
  (task_schedule : Schedule) (task_id : Z)
  (earliest_start : datetime) (dep : Z) : datetime :=
  match dict_get dep task_schedule with
  | Some sched =>
      let dep_end := end_time sched in
      if is_finish_equals_start dynamic_constraints dep task_id then dep_end
      else Z.max earliest_start dep_end
  | None => earliest_start
  end.

(** "Find product line" at the head of a placement. *)
Definition find_product_line (self : ProductionScheduler) (task_id : Z)
  : option string :=
  match dict_get task_id (quality_inspections self) with
  | Some primary_task =>
      first_product self (fun l => mem primary_task l || mem task_id l)
  | None => first_product self (mem task_id)
  end.

Section ScheduleTasks.
Variable self : ProductionScheduler.
(** The order in which Python iterates a set of task ids. *)
Variable set_iter : list Z -> list Z.
(** [self.calculate_task_priority], [None] when it raises. *)
Variable priority_of : Z -> option Q.
Variable silent_mode : bool.

Definition resolved (st : LoopState) (d : Z) : bool :=
  dict_mem d (task_schedule st) || mem d (failed_tasks st).

(** [heapq.heappush(ready_tasks, (self.calculate_task_priority(t), t))] for
    each [t] in turn. *)
Fixpoint push_all (l : list Z) (h : heap) : option heap :=
  match l with
  | [] => Some h
  | t :: l' =>
      match priority_of t with
      | None => None
      | Some priority => push_all l' (heappush h (priority, t))
      end
  end.

Definition earliest_start_of (task_schedule : Schedule) (task_id : Z)
  : datetime :=
  let current_time := start_date in
  let earliest_start :=
    if mem task_id (late_part_tasks self)
    then Z.max current_time (get_earliest_start_for_late_part self task_id)
    else current_time in
  fold_left
    (dependency_step (build_dynamic_dependencies self) task_schedule task_id)
    (set_iter (dependencies_of (build_dynamic_dependencies self) task_id))
    earliest_start.

(** One round of [for try_shift in ['1st', '2nd', '3rd']]; the accumulator is
    [(scheduled_start, team, shift)], [None] while no team was found. *)
Definition try_quality_shift (task_schedule : Schedule)
  (earliest_start : datetime) (product_line : string)
  (mechanics_needed duration : Z)
  (best : option (datetime * string * string)) (try_shift : string)
  : option (datetime * string * string) :=
  match assign_quality_team_balanced self task_schedule try_shift
          mechanics_needed with
  | Some temp_team =>
      if truthy temp_team then
        match get_next_working_time_with_capacity self task_schedule
                earliest_start product_line temp_team mechanics_needed
                duration true with
        | Found temp_start _ _ =>
            match best with
            | None => Some (temp_start, temp_team, try_shift)
            | Some (scheduled_start, _, _) =>
                if temp_start <? scheduled_start
                then Some (temp_start, temp_team, try_shift)
                else best
            end
        | SearchError _ => best
        | SearchOutOfFuel => best
        end
      else best
  | None => best
  end.

(** The window found for a task: start, team and shift. *)
Definition find_window (task_schedule : Schedule) (info : TaskInfo)
  (earliest_start : datetime) (product_line : string)
  : option (datetime * string * string) :=
  if is_quality info then
    fold_left
      (try_quality_shift task_schedule earliest_start product_line
         (mechanics_required info) (duration info))
      ["1st"; "2nd"; "3rd"] None
  else
    match get_next_working_time_with_capacity self task_schedule
            earliest_start product_line (team info)
            (mechanics_required info) (duration info) false with
    | Found scheduled_start shift _ => Some (scheduled_start, team info, shift)
    | SearchError _ => None
    | SearchOutOfFuel => None
    end.

(** The two [except]/[if not team] branches: count the failure, put the task
    back with a penalty or give it up. *)
Definition retry_or_fail (st : LoopState) (priority : Q) (task_id : Z)
  : LoopState :=
  let n := get_default task_id (task_retry_counts st) 0 + 1 in
  let st := set_retry_counts st (dict_set task_id n (task_retry_counts st)) in
  if n <? 3
  then set_ready st (heappush (ready_tasks st) ((priority + (1 # 10))%Q, task_id))
  else set_failed st (set_add task_id (failed_tasks st)).

(** "Add newly ready tasks" after a placement. *)
Definition newly_ready_dependents (st : LoopState) (task_id : Z) : list Z :=
  filter (fun dependent =>
            negb (resolved st dependent)
            && forallb (resolved st)
                 (dependencies_of (build_dynamic_dependencies self) dependent))
         (dependents_of (build_dynamic_dependencies self) task_id).

(** The rescan of the unscheduled tasks when the queue has run dry. *)
Definition newly_ready_unscheduled (st : LoopState) : list Z :=
  let unscheduled :=
    filter (fun t => negb (dict_mem t (task_schedule st))
                     && negb (mem t (failed_tasks st)))
           (all_tasks self) in
  filter (fun task =>
            forallb (resolved st)
              (dependencies_of (build_dynamic_dependencies self) task))
         unscheduled.

Definition make_placement (info : TaskInfo) (product_line : string)
  (scheduled_start : datetime) (team shift : string) : Placement :=
  {| start_time := scheduled_start;
     end_time := scheduled_start + duration info;
     sched_team := team;
     sched_product_line := product_line;
     sched_duration := duration info;
     sched_mechanics_required := mechanics_required info;
     sched_is_quality := is_quality info;
     sched_task_type := task_type info;
     sched_shift := shift |}.

(** The body of the loop from [heapq.heappop] on. *)
Definition place_next (st : LoopState) : step_result :=
  match heappop (ready_tasks st) with
  | None => Break st
  | Some ((priority, task_id), rest) =>
      let st := set_ready st rest in
      if 3 <=? get_default task_id (task_retry_counts st) 0 then
        Continue (set_failed st (set_add task_id (failed_tasks st)))
      else
        match find_product_line self task_id with
        | None => Continue st
        | Some product_line =>
            if negb (truthy product_line) then Continue st
            else
              match dict_get task_id (tasks self) with
              | None => Raise
              | Some info =>
                  let earliest_start :=
                    earliest_start_of (task_schedule st) task_id in
                  match find_window (task_schedule st) info earliest_start
                          product_line with
                  | None => Continue (retry_or_fail st priority task_id)
                  | Some (scheduled_start, team, shift) =>
                      let st :=
                        record_placement st task_id
                          (make_placement info product_line scheduled_start
                             team shift) in
                      match push_all (newly_ready_dependents st task_id)
                              (ready_tasks st) with
                      | None => Raise
                      | Some h => Continue (set_ready st h)
                      end
                  end
              end
        end
  end.

(** One iteration of the [while] loop. *)
Definition loop_body (st : LoopState) : step_result :=
  let st := next_iteration st in
  match ready_tasks st with
  | [] =>
      if scheduled_count st + Z.of_nat (List.length (failed_tasks st))
         <? total_tasks self
      then
        let newly_ready := newly_ready_unscheduled st in
        match push_all newly_ready (ready_tasks st) with
        | None => Raise
        | Some h =>
            match newly_ready with
            | [] => if negb silent_mode then Break st
                    else place_next (set_ready st h)
            | _ :: _ => place_next (set_ready st h)
            end
        end
      else place_next st
  | _ :: _ => place_next st
  end.

Definition max_iterations : Z := total_tasks self * 10.

Definition loop_condition (st : LoopState) : bool :=
  (match ready_tasks st with [] => false | _ :: _ => true end
   || (scheduled_count st <? total_tasks self))
  && (retry_count st <? max_retries)
  && (iteration_count st <? max_iterations).

Fixpoint schedule_loop (fuel : nat) (st : LoopState) : run_result :=
  if loop_condition st then
    match fuel with
    | O => OutOfFuel
    | S fuel' =>
        match loop_body st with
        | Continue st' => schedule_loop fuel' st'
        | Break st' => Finished st'
        | Raise => Raised
        end
    end
  else Finished st.

(** "Find tasks with no dependencies". *)
Definition initial_ready : list Z :=
  filter (fun task =>
            match dependencies_of (build_dynamic_dependencies self) task with
            | [] => true
            | _ :: _ => false
            end)
         (all_tasks self).

Definition initial_state (h : heap) : LoopState :=
  {| task_schedule := []; ready_tasks := h; failed_tasks := [];
     task_retry_counts := []; scheduled_count := 0; retry_count := 0;
     iteration_count := 0 |}.

Definition schedule_tasks : run_result :=
  if negb silent_mode && negb (validate_dag self) then Raised
  else
    match push_all initial_ready [] with
    | None => Raised
    | Some h => schedule_loop (Z.to_nat max_iterations) (initial_state h)
    end.

End ScheduleTasks.

(** ** Metrics *)

Definition SENTINEL : Z := 999999.

(** [while current <= end_date]: the days, from [current] on, on which some
    product works. *)
Fixpoint count_working_days (self : ProductionScheduler) (n : nat)
  (current : Z) : Z :=
  match n with
  | O => 0
  | S n' =>
      (if existsb (fun product =>
                     is_working_day self (current * minutes_per_day) product)
                  (dict_keys (product_tasks self))
       then 1 else 0)
      + count_working_days self n' (current + 1)
  end.

Definition min_start (first : Placement) (rest : list Placement) : datetime :=
  fold_left (fun m sched => Z.min m (start_time sched)) rest (start_time first).

Definition max_end (first : Placement) (rest : list Placement) : datetime :=
  fold_left (fun m sched => Z.max m (end_time sched)) rest (end_time first).

Definition calculate_makespan (self : ProductionScheduler)
  (task_schedule : Schedule) : Z :=
  match dict_values task_schedule with
  | [] => 0
  | first :: rest =>
      let scheduled_count := Z.of_nat (List.length task_schedule) in
      if scheduled_count <? total_tasks self then SENTINEL
      else
        let current := date_of (min_start first rest) in
        let end_date := date_of (max_end first rest) in
        count_working_days self (Z.to_nat (end_date - current + 1)) current
  end.

Record TeamUtilization := {
  utilization : Q;
  util_scheduled_minutes : Z;
  available_minutes : Q;
  max_concurrent : Z
}.

(** [8.5 * 60] *)
Definition minutes_per_shift : Q := inject_Z 510.

(** One entry of [_calculate_team_utilization], for a team of the given
    capacity and shift list. *)
Definition team_utilization (self : ProductionScheduler)
  (task_schedule : Schedule) (team : string) (capacity : Z)
  (shifts : list string) : TeamUtilization :=
  let total_days := calculate_makespan self task_schedule in
  let mine := team_tasks task_schedule team in
  let scheduled := scheduled_minutes task_schedule team in
  let concurrent :=
    fold_left (fun m sched => Z.max m (usage_at mine (start_time sched)))
              mine 0 in
  let shifts_per_day := Z.of_nat (List.length shifts) in
  let available :=
    (inject_Z capacity * inject_Z shifts_per_day * minutes_per_shift
     * inject_Z total_days)%Q in
  {| utilization :=
       if Qle_bool available 0 then 0%Q
       else (inject_Z scheduled / available)%Q;
     util_scheduled_minutes := scheduled;
     available_minutes := available;
     max_concurrent := concurrent |}.

Definition shifts_or_empty (d : dict string (list string)) (team : string)
  : list string :=
  match dict_get team d with Some l => l | None => [] end.

(** The pair [utilization['mechanic']], [utilization['quality']]. *)
Definition _calculate_team_utilization (self : ProductionScheduler)
  (task_schedule : Schedule)
  : dict string TeamUtilization * dict string TeamUtilization :=
  (map (fun '(team, capacity) =>
          (team, team_utilization self task_schedule team capacity
                   (shifts_or_empty (team_shifts self) team)))
       (team_capacity self),
   map (fun '(team, capacity) =>
          (team, team_utilization self task_schedule team capacity
                   (shifts_or_empty (quality_team_shifts self) team)))
       (quality_team_capacity self)).

(** ** calculate_slack_time and generate_global_priority_list *)

(** A slack in hours, or [float('inf')]. *)
Inductive Slack :=
| SlackHours (h : Q)
| SlackInf.

(** One round of [for constraint in dynamic_constraints] inside the
    successor search: the pair is [(all_successors, stack)], the top of the
    stack first. *)
Definition visit_successor (current : Z) (acc : list Z * list Z)
  (c : Constraint) : list Z * list Z :=
  let '(all_successors, stack) := acc in
  if (First c =? current) && negb (mem (Second c) all_successors)
  then (set_add (Second c) all_successors, Second c :: stack)
  else (all_successors, stack).

(** [while stack: current = stack.pop() ...]; [None] when the fuel runs out
    first, which [successor_fuel] excludes. *)
Fixpoint collect_successors (dynamic_constraints : list Constraint)
  (fuel : nat) (stack all_successors : list Z) : option (list Z) :=
  match stack with
  | [] => Some all_successors
  | current :: stack' =>
      match fuel with
      | O => None
      | S fuel' =>
          let '(all_successors', stack'') :=
            fold_left (visit_successor current) dynamic_constraints
              (all_successors, stack') in
          collect_successors dynamic_constraints fuel' stack''
            all_successors'
      end
  end.

Definition successor_fuel (dynamic_constraints : list Constraint) : nat :=
  S (List.length (to_set (map Second dynamic_constraints))).

Definition slack_product_line (self : ProductionScheduler) (task_id : Z)
  : option string :=
  match dict_get task_id (task_to_product self) with
  | Some p => Some p
  | None =>
      match dict_get task_id (quality_inspections self) with
      | Some primary_task =>
          match dict_get primary_task (task_to_product self) with
          | Some p => Some p
          | None => first_product self (mem primary_task)
          end
      | None => first_product self (mem task_id)
      end
  end.

(** [calculate_slack_time] for a task of the schedule; the outer [None] is
    the [KeyError] of [self.delivery_dates[product_line]].  The buffer
    [timedelta(days=total / 480 + 2)] is [3 * total + 2880] minutes. *)
Definition calculate_slack_time (self : ProductionScheduler)
  (task_schedule : Schedule) (task_id : Z) : option Slack :=
  let product_line :=
    match slack_product_line self task_id with
    | Some p => if truthy p then Some p else None
    | None => None
    end in
  match product_line with
  | None => Some SlackInf
  | Some product_line =>
      match dict_get product_line (delivery_dates self) with
      | None => None
      | Some delivery_date =>
          let dynamic_constraints := build_dynamic_dependencies self in
          let all_successors :=
            match collect_successors dynamic_constraints
                    (successor_fuel dynamic_constraints) [task_id] [] with
            | Some l => l
            | None => []
            end in
          let total_successor_duration :=
            fold_left
              (fun acc succ =>
                 match dict_get succ (tasks self) with
                 | Some info => acc + duration info
                 | None => acc
                 end)
              all_successors 0 in
          let latest_start :=
            delivery_date - (3 * total_successor_duration + 2880) in
          match dict_get task_id task_schedule with
          | Some sched =>
              Some (SlackHours
                      (inject_Z (latest_start - start_time sched)
                       / inject_Z 60)%Q)
          | None => Some (SlackHours 0%Q)
          end
      end
  end.

(** A row of the global priority list ([display_name] is a formatting of
    fields present here and is left out). *)
Record PriorityRow := {
  row_task_id : Z;
  row_task_type : string;
  row_product_line : string;
  row_team : string;
  scheduled_start : datetime;
  scheduled_end : datetime;
  duration_minutes : Z;
  row_mechanics_required : Z;
  slack_hours : Slack;
  priority_score : Q;
  row_shift : string;
  global_priority : Z
}.

Definition slack_ltb (a b : Slack) : bool :=
  match a, b with
  | SlackHours x, SlackHours y => negb (Qle_bool y x)
  | SlackHours _, SlackInf => true
  | SlackInf, _ => false
  end.

(** [<] on the sort key [(scheduled_start, slack_hours)]. *)
Definition row_ltb (x y : PriorityRow) : bool :=
  (scheduled_start x <? scheduled_start y)
  || ((scheduled_start x =? scheduled_start y)
      && slack_ltb (slack_hours x) (slack_hours y)).

(** [list.sort] is stable: a row goes before the first row greater than it,
    after the rows that compare equal and came earlier. *)
Fixpoint insert_row (x : PriorityRow) (l : list PriorityRow)
  : list PriorityRow :=
  match l with
  | [] => [x]
  | y :: l' => if row_ltb x y then x :: l else y :: insert_row x l'
  end.

Definition sort_rows (l : list PriorityRow) : list PriorityRow :=
  fold_left (fun acc x => insert_row x acc) l [].

(** [for i, task in enumerate(priority_data, 1): task['global_priority'] = i] *)
Fixpoint assign_ranks (i : Z) (l : list PriorityRow) : list PriorityRow :=
  match l with
  | [] => []
  | r :: l' =>
      {| row_task_id := row_task_id r; row_task_type := row_task_type r;
         row_product_line := row_product_line r; row_team := row_team r;
         scheduled_start := scheduled_start r;
         scheduled_end := scheduled_end r;
         duration_minutes := duration_minutes r;
         row_mechanics_required := row_mechanics_required r;
         slack_hours := slack_hours r; priority_score := priority_score r;
         row_shift := row_shift r; global_priority := i |}
      :: assign_ranks (i + 1) l'
  end.

(** The loop over [self.task_schedule.items()]; [None] when a slack or a
    priority computation raises. *)
Fixpoint priority_rows (self : ProductionScheduler)
  (priority_of : Z -> option Q) (task_schedule : Schedule)
  (items : Schedule) : option (list PriorityRow) :=
  match items with
  | [] => Some []
  | (task_id, schedule) :: items' =>
      match calculate_slack_time self task_schedule task_id with
      | None => None
      | Some slack =>
          match priority_of task_id with
          | None => None
          | Some score =>
              match priority_rows self priority_of task_schedule items' with
              | None => None
              | Some rows =>
                  Some ({| row_task_id := task_id;
                           row_task_type := sched_task_type schedule;
                           row_product_line := sched_product_line schedule;
                           row_team := sched_team schedule;
                           scheduled_start := start_time schedule;
                           scheduled_end := end_time schedule;
                           duration_minutes := sched_duration schedule;
                           row_mechanics_required :=
                             sched_mechanics_required schedule;
                           slack_hours := slack;
                           priority_score := score;
                           row_shift := sched_shift schedule;
                           global_priority := 0 |} :: rows)
              end
          end
      end
  end.

(** [generate_global_priority_list] at the clock reading [now]: the state
    left in [self] and the list returned, or [None] for an exception.
    ([check_resource_conflicts] only feeds a warning, and
    [allow_late_delivery] is not read by [schedule_tasks].) *)
Definition generate_global_priority_list (self : ProductionScheduler)
  (set_iter : list Z -> list Z) (now : datetime) (silent_mode : bool)
  : option (LoopState * list PriorityRow) :=
  match schedule_tasks self set_iter (calculate_task_priority self now)
          silent_mode with
  | Finished st =>
      match priority_rows self (calculate_task_priority self now)
              (task_schedule st) (task_schedule st) with
      | Some rows => Some (st, assign_ranks 1 (sort_rows rows))
      | None => None
      end
  | Raised => None
  | OutOfFuel => None
  end.

(** ** The scenarios

    A scenario mutates [self.team_capacity] and [self.quality_team_capacity];
    these two dictionaries are the state, and a scenario maps the state at
    entry to the state at exit together with the way it exits.  What a run
    of the scheduler tells the scenario is kept abstract: [generate] is
    [generate_global_priority_list] under the capacities given ([None] when
    it raises), and the other hooks read the schedule it left. *)

Record Capacities := {
  caps_team : dict string Z;
  caps_quality : dict string Z
}.

Inductive exit (A : Type) :=
| Returns (a : A)
| Raises.

Arguments Returns {A} a.
Arguments Raises {A}.

(** [for team in d: d[team] = v] *)
Definition set_all (v : Z) (d : dict string Z) : dict string Z :=
  map (fun '(team, _) => (team, v)) d.

(** [for team, capacity in src.items(): d[team] = capacity] *)
Definition write_all (src d : dict string Z) : dict string Z :=
  fold_left (fun acc '(team, capacity) => dict_set team capacity acc) src d.

(** The same loop under the guard [if team in d]. *)
Definition write_known (src d : dict string Z) : dict string Z :=
  fold_left (fun acc '(team, capacity) =>
               if dict_mem team acc then dict_set team capacity acc else acc)
            src d.

(** Writing a configuration into both capacity dictionaries. *)
Definition apply_config (mechanic quality : dict string Z) (caps : Capacities)
  : Capacities :=
  {| caps_team := write_all mechanic (caps_team caps);
     caps_quality := write_all quality (caps_quality caps) |}.

(** [x < y] where [y] may be [float('inf')] ([None]). *)
Definition lt_inf (x : Z) (y : option Z) : bool :=
  match y with Some v => x <? v | None => true end.

Definition le_inf (x : Z) (y : option Z) : bool :=
  match y with Some v => x <=? v | None => true end.

Definition eq_inf (x : Z) (y : option Z) : bool :=
  match y with Some v => x =? v | None => false end.

(** [min(d.values())]: [None] is the [ValueError] on an empty dictionary. *)
Definition min_value (d : dict string Z) : option Z :=
  match dict_values d with
  | [] => None
  | v :: l => Some (fold_left Z.min l v)
  end.

(** [for team, cap in d.items(): if cap == m and cap < limit: d[team] += 1; break] *)
Fixpoint bump_first_at (m limit : Z) (seen rest : dict string Z)
  : dict string Z * bool :=
  match rest with
  | [] => (seen, false)
  | (team, cap) :: rest' =>
      if (cap =? m) && (cap <? limit)
      then (seen ++ (team, cap + 1) :: rest', true)
      else bump_first_at m limit (seen ++ [(team, cap)]) rest'
  end.

(** [for team in teams: if d[team] < limit: d[team] += step; increased = True],
    stopping at the first increase when [once]; the last component tells
    whether [d[team]] raised a [KeyError], the changes made before it kept. *)
Fixpoint bump_teams (step limit : Z) (once : bool) (teams : list string)
  (d : dict string Z) (increased : bool) : dict string Z * bool * bool :=
  match teams with
  | [] => (d, increased, false)
  | team :: teams' =>
      match dict_get team d with
      | None => (d, increased, true)
      | Some cap =>
          if cap <? limit then
            let d' := dict_set team (cap + step) d in
            if once then (d', true, false)
            else bump_teams step limit once teams' d' true
          else bump_teams step limit once teams' d increased
      end
  end.

Section Scenarios.
(** What [generate_global_priority_list] leaves in [self]. *)
Variable Run : Type.
Variable generate : Capacities -> bool -> option Run.
(** [len(self.task_schedule)] after the run, and [len(self.tasks)]. *)
Variable run_scheduled_count : Run -> Z.
Variable n_tasks : Z.
(** [self.calculate_makespan()] *)
Variable run_makespan : Run -> Z.
(** [max_lateness] and [total_lateness] as computed from
    [self.calculate_lateness_metrics()]. *)
Variable run_lateness : Run -> Z * Z.
(** The two sets of [_identify_blocking_teams] and of
    [_identify_bottleneck_teams], in their iteration order. *)
Variable run_blocking : Run -> list string * list string.
Variable run_bottlenecks : Run -> Capacities -> list string * list string.
(** [sorted(team_utilization[kind].items(), key=utilization)] for the two
    kinds: team, utilization and [max_concurrent]. *)
Variable run_utilization :
  Run -> Capacities -> list (string * (Q * Z)) * list (string * (Q * Z)).
(** [self.export_results(...)]: false when writing the files raises. *)
Variable export_results : Run -> bool.
(** [self._original_team_capacity] and [self._original_quality_capacity],
    filled when the data is loaded. *)
Variable originals : Capacities.

(** *** Scenario 1, custom head count *)

Definition scenario_1_custom_headcount
  (mechanic_headcount quality_headcount : option Z)
  (custom_team_capacity custom_quality_capacity : option (dict string Z))
  (caps : Capacities) : Capacities * exit (Run * Z) :=
  let original_team := caps_team caps in
  let original_quality := caps_quality caps in
  let team1 :=
    match custom_team_capacity with
    | Some (x :: l) => write_known (x :: l) (caps_team caps)
    | _ =>
        match mechanic_headcount with
        | Some h => set_all h (caps_team caps)
        | None => caps_team caps
        end
    end in
  let quality1 :=
    match custom_quality_capacity with
    | Some (x :: l) => write_known (x :: l) (caps_quality caps)
    | _ =>
        match quality_headcount with
        | Some h => set_all h (caps_quality caps)
        | None => caps_quality caps
        end
    end in
  let caps1 := {| caps_team := team1; caps_quality := quality1 |} in
  match generate caps1 false with
  | None => (caps1, Raises)
  | Some run =>
      let makespan := run_makespan run in
      if export_results run then
        ({| caps_team := original_team; caps_quality := original_quality |},
         Returns (run, makespan))
      else (caps1, Raises)
  end.

(** *** Scenario 2 *)

(** The first [while mech_low <= mech_high]; [None] only if the fuel runs
    out.  The result is the capacities left, [best_makespan], [best_mech]. *)
Fixpoint mechanic_search (max_quality : Z) (fuel : nat) (caps : Capacities)
  (mech_low mech_high : Z) (best_makespan : option Z) (best_mech : Z)
  : option (Capacities * option Z * Z) :=
  if mech_low <=? mech_high then
    match fuel with
    | O => None
    | S fuel' =>
        let mech_mid := (mech_low + mech_high) / 2 in
        let caps :=
          {| caps_team := set_all mech_mid (caps_team caps);
             caps_quality := set_all max_quality (caps_quality caps) |} in
        let more := mechanic_search max_quality fuel' caps
                      (mech_mid + 1) mech_high best_makespan best_mech in
        match generate caps true with
        | Some run =>
            if run_scheduled_count run <? n_tasks then more
            else
              let makespan := run_makespan run in
              if lt_inf makespan best_makespan
              then mechanic_search max_quality fuel' caps mech_low
                     (mech_mid - 1) (Some makespan) mech_mid
              else more
        | None => more
        end
    end
  else Some (caps, best_makespan, best_mech).

(** The second search, on the quality head count, accepting [<=]. *)
Fixpoint quality_search (fuel : nat) (caps : Capacities)
  (qual_low qual_high : Z) (best_makespan : option Z) (best_qual : Z)
  : option (Capacities * option Z * Z) :=
  if qual_low <=? qual_high then
    match fuel with
    | O => None
    | S fuel' =>
        let qual_mid := (qual_low + qual_high) / 2 in
        let caps :=
          {| caps_team := caps_team caps;
             caps_quality := set_all qual_mid (caps_quality caps) |} in
        let more := quality_search fuel' caps (qual_mid + 1) qual_high
                      best_makespan best_qual in
        match generate caps true with
        | Some run =>
            if run_scheduled_count run <? n_tasks then more
            else
              let makespan := run_makespan run in
              if le_inf makespan best_makespan
              then quality_search fuel' caps qual_low (qual_mid - 1)
                     (Some makespan) qual_mid
              else more
        | None => more
        end
    end
  else Some (caps, best_makespan, best_qual).

Definition search_fuel_for (low high : Z) : nat := Z.to_nat (high - low + 1).

(** "Restore original capacities" at the end of scenarios 2 and 3. *)
Definition restore_originals (caps : Capacities) : Capacities :=
  apply_config (caps_team originals) (caps_quality originals) caps.

Definition scenario_2_minimize_makespan
  (min_mechanics max_mechanics min_quality max_quality : Z)
  (caps : Capacities) : option (Capacities * exit (Z * Z * Z)) :=
  match mechanic_search max_quality
          (search_fuel_for min_mechanics max_mechanics) caps
          min_mechanics max_mechanics None max_mechanics with
  | None => None
  | Some (caps, best_makespan, best_mech) =>
      let caps :=
        {| caps_team := set_all best_mech (caps_team caps);
           caps_quality := caps_quality caps |} in
      match quality_search (search_fuel_for min_quality max_quality) caps
              min_quality max_quality best_makespan max_quality with
      | None => None
      | Some (caps, _, best_qual) =>
          let caps :=
            {| caps_team := set_all best_mech (caps_team caps);
               caps_quality := set_all best_qual (caps_quality caps) |} in
          match generate caps true with
          | None => Some (caps, Raises)
          | Some run =>
              let makespan := run_makespan run in
              if export_results run then
                Some (restore_originals caps,
                      Returns (best_mech, best_qual, makespan))
              else Some (caps, Raises)
          end
      end
  end.

(** *** Scenario 3 *)

(** The best configuration so far with its two lateness figures; before the
    first one the figures are [float('inf')]. *)
Record Best := {
  best_mechanic : dict string Z;
  best_quality : dict string Z;
  best_max_lateness : Z;
  best_total_lateness : Z
}.

Record Phase1 := {
  current_mech_config : dict string Z;
  current_qual_config : dict string Z;
  best_config : option Best;
  iterations_without_improvement : Z;
  previous_max_lateness : option Z;
  previous_total_lateness : option Z;
  phase1_complete : bool
}.

Definition with_configs (s : Phase1) (mech qual : dict string Z)
  (complete : bool) : Phase1 :=
  {| current_mech_config := mech; current_qual_config := qual;
     best_config := best_config s;
     iterations_without_improvement := iterations_without_improvement s;
     previous_max_lateness := previous_max_lateness s;
     previous_total_lateness := previous_total_lateness s;
     phase1_complete := complete |}.

Definition max_iterations_without_improvement : Z := 20.

Section Scenario3.
Variables min_mechanics max_mechanics min_quality max_quality : Z.

(** The branch of the [try] body for an incomplete schedule: grow every
    blocking team by one.  The flag tells whether an exception was raised. *)
Definition grow_blocking (run : Run) (s : Phase1) : Phase1 * bool :=
  let '(blocking_mechanic, blocking_quality) := run_blocking run in
  let '(mech, increased, raised) :=
    bump_teams 1 max_mechanics false blocking_mechanic
      (current_mech_config s) false in
  if raised
  then (with_configs s mech (current_qual_config s) (phase1_complete s), true)
  else
    let '(qual, increased, raised) :=
      bump_teams 1 max_quality false blocking_quality
        (current_qual_config s) increased in
    if raised then (with_configs s mech qual (phase1_complete s), true)
    else (with_configs s mech qual
            (if increased then phase1_complete s else true), false).

(** "If not improving, identify bottlenecks and increase their capacity". *)
Definition grow_bottleneck (run : Run) (caps : Capacities) (s : Phase1)
  : Phase1 * bool :=
  let '(bottleneck_mechanic, bottleneck_quality) :=
    run_bottlenecks run caps in
  let '(mech, increased, raised) :=
    bump_teams 2 max_mechanics true bottleneck_mechanic
      (current_mech_config s) false in
  if raised
  then (with_configs s mech (current_qual_config s) (phase1_complete s), true)
  else
    let '(qual, increased, raised) :=
      if increased then (current_qual_config s, true, false)
      else bump_teams 1 max_quality true bottleneck_quality
             (current_qual_config s) false in
    if raised then (with_configs s mech qual (phase1_complete s), true)
    else if increased
    then (with_configs s mech qual (phase1_complete s), false)
    else
      match min_value mech with
      | None => (with_configs s mech qual (phase1_complete s), true)
      | Some min_mech_cap =>
          let '(mech, increased) :=
            bump_first_at min_mech_cap max_mechanics [] mech in
          if increased
          then (with_configs s mech qual (phase1_complete s), false)
          else
            match min_value qual with
            | None => (with_configs s mech qual (phase1_complete s), true)
            | Some min_qual_cap =>
                let '(qual, increased) :=
                  bump_first_at min_qual_cap max_quality [] qual in
                (with_configs s mech qual
                   (if increased then phase1_complete s else true), false)
            end
      end.

(** The [try] body of a phase 1 iteration once the scheduler has returned. *)
Definition phase1_try (run : Run) (caps : Capacities) (s : Phase1)
  : Phase1 * bool :=
  if run_scheduled_count run <? n_tasks then grow_blocking run s
  else
    let '(max_lateness, total_lateness) := run_lateness run in
    let '(improved, previous_max, previous_total) :=
      if lt_inf max_lateness (previous_max_lateness s)
      then (true, Some max_lateness, previous_total_lateness s)
      else if eq_inf max_lateness (previous_max_lateness s)
              && lt_inf total_lateness (previous_total_lateness s)
      then (true, previous_max_lateness s, Some total_lateness)
      else (false, previous_max_lateness s, previous_total_lateness s) in
    let is_best :=
      match best_config s with
      | None => true
      | Some b =>
          (max_lateness <? best_max_lateness b)
          || ((max_lateness =? best_max_lateness b)
              && (total_lateness <? best_total_lateness b))
      end in
    let s :=
      {| current_mech_config := current_mech_config s;
         current_qual_config := current_qual_config s;
         best_config :=
           if is_best
           then Some {| best_mechanic := current_mech_config s;
                        best_quality := current_qual_config s;
                        best_max_lateness := max_lateness;
                        best_total_lateness := total_lateness |}
           else best_config s;
         iterations_without_improvement :=
           if is_best then 0 else iterations_without_improvement s + 1;
         previous_max_lateness := previous_max;
         previous_total_lateness := previous_total;
         phase1_complete :=
           if is_best && (max_lateness =? 0) then true
           else phase1_complete s |} in
    if max_iterations_without_improvement
       <=? iterations_without_improvement s
    then (with_configs s (current_mech_config s) (current_qual_config s) true,
          false)
    else if improved then (s, false)
    else grow_bottleneck run caps s.

(** The [except Exception] handler of phase 1; [None] when [min] raises on
    an empty configuration, and the exception leaves the scenario. *)
Definition phase1_handler (s : Phase1) : option Phase1 :=
  match min_value (current_mech_config s) with
  | None => None
  | Some min_mech =>
      Some (with_configs s
              (fst (bump_first_at min_mech max_mechanics []
                      (current_mech_config s)))
              (current_qual_config s) (phase1_complete s))
  end.

(** [while iteration < max_iterations and not phase1_complete], by the
    number of iterations left. *)
Fixpoint phase1_loop (left : nat) (caps : Capacities) (s : Phase1)
  : Capacities * exit Phase1 :=
  match left with
  | O => (caps, Returns s)
  | S left' =>
      if phase1_complete s then (caps, Returns s)
      else
        let caps :=
          apply_config (current_mech_config s) (current_qual_config s) caps in
        let '(s, raised) :=
          match generate caps true with
          | Some run => phase1_try run caps s
          | None => (s, true)
          end in
        if raised then
          match phase1_handler s with
          | Some s => phase1_loop left' caps s
          | None => (caps, Raises)
          end
        else phase1_loop left' caps s
  end.

(** [_test_configuration_with_lateness_target]: the capacities are left at
    the configuration tested. *)
Definition _test_configuration_with_lateness_target
  (mech qual : dict string Z) (target_max_lateness : Z)
  (target_total_lateness : Q) (caps : Capacities) : Capacities * bool :=
  let caps := apply_config mech qual caps in
  match generate caps true with
  | None => (caps, false)
  | Some run =>
      if run_scheduled_count run <? n_tasks then (caps, false)
      else
        let '(max_lateness, total_lateness) := run_lateness run in
        (caps,
         (max_lateness <=? target_max_lateness)
         && Qle_bool (inject_Z total_lateness) target_total_lateness)
  end.

(** One of the two [for team, util_data in sorted(...)] loops of phase 2,
    on the mechanic ([quality] = false) or on the quality configuration.
    It ends with the configuration accepted, if any; [Raises] is the
    [KeyError] of [best_config[...][team]]. *)
Fixpoint try_reductions (quality : bool) (target_max_lateness : Z)
  (target_total_lateness : Q) (b : Best)
  (candidates : list (string * (Q * Z))) (caps : Capacities)
  : Capacities * exit (option Best) :=
  match candidates with
  | [] => (caps, Returns None)
  | (team, (utilization, max_concurrent)) :: candidates' =>
      let skip := try_reductions quality target_max_lateness
                    target_total_lateness b candidates' in
      if negb (Qle_bool (7 # 10) utilization) then
        match dict_get team (if quality then best_quality b
                             else best_mechanic b) with
        | None => (caps, Raises)
        | Some current =>
            if (if quality then min_quality else min_mechanics) <? current
            then
              if negb quality || (max_concurrent <? current) then
                let mech :=
                  if quality then best_mechanic b
                  else dict_set team (current - 1) (best_mechanic b) in
                let qual :=
                  if quality then dict_set team (current - 1) (best_quality b)
                  else best_quality b in
                let '(caps, accepted) :=
                  _test_configuration_with_lateness_target mech qual
                    target_max_lateness target_total_lateness caps in
                if accepted
                then (caps,
                      Returns
                        (Some {| best_mechanic := mech; best_quality := qual;
                                 best_max_lateness := best_max_lateness b;
                                 best_total_lateness :=
                                   best_total_lateness b |}))
                else skip caps
              else skip caps
            else skip caps
        end
      else skip caps
  end.

(** [while improved and optimization_iterations < 50], by the number of
    iterations left. *)
Fixpoint phase2_loop (left : nat) (target_max_lateness : Z)
  (target_total_lateness : Q) (b : Best) (caps : Capacities)
  : Capacities * exit Best :=
  match left with
  | O => (caps, Returns b)
  | S left' =>
      let caps := apply_config (best_mechanic b) (best_quality b) caps in
      match generate caps true with
      | None => (caps, Raises)
      | Some run =>
          let '(by_mechanic, by_quality) := run_utilization run caps in
          match try_reductions false target_max_lateness
                  target_total_lateness b by_mechanic caps with
          | (caps, Raises) => (caps, Raises)
          | (caps, Returns (Some b')) =>
              phase2_loop left' target_max_lateness target_total_lateness
                b' caps
          | (caps, Returns None) =>
              match try_reductions true target_max_lateness
                      target_total_lateness b by_quality caps with
              | (caps, Raises) => (caps, Raises)
              | (caps, Returns (Some b')) =>
                  phase2_loop left' target_max_lateness
                    target_total_lateness b' caps
              | (caps, Returns None) => (caps, Returns b)
              end
          end
      end
  end.

Definition sum_values (d : dict string Z) : Z :=
  fold_left Z.add (dict_values d) 0.

(** The scenario; it returns [None] when phase 1 found no configuration. *)
Definition scenario_3_multidimensional_optimization (max_iterations : Z)
  (caps : Capacities) : Capacities * exit (option (Best * Z)) :=
  let original_team := caps_team originals in
  let original_quality := caps_quality originals in
  let start :=
    {| current_mech_config := set_all min_mechanics original_team;
       current_qual_config := set_all min_quality original_quality;
       best_config := None; iterations_without_improvement := 0;
       previous_max_lateness := None; previous_total_lateness := None;
       phase1_complete := false |} in
  match phase1_loop (Z.to_nat max_iterations) caps start with
  | (caps, Raises) => (caps, Raises)
  | (caps, Returns s) =>
      match best_config s with
      | None => (restore_originals caps, Returns None)
      | Some b =>
          let target_max_lateness := best_max_lateness b in
          let target_total_lateness :=
            (inject_Z (best_total_lateness b) * (11 # 10))%Q in
          match phase2_loop 50 target_max_lateness target_total_lateness b
                  caps with
          | (caps, Raises) => (caps, Raises)
          | (caps, Returns b) =>
              let caps :=
                apply_config (best_mechanic b) (best_quality b) caps in
              match generate caps true with
              | None => (caps, Raises)
              | Some run =>
                  let makespan := run_makespan run in
                  let original_total :=
                    sum_values original_team + sum_values original_quality in
                  let new_total :=
                    sum_values (best_mechanic b)
                    + sum_values (best_quality b) in
                  if negb (new_total =? original_total)
                     && (original_total =? 0)
                  then (caps, Raises)
                  else if export_results run
                  then (restore_originals caps, Returns (Some (b, makespan)))
                  else (caps, Raises)
              end
          end
      end
  end.

End Scenario3.
End Scenarios.

(** ** The scheduler as the engine of the scenarios *)

Definition capacities_of (self : ProductionScheduler) : Capacities :=
  {| caps_team := team_capacity self;
     caps_quality := quality_team_capacity self |}.

(** [self] with the two capacity dictionaries replaced. *)
Definition with_capacities (self : ProductionScheduler) (caps : Capacities)
  : ProductionScheduler :=
  {| late_part_delay_days := late_part_delay_days self;
     tasks := tasks self;
     quality_inspections := quality_inspections self;
     quality_requirements := quality_requirements self;
     precedence_constraints := precedence_constraints self;
     late_part_constraints := late_part_constraints self;
     rework_constraints := rework_constraints self;
     late_part_tasks := late_part_tasks self;
     rework_tasks := rework_tasks self;
     on_dock_dates := on_dock_dates self;
     task_to_product := task_to_product self;
     team_shifts := team_shifts self;
     team_capacity := caps_team caps;
     quality_team_shifts := quality_team_shifts self;
     quality_team_capacity := caps_quality caps;
     delivery_dates := delivery_dates self;
     holidays := holidays self;
     product_tasks := product_tasks self |}.

(** [calculate_lateness_metrics]: per product with a delivery date, the
    whole days from the delivery date to the last end among its rows, or
    999999 when it has no row. *)
Definition calculate_lateness_metrics (self : ProductionScheduler)
  (global_priority_list : list PriorityRow) : dict string Z :=
  map (fun '(product, delivery_date) =>
         match filter (fun t => (row_product_line t =? product)%string)
                 global_priority_list with
         | [] => (product, SENTINEL)
         | t :: l =>
             let last_task_end :=
               fold_left (fun m t' => Z.max m (scheduled_end t')) l
                 (scheduled_end t) in
             (product, (last_task_end - delivery_date) / minutes_per_day)
         end)
      (delivery_dates self).

(** [max_lateness] and [total_lateness] as the scenarios compute them. *)
Definition lateness_summary (metrics : dict string Z) : Z * Z :=
  let counted := filter (fun l => l <? SENTINEL) (dict_values metrics) in
  (match counted with
   | [] => 0
   | l :: rest => fold_left Z.max rest l
   end,
   fold_left (fun acc l => acc + Z.max 0 l) counted 0).

(** [_identify_blocking_teams] for the unscheduled tasks, the two sets in
    the order their members are first added. *)
Definition _identify_blocking_teams (self : ProductionScheduler)
  (task_schedule : Schedule) : list string * list string :=
  fold_left
    (fun '(mechanic, quality) '(task_id, info) =>
       if dict_mem task_id task_schedule then (mechanic, quality)
       else if is_quality info
       then (mechanic,
             fold_left (fun acc t => set_add t acc)
               (dict_keys (quality_team_capacity self)) quality)
       else (set_add (team info) mechanic, quality))
    (tasks self) ([], []).

(** [_identify_bottleneck_teams]: the teams whose peak concurrent demand at
    a task start reaches nine tenths of the capacity. *)
Definition _identify_bottleneck_teams (self : ProductionScheduler)
  (task_schedule : Schedule) : list string * list string :=
  let teams := to_set (map sched_team (dict_values task_schedule)) in
  fold_left
    (fun '(mechanic, quality) tm =>
       let mine := team_tasks task_schedule tm in
       let peak_concurrent :=
         fold_left (fun m sched => Z.max m (usage_at mine (start_time sched)))
           mine 0 in
       if 9 * capacity_of self tm <=? 10 * peak_concurrent then
         if dict_mem tm (team_capacity self)
         then (set_add tm mechanic, quality)
         else (mechanic, set_add tm quality)
       else (mechanic, quality))
    teams ([], []).

(** [sorted(d.items(), key=lambda x: x[1]['utilization'])], stable. *)
Fixpoint insert_by_utilization (x : string * (Q * Z))
  (l : list (string * (Q * Z))) : list (string * (Q * Z)) :=
  match l with
  | [] => [x]
  | y :: l' =>
      if negb (Qle_bool (fst (snd y)) (fst (snd x))) then x :: l
      else y :: insert_by_utilization x l'
  end.

Definition sorted_by_utilization (d : dict string TeamUtilization)
  : list (string * (Q * Z)) :=
  fold_left (fun acc '(tm, u) =>
               insert_by_utilization (tm, (utilization u, max_concurrent u))
                 acc)
            d [].

(** ** check_resource_conflicts *)

Record Conflict := {
  conflict_team : string;
  conflict_time : datetime;
  conflict_usage : Z;
  conflict_capacity : Z;
  conflict_task : Z
}.

(** An entry of [events]: [(time, delta, event_type, task_id)], the event
    type being ['start'] ([true]) or ['end']. *)
Definition Event : Type := (datetime * Z * bool * Z)%type.

Definition event_time (e : Event) : datetime := fst (fst (fst e)).
Definition event_delta (e : Event) : Z := snd (fst (fst e)).
Definition event_is_start (e : Event) : bool := snd (fst e).
Definition event_task (e : Event) : Z := snd e.

(** [<] on the sort key [(x[0], x[1])]. *)
Definition event_ltb (x y : Event) : bool :=
  (event_time x <? event_time y)
  || ((event_time x =? event_time y) && (event_delta x <? event_delta y)).

(** [events.sort(key=...)], stable. *)
Fixpoint insert_event (x : Event) (l : list Event) : list Event :=
  match l with
  | [] => [x]
  | y :: l' => if event_ltb x y then x :: l else y :: insert_event x l'
  end.

Definition sort_events (l : list Event) : list Event :=
  fold_left (fun acc x => insert_event x acc) l [].

(** The two events of each task of a team. *)
Definition events_of (team_entries : list (Z * Placement)) : list Event :=
  flat_map
    (fun '(task_id, schedule) =>
       [(start_time schedule, sched_mechanics_required schedule, true,
         task_id);
        (end_time schedule, - sched_mechanics_required schedule, false,
         task_id)])
    team_entries.

(** One round of [for time, delta, event_type, task_id in events]. *)
Definition scan_event (tm : string) (capacity : Z) (acc : Z * list Conflict)
  (e : Event) : Z * list Conflict :=
  let '(current_usage, conflicts) := acc in
  let current_usage := current_usage + event_delta e in
  if event_is_start e && (current_usage >? capacity)
  then (current_usage,
        conflicts ++ [{| conflict_team := tm; conflict_time := event_time e;
                         conflict_usage := current_usage;
                         conflict_capacity := capacity;
                         conflict_task := event_task e |}])
  else (current_usage, conflicts).

(** [team_tasks[team]]: the items of the schedule of one team. *)
Definition team_entries (task_schedule : Schedule) (tm : string)
  : list (Z * Placement) :=
  filter (fun '(_, schedule) => (sched_team schedule =? tm)%string)
         task_schedule.

(** The conflicts one team adds. *)
Definition team_conflicts (self : ProductionScheduler)
  (task_schedule : Schedule) (conflicts : list Conflict) (tm : string)
  : list Conflict :=
  snd (fold_left (scan_event tm (capacity_of self tm))
         (sort_events (events_of (team_entries task_schedule tm)))
         (0, conflicts)).

Definition check_resource_conflicts (self : ProductionScheduler)
  (task_schedule : Schedule) : list Conflict :=
  match task_schedule with
  | [] => []
  | _ :: _ =>
      fold_left (team_conflicts self task_schedule)
        (to_set (map sched_team (dict_values task_schedule))) []
  end.

(** ** filter_by_team and get_daily_schedule *)

Definition filter_by_team (global_priority_list : list PriorityRow)
  (team_name : string) : list PriorityRow :=
  filter (fun task => (row_team task =? team_name)%string)
         global_priority_list.

(** [sorted(daily_tasks, key=lambda x: x['scheduled_start'])], stable. *)
Fixpoint insert_by_start (x : PriorityRow) (l : list PriorityRow)
  : list PriorityRow :=
  match l with
  | [] => [x]
  | y :: l' =>
      if scheduled_start x <? scheduled_start y then x :: l
      else y :: insert_by_start x l'
  end.

Definition sorted_by_start (l : list PriorityRow) : list PriorityRow :=
  fold_left (fun acc x => insert_by_start x acc) l [].

(** [get_daily_schedule]; [target_date] is the day [pd.to_datetime(date)]
    falls on. *)
Definition get_daily_schedule (global_priority_list : list PriorityRow)
  (target_date : Z) (team_name : option string) : list PriorityRow :=
  sorted_by_start
    (filter
       (fun task =>
          (date_of (scheduled_start task) =? target_date)
          && match team_name with
             | None => true
             | Some name => (row_team task =? name)%string
             end)
       global_priority_list).

(** ** parse_csv_sections

    A Python [str] is a sequence of code points; a text is the list of
    them. *)

Definition text : Type := list Z.

#[global] Instance text_EqKey : EqKey text :=
  {| key_eqb := fun x y => if list_eq_dec Z.eq_dec x y then true else false;
     key_eqb_spec := fun x y =>
       match list_eq_dec Z.eq_dec x y as s
             return reflect (x = y) (if s then true else false) with
       | left e => ReflectT _ e
       | right n => ReflectF _ n
       end |}.

(** The code points of a literal. *)
Definition codes (s : string) : text :=
  map (fun a => Z.of_N (Ascii.N_of_ascii a)) (list_ascii_of_string s).

Definition NEWLINE : Z := 10.
Definition EQUALS : Z := 61.

(** [c.isspace()]: the characters [str.strip()] removes. *)
Definition isspace (c : Z) : bool :=
  ((9 <=? c) && (c <=? 13)) || ((28 <=? c) && (c <=? 32))
  || (c =? 133) || (c =? 160) || (c =? 5760)
  || ((8192 <=? c) && (c <=? 8202)) || (c =? 8232) || (c =? 8233)
  || (c =? 8239) || (c =? 8287) || (c =? 12288).

Fixpoint lstrip (s : text) : text :=
  match s with
  | c :: s' => if isspace c then lstrip s' else s
  | [] => []
  end.

Definition rstrip (s : text) : text := rev (lstrip (rev s)).

(** [s.strip()] *)
Definition strip (s : text) : text := rstrip (lstrip s).

(** [s.split('\n')] *)
Fixpoint split_lines (s : text) : list text :=
  match s with
  | [] => [[]]
  | c :: s' =>
      if c =? NEWLINE then [] :: split_lines s'
      else
        match split_lines s' with
        | line :: lines => (c :: line) :: lines
        | [] => [[c]]
        end
  end.

(** ['\n'.join(lines)] *)
Fixpoint join_lines (lines : list text) : text :=
  match lines with
  | [] => []
  | [line] => line
  | line :: lines' => line ++ NEWLINE :: join_lines lines'
  end.

(** [s.startswith(p)] *)
Fixpoint startswith (p s : text) : bool :=
  match p, s with
  | [], _ => true
  | _ :: _, [] => false
  | a :: p', c :: s' => (a =? c) && startswith p' s'
  end.

(** [p in s] *)
Fixpoint contains (p s : text) : bool :=
  startswith p s
  || match s with
     | [] => false
     | _ :: s' => contains p s'
     end.

(** ['===='] *)
Definition MARKER : text := [EQUALS; EQUALS; EQUALS; EQUALS].

(** [line.replace('=', '')] *)
Definition remove_equals (line : text) : text :=
  filter (fun c => negb (c =? EQUALS)) line.

(** ['====' in line and line.strip().startswith('====')] *)
Definition is_marker_line (line : text) : bool :=
  contains MARKER line && startswith MARKER (strip line).

Record ParseState := {
  sections : dict text text;
  current_section : option text;
  current_data : list text
}.

(** [if current_section and current_data: sections[current_section] = ...] *)
Definition save_section (st : ParseState) : dict text text :=
  match current_section st, current_data st with
  | Some (c :: name), _ :: _ =>
      dict_set (c :: name) (join_lines (current_data st)) (sections st)
  | _, _ => sections st
  end.

(** One round of the loop over the lines. *)
Definition parse_line (st : ParseState) (line : text) : ParseState :=
  if is_marker_line line then
    {| sections := save_section st;
       current_section := Some (strip (remove_equals line));
       current_data := [] |}
  else
    match strip line with
    | [] => st
    | _ :: _ =>
        {| sections := sections st;
           current_section := current_section st;
           current_data := current_data st ++ [line] |}
    end.

Definition parse_csv_sections (file_content : text) : dict text text :=
  save_section
    (fold_left parse_line (split_lines (strip file_content))
       {| sections := []; current_section := None; current_data := [] |}).

(** ** Predicates used to state the properties *)

(** What the window search guarantees about the slot it returns. *)
Definition slot_ok (self : ProductionScheduler) (task_schedule : Schedule)
  (product_line team : string) (mechanics_needed duration : Z)
  (is_quality : bool) (t : datetime) (shift : string) : Prop :=
  is_working_day self t product_line = true
  /\ available_shift self team is_quality (minute_of_day t) = Some shift
  /\ check_team_capacity_at_time self task_schedule team t (t + duration)
       mechanics_needed = true.

(** The entry [p] was recorded for a task described by [info]. *)
Definition placed_from (info : TaskInfo) (p : Placement) : Prop :=
  end_time p = start_time p + duration info
  /\ sched_duration p = duration info
  /\ sched_mechanics_required p = mechanics_required info
  /\ sched_is_quality p = is_quality info.

(** No edge with relationship ['Finish = Start'] enters [task_id]. *)
Definition no_finish_equals_start_into (self : ProductionScheduler)
  (task_id : Z) : Prop :=
  forall d,
    is_finish_equals_start (build_dynamic_dependencies self) d task_id = false.

(** What holds of every entry of [task_schedule], whenever it was written. *)
Definition entry_ok (self : ProductionScheduler) (task_id : Z)
  (p : Placement) : Prop :=
  exists info,
    dict_get task_id (tasks self) = Some info
    /\ placed_from info p
    /\ is_working_day self (start_time p) (sched_product_line p) = true
    /\ (is_quality info = false ->
        sched_team p = team info
        /\ In (sched_shift p) (team_shifts_of self (team info))
        /\ shift_window (sched_shift p) (minute_of_day (start_time p)) = true)
    /\ (is_quality info = true ->
        exists shift,
          shift_window shift (minute_of_day (start_time p)) = true
          /\ any_quality_team_works self shift = true)
    /\ (mem task_id (late_part_tasks self) = true ->
        no_finish_equals_start_into self task_id ->
        get_earliest_start_for_late_part self task_id <= start_time p).

(** Some entry of [team] covers the minute [m]. *)
Definition busy (task_schedule : Schedule) (team : string) (m : datetime)
  : Prop :=
  exists sched, In sched (team_tasks task_schedule team)
                /\ covers sched m = true.

(** The invariant of the scheduling loop, on the schedule, the task ids in
    the ready queue and the set of failed tasks. *)
Record Inv (self : ProductionScheduler) (task_schedule : Schedule)
  (ready failed : list Z) : Prop := {
  inv_unresolved : forall t,
    In t ready -> dict_mem t task_schedule = false /\ mem t failed = false;
  inv_ready_nodup : NoDup ready;
  inv_ready_deps : forall t d,
    In t ready ->
    In d (dependencies_of (build_dynamic_dependencies self) t) ->
    dict_mem d task_schedule || mem d failed = true;
  inv_disjoint : forall t,
    dict_mem t task_schedule = true -> mem t failed = false;
  inv_placed_deps : forall b d,
    dict_mem b task_schedule = true ->
    In d (dependencies_of (build_dynamic_dependencies self) b) ->
    dict_mem d task_schedule || mem d failed = true;
  inv_keys : NoDup (dict_keys task_schedule);
  inv_entries : forall t p,
    dict_get t task_schedule = Some p -> entry_ok self t p;
  inv_capacity : forall team m,
    busy task_schedule team m ->
    usage_at (team_tasks task_schedule team) m <= capacity_of self team;
  inv_precedence : forall a b pa pb,
    dict_get a task_schedule = Some pa ->
    dict_get b task_schedule = Some pb ->
    In a (dependencies_of (build_dynamic_dependencies self) b) ->
    (forall d pd, d <> a -> dict_get d task_schedule = Some pd ->
                  is_finish_equals_start (build_dynamic_dependencies self)
                    d b = false) ->
    end_time pa <= start_time pb
}.

Definition Inv_state (self : ProductionScheduler) (st : LoopState) : Prop :=
  Inv self (task_schedule st) (map snd (ready_tasks st)) (failed_tasks st).

(** An iteration that does not raise leaves a state with the invariant. *)
Definition keeps_invariant (self : ProductionScheduler) (r : step_result)
  : Prop :=
  match r with
  | Continue st' => Inv_state self st'
  | Break st' => Inv_state self st'
  | Raise => True
  end.

(** The part of an iteration after the counter was advanced leaves it. *)
Definition counted (st : LoopState) (r : step_result) : Prop :=
  match r with
  | Continue st' => iteration_count st' = iteration_count st
  | Break st' => iteration_count st' = iteration_count st
  | Raise => True
  end.

(** ** The claims as the specification words them *)

(** The whole interval of an entry lies inside one shift that its team
    works, on a working day of its product. *)
Definition within_single_shift (self : ProductionScheduler) (p : Placement)
  : Prop :=
  exists shift,
    In shift (team_shifts_of self (sched_team p)
              ++ shifts_or_empty (quality_team_shifts self) (sched_team p))
    /\ is_working_day self (start_time p) (sched_product_line p) = true
    /\ forall m, start_time p <= m < end_time p ->
                 shift_window shift (minute_of_day m) = true.

(** The relation of an edge holds between the entries of its endpoints. *)
Definition relation_holds (rel : string) (pa pb : Placement) : Prop :=
  (rel = FINISH_LE_START -> end_time pa <= start_time pb)
  /\ (rel = FINISH_EQ_START -> end_time pa = start_time pb)
  /\ (rel = START_LE_START -> start_time pa <= start_time pb).

(** The entry starts no earlier than the on-dock date plus the delay. *)
Definition after_on_dock_delay (self : ProductionScheduler)
  (on_dock_date : datetime) (p : Placement) : Prop :=
  (inject_Z on_dock_date
   + late_part_delay_days self * inject_Z minutes_per_day
   <= inject_Z (start_time p))%Q.

(** ** Sample bundles *)

Definition production_task (d : Z) (tm : string) (m : Z) : TaskInfo :=
  {| duration := d; team := tm; mechanics_required := m;
     is_quality := false; task_type := "Production" |}.

Definition late_part_task (d : Z) (tm : string) (m : Z) : TaskInfo :=
  {| duration := d; team := tm; mechanics_required := m;
     is_quality := false; task_type := "Late Part" |}.

Definition quality_task (d m : Z) : TaskInfo :=
  {| duration := d; team := ""; mechanics_required := m;
     is_quality := true; task_type := "Quality Inspection" |}.

Definition base_row (a b : Z) (rel : string) : RawConstraint :=
  {| raw_First := a; raw_Second := b;
     raw_Relationship_Type := Some rel; raw_Relationship := None |}.

(** One mechanic team, first shift only, head count [cap]; one product
    [P] due on Friday 2025-09-05 00:00. *)
Definition one_team_bundle (cap : Z) (task_list : dict Z TaskInfo)
  (rows : list RawConstraint) (in_product : list Z) : ProductionScheduler :=
  {| late_part_delay_days := 1;
     tasks := task_list;
     quality_inspections := []; quality_requirements := [];
     precedence_constraints := rows;
     late_part_constraints := []; rework_constraints := [];
     late_part_tasks := []; rework_tasks := [];
     on_dock_dates := []; task_to_product := [];
     team_shifts := [("M1", ["1st"])];
     team_capacity := [("M1", cap)];
     quality_team_shifts := []; quality_team_capacity := [];
     delivery_dates := [("P", 18 * minutes_per_day)];
     holidays := [];
     product_tasks := [("P", in_product)] |}.

(** A single task of 600 minutes: longer than the first shift. *)
Definition ex_long_task : ProductionScheduler :=
  one_team_bundle 1 [(1, production_task 600 "M1" 1)] [] [1].

(** Task 1 fills the first shift of Friday; task 2 must follow it by
    ['Finish = Start']. *)
Definition ex_finish_equals_start : ProductionScheduler :=
  one_team_bundle 1
    [(1, production_task 510 "M1" 1); (2, production_task 60 "M1" 1)]
    [base_row 1 2 FINISH_EQ_START] [1; 2].

(** Task 2 belongs to no product and is never placed. *)
Definition ex_partial : ProductionScheduler :=
  one_team_bundle 1
    [(1, production_task 60 "M1" 1); (2, production_task 60 "M1" 1)]
    [] [1].

(** Its only task belongs to no product: nothing is placed. *)
Definition ex_nothing_placed : ProductionScheduler :=
  one_team_bundle 1 [(2, production_task 60 "M1" 1)] [] [1].

(** Three one-hour tasks compete for a team of two (scenario E4). *)
Definition ex_capacity : ProductionScheduler :=
  one_team_bundle 2
    [(1, production_task 60 "M1" 1); (2, production_task 60 "M1" 1);
     (3, production_task 60 "M1" 1)]
    [] [1; 2; 3].

(** A task whose team works no shift: every window search fails. *)
Definition ex_no_shift : ProductionScheduler :=
  one_team_bundle 1 [(1, production_task 60 "M9" 1)] [] [1].

(** Late part 301, on dock Monday 2025-08-25 00:00, feeding task 2. *)
Definition ex_late_part (delay : Q) : ProductionScheduler :=
  {| late_part_delay_days := delay;
     tasks := [(2, production_task 60 "M1" 1);
               (301, late_part_task 120 "M1" 1)];
     quality_inspections := []; quality_requirements := [];
     precedence_constraints := [];
     late_part_constraints :=
       [{| lp_First := 301; lp_Second := 2;
           lp_On_Dock_Date := 7 * minutes_per_day;
           lp_Product_Line := Some "P" |}];
     rework_constraints := [];
     late_part_tasks := [301]; rework_tasks := [];
     on_dock_dates := [(301, 7 * minutes_per_day)];
     task_to_product := [(301, "P")];
     team_shifts := [("M1", ["1st"])];
     team_capacity := [("M1", 1)];
     quality_team_shifts := []; quality_team_capacity := [];
     delivery_dates := [("P", 18 * minutes_per_day)];
     holidays := [];
     product_tasks := [("P", [2; 301])] |}.

(** Scenario E3: task 1 has the quality task 101, and precedes task 2;
    the quality teams are listed with Q2 first. *)
Definition ex_quality : ProductionScheduler :=
  {| late_part_delay_days := 1;
     tasks := [(1, production_task 60 "M1" 1);
               (2, production_task 60 "M1" 1);
               (101, quality_task 30 1)];
     quality_inspections := [(101, 1)];
     quality_requirements := [(1, 101)];
     precedence_constraints := [base_row 1 2 FINISH_LE_START];
     late_part_constraints := []; rework_constraints := [];
     late_part_tasks := []; rework_tasks := [];
     on_dock_dates := []; task_to_product := [];
     team_shifts := [("M1", ["1st"])];
     team_capacity := [("M1", 1)];
     quality_team_shifts := [("Q2", ["1st"]); ("Q1", ["1st"])];
     quality_team_capacity := [("Q2", 1); ("Q1", 1)];
     delivery_dates := [("P", 18 * minutes_per_day)];
     holidays := [];
     product_tasks := [("P", [1; 101; 2])] |}.

(** The clock reading used in the samples: Friday 2025-08-22 06:00. *)
Definition sample_now : datetime := start_date.

(** A run of the scheduler on a sample, sets iterated in list order. *)
Definition sample_run (self : ProductionScheduler) (silent_mode : bool)
  : run_result :=
  schedule_tasks self (fun l => l) (calculate_task_priority self sample_now)
    silent_mode.

(** The state a run ends in (the initial state for a run that raised). *)
Definition final_state (r : run_result) : LoopState :=
  match r with
  | Finished st => st
  | Raised => initial_state []
  | OutOfFuel => initial_state []
  end.

Definition ex_long_task_final : LoopState :=
  Eval vm_compute in final_state (sample_run ex_long_task true).

Definition ex_finish_equals_start_final : LoopState :=
  Eval vm_compute in final_state (sample_run ex_finish_equals_start true).

Definition ex_partial_final : LoopState :=
  Eval vm_compute in final_state (sample_run ex_partial true).

Definition ex_nothing_placed_final : LoopState :=
  Eval vm_compute in final_state (sample_run ex_nothing_placed true).

Definition ex_capacity_final : LoopState :=
  Eval vm_compute in final_state (sample_run ex_capacity true).

Definition ex_late_part_half_final : LoopState :=
  Eval vm_compute in final_state (sample_run (ex_late_part (1 # 2)) true).

Definition ex_late_part_one_final : LoopState :=
  Eval vm_compute in final_state (sample_run (ex_late_part 1) true).

Definition ex_quality_final : LoopState :=
  Eval vm_compute in final_state (sample_run ex_quality true).

(** The entry of the quality task 101 in that run. *)
Definition ex_quality_entry : Placement :=
  {| start_time := 6180; end_time := 6210; sched_team := "Q2";
     sched_product_line := "P"; sched_duration := 30;
     sched_mechanics_required := 1; sched_is_quality := true;
     sched_task_type := "Quality Inspection"; sched_shift := "1st" |}.

(** Two production tasks with one inspection each; the inspection 101 lasts
    20000 minutes.  Q1 works the first shift, Q2 the second. *)
Definition ex_busy_quality_team : ProductionScheduler :=
  {| late_part_delay_days := 1;
     tasks := [(1, production_task 60 "M1" 1);
               (2, production_task 60 "M1" 1);
               (101, quality_task 20000 1);
               (102, quality_task 30 1)];
     quality_inspections := [(101, 1); (102, 2)];
     quality_requirements := [(1, 101); (2, 102)];
     precedence_constraints := [];
     late_part_constraints := []; rework_constraints := [];
     late_part_tasks := []; rework_tasks := [];
     on_dock_dates := []; task_to_product := [];
     team_shifts := [("M1", ["1st"])];
     team_capacity := [("M1", 2)];
     quality_team_shifts := [("Q1", ["1st"]); ("Q2", ["2nd"])];
     quality_team_capacity := [("Q1", 1); ("Q2", 1)];
     delivery_dates := [("P", 18 * minutes_per_day)];
     holidays := [];
     product_tasks := [("P", [1; 101; 2; 102])] |}.

Definition ex_busy_quality_team_final : LoopState :=
  Eval vm_compute in final_state (sample_run ex_busy_quality_team true).

(** The schedule of that run when the inspection 102 comes up: tasks 1, 2
    and 101 are placed. *)
Definition ex_busy_quality_team_before : Schedule :=
  Eval vm_compute in
    filter (fun '(t, _) => negb (t =? 102))
           (task_schedule ex_busy_quality_team_final).

(** The state after exactly [n] iterations of the loop of [schedule_tasks],
    when it runs that long. *)
Fixpoint run_prefix (self : ProductionScheduler)
  (set_iter : list Z -> list Z) (priority_of : Z -> option Q)
  (silent_mode : bool) (n : nat) (st : LoopState) : option LoopState :=
  match n with
  | O => Some st
  | S n' =>
      if loop_condition self st then
        match loop_body self set_iter priority_of silent_mode st with
        | Continue st' =>
            run_prefix self set_iter priority_of silent_mode n' st'
        | Break _ => None
        | Raise => None
        end
      else None
  end.

(** The run on [ex_busy_quality_team] after three iterations: the
    inspection 102 is the only ready task. *)
Definition ex_busy_quality_team_third : LoopState :=
  {| task_schedule := ex_busy_quality_team_before;
     ready_tasks := [(inject_Z (-1000), 102)];
     failed_tasks := []; task_retry_counts := [];
     scheduled_count := 3; retry_count := 0; iteration_count := 3 |}.

(** What the window search promises about its iteration count. *)
Definition search_bounded (r : search_result) : Prop :=
  match r with
  | Found _ _ n => 0 < n <= max_search_iterations
  | SearchError n => n = max_search_iterations
  | SearchOutOfFuel => False
  end.

(** A decision procedure for [no_finish_equals_start_into]. *)
Definition no_finish_equals_start_check (dynamic_constraints : list Constraint)
  (task_id : Z) : bool :=
  forallb (fun c => negb ((Second c =? task_id)
                          && (Relationship c =? FINISH_EQ_START)%string))
          dynamic_constraints.

(** The state in which the loop of [schedule_tasks] starts on a sample. *)
Definition sample_start (self : ProductionScheduler) : LoopState :=
  match push_all (calculate_task_priority self sample_now)
          (initial_ready self) [] with
  | Some h => initial_state h
  | None => initial_state []
  end.

Definition ex_no_shift_start : LoopState :=
  Eval vm_compute in sample_start ex_no_shift.

Definition ex_no_shift_final : LoopState :=
  Eval vm_compute in final_state (sample_run ex_no_shift true).

(** The utilization figure the specification describes for a team:
    scheduled worker minutes over capacity, shifts worked, 510 minutes and
    makespan days. *)
Definition spec_utilization (self : ProductionScheduler)
  (task_schedule : Schedule) (team : string) (capacity : Z)
  (shifts : list string) : Q :=
  (inject_Z (scheduled_minutes task_schedule team)
   / (inject_Z capacity * inject_Z (Z.of_nat (List.length shifts))
      * inject_Z 510
      * inject_Z (calculate_makespan self task_schedule)))%Q.

(** The entry of a mechanic or of a quality team in the result of
    [_calculate_team_utilization]. *)
Definition utilization_entry (self : ProductionScheduler)
  (task_schedule : Schedule) (team : string) (u : TeamUtilization)
  (capacity : Z) (shifts : list string) : Prop :=
  (dict_get team (fst (_calculate_team_utilization self task_schedule))
   = Some u
   /\ dict_get team (team_capacity self) = Some capacity
   /\ shifts = shifts_or_empty (team_shifts self) team)
  \/ (dict_get team (snd (_calculate_team_utilization self task_schedule))
      = Some u
      /\ dict_get team (quality_team_capacity self) = Some capacity
      /\ shifts = shifts_or_empty (quality_team_shifts self) team).

(** The quality teams the selector may choose, as the specification lists
    them: the teams working the shift, with capacity for the workers
    needed, in the order of the quality team calendar table, each with its
    cumulative scheduled worker minutes. *)
Definition eligible_teams (self : ProductionScheduler)
  (task_schedule : Schedule) (shift : string) (mechanics_needed : Z)
  : list (string * Z) :=
  map (fun team => (team, scheduled_minutes task_schedule team))
      (filter (fun team =>
                 negb (get_default team (quality_team_capacity self) 0
                       <? mechanics_needed))
              (available_teams self shift)).

(** The same whole number of days to every delivery date at two clock
    readings. *)
Definition same_days_to_delivery (self : ProductionScheduler)
  (now1 now2 : datetime) : Prop :=
  forall product delivery_date,
    dict_get product (delivery_dates self) = Some delivery_date ->
    (delivery_date - now1) / minutes_per_day
    = (delivery_date - now2) / minutes_per_day.

(** The targets of the edges not yet in [seen]. *)
Definition unseen (dynamic_constraints : list Constraint) (seen : list Z)
  : list Z :=
  filter (fun x => negb (mem x seen))
         (to_set (map Second dynamic_constraints)).

(** The list [generate_global_priority_list] returns ([[]] if it raises). *)
Definition returned_rows (r : option (LoopState * list PriorityRow))
  : list PriorityRow :=
  match r with
  | Some (_, rows) => rows
  | None => []
  end.

(** A decision procedure for [same_days_to_delivery]. *)
Definition same_days_check (self : ProductionScheduler)
  (now1 now2 : datetime) : bool :=
  forallb (fun '(_, delivery_date) =>
             (delivery_date - now1) / minutes_per_day
             =? (delivery_date - now2) / minutes_per_day)
          (delivery_dates self).

(** The hooks of the scenarios, read off a run of the scheduler on [self]
    at the clock reading [sample_now]. *)
Definition SampleRun : Type := (LoopState * list PriorityRow)%type.

Definition sample_generate (self : ProductionScheduler) (caps : Capacities)
  (silent_mode : bool) : option SampleRun :=
  generate_global_priority_list (with_capacities self caps) (fun l => l)
    sample_now silent_mode.

Definition sample_scheduled_count (run : SampleRun) : Z :=
  Z.of_nat (List.length (task_schedule (fst run))).

Definition sample_makespan (self : ProductionScheduler) (run : SampleRun)
  : Z :=
  calculate_makespan self (task_schedule (fst run)).

Definition sample_lateness (self : ProductionScheduler) (run : SampleRun)
  : Z * Z :=
  lateness_summary (calculate_lateness_metrics self (snd run)).

Definition sample_blocking (self : ProductionScheduler) (run : SampleRun)
  : list string * list string :=
  _identify_blocking_teams self (task_schedule (fst run)).

Definition sample_bottlenecks (self : ProductionScheduler) (run : SampleRun)
  (caps : Capacities) : list string * list string :=
  _identify_bottleneck_teams (with_capacities self caps)
    (task_schedule (fst run)).

Definition sample_utilization (self : ProductionScheduler) (run : SampleRun)
  (caps : Capacities)
  : list (string * (Q * Z)) * list (string * (Q * Z)) :=
  let '(mechanic, quality) :=
    _calculate_team_utilization (with_capacities self caps)
      (task_schedule (fst run)) in
  (sorted_by_utilization mechanic, sorted_by_utilization quality).

(** The three scenarios on a sample bundle; the files are written without
    error. *)
Definition sample_scenario_1 (self : ProductionScheduler)
  (mechanic_headcount quality_headcount : option Z)
  : Capacities * exit (SampleRun * Z) :=
  scenario_1_custom_headcount SampleRun (sample_generate self)
    (sample_makespan self) (fun _ => true)
    mechanic_headcount quality_headcount None None (capacities_of self).

Definition sample_scenario_2 (self : ProductionScheduler)
  (min_mechanics max_mechanics min_quality max_quality : Z)
  : option (Capacities * exit (Z * Z * Z)) :=
  scenario_2_minimize_makespan SampleRun (sample_generate self)
    sample_scheduled_count (total_tasks self) (sample_makespan self)
    (fun _ => true) (capacities_of self)
    min_mechanics max_mechanics min_quality max_quality (capacities_of self).

Definition sample_scenario_3 (self : ProductionScheduler)
  (min_mechanics max_mechanics min_quality max_quality max_iterations : Z)
  : Capacities * exit (option (Best * Z)) :=
  scenario_3_multidimensional_optimization SampleRun (sample_generate self)
    sample_scheduled_count (total_tasks self) (sample_makespan self)
    (sample_lateness self) (sample_blocking self) (sample_bottlenecks self)
    (sample_utilization self) (fun _ => true) (capacities_of self)
    min_mechanics max_mechanics min_quality max_quality max_iterations
    (capacities_of self).

(** Task 1 precedes a task 99 that is not defined: [validate_dag] fails. *)
Definition ex_dangling : ProductionScheduler :=
  one_team_bundle 1 [(1, production_task 60 "M1" 1)]
    [base_row 1 99 FINISH_LE_START] [1].

(** The product of the only task has no delivery date: computing its
    priority raises a [KeyError]. *)
Definition ex_no_delivery : ProductionScheduler :=
  {| late_part_delay_days := 1;
     tasks := [(1, production_task 60 "M1" 1)];
     quality_inspections := []; quality_requirements := [];
     precedence_constraints := [];
     late_part_constraints := []; rework_constraints := [];
     late_part_tasks := []; rework_tasks := [];
     on_dock_dates := []; task_to_product := [];
     team_shifts := [("M1", ["1st"])];
     team_capacity := [("M1", 1)];
     quality_team_shifts := []; quality_team_capacity := [];
     delivery_dates := [];
     holidays := [];
     product_tasks := [("P", [1])] |}.

(** Every team recorded when the data was loaded has its recorded capacity. *)
Definition restored (originals caps : Capacities) : Prop :=
  (forall team v, dict_get team (caps_team originals) = Some v ->
                  dict_get team (caps_team caps) = Some v)
  /\ (forall team v, dict_get team (caps_quality originals) = Some v ->
                     dict_get team (caps_quality caps) = Some v).

(** ** Notions used for the conflict report *)

(** Every entry asks for no negative number of workers and ends after it
    starts. *)
Definition positive_entries (task_schedule : Schedule) : Prop :=
  forall task_id schedule,
    In (task_id, schedule) task_schedule ->
    0 <= sched_mechanics_required schedule
    /\ start_time schedule < end_time schedule.

(** The sum of the deltas of a list of events. *)
Definition delta_sum (l : list Event) : Z :=
  fold_right (fun e acc => event_delta e + acc) 0 l.

(** The sum of the deltas of the events of [l] up to the instant [t]. *)
Definition weight_until (t : datetime) (l : list Event) : Z :=
  fold_right
    (fun e acc => (if event_time e <=? t then event_delta e else 0) + acc)
    0 l.

(** The conflicts the scan of [l] appends when it starts from the usage
    [current_usage]. *)
Fixpoint conflicts_from (tm : string) (capacity current_usage : Z)
  (l : list Event) : list Conflict :=
  match l with
  | [] => []
  | e :: l' =>
      let current_usage := current_usage + event_delta e in
      (if event_is_start e && (current_usage >? capacity)
       then [{| conflict_team := tm; conflict_time := event_time e;
                conflict_usage := current_usage;
                conflict_capacity := capacity;
                conflict_task := event_task e |}]
       else [])
      ++ conflicts_from tm capacity current_usage l'
  end.

(** The order of the sort key on events. *)
Definition event_le (x y : Event) : Prop := event_ltb y x = false.

(** A start event adds workers, an end event removes them. *)
Definition signed (e : Event) : Prop :=
  (event_is_start e = true -> 0 <= event_delta e)
  /\ (event_is_start e = false -> event_delta e <= 0).

(** Every task defined asks for no negative number of workers and lasts a
    positive number of minutes. *)
Definition positive_tasks (self : ProductionScheduler) : bool :=
  forallb (fun info => (0 <=? mechanics_required info) && (0 <? duration info))
          (dict_values (tasks self)).

(** The schedule of the run on [ex_capacity], checked against a team of
    one: the second task started at the same instant is a conflict. *)
Definition ex_capacity_overbooked : list Conflict :=
  check_resource_conflicts
    (with_capacities ex_capacity
       {| caps_team := [("M1", 1)]; caps_quality := [] |})
    (task_schedule ex_capacity_final).

(** ** Notions used for the validation of the graph *)

(** Some edge of [dynamic_constraints] goes from [u] to [v]. *)
Definition follows (dynamic_constraints : list Constraint) (u v : Z) : Prop :=
  exists c, In c dynamic_constraints /\ First c = u /\ Second c = v.

(** [v] is reached from [u] along one or more edges. *)
Inductive reaches (dynamic_constraints : list Constraint) : Z -> Z -> Prop :=
| reaches_edge (u v : Z) :
    follows dynamic_constraints u v -> reaches dynamic_constraints u v
| reaches_step (u v w : Z) :
    follows dynamic_constraints u v ->
    reaches dynamic_constraints v w -> reaches dynamic_constraints u w.

(** The nodes the search has left: visited and no longer on the recursion
    stack. *)
Definition finished (visited rec_stack : list Z) (u : Z) : Prop :=
  In u visited /\ ~ In u rec_stack.

(** What the cycle search maintains: the finished nodes are closed under the
    edges and none of them lies on a cycle. *)
Definition settled (dynamic_constraints : list Constraint)
  (visited rec_stack : list Z) : Prop :=
  (forall u v, finished visited rec_stack u ->
               follows dynamic_constraints u v ->
               finished visited rec_stack v)
  /\ (forall u, finished visited rec_stack u ->
                ~ reaches dynamic_constraints u u).

(** Two tasks that each must finish before the other starts. *)
Definition ex_cycle : ProductionScheduler :=
  one_team_bundle 1
    [(1, production_task 60 "M1" 1); (2, production_task 60 "M1" 1)]
    [base_row 1 2 FINISH_LE_START; base_row 2 1 FINISH_LE_START] [1; 2].

(** ** Notions used for the quality gate *)

(** No inspection task has an inspection of its own. *)
Definition no_nested_inspection (self : ProductionScheduler) : bool :=
  forallb (fun '(_, qi_task) =>
             negb (dict_mem qi_task (quality_requirements self)))
          (quality_requirements self).

(** What holds of every edge that leaves an inspected task: it is a late
    part edge, or it leads to the inspection with ['Finish = Start']. *)
Definition gated (qr : dict Z Z) (c : Constraint) : Prop :=
  forall qi_task,
    dict_get (First c) qr = Some qi_task ->
    Type_ c = Some "Late Part"
    \/ (Second c = qi_task /\ Relationship c = FINISH_EQ_START).

(** ** Notions used for the global priority list *)

Definition starts_no_later (x y : PriorityRow) : Prop :=
  scheduled_start x <= scheduled_start y.

Definition ranked_before (x y : PriorityRow) : Prop :=
  global_priority x < global_priority y.

(** The rows [get_daily_schedule] keeps. *)
Definition on_day (target_date : Z) (team_name : option string)
  (task : PriorityRow) : bool :=
  (date_of (scheduled_start task) =? target_date)
  && match team_name with
     | None => true
     | Some name => (row_team task =? name)%string
     end.

(** The row of the global priority list agrees with the entry [p] of the
    schedule. *)
Definition row_of_entry (r : PriorityRow) (p : Placement) : Prop :=
  scheduled_start r = start_time p
  /\ scheduled_end r = end_time p
  /\ row_team r = sched_team p
  /\ row_product_line r = sched_product_line p
  /\ duration_minutes r = sched_duration p
  /\ row_mechanics_required r = sched_mechanics_required p
  /\ row_shift r = sched_shift p.

(** The list returned for the sample with an inspection. *)
Definition ex_quality_rows : list PriorityRow :=
  Eval vm_compute in
    returned_rows
      (generate_global_priority_list ex_quality (fun l => l) sample_now true).

(** ** Notions used for the critical path *)

(** The loop of [get_path_length] over the edges, given the function [rec]
    that the recursive calls compute. *)
Fixpoint successor_paths (self : ProductionScheduler) (rec : Z -> option Z)
  (task : Z) (l : list Constraint) (max_successor_path : Z) : option Z :=
  match l with
  | [] => Some max_successor_path
  | c :: l' =>
      if (First c =? task) && dict_mem (Second c) (tasks self) then
        match rec (Second c) with
        | None => None
        | Some successor_path =>
            successor_paths self rec task l'
              (Z.max max_successor_path successor_path)
        end
      else successor_paths self rec task l' max_successor_path
  end.

(** ** Notions used for the configurations of the scenarios *)

(** Every capacity of [d] lies between [lo] and [hi]. *)
Definition in_range (lo hi : Z) (d : dict string Z) : Prop :=
  Forall (fun kv => lo <= snd kv <= hi) d.

(** The same teams, in the same order. *)
Definition same_teams (d1 d2 : dict string Z) : Prop :=
  dict_keys d1 = dict_keys d2.

(** A configuration of scenario 3 over the teams recorded at load time:
    mechanic capacities from [min_mechanics] to one above [max_mechanics],
    quality capacities from [min_quality] to [max_quality] (or the minimum,
    where the bounds are given in the wrong order). *)
Definition config_ok (originals : Capacities)
  (min_mechanics max_mechanics min_quality max_quality : Z)
  (mech qual : dict string Z) : Prop :=
  same_teams mech (caps_team originals)
  /\ same_teams qual (caps_quality originals)
  /\ in_range min_mechanics (Z.max (max_mechanics + 1) min_mechanics) mech
  /\ in_range min_quality (Z.max max_quality min_quality) qual.

Definition phase1_ok (originals : Capacities)
  (min_mechanics max_mechanics min_quality max_quality : Z) (s : Phase1)
  : Prop :=
  config_ok originals min_mechanics max_mechanics min_quality max_quality
    (current_mech_config s) (current_qual_config s)
  /\ forall b, best_config s = Some b ->
               config_ok originals min_mechanics max_mechanics min_quality
                 max_quality (best_mechanic b) (best_quality b).

(** The capacity dictionaries hold the teams recorded at load time. *)
Definition same_teams_caps (caps originals : Capacities) : Prop :=
  same_teams (caps_team caps) (caps_team originals)
  /\ same_teams (caps_quality caps) (caps_quality originals).

(** Five tasks of 500 minutes for one team working the first shift. *)
Definition ex_five : ProductionScheduler :=
  one_team_bundle 1
    [(1, production_task 500 "M1" 1); (2, production_task 500 "M1" 1);
     (3, production_task 500 "M1" 1); (4, production_task 500 "M1" 1);
     (5, production_task 500 "M1" 1)]
    [] [1; 2; 3; 4; 5].

(** The configuration scenario 3 reports for it with one or two mechanics
    allowed per team. *)
Definition ex_five_best : Best :=
  {| best_mechanic := [("M1", 3)]; best_quality := [];
     best_max_lateness := -14; best_total_lateness := 0 |}.

(** ** Notions used for the section parser *)

(** The first character is no white space. *)
Definition starts_nonspace (s : text) : bool :=
  match s with
  | c :: _ => negb (isspace c)
  | [] => false
  end.

Definition ends_nonspace (s : text) : bool := starts_nonspace (rev s).

(** A section name as the marker lines carry it: not empty, without white
    space at either end, without ['='] and without line break. *)
Definition valid_name (name : text) : bool :=
  starts_nonspace name && ends_nonspace name
  && forallb (fun c => negb (c =? EQUALS) && negb (c =? NEWLINE)) name.

(** A line of a table: no line break in it, not blank, and not starting
    with ['===='] once stripped. *)
Definition valid_line (line : text) : bool :=
  forallb (fun c => negb (c =? NEWLINE)) line
  && match strip line with [] => false | _ :: _ => true end
  && negb (startswith MARKER (strip line)).

(** ['==== NAME ===='] *)
Definition marker_line (name : text) : text :=
  MARKER ++ [32] ++ name ++ [32] ++ MARKER.

(** The lines of a file that holds the given tables, each under its marker
    line, and the file. *)
Definition render_lines (tables : list (text * list text)) : list text :=
  flat_map (fun '(name, lines) => marker_line name :: lines) tables.

Definition render (tables : list (text * list text)) : text :=
  join_lines (render_lines tables).

Definition valid_tables (tables : list (text * list text)) : bool :=
  forallb (fun '(name, lines) =>
             valid_name name
             && match lines with [] => false | _ :: _ => true end
             && forallb valid_line lines)
          tables.

(** A file with the two tables of the format described in the source. *)
Definition ex_tables : list (text * list text) :=
  [(codes "LATE PARTS RELATIONSHIPS TABLE",
    [codes "First,Second,Estimated On Dock Date,Product Line";
     codes "301,2,8/30/2025,Product E"]);
   (codes "REWORK RELATIONSHIPS TABLE",
    [codes "First,Second,Relationship Type,Product Line";
     codes "401,10,Finish <= Start,Product E"])].

(** What holds of a line kept as data: it is a line of the stripped file,
    not blank and no marker line. *)
Definition data_line (file_content line : text) : Prop :=
  In line (split_lines (strip file_content))
  /\ strip line <> []
  /\ is_marker_line line = false.

(** What holds of a name taken from a marker line. *)
Definition stripped_name (name : text) : Prop :=
  ~ In EQUALS name /\ strip name = name.

(** What holds of every section returned: a name that is not empty, and as
    content the lines kept, joined. *)
Definition section_ok (file_content name content : text) : Prop :=
  name <> []
  /\ stripped_name name
  /\ exists data,
      data <> []
      /\ content = join_lines data
      /\ forall line, In line data -> data_line file_content line.

Definition parse_ok (file_content : text) (st : ParseState) : Prop :=
  (forall name content, In (name, content) (sections st) ->
                        section_ok file_content name content)
  /\ (forall name, current_section st = Some name -> stripped_name name)
  /\ (forall line, In line (current_data st) ->
                   data_line file_content line).

(** The dictionary of the tables, a later table of the same name taking the
    place of the earlier one. *)
Definition tables_dict (tables : list (text * list text)) : dict text text :=
  fold_left (fun acc '(name, lines) => dict_set name (join_lines lines) acc)
            tables [].

(** Every entry of the schedule satisfies [P]. *)
Definition all_entries (P : Z -> Placement -> Prop) (task_schedule : Schedule)
  : Prop :=
  forall t p, In (t, p) task_schedule -> P t p.

(** An iteration that does not raise leaves a schedule whose entries all
    satisfy [P]. *)
Definition keeps_entries (P : Z -> Placement -> Prop) (r : step_result)
  : Prop :=
  match r with
  | Continue st' => all_entries P (task_schedule st')
  | Break st' => all_entries P (task_schedule st')
  | Raise => True
  end.

(** The team and the shift recorded for an inspection: one of the three
    shifts tried, a quality team that works it, with the head count for the
    inspectors needed. *)
Definition inspection_team_ok (self : ProductionScheduler) (p : Placement)
  : Prop :=
  sched_is_quality p = true ->
  In (sched_shift p) ["1st"; "2nd"; "3rd"]
  /\ (exists shifts,
         In (sched_team p, shifts) (quality_team_shifts self)
         /\ mem (sched_shift p) shifts = true)
  /\ sched_mechanics_required p
     <= get_default (sched_team p) (quality_team_capacity self) 0.

(** Task 1 belongs to a team that works no shift and precedes task 2. *)
Definition ex_failed_predecessor : ProductionScheduler :=
  one_team_bundle 1
    [(1, production_task 60 "M9" 1); (2, production_task 60 "M1" 1)]
    [base_row 1 2 FINISH_LE_START] [1; 2].

Definition ex_failed_predecessor_final : LoopState :=
  Eval vm_compute in final_state (sample_run ex_failed_predecessor true).

(** The minutes of the tasks of [l] that are in the task table. *)
Definition minutes_of (self : ProductionScheduler) (l : list Z) : Z :=
  fold_right
    (fun succ acc =>
       match dict_get succ (tasks self) with
       | Some info => duration info + acc
       | None => acc
       end)
    0 l.

(** What holds of the entry of task [t] when every task of the table lasts
    a positive time: it starts no earlier than [start_date], on a working
    day of its product, ends after it starts, and its product is one whose
    task list holds the task or, for an inspection, its primary task. *)
Definition entry_sound (self : ProductionScheduler) (t : Z) (p : Placement)
  : Prop :=
  start_date <= start_time p
  /\ start_time p < end_time p
  /\ is_working_day self (start_time p) (sched_product_line p) = true
  /\ exists l,
       In (sched_product_line p, l) (product_tasks self)
       /\ (mem t l = true
           \/ exists primary_task,
               dict_get t (quality_inspections self) = Some primary_task
               /\ mem primary_task l = true).

(** A priority list with one row of product [P], ending on Friday
    2025-09-05 at 14:00, fourteen hours after the delivery date of
    [ex_quality]. *)
Definition ex_same_day_rows : list PriorityRow :=
  map (fun r =>
         {| row_task_id := row_task_id r;
            row_task_type := row_task_type r;
            row_product_line := row_product_line r;
            row_team := row_team r;
            scheduled_start := scheduled_start r;
            scheduled_end := 18 * minutes_per_day + 840;
            duration_minutes := duration_minutes r;
            row_mechanics_required := row_mechanics_required r;
            global_priority := global_priority r;
            slack_hours := slack_hours r;
            priority_score := priority_score r;
            row_shift := row_shift r |})
      (firstn 1 ex_quality_rows).

(** The edge leads from a task to its inspection. *)
Definition quality_link (self : ProductionScheduler) (e : Constraint) : Prop :=
  In (First e, Second e) (quality_requirements self)
  /\ Relationship e = FINISH_EQ_START.

(** The edge carries the precedence of [a] before [b] with relationship
    [rel]: it leads to [b] with that relationship, from the inspection of
    [a] when [a] has one and from [a] itself otherwise. *)
Definition carries (self : ProductionScheduler) (e : Constraint) (a b : Z)
  (rel : string) : Prop :=
  Second e = b /\ Relationship e = rel
  /\ First e = match dict_get a (quality_requirements self) with
               | Some qi_task => qi_task
               | None => a
               end.

(** Where an edge of the effective graph comes from: a quality requirement,
    a row of the task relationships, a late part row or a rework row. *)
Definition edge_origin (self : ProductionScheduler) (e : Constraint) : Prop :=
  quality_link self e
  \/ (exists c rel,
         In c (precedence_constraints self)
         /\ relationship_of c = Some rel
         /\ carries self e (raw_First c) (raw_Second c) rel)
  \/ (exists c,
         In c (late_part_constraints self)
         /\ e = typed_edge (lp_First c) (lp_Second c) FINISH_LE_START
                  "Late Part" (lp_Product_Line c))
  \/ (exists c,
         In c (rework_constraints self)
         /\ Type_ e = Some "Rework"
         /\ carries self e (rw_First c) (rw_Second c) (rw_Relationship c)).

(** The team has an entry in the schedule and is at its limit: its capacity
    is zero or less, or at the start of one of its entries the workers of
    the team in use are at least nine tenths of its capacity. *)
Definition near_capacity (self : ProductionScheduler)
  (task_schedule : Schedule) (tm : string) : Prop :=
  let mine := team_tasks task_schedule tm in
  mine <> []
  /\ (capacity_of self tm <= 0
      \/ exists sched,
          In sched mine
          /\ 9 * capacity_of self tm
             <= 10 * usage_at mine (start_time sched)).

(** The instant [m] passes the three tests of the window search: a working
    day of the product, a shift available, and capacity for the task placed
    at [m]. *)
Definition feasible (self : ProductionScheduler) (task_schedule : Schedule)
  (product_line team : string) (mechanics_needed duration : Z)
  (is_quality : bool) (m : datetime) : Prop :=
  is_working_day self m product_line = true
  /\ available_shift self team is_quality (minute_of_day m) <> None
  /\ check_team_capacity_at_time self task_schedule team m (m + duration)
       mechanics_needed = true.

(** Nobody the search looks at works the third shift: the team for a
    mechanic task, every quality team for an inspection. *)
Definition third_shift_closed (self : ProductionScheduler) (team : string)
  (is_quality : bool) : bool :=
  if is_quality then negb (any_quality_team_works self "3rd")
  else negb (mem "3rd" (team_shifts_of self team)).

(** The schedule of [ex_capacity] when its third task comes up. *)
Definition ex_capacity_two : Schedule :=
  Eval vm_compute in
    filter (fun '(t, _) => t <? 3) (task_schedule ex_capacity_final).

(** One task of a team that works the third shift only. *)
Definition ex_night_shift : ProductionScheduler :=
  {| late_part_delay_days := 1;
     tasks := [(1, production_task 60 "M3" 1)];
     quality_inspections := []; quality_requirements := [];
     precedence_constraints := [];
     late_part_constraints := []; rework_constraints := [];
     late_part_tasks := []; rework_tasks := [];
     on_dock_dates := []; task_to_product := [];
     team_shifts := [("M3", ["3rd"])];
     team_capacity := [("M3", 1)];
     quality_team_shifts := []; quality_team_capacity := [];
     delivery_dates := [("P", 18 * minutes_per_day)];
     holidays := [];
     product_tasks := [("P", [1])] |}.

(** Two mechanic teams; the head count of M2, which has no task, is
    negative. *)
Definition ex_negative_head_count : ProductionScheduler :=
  {| late_part_delay_days := 1;
     tasks := [(1, production_task 60 "M1" 1)];
     quality_inspections := []; quality_requirements := [];
     precedence_constraints := [];
     late_part_constraints := []; rework_constraints := [];
     late_part_tasks := []; rework_tasks := [];
     on_dock_dates := []; task_to_product := [];
     team_shifts := [("M1", ["1st"]); ("M2", ["1st"])];
     team_capacity := [("M1", 1); ("M2", -1)];
     quality_team_shifts := []; quality_team_capacity := [];
     delivery_dates := [("P", 18 * minutes_per_day)];
     holidays := [];
     product_tasks := [("P", [1])] |}.

Definition ex_negative_head_count_final : LoopState :=
  Eval vm_compute in final_state (sample_run ex_negative_head_count true).

(** The capacities were last written from a configuration of scenario 3. *)
Definition written_from (originals : Capacities)
  (min_mechanics max_mechanics min_quality max_quality : Z)
  (caps : Capacities) : Prop :=
  exists mech qual caps0,
    config_ok originals min_mechanics max_mechanics min_quality max_quality
      mech qual
    /\ caps = apply_config mech qual caps0.

(** What scenario 1 wrote into one capacity dictionary is still there: the
    custom capacity of every team of a non-empty custom dictionary that the
    dictionary had before, or else the head count given, for every team. *)
Definition keeps_written (headcount : option Z)
  (custom : option (dict string Z)) (before after : dict string Z) : Prop :=
  (forall table team capacity,
      custom = Some table -> table <> [] -> NoDup (dict_keys table) ->
      dict_get team table = Some capacity ->
      dict_mem team before = true ->
      dict_get team after = Some capacity)
  /\ (forall h team,
         custom = None \/ custom = Some [] ->
         headcount = Some h ->
         dict_mem team before = true ->
         dict_get team after = Some h).

(** Every team of the dictionary [before] has the capacity [h] in [after]. *)
Definition all_at (h : Z) (before after : dict string Z) : Prop :=
  forall team, dict_mem team before = true -> dict_get team after = Some h.
(** No mechanic capacity table, one quality team of five. *)
Definition ex_no_mechanic_table : ProductionScheduler :=
  {| late_part_delay_days := 1;
     tasks := [(1, production_task 60 "M1" 1)];
     quality_inspections := []; quality_requirements := [];
     precedence_constraints := [];
     late_part_constraints := []; rework_constraints := [];
     late_part_tasks := []; rework_tasks := [];
     on_dock_dates := []; task_to_product := [];
     team_shifts := [("M1", ["1st"])];
     team_capacity := [];
     quality_team_shifts := [("Q1", ["1st"])];
     quality_team_capacity := [("Q1", 5)];
     delivery_dates := [("P", 18 * minutes_per_day)];
     holidays := [];
     product_tasks := [("P", [1])] |}.

(** * Properties *)

(** ** Dictionaries and sets *)

Section DictFacts.
Context {K V : Type} `{EqKey K}.

Lemma key_eqb_refl (k : K) : key_eqb k k = true.
Proof. destruct (key_eqb_spec k k); congruence. Qed.

Lemma key_eqb_neq (k k' : K) : k <> k' -> key_eqb k k' = false.
Proof. destruct (key_eqb_spec k k'); congruence. Qed.

Lemma mem_In (k : K) (l : list K) : mem k l = true <-> In k l.
Proof.
  unfold mem. rewrite existsb_exists. split.
  - intros (x & Hx & Hk). destruct (key_eqb_spec k x); congruence.
  - intros Hk. exists k. split; [assumption | apply key_eqb_refl].
Qed.

Lemma mem_false (k : K) (l : list K) : mem k l = false <-> ~ In k l.
Proof.
  rewrite <- mem_In. destruct (mem k l); split; congruence.
Qed.

Lemma set_add_In (x k : K) (l : list K) :
  In x (set_add k l) <-> x = k \/ In x l.
Proof.
  unfold set_add. destruct (mem k l) eqn:E.
  - apply mem_In in E. split; [tauto | intros [-> | ?]; assumption].
  - rewrite in_app_iff. simpl. intuition congruence.
Qed.

Lemma set_add_NoDup (k : K) (l : list K) : NoDup l -> NoDup (set_add k l).
Proof.
  intros Hl. unfold set_add. destruct (mem k l) eqn:E; [assumption |].
  apply mem_false in E. apply NoDup_app; [assumption | repeat constructor; simpl; tauto |].
  intros x Hx [<- | []]. contradiction.
Qed.

Lemma fold_set_add_In (x : K) (l acc : list K) :
  In x (fold_left (fun a k => set_add k a) l acc) <-> In x l \/ In x acc.
Proof.
  revert acc. induction l as [| k l IH]; intros acc; simpl.
  - tauto.
  - rewrite IH, set_add_In. intuition congruence.
Qed.

Lemma fold_set_add_NoDup (l acc : list K) :
  NoDup acc -> NoDup (fold_left (fun a k => set_add k a) l acc).
Proof.
  revert acc. induction l as [| k l IH]; intros acc Hacc; simpl.
  - assumption.
  - apply IH, set_add_NoDup, Hacc.
Qed.

Lemma to_set_In (x : K) (l : list K) : In x (to_set l) <-> In x l.
Proof. unfold to_set. rewrite fold_set_add_In. simpl. tauto. Qed.

Lemma to_set_NoDup (l : list K) : NoDup (to_set l).
Proof. apply fold_set_add_NoDup. constructor. Qed.

Lemma dict_get_In (k : K) (v : V) (d : dict K V) :
  dict_get k d = Some v -> In (k, v) d.
Proof.
  induction d as [| [k' v'] d IH]; simpl; [discriminate |].
  destruct (key_eqb_spec k k') as [-> | Hne].
  - intros [= ->]. now left.
  - intros Hg. right. now apply IH.
Qed.

Lemma dict_get_None (k : K) (d : dict K V) :
  dict_get k d = None <-> ~ In k (dict_keys d).
Proof.
  induction d as [| [k' v'] d IH]; simpl; [tauto |].
  destruct (key_eqb_spec k k') as [-> | Hne].
  - split; [discriminate | tauto].
  - rewrite IH. intuition congruence.
Qed.

Lemma dict_mem_In (k : K) (d : dict K V) :
  dict_mem k d = true <-> In k (dict_keys d).
Proof.
  unfold dict_mem. destruct (dict_get k d) eqn:E.
  - split; [intros _ | reflexivity].
    apply dict_get_In in E. unfold dict_keys.
    change k with (fst (k, v)). now apply in_map.
  - apply dict_get_None in E. split; [discriminate | contradiction].
Qed.

Lemma dict_mem_get (k : K) (d : dict K V) :
  dict_mem k d = true <-> exists v, dict_get k d = Some v.
Proof.
  unfold dict_mem. destruct (dict_get k d) as [v |].
  - split; [intros _; now exists v | reflexivity].
  - split; [discriminate | intros [v Hv]; discriminate].
Qed.

Lemma dict_get_set_same (k : K) (v : V) (d : dict K V) :
  dict_get k (dict_set k v d) = Some v.
Proof.
  induction d as [| [k' v'] d IH]; simpl.
  - now rewrite key_eqb_refl.
  - destruct (key_eqb k k') eqn:E; simpl; rewrite E; [reflexivity | exact IH].
Qed.

Lemma dict_get_set_other (k k' : K) (v : V) (d : dict K V) :
  k <> k' -> dict_get k' (dict_set k v d) = dict_get k' d.
Proof.
  intros Hne. induction d as [| [k0 v0] d IH]; simpl.
  - rewrite key_eqb_neq by congruence. reflexivity.
  - destruct (key_eqb_spec k k0) as [-> | Hk]; simpl.
    + rewrite key_eqb_neq by congruence. reflexivity.
    + destruct (key_eqb k' k0); [reflexivity | exact IH].
Qed.

Lemma dict_set_fresh (k : K) (v : V) (d : dict K V) :
  dict_get k d = None -> dict_set k v d = d ++ [(k, v)].
Proof.
  induction d as [| [k' v'] d IH]; simpl; [reflexivity |].
  destruct (key_eqb k k'); [discriminate |].
  intros Hg. now rewrite IH.
Qed.

Lemma dict_keys_set (k : K) (v : V) (d : dict K V) (x : K) :
  In x (dict_keys (dict_set k v d)) <-> x = k \/ In x (dict_keys d).
Proof.
  rewrite <- !dict_mem_In. unfold dict_mem.
  destruct (key_eqb_spec k x) as [-> | Hne].
  - rewrite dict_get_set_same. intuition.
  - rewrite dict_get_set_other by assumption. intuition congruence.
Qed.

End DictFacts.

(** ** Calendar arithmetic *)

Lemma date_of_bounds (t : datetime) :
  date_of t * minutes_per_day <= t < date_of t * minutes_per_day + minutes_per_day.
Proof.
  unfold date_of, minutes_per_day.
  pose proof (Z.div_mod t 1440 ltac:(lia)).
  pose proof (Z.mod_pos_bound t 1440 ltac:(lia)). lia.
Qed.

Lemma minute_of_day_eq (t : datetime) :
  minute_of_day t = t - date_of t * minutes_per_day.
Proof.
  unfold minute_of_day, date_of, minutes_per_day.
  pose proof (Z.div_mod t 1440 ltac:(lia)). lia.
Qed.

Lemma next_day_start_later (t : datetime) :
  t <= replace_time t 6 0 + minutes_per_day.
Proof.
  unfold replace_time. pose proof (date_of_bounds t).
  unfold minutes_per_day in *. lia.
Qed.

Lemma next_shift_start_later (t : datetime) : t <= next_shift_start t.
Proof.
  unfold next_shift_start. rewrite minute_of_day_eq.
  pose proof (date_of_bounds t). unfold replace_time, minutes_per_day in *.
  repeat match goal with
         | |- context [?a <? ?b] => destruct (Z.ltb_spec a b)
         end; lia.
Qed.

(** ** The capacity check and the window search *)

Lemma capacity_scan_sound (n : nat) (l : list Placement)
  (capacity needed : Z) (s m : datetime) :
  capacity_scan n l capacity needed s = true ->
  s <= m < s + Z.of_nat n ->
  usage_at l m + needed <= capacity.
Proof.
  revert s. induction n as [| n IH]; intros s Hscan Hm; [lia |].
  simpl in Hscan.
  destruct (Z.gtb_spec (usage_at l s + needed) capacity) as [Hgt | Hle];
    [discriminate |].
  destruct (Z.eq_dec m s) as [-> | Hne]; [lia |].
  apply (IH (s + 1)); [assumption | lia].
Qed.

Lemma check_team_capacity_sound (self : ProductionScheduler)
  (task_schedule : Schedule) (team : string) (s e needed m : Z) :
  check_team_capacity_at_time self task_schedule team s e needed = true ->
  s <= m < e ->
  usage_at (team_tasks task_schedule team) m + needed <= capacity_of self team.
Proof.
  unfold check_team_capacity_at_time. intros Hscan Hm.
  apply (capacity_scan_sound _ _ _ _ s m Hscan). lia.
Qed.

Section WindowSearch.
Variable self : ProductionScheduler.
Variable task_schedule : Schedule.
Variables product_line team : string.
Variables mechanics_needed duration : Z.
Variable is_quality : bool.

Local Abbreviation loop :=
  (next_working_loop self task_schedule product_line team mechanics_needed
     duration is_quality).

Lemma next_working_loop_found (fuel : nat) :
  forall (iterations : Z) (t0 t : datetime) (shift : string) (n : Z),
    loop fuel iterations t0 = Found t shift n ->
    slot_ok self task_schedule product_line team mechanics_needed duration
      is_quality t shift
    /\ t0 <= t /\ iterations < n <= max_search_iterations.
Proof.
  induction fuel as [| fuel IH]; intros iterations t0 t shift n; simpl;
    [discriminate |].
  destruct (Z.ltb_spec iterations max_search_iterations) as [Hlt | Hge];
    [| discriminate].
  destruct (is_working_day self t0 product_line) eqn:Hday; simpl.
  - destruct (available_shift self team is_quality (minute_of_day t0))
      as [shift0 |] eqn:Hshift.
    + destruct (check_team_capacity_at_time self task_schedule team t0
                  (t0 + duration) mechanics_needed) eqn:Hcap.
      * intros [= <- <- <-]. unfold slot_ok. repeat split; auto; lia.
      * intros Hrec. apply IH in Hrec. intuition lia.
    + intros Hrec. apply IH in Hrec.
      pose proof (next_shift_start_later t0). intuition lia.
  - intros Hrec. apply IH in Hrec.
    pose proof (next_day_start_later t0). intuition lia.
Qed.

Lemma next_working_loop_error (fuel : nat) :
  forall (iterations : Z) (t0 : datetime) (n : Z),
    iterations <= max_search_iterations ->
    loop fuel iterations t0 = SearchError n ->
    n = max_search_iterations.
Proof.
  induction fuel as [| fuel IH]; intros iterations t0 n Hle; simpl;
    [discriminate |].
  destruct (Z.ltb_spec iterations max_search_iterations) as [Hlt | Hge];
    [| intros [= <-]; lia].
  assert (Hnext : iterations + 1 <= max_search_iterations) by lia.
  destruct (is_working_day self t0 product_line); simpl.
  - destruct (available_shift self team is_quality (minute_of_day t0)).
    + destruct (check_team_capacity_at_time self task_schedule team t0
                  (t0 + duration) mechanics_needed); [discriminate |].
      apply IH, Hnext.
    + apply IH, Hnext.
  - apply IH, Hnext.
Qed.

(** Enough fuel: the loop ends by its own counter. *)
Lemma next_working_loop_fuel (fuel : nat) :
  forall (iterations : Z) (t0 : datetime),
    (Z.to_nat (max_search_iterations - iterations) < fuel)%nat ->
    loop fuel iterations t0 <> SearchOutOfFuel.
Proof.
  induction fuel as [| fuel IH]; intros iterations t0 Hfuel; simpl; [lia |].
  destruct (Z.ltb_spec iterations max_search_iterations) as [Hlt | Hge];
    [| discriminate].
  assert (Hnext : (Z.to_nat (max_search_iterations - (iterations + 1)) < fuel)%nat)
    by lia.
  destruct (is_working_day self t0 product_line); simpl.
  - destruct (available_shift self team is_quality (minute_of_day t0)).
    + destruct (check_team_capacity_at_time self task_schedule team t0
                  (t0 + duration) mechanics_needed); [discriminate |].
      apply IH, Hnext.
    + apply IH, Hnext.
  - apply IH, Hnext.
Qed.

End WindowSearch.

Lemma get_next_working_time_found (self : ProductionScheduler)
  (task_schedule : Schedule) (t0 : datetime) (product_line team : string)
  (mechanics_needed duration : Z) (is_quality : bool)
  (t : datetime) (shift : string) (n : Z) :
  get_next_working_time_with_capacity self task_schedule t0 product_line team
    mechanics_needed duration is_quality = Found t shift n ->
  slot_ok self task_schedule product_line team mechanics_needed duration
    is_quality t shift
  /\ t0 <= t /\ 0 < n <= max_search_iterations.
Proof. apply next_working_loop_found. Qed.

Lemma get_next_working_time_returns (self : ProductionScheduler)
  (task_schedule : Schedule) (t0 : datetime) (product_line team : string)
  (mechanics_needed duration : Z) (is_quality : bool) :
  get_next_working_time_with_capacity self task_schedule t0 product_line team
    mechanics_needed duration is_quality <> SearchOutOfFuel.
Proof.
  apply next_working_loop_fuel. unfold search_fuel, max_search_iterations.
  rewrite Z.sub_0_r. lia.
Qed.

(** ** The ready queue *)

Lemma heap_min_In (best : Q * Z) (h : heap) : In (heap_min best h) (best :: h).
Proof.
  revert best. induction h as [| x h IH]; intros best; simpl.
  - now left.
  - destruct (IH (if entry_ltb x best then x else best)) as [Heq | Hin].
    + destruct (entry_ltb x best); rewrite <- Heq; auto.
    + auto.
Qed.

Lemma entry_eqb_refl (x : Q * Z) : entry_eqb x x = true.
Proof.
  unfold entry_eqb. rewrite Z.eqb_refl, andb_true_r.
  apply Qeq_bool_iff. reflexivity.
Qed.

Lemma heap_remove_split (m : Q * Z) (h : heap) :
  In m h ->
  exists l1 y l2,
    h = l1 ++ y :: l2 /\ heap_remove m h = l1 ++ l2 /\ snd y = snd m.
Proof.
  induction h as [| x h IH]; simpl; [contradiction |].
  intros Hin. destruct (entry_eqb x m) eqn:E.
  - exists [], x, h. repeat split.
    unfold entry_eqb in E. apply andb_true_iff in E. lia.
  - destruct Hin as [-> | Hin]; [rewrite entry_eqb_refl in E; discriminate |].
    destruct (IH Hin) as (l1 & y & l2 & -> & Hrem & Hy).
    exists (x :: l1), y, l2. simpl. rewrite Hrem. auto.
Qed.

Lemma heappop_tasks (h rest : heap) (priority : Q) (task_id : Z) :
  heappop h = Some ((priority, task_id), rest) ->
  exists l1 l2,
    map snd h = l1 ++ task_id :: l2 /\ map snd rest = l1 ++ l2.
Proof.
  unfold heappop. destruct h as [| x h]; [discriminate |].
  destruct (heap_remove_split (heap_min x h) (x :: h) (heap_min_In x h))
    as (l1 & y & l2 & Hh & Hrem & Hy).
  rewrite Hrem. intros [= Hm <-].
  exists (map snd l1), (map snd l2). rewrite Hh.
  rewrite !map_app. simpl. rewrite Hy, Hm. auto.
Qed.

Section PushAll.
Variable priority_of : Z -> option Q.

Lemma push_all_tasks (l : list Z) :
  forall h h', push_all priority_of l h = Some h' ->
               map snd h' = rev l ++ map snd h.
Proof.
  induction l as [| t l IH]; intros h h'; simpl.
  - now intros [= ->].
  - destruct (priority_of t) as [p |]; [| discriminate].
    intros Hpush. apply IH in Hpush. rewrite Hpush. simpl.
    now rewrite <- app_assoc.
Qed.

End PushAll.

(** ** The earliest start computed from the dependencies *)

Section EarliestStart.
Variable dynamic_constraints : list Constraint.
Variable task_schedule : Schedule.
Variable task_id : Z.

Local Abbreviation step :=
  (dependency_step dynamic_constraints task_schedule task_id).

(** Without a placed ['Finish = Start'] predecessor the loop only raises the
    bound. *)
Lemma dependency_fold_ge_init (l : list Z) :
  forall e0,
    (forall d pd, In d l -> dict_get d task_schedule = Some pd ->
                  is_finish_equals_start dynamic_constraints d task_id = false) ->
    e0 <= fold_left step l e0.
Proof.
  induction l as [| d l IH]; intros e0 Hfs; simpl; [lia |].
  assert (Hstep : e0 <= step e0 d).
  { unfold dependency_step. destruct (dict_get d task_schedule) as [pd |] eqn:E;
      [| lia].
    rewrite (Hfs d pd) by (simpl; auto). lia. }
  etransitivity; [exact Hstep |].
  apply IH. intros d' pd' Hin. apply Hfs. now right.
Qed.

(** The end of a placed predecessor [a] bounds the result, as long as no
    other placed predecessor is tied by ['Finish = Start']. *)
Lemma dependency_fold_ge_end (a : Z) (pa : Placement) (l : list Z) :
  dict_get a task_schedule = Some pa ->
  forall e0,
    (forall d pd, In d l -> d <> a -> dict_get d task_schedule = Some pd ->
                  is_finish_equals_start dynamic_constraints d task_id = false) ->
    In a l \/ end_time pa <= e0 ->
    end_time pa <= fold_left step l e0.
Proof.
  intros Ha. induction l as [| d l IH]; intros e0 Hfs Hstart; simpl.
  - destruct Hstart as [[] | Hle]. exact Hle.
  - apply IH.
    + intros d' pd' Hin. apply Hfs. now right.
    + destruct (Z.eq_dec d a) as [-> | Hne].
      * right. unfold dependency_step. rewrite Ha.
        destruct (is_finish_equals_start dynamic_constraints a task_id); lia.
      * destruct Hstart as [[Heq | Hin] | Hle]; [congruence | now left |].
        right. unfold dependency_step.
        destruct (dict_get d task_schedule) as [pd |] eqn:E; [| exact Hle].
        rewrite (Hfs d pd) by (simpl; auto). lia.
Qed.

End EarliestStart.

(** ** The window chosen for a task *)

Section FindWindow.
Variable self : ProductionScheduler.
Variable task_schedule : Schedule.

Lemma find_in_some {A : Type} (f : A -> bool) (l : list A) (x : A) :
  find f l = Some x -> In x l /\ f x = true.
Proof. apply find_some. Qed.

Lemma try_quality_shift_spec (earliest_start : datetime)
  (product_line : string) (needed duration : Z)
  (best : option (datetime * string * string)) (try_shift : string)
  (P : datetime * string * string -> Prop) :
  (forall t tm iterations shift,
      get_next_working_time_with_capacity self task_schedule earliest_start
        product_line tm needed duration true = Found t shift iterations ->
      P (t, tm, try_shift)) ->
  (forall x, best = Some x -> P x) ->
  forall x,
    try_quality_shift self task_schedule earliest_start product_line needed
      duration best try_shift = Some x ->
    P x.
Proof.
  intros Hnew Hold x. unfold try_quality_shift.
  destruct (assign_quality_team_balanced self task_schedule try_shift needed)
    as [tm |]; [| apply Hold].
  destruct (truthy tm); [| apply Hold].
  destruct (get_next_working_time_with_capacity self task_schedule
              earliest_start product_line tm needed duration true)
    as [t shift n | n |] eqn:Hsearch; try apply Hold.
  destruct best as [[[s0 tm0] sh0] |].
  - destruct (t <? s0); [| apply Hold].
    intros [= <-]. eapply Hnew, Hsearch.
  - intros [= <-]. eapply Hnew, Hsearch.
Qed.

(** The slot a task is given: not before [earliest_start], on a working
    day, inside a shift window, with capacity for the whole duration. *)
Lemma find_window_spec (info : TaskInfo) (earliest_start : datetime)
  (product_line : string) (t : datetime) (tm shift : string) :
  find_window self task_schedule info earliest_start product_line
    = Some (t, tm, shift) ->
  earliest_start <= t
  /\ (exists sh,
         slot_ok self task_schedule product_line tm
           (mechanics_required info) (duration info) (is_quality info) t sh
         /\ (is_quality info = false -> sh = shift /\ tm = team info)).
Proof.
  unfold find_window. destruct (is_quality info) eqn:Hq.
  - set (P := fun x : datetime * string * string =>
                earliest_start <= fst (fst x)
                /\ exists sh,
                    slot_ok self task_schedule product_line (snd (fst x))
                      (mechanics_required info) (duration info) true
                      (fst (fst x)) sh).
    assert (Hnew : forall try_shift t' tm' iterations shift',
               get_next_working_time_with_capacity self task_schedule
                 earliest_start product_line tm' (mechanics_required info)
                 (duration info) true = Found t' shift' iterations ->
               P (t', tm', try_shift)).
    { intros try_shift t' tm' n shift' Hsearch.
      apply get_next_working_time_found in Hsearch.
      unfold P. simpl. split; [lia |]. exists shift'. tauto. }
    simpl. intros Hfold.
    assert (HP : P (t, tm, shift)).
    { revert Hfold.
      apply try_quality_shift_spec; [apply Hnew |].
      apply try_quality_shift_spec; [apply Hnew |].
      apply try_quality_shift_spec; [apply Hnew |].
      discriminate. }
    destruct HP as [Hle [sh Hsh]]. split; [exact Hle |].
    exists sh. split; [exact Hsh | discriminate].
  - destruct (get_next_working_time_with_capacity self task_schedule
                earliest_start product_line (team info)
                (mechanics_required info) (duration info) false)
      as [t' shift' n | n |] eqn:Hsearch; try discriminate.
    intros [= <- <- <-].
    apply get_next_working_time_found in Hsearch.
    split; [lia |]. exists shift'. split; [tauto | auto].
Qed.

End FindWindow.

(** ** Usage after a placement *)

Lemma usage_at_app (l1 l2 : list Placement) (m : datetime) :
  usage_at (l1 ++ l2) m = usage_at l1 m + usage_at l2 m.
Proof.
  induction l1 as [| p l1 IH]; simpl; [reflexivity |]. rewrite IH. lia.
Qed.

Lemma team_tasks_app (s1 s2 : Schedule) (team : string) :
  team_tasks (s1 ++ s2) team = team_tasks s1 team ++ team_tasks s2 team.
Proof.
  unfold team_tasks, dict_values. now rewrite map_app, filter_app.
Qed.

Lemma usage_at_idle (l : list Placement) (m : datetime) :
  (forall sched, In sched l -> covers sched m = false) -> usage_at l m = 0.
Proof.
  induction l as [| p l IH]; simpl; intros Hidle; [reflexivity |].
  rewrite (Hidle p) by auto. rewrite IH by auto. reflexivity.
Qed.

(** ** The two adjacency maps *)

Lemma dependencies_of_In (dc : list Constraint) (a b : Z) :
  In a (dependencies_of dc b) <->
  exists c, In c dc /\ First c = a /\ Second c = b
            /\ is_dependency_relationship (Relationship c) = true.
Proof.
  unfold dependencies_of. rewrite to_set_In, in_map_iff. split.
  - intros (c & Hc & Hin). apply filter_In in Hin as [Hin Hf].
    apply andb_true_iff in Hf as [Hrel Hsec]. exists c.
    repeat split; auto; lia.
  - intros (c & Hin & Hc & Hsec & Hrel). exists c. split; [assumption |].
    apply filter_In. split; [assumption |].
    rewrite Hrel. simpl. lia.
Qed.

Lemma dependents_of_In (dc : list Constraint) (a b : Z) :
  In b (dependents_of dc a) <-> In a (dependencies_of dc b).
Proof.
  rewrite dependencies_of_In. unfold dependents_of.
  rewrite to_set_In, in_map_iff. split.
  - intros (c & Hc & Hin). apply filter_In in Hin as [Hin Hf].
    apply andb_true_iff in Hf as [Hrel Hfst]. exists c.
    repeat split; auto; lia.
  - intros (c & Hin & Hc & Hsec & Hrel). exists c. split; [assumption |].
    apply filter_In. split; [assumption |].
    rewrite Hrel. simpl. lia.
Qed.

(** ** The invariant is kept by every change of the state *)

Section Invariant.
Variable self : ProductionScheduler.

Local Abbreviation dc := (build_dynamic_dependencies self).

Lemma Inv_empty (ready : list Z) :
  NoDup ready ->
  (forall t, In t ready -> dependencies_of dc t = []) ->
  Inv self [] ready [].
Proof.
  intros Hnd Hdeps. constructor; simpl; try discriminate; auto.
  - intros t d Ht. rewrite (Hdeps t Ht). contradiction.
  - constructor.
  - intros team m (sched & [] & _).
Qed.

Lemma Inv_push (task_schedule : Schedule) (ready failed l : list Z) :
  Inv self task_schedule ready failed ->
  NoDup l ->
  (forall t, In t l ->
             ~ In t ready
             /\ dict_mem t task_schedule = false /\ mem t failed = false
             /\ forall d, In d (dependencies_of dc t) ->
                          dict_mem d task_schedule || mem d failed = true) ->
  Inv self task_schedule (rev l ++ ready) failed.
Proof.
  intros HI Hnd Hl. destruct HI. constructor; auto.
  - intros t Ht. apply in_app_iff in Ht as [Ht | Ht]; [| auto].
    apply in_rev in Ht. apply Hl in Ht. tauto.
  - apply NoDup_app; [now apply NoDup_rev | assumption |].
    intros t Ht. apply in_rev in Ht. apply Hl in Ht. tauto.
  - intros t d Ht. apply in_app_iff in Ht as [Ht | Ht]; [| eauto].
    apply in_rev in Ht. apply Hl in Ht. apply Ht.
Qed.

Lemma Inv_pop (task_schedule : Schedule) (l1 l2 failed : list Z) (t : Z) :
  Inv self task_schedule (l1 ++ t :: l2) failed ->
  Inv self task_schedule (l1 ++ l2) failed /\ ~ In t (l1 ++ l2).
Proof.
  intros HI. destruct HI.
  pose proof (NoDup_remove _ _ _ inv_ready_nodup0) as [Hnd Hnot].
  split; [| exact Hnot].
  assert (Hsub : forall x, In x (l1 ++ l2) -> In x (l1 ++ t :: l2)).
  { intros x Hx. apply in_app_iff in Hx. apply in_app_iff. simpl. tauto. }
  constructor; auto.
  intros x d Hx. apply inv_ready_deps0. auto.
Qed.

Lemma mem_set_add_mono (t d : Z) (failed : list Z) :
  mem d failed = true -> mem d (set_add t failed) = true.
Proof. rewrite !mem_In, set_add_In. tauto. Qed.

Lemma resolved_fail_mono (task_schedule : Schedule) (t d : Z)
  (failed : list Z) :
  dict_mem d task_schedule || mem d failed = true ->
  dict_mem d task_schedule || mem d (set_add t failed) = true.
Proof.
  rewrite !orb_true_iff. intros [H | H]; [now left | right].
  now apply mem_set_add_mono.
Qed.

Lemma Inv_fail (task_schedule : Schedule) (ready failed : list Z) (t : Z) :
  Inv self task_schedule ready failed ->
  ~ In t ready ->
  dict_mem t task_schedule = false ->
  Inv self task_schedule ready (set_add t failed).
Proof.
  intros HI Hnot Hfresh. destruct HI. constructor; auto.
  - intros x Hx. split; [now apply inv_unresolved0 |].
    apply mem_false. rewrite set_add_In. intros [-> | Hin]; [contradiction |].
    apply mem_In in Hin. destruct (inv_unresolved0 x Hx). congruence.
  - intros x d Hx Hd. eapply resolved_fail_mono; eauto.
  - intros x Hx. apply mem_false. rewrite set_add_In.
    intros [-> | Hin]; [congruence |].
    apply mem_In in Hin. rewrite inv_disjoint0 in Hin; [discriminate | auto].
  - intros b d Hb Hd. eapply resolved_fail_mono; eauto.
Qed.

End Invariant.

Section Placing.
Variable self : ProductionScheduler.

Local Abbreviation dc := (build_dynamic_dependencies self).

Lemma dict_mem_set (task_schedule : Schedule) (t x : Z) (p : Placement) :
  dict_mem x (dict_set t p task_schedule) = true <->
  x = t \/ dict_mem x task_schedule = true.
Proof. rewrite !dict_mem_In. apply dict_keys_set. Qed.

Lemma resolved_place_mono (task_schedule : Schedule) (t d : Z)
  (p : Placement) (failed : list Z) :
  dict_mem d task_schedule || mem d failed = true ->
  dict_mem d (dict_set t p task_schedule) || mem d failed = true.
Proof.
  rewrite !orb_true_iff. intros [H | H]; [left | now right].
  apply dict_mem_set. now right.
Qed.

Lemma dict_mem_false_get (task_schedule : Schedule) (t : Z) :
  dict_mem t task_schedule = false -> dict_get t task_schedule = None.
Proof.
  unfold dict_mem. destruct (dict_get t task_schedule); [discriminate | auto].
Qed.

Lemma Inv_place (task_schedule : Schedule) (ready failed : list Z)
  (t : Z) (p : Placement) :
  Inv self task_schedule ready failed ->
  ~ In t ready ->
  dict_mem t task_schedule = false ->
  mem t failed = false ->
  (forall d, In d (dependencies_of dc t) ->
             dict_mem d task_schedule || mem d failed = true) ->
  entry_ok self t p ->
  (forall m, covers p m = true ->
             usage_at (team_tasks task_schedule (sched_team p)) m
             + sched_mechanics_required p <= capacity_of self (sched_team p)) ->
  (forall a pa,
      dict_get a task_schedule = Some pa ->
      In a (dependencies_of dc t) ->
      (forall d pd, d <> a -> dict_get d task_schedule = Some pd ->
                    is_finish_equals_start dc d t = false) ->
      end_time pa <= start_time p) ->
  Inv self (dict_set t p task_schedule) ready failed.
Proof.
  intros HI Hnot Hfresh Hnf Hdeps Hentry Hcap Hprec.
  pose proof (dict_mem_false_get _ _ Hfresh) as Hnone.
  assert (Hget : forall x, x <> t ->
             dict_get x (dict_set t p task_schedule) = dict_get x task_schedule).
  { intros x Hx. apply dict_get_set_other. congruence. }
  assert (Hunres : dict_mem t task_schedule || mem t failed = false)
    by (rewrite Hfresh, Hnf; reflexivity).
  destruct HI. constructor; auto.
  - intros x Hx. destruct (inv_unresolved0 x Hx) as [Hs Hf]. split; [| exact Hf].
    destruct (dict_mem x (dict_set t p task_schedule)) eqn:E; [| reflexivity].
    apply dict_mem_set in E as [-> | E]; [contradiction | congruence].
  - intros x d Hx Hd. eapply resolved_place_mono; eauto.
  - intros x Hx. apply dict_mem_set in Hx as [-> | Hx]; auto.
  - intros b d Hb Hd. apply resolved_place_mono.
    apply dict_mem_set in Hb as [-> | Hb]; eauto.
  - rewrite dict_set_fresh by assumption.
    unfold dict_keys. rewrite map_app. simpl.
    apply NoDup_app; [assumption | repeat constructor; simpl; tauto |].
    intros x Hx [<- | []].
    apply dict_get_None in Hnone. contradiction.
  - intros x px. destruct (Z.eq_dec x t) as [-> | Hne].
    + rewrite dict_get_set_same. now intros [= <-].
    + rewrite Hget by assumption. auto.
  - intros tm m Hbusy. unfold busy in Hbusy.
    rewrite dict_set_fresh in Hbusy |- * by assumption.
    rewrite team_tasks_app in Hbusy |- *. rewrite usage_at_app.
    unfold team_tasks at 2 in Hbusy. unfold team_tasks at 2. simpl in *.
    destruct (String.eqb_spec (sched_team p) tm) as [<- | Hteam]; simpl in *.
    + destruct (covers p m) eqn:Hcov.
      * specialize (Hcap m Hcov). lia.
      * replace (usage_at (team_tasks task_schedule (sched_team p)) m + (0 + 0))
          with (usage_at (team_tasks task_schedule (sched_team p)) m) by lia.
        apply inv_capacity0.
        destruct Hbusy as (s & Hs & Hsc).
        apply in_app_iff in Hs as [Hs | [<- | []]]; [| congruence].
        exists s. auto.
    + rewrite Z.add_0_r. apply inv_capacity0.
      destruct Hbusy as (s & Hs & Hsc). rewrite app_nil_r in Hs.
      exists s. auto.
  - intros a b pa pb Ha Hb Hab Hfs.
    assert (Hat : a <> t).
    { intros ->. destruct (Z.eq_dec b t) as [-> | Hbt].
      - rewrite (Hdeps t Hab) in Hunres. discriminate.
      - rewrite Hget in Hb by assumption.
        assert (Hbm : dict_mem b task_schedule = true)
          by (apply dict_mem_get; eauto).
        rewrite (inv_placed_deps0 b t Hbm Hab) in Hunres. discriminate. }
    rewrite Hget in Ha by assumption.
    assert (Hfs' : forall d pd, d <> a -> dict_get d task_schedule = Some pd ->
                                is_finish_equals_start dc d b = false).
    { intros d pd Hda Hd. apply (Hfs d pd Hda).
      rewrite Hget; [assumption |]. intros ->. congruence. }
    destruct (Z.eq_dec b t) as [-> | Hbt].
    + rewrite dict_get_set_same in Hb. injection Hb as <-.
      eapply Hprec; eauto.
    + rewrite Hget in Hb by assumption. eapply inv_precedence0; eauto.
Qed.

End Placing.

(** ** One iteration of the loop keeps the invariant *)

Section LoopInvariant.
Variable self : ProductionScheduler.
Variable set_iter : list Z -> list Z.
Variable priority_of : Z -> option Q.
Variable silent_mode : bool.

(** Whatever the order, iterating a set visits exactly its elements. *)
Hypothesis set_iter_In : forall l x, In x (set_iter l) <-> In x l.

Local Abbreviation dc := (build_dynamic_dependencies self).

Lemma available_shift_window (tm : string) (q : bool) (m : Z) (sh : string) :
  available_shift self tm q m = Some sh ->
  shift_window sh m = true
  /\ (q = false -> In sh (team_shifts_of self tm))
  /\ (q = true -> any_quality_team_works self sh = true).
Proof.
  unfold available_shift. destruct q; intros Hfind; apply find_some in Hfind.
  - destruct Hfind as [_ Hboth]. apply andb_true_iff in Hboth.
    repeat split; try tauto; discriminate.
  - repeat split; try tauto; discriminate.
Qed.

Lemma earliest_start_late_part (task_schedule : Schedule) (t : Z) :
  mem t (late_part_tasks self) = true ->
  no_finish_equals_start_into self t ->
  get_earliest_start_for_late_part self t
  <= earliest_start_of self set_iter task_schedule t.
Proof.
  intros Hlp Hfs. unfold earliest_start_of. rewrite Hlp.
  apply Z.le_trans
    with (Z.max start_date (get_earliest_start_for_late_part self t));
    [lia |].
  apply dependency_fold_ge_init. intros d pd _ _. apply Hfs.
Qed.

Lemma earliest_start_after (task_schedule : Schedule) (t a : Z)
  (pa : Placement) :
  dict_get a task_schedule = Some pa ->
  In a (dependencies_of dc t) ->
  (forall d pd, d <> a -> dict_get d task_schedule = Some pd ->
                is_finish_equals_start dc d t = false) ->
  end_time pa <= earliest_start_of self set_iter task_schedule t.
Proof.
  intros Ha Hin Hfs. unfold earliest_start_of.
  apply (dependency_fold_ge_end dc task_schedule t a pa); [assumption | |].
  - intros d pd _. apply Hfs.
  - left. now apply set_iter_In.
Qed.

(** The entry written for a task satisfies what [Inv_place] asks for. *)
Lemma window_entry_ok (task_schedule : Schedule) (t : Z) (info : TaskInfo)
  (product_line : string) (start : datetime) (tm shift : string) :
  dict_get t (tasks self) = Some info ->
  find_window self task_schedule info
    (earliest_start_of self set_iter task_schedule t) product_line
    = Some (start, tm, shift) ->
  let p := make_placement info product_line start tm shift in
  entry_ok self t p
  /\ (forall m, covers p m = true ->
                usage_at (team_tasks task_schedule (sched_team p)) m
                + sched_mechanics_required p
                <= capacity_of self (sched_team p))
  /\ earliest_start_of self set_iter task_schedule t <= start_time p.
Proof.
  intros Hinfo Hwin. apply find_window_spec in Hwin.
  destruct Hwin as (Hle & sh & (Hday & Hshift & Hcap) & Hmech).
  apply available_shift_window in Hshift as (Hwindow & Hworks & Hany).
  simpl. repeat split.
  - exists info. unfold placed_from. simpl.
    split; [assumption |]. split; [auto |]. split; [assumption |].
    split; [| split].
    + intros Hq. destruct (Hmech Hq) as [<- ->]. auto.
    + intros Hq. exists sh. auto.
    + intros Hlp Hfs.
      pose proof (earliest_start_late_part task_schedule t Hlp Hfs). lia.
  - intros m Hcov. unfold covers in Hcov. simpl in Hcov.
    apply (check_team_capacity_sound _ _ _ _ _ _ m Hcap). lia.
  - exact Hle.
Qed.

Lemma newly_ready_dependents_spec (st : LoopState) (t d : Z) :
  In d (newly_ready_dependents self st t) ->
  In t (dependencies_of dc d)
  /\ resolved st d = false
  /\ forall x, In x (dependencies_of dc d) -> resolved st x = true.
Proof.
  unfold newly_ready_dependents. intros Hin. apply filter_In in Hin.
  destruct Hin as [Hdep Hf]. apply andb_true_iff in Hf as [Hun Hall].
  repeat split.
  - now apply dependents_of_In.
  - now apply negb_true_iff.
  - rewrite forallb_forall in Hall. exact Hall.
Qed.

Lemma newly_ready_dependents_NoDup (st : LoopState) (t : Z) :
  NoDup (newly_ready_dependents self st t).
Proof.
  unfold newly_ready_dependents. apply NoDup_filter.
  unfold dependents_of. apply to_set_NoDup.
Qed.

Lemma newly_ready_unscheduled_spec (st : LoopState) (t : Z) :
  In t (newly_ready_unscheduled self st) ->
  In t (all_tasks self)
  /\ dict_mem t (task_schedule st) = false
  /\ mem t (failed_tasks st) = false
  /\ forall x, In x (dependencies_of dc t) -> resolved st x = true.
Proof.
  unfold newly_ready_unscheduled. intros Hin. apply filter_In in Hin.
  destruct Hin as [Hun Hall]. apply filter_In in Hun as [Hall_tasks Hf].
  apply andb_true_iff in Hf as [Hs Hfd].
  rewrite forallb_forall in Hall.
  repeat split; auto; now apply negb_true_iff.
Qed.

Lemma newly_ready_unscheduled_NoDup (st : LoopState) :
  NoDup (newly_ready_unscheduled self st).
Proof.
  unfold newly_ready_unscheduled. do 2 apply NoDup_filter.
  unfold all_tasks. apply to_set_NoDup.
Qed.

Lemma retry_or_fail_Inv (st : LoopState) (priority : Q) (t : Z) :
  Inv_state self st ->
  ~ In t (map snd (ready_tasks st)) ->
  dict_mem t (task_schedule st) = false ->
  mem t (failed_tasks st) = false ->
  (forall d, In d (dependencies_of dc t) -> resolved st d = true) ->
  Inv_state self (retry_or_fail st priority t).
Proof.
  intros HI Hnot Hs Hf Hdeps. unfold retry_or_fail, Inv_state.
  destruct (get_default t (task_retry_counts st) 0 + 1 <? 3); simpl.
  - apply (Inv_push self _ _ _ [t] HI).
    + repeat constructor. simpl. tauto.
    + intros x [<- | []]. auto.
  - now apply Inv_fail.
Qed.

Lemma place_next_Inv (st : LoopState) :
  Inv_state self st ->
  keeps_invariant self (place_next self set_iter priority_of st).
Proof.
  intros HI. unfold place_next.
  destruct (heappop (ready_tasks st)) as [[[priority t] rest] |] eqn:Hpop;
    [| exact HI].
  apply heappop_tasks in Hpop as (l1 & l2 & Hready & Hrest).
  unfold Inv_state in HI. rewrite Hready in HI.
  assert (Hin : In t (l1 ++ t :: l2)) by (apply in_app_iff; simpl; tauto).
  destruct (inv_unresolved _ _ _ _ HI t Hin) as [Hs Hf].
  pose proof (fun d => inv_ready_deps _ _ _ _ HI t d Hin) as Hdeps.
  destruct (Inv_pop self _ _ _ _ _ HI) as [HI' Hnot].
  rewrite <- Hrest in HI', Hnot.
  set (st1 := set_ready st rest).
  assert (HI1 : Inv_state self st1) by exact HI'.
  destruct (3 <=? get_default t (task_retry_counts st1) 0).
  { simpl. unfold Inv_state. simpl. now apply Inv_fail. }
  destruct (find_product_line self t) as [product_line |]; [| exact HI1].
  destruct (truthy product_line); cbn [negb]; [| exact HI1].
  destruct (dict_get t (tasks self)) as [info |] eqn:Hinfo; [| exact I].
  destruct (find_window self (task_schedule st1) info
              (earliest_start_of self set_iter (task_schedule st1) t)
              product_line) as [[[start tm] shift] |] eqn:Hwin.
  2:{ apply (retry_or_fail_Inv st1 priority t); auto. }
  pose proof (window_entry_ok _ _ _ _ _ _ _ Hinfo Hwin) as (Hok & Hcap & Hle).
  set (p := make_placement info product_line start tm shift) in *.
  set (st2 := record_placement st1 t p).
  assert (HI2 : Inv_state self st2).
  { unfold Inv_state. simpl. apply Inv_place; auto.
    intros a pa Ha Hadep Hfs.
    pose proof (earliest_start_after _ _ _ _ Ha Hadep Hfs). simpl in *. lia. }
  destruct (push_all priority_of (newly_ready_dependents self st2 t)
              (ready_tasks st2)) as [h |] eqn:Hpush; [| exact I].
  simpl. unfold Inv_state. simpl.
  rewrite (push_all_tasks _ _ _ _ Hpush).
  apply Inv_push; [exact HI2 | apply newly_ready_dependents_NoDup |].
  intros d Hd. apply newly_ready_dependents_spec in Hd as (Htd & Hun & Hall).
  unfold resolved in Hun. apply orb_false_iff in Hun as [Hun1 Hun2].
  repeat split; auto.
  simpl. intros Hdin.
  assert (Hdin' : In d (l1 ++ t :: l2)).
  { rewrite Hrest in Hdin. apply in_app_iff in Hdin.
    apply in_app_iff. simpl. tauto. }
  pose proof (inv_ready_deps _ _ _ _ HI d t Hdin' Htd) as Hres.
  rewrite Hs, Hf in Hres. discriminate.
Qed.

Lemma loop_body_Inv (st : LoopState) :
  Inv_state self st ->
  keeps_invariant self (loop_body self set_iter priority_of silent_mode st).
Proof.
  intros HI. unfold loop_body.
  set (st1 := next_iteration st).
  assert (HI1 : Inv_state self st1) by exact HI.
  clearbody st1. clear HI st.
  destruct (ready_tasks st1) as [| e h0] eqn:Hready.
  2:{ apply place_next_Inv, HI1. }
  destruct (scheduled_count st1 + Z.of_nat (List.length (failed_tasks st1))
            <? total_tasks self).
  2:{ apply place_next_Inv, HI1. }
  destruct (push_all priority_of (newly_ready_unscheduled self st1) [])
    as [h |] eqn:Hpush; [| exact I].
  assert (HI2 : Inv_state self (set_ready st1 h)).
  { unfold Inv_state. simpl. rewrite (push_all_tasks _ _ _ _ Hpush).
    unfold Inv_state in HI1. rewrite Hready in HI1.
    apply Inv_push; [exact HI1 | apply newly_ready_unscheduled_NoDup |].
    intros t Ht.
    apply newly_ready_unscheduled_spec in Ht as (_ & Hs & Hf & Hall).
    repeat split; auto. }
  destruct (newly_ready_unscheduled self st1).
  - destruct (negb silent_mode); [exact HI1 | apply place_next_Inv, HI2].
  - apply place_next_Inv, HI2.
Qed.

Lemma schedule_loop_Inv (fuel : nat) :
  forall st st',
    Inv_state self st ->
    schedule_loop self set_iter priority_of silent_mode fuel st = Finished st' ->
    Inv_state self st'.
Proof.
  induction fuel as [| fuel IH]; intros st st' HI; simpl.
  - destruct (loop_condition self st); [discriminate | now intros [= <-]].
  - destruct (loop_condition self st); [| now intros [= <-]].
    pose proof (loop_body_Inv st HI) as Hstep.
    destruct (loop_body self set_iter priority_of silent_mode st)
      as [st1 | st1 |]; simpl in Hstep.
    + apply IH, Hstep.
    + now intros [= <-].
    + discriminate.
Qed.

Lemma initial_state_Inv (h : heap) :
  push_all priority_of (initial_ready self) [] = Some h ->
  Inv_state self (initial_state h).
Proof.
  intros Hpush. unfold Inv_state. simpl.
  rewrite (push_all_tasks _ _ _ _ Hpush), app_nil_r.
  apply Inv_empty.
  - apply NoDup_rev. unfold initial_ready. apply NoDup_filter.
    unfold all_tasks. apply to_set_NoDup.
  - intros t Ht. apply in_rev in Ht. unfold initial_ready in Ht.
    apply filter_In in Ht as [_ Ht].
    destruct (dependencies_of dc t); [reflexivity | discriminate].
Qed.

(** Every state [schedule_tasks] ends in satisfies the invariant. *)
Lemma schedule_tasks_Inv (st : LoopState) :
  schedule_tasks self set_iter priority_of silent_mode = Finished st ->
  Inv_state self st.
Proof.
  unfold schedule_tasks.
  destruct (negb silent_mode && negb (validate_dag self)); [discriminate |].
  destruct (push_all priority_of (initial_ready self) []) as [h |] eqn:Hpush;
    [| discriminate].
  apply schedule_loop_Inv. now apply initial_state_Inv.
Qed.

End LoopInvariant.

(** ** The iteration counter and the fuel of the loop *)

Section LoopCounter.
Variable self : ProductionScheduler.
Variable set_iter : list Z -> list Z.
Variable priority_of : Z -> option Q.
Variable silent_mode : bool.

Lemma retry_or_fail_count (st : LoopState) (priority : Q) (t : Z) :
  iteration_count (retry_or_fail st priority t) = iteration_count st.
Proof.
  unfold retry_or_fail.
  destruct (get_default t (task_retry_counts st) 0 + 1 <? 3); reflexivity.
Qed.

Lemma place_next_count (st : LoopState) :
  counted st (place_next self set_iter priority_of st).
Proof.
  unfold place_next.
  destruct (heappop (ready_tasks st)) as [[[priority t] rest] |];
    [| reflexivity].
  destruct (3 <=? _); [reflexivity |].
  destruct (find_product_line self t) as [product_line |]; [| reflexivity].
  destruct (negb (truthy product_line)); [reflexivity |].
  destruct (dict_get t (tasks self)) as [info |]; [| exact I].
  destruct (find_window _ _ _ _ _) as [[[start tm] shift] |].
  - destruct (push_all _ _ _); [reflexivity | exact I].
  - simpl. now rewrite retry_or_fail_count.
Qed.

Lemma loop_body_count (st : LoopState) :
  match loop_body self set_iter priority_of silent_mode st with
  | Continue st' => iteration_count st' = iteration_count st + 1
  | Break st' => iteration_count st' = iteration_count st + 1
  | Raise => True
  end.
Proof.
  unfold loop_body.
  assert (Hplace : forall st1,
             iteration_count st1 = iteration_count st + 1 ->
             match place_next self set_iter priority_of st1 with
             | Continue st' => iteration_count st' = iteration_count st + 1
             | Break st' => iteration_count st' = iteration_count st + 1
             | Raise => True
             end).
  { intros st1 H1. pose proof (place_next_count st1) as Hc.
    destruct (place_next self set_iter priority_of st1); simpl in Hc;
      congruence. }
  destruct (ready_tasks (next_iteration st)); [| now apply Hplace].
  destruct (_ <? _); [| now apply Hplace].
  destruct (push_all _ _ _); [| exact I].
  destruct (newly_ready_unscheduled self (next_iteration st)).
  - destruct (negb silent_mode); [reflexivity | now apply Hplace].
  - now apply Hplace.
Qed.

Lemma loop_condition_count (st : LoopState) :
  loop_condition self st = true -> iteration_count st < max_iterations self.
Proof.
  unfold loop_condition. intros H. apply andb_true_iff in H as [_ H]. lia.
Qed.

(** Enough fuel: [schedule_loop] stops because its own condition fails. *)
Lemma schedule_loop_fuel (fuel : nat) :
  forall st,
    (Z.to_nat (max_iterations self - iteration_count st) <= fuel)%nat ->
    schedule_loop self set_iter priority_of silent_mode fuel st <> OutOfFuel.
Proof.
  induction fuel as [| fuel IH]; intros st Hfuel; simpl.
  - destruct (loop_condition self st) eqn:Hc; [| discriminate].
    apply loop_condition_count in Hc. lia.
  - destruct (loop_condition self st) eqn:Hc; [| discriminate].
    apply loop_condition_count in Hc.
    pose proof (loop_body_count st) as Hstep.
    destruct (loop_body self set_iter priority_of silent_mode st)
      as [st1 | st1 |]; try discriminate.
    apply IH. lia.
Qed.

Lemma schedule_loop_iterations (fuel : nat) :
  forall st st',
    iteration_count st <= max_iterations self ->
    schedule_loop self set_iter priority_of silent_mode fuel st = Finished st' ->
    iteration_count st <= iteration_count st' <= max_iterations self.
Proof.
  induction fuel as [| fuel IH]; intros st st' Hle; simpl.
  - destruct (loop_condition self st); [discriminate |].
    intros [= <-]. lia.
  - destruct (loop_condition self st) eqn:Hc; [| intros [= <-]; lia].
    apply loop_condition_count in Hc.
    pose proof (loop_body_count st) as Hstep.
    destruct (loop_body self set_iter priority_of silent_mode st)
      as [st1 | st1 |]; try discriminate.
    + intros Hrun. apply IH in Hrun; lia.
    + intros [= <-]. lia.
Qed.

End LoopCounter.

(** * The claims *)

Lemma list_order_In (l : list Z) (x : Z) : In x ((fun l => l) l) <-> In x l.
Proof. reflexivity. Qed.

(** ** C1: placement inside a shift *)

(** C1, as amended.  For every entry of a schedule that [schedule_tasks]
    returns, the start instant falls on a working day of the entry's product
    and inside a shift window; for a mechanic task that shift is the one
    recorded and the task's team works it, for a quality task it is a shift
    that some quality team works.  The end is the start plus the duration,
    wherever that falls. *)
Theorem C1_start_inside_shift_window
  (self : ProductionScheduler) (set_iter : list Z -> list Z)
  (priority_of : Z -> option Q) (silent_mode : bool)
  (st : LoopState) (t : Z) (p : Placement) :
  (forall l x, In x (set_iter l) <-> In x l) ->
  schedule_tasks self set_iter priority_of silent_mode = Finished st ->
  dict_get t (task_schedule st) = Some p ->
  is_working_day self (start_time p) (sched_product_line p) = true
  /\ end_time p = start_time p + sched_duration p
  /\ (sched_is_quality p = false ->
      In (sched_shift p) (team_shifts_of self (sched_team p))
      /\ shift_window (sched_shift p) (minute_of_day (start_time p)) = true)
  /\ (sched_is_quality p = true ->
      exists shift,
        shift_window shift (minute_of_day (start_time p)) = true
        /\ any_quality_team_works self shift = true).
Proof.
  intros Hiter Hrun Hp.
  pose proof (schedule_tasks_Inv _ _ _ _ Hiter _ Hrun) as HI.
  destruct (inv_entries _ _ _ _ HI t p Hp)
    as (info & Hinfo & (Hend & Hdur & Hmech & Hq) & Hday & Hm & Hqual & _).
  repeat split.
  - exact Hday.
  - congruence.
  - rewrite Hq in H. destruct (Hm H) as (-> & Hin & _). exact Hin.
  - rewrite Hq in H. apply (Hm H).
  - rewrite Hq. exact Hqual.
Qed.

Lemma C1_witness_quality_sample :
  sample_run ex_quality true = Finished ex_quality_final
  /\ dict_get 101 (task_schedule ex_quality_final) = Some ex_quality_entry
  /\ is_working_day ex_quality (start_time ex_quality_entry)
       (sched_product_line ex_quality_entry) = true.
Proof.
  split; [vm_compute; reflexivity |]. split; [vm_compute; reflexivity |].
  refine (proj1 (C1_start_inside_shift_window ex_quality (fun l => l)
                   (calculate_task_priority ex_quality sample_now) true
                   ex_quality_final 101 ex_quality_entry
                   list_order_In _ _)).
  - vm_compute; reflexivity.
  - vm_compute; reflexivity.
Defined.

(** C1 as stated fails: the only task of [ex_long_task] lasts 600 minutes,
    is placed on Friday from 06:00 to 16:00, and so runs past the end of the
    first shift (14:30), the only shift its team works. *)
Lemma C1_counterexample_long_task :
  exists p,
    sample_run ex_long_task true = Finished ex_long_task_final
    /\ dict_get 1 (task_schedule ex_long_task_final) = Some p
    /\ start_time p = start_date
    /\ end_time p = start_date + 600
    /\ ~ within_single_shift ex_long_task p.
Proof.
  eexists. split; [vm_compute; reflexivity |].
  split; [vm_compute; reflexivity |].
  split; [reflexivity |]. split; [reflexivity |].
  intros (shift & Hin & _ & Hall). vm_compute in Hin.
  destruct Hin as [<- | []].
  specialize (Hall (start_date + 510)). simpl in Hall.
  assert (Hrange : start_date <= start_date + 510 < 6720)
    by (vm_compute; split; [discriminate | reflexivity]).
  specialize (Hall Hrange). vm_compute in Hall. discriminate.
Qed.

(** ** C2: precedence *)

(** C2, as amended.  Take an edge of the effective graph with one of the
    three relationships, both endpoints placed, such that no other placed
    task is tied to its second endpoint by ['Finish = Start'].  Then the
    first task ends no later than the second starts, whatever the
    relationship: this is an inequality for ['Finish = Start'] too, and for
    ['Start <= Start'] it gives that the first starts no later than the
    second whenever its duration is not negative. *)
Theorem C2_finish_before_start
  (self : ProductionScheduler) (set_iter : list Z -> list Z)
  (priority_of : Z -> option Q) (silent_mode : bool)
  (st : LoopState) (c : Constraint) (pa pb : Placement) :
  (forall l x, In x (set_iter l) <-> In x l) ->
  schedule_tasks self set_iter priority_of silent_mode = Finished st ->
  In c (build_dynamic_dependencies self) ->
  is_dependency_relationship (Relationship c) = true ->
  dict_get (First c) (task_schedule st) = Some pa ->
  dict_get (Second c) (task_schedule st) = Some pb ->
  (forall d pd, d <> First c -> dict_get d (task_schedule st) = Some pd ->
                is_finish_equals_start (build_dynamic_dependencies self)
                  d (Second c) = false) ->
  end_time pa <= start_time pb
  /\ (0 <= sched_duration pa -> start_time pa <= start_time pb).
Proof.
  intros Hiter Hrun Hc Hrel Ha Hb Hfs.
  pose proof (schedule_tasks_Inv _ _ _ _ Hiter _ Hrun) as HI.
  assert (Hdep : In (First c)
                   (dependencies_of (build_dynamic_dependencies self)
                      (Second c))).
  { apply dependencies_of_In. exists c. auto. }
  pose proof (inv_precedence _ _ _ _ HI _ _ _ _ Ha Hb Hdep Hfs) as Hle.
  split; [exact Hle |].
  destruct (inv_entries _ _ _ _ HI _ _ Ha)
    as (info & _ & (Hend & Hdur & _) & _).
  intros Hpos. rewrite Hdur in Hpos. lia.
Qed.

Lemma C2_witness_quality_sample :
  exists pa pb,
    dict_get 1 (task_schedule ex_quality_final) = Some pa
    /\ dict_get 101 (task_schedule ex_quality_final) = Some pb
    /\ end_time pa <= start_time pb
    /\ (0 <= sched_duration pa -> start_time pa <= start_time pb).
Proof.
  eexists. eexists.
  split; [vm_compute; reflexivity |]. split; [vm_compute; reflexivity |].
  refine (C2_finish_before_start ex_quality (fun l => l)
            (calculate_task_priority ex_quality sample_now) true
            ex_quality_final (plain_edge 1 101 FINISH_EQ_START) _ _
            list_order_In _ _ _ _ _ _).
  - vm_compute; reflexivity.
  - vm_compute; auto.
  - vm_compute; reflexivity.
  - vm_compute; reflexivity.
  - vm_compute; reflexivity.
  - intros d pd Hd Hget. simpl in Hd.
    destruct (Z.eq_dec d 101) as [-> | H101]; [reflexivity |].
    destruct (Z.eq_dec d 2) as [-> | H2]; [reflexivity |].
    exfalso. revert Hget. unfold ex_quality_final, task_schedule. simpl.
    destruct (Z.eqb_spec d 1); [contradiction |].
    destruct (Z.eqb_spec d 101); [contradiction |].
    destruct (Z.eqb_spec d 2); [contradiction | discriminate].
Defined.

(** C2 as stated fails for ['Finish = Start']: in [ex_finish_equals_start]
    task 1 ends on Friday 14:30, when the only shift of the team ends, and
    task 2, tied to it by ['Finish = Start'], starts on Monday 06:00. *)
Lemma C2_counterexample_finish_equals_start :
  exists c pa pb,
    sample_run ex_finish_equals_start true
      = Finished ex_finish_equals_start_final
    /\ In c (build_dynamic_dependencies ex_finish_equals_start)
    /\ dict_get (First c) (task_schedule ex_finish_equals_start_final)
       = Some pa
    /\ dict_get (Second c) (task_schedule ex_finish_equals_start_final)
       = Some pb
    /\ end_time pa = 4 * minutes_per_day + 870
    /\ start_time pb = 7 * minutes_per_day + 360
    /\ ~ relation_holds (Relationship c) pa pb.
Proof.
  exists (plain_edge 1 2 FINISH_EQ_START). eexists. eexists.
  split; [vm_compute; reflexivity |].
  split; [vm_compute; auto |].
  split; [vm_compute; reflexivity |].
  split; [vm_compute; reflexivity |].
  split; [reflexivity |]. split; [reflexivity |].
  intros (_ & Heq & _). specialize (Heq eq_refl). discriminate.
Qed.

(** ** C3: team capacity *)

Lemma usage_at_busy (l : list Placement) (m : datetime) :
  usage_at l m <> 0 -> exists sched, In sched l /\ covers sched m = true.
Proof.
  induction l as [| p l IH]; simpl; [congruence |].
  destruct (covers p m) eqn:Hcov.
  - intros _. exists p. auto.
  - intros Hne. destruct IH as (s & Hs & Hc); [lia |]. exists s. auto.
Qed.

(** C3, as amended.  In a schedule that [schedule_tasks] returns, the
    workers of a team busy at a minute (the sum of [mechanics_required] over
    the team's entries whose interval contains the minute) do not exceed the
    team's capacity, at every minute that some entry of the team covers, and
    at every other minute when the capacity of the team is not negative. *)
Theorem C3_team_capacity_respected
  (self : ProductionScheduler) (set_iter : list Z -> list Z)
  (priority_of : Z -> option Q) (silent_mode : bool)
  (st : LoopState) (team : string) (m : datetime) :
  (forall l x, In x (set_iter l) <-> In x l) ->
  schedule_tasks self set_iter priority_of silent_mode = Finished st ->
  busy (task_schedule st) team m \/ 0 <= capacity_of self team ->
  usage_at (team_tasks (task_schedule st) team) m <= capacity_of self team.
Proof.
  intros Hiter Hrun Hcase.
  pose proof (schedule_tasks_Inv _ _ _ _ Hiter _ Hrun) as HI.
  destruct (Z.eq_dec (usage_at (team_tasks (task_schedule st) team) m) 0)
    as [Hzero | Hbusy].
  - destruct Hcase as [Hb | Hcap]; [| lia].
    apply (inv_capacity _ _ _ _ HI), Hb.
  - apply (inv_capacity _ _ _ _ HI). now apply usage_at_busy.
Qed.

Lemma C3_witness_capacity_sample :
  sample_run ex_capacity true = Finished ex_capacity_final
  /\ usage_at (team_tasks (task_schedule ex_capacity_final) "M1")
       (start_date + 30) = 2
  /\ usage_at (team_tasks (task_schedule ex_capacity_final) "M1")
       (start_date + 30) <= capacity_of ex_capacity "M1".
Proof.
  split; [vm_compute; reflexivity |]. split; [vm_compute; reflexivity |].
  apply (C3_team_capacity_respected ex_capacity (fun l => l)
           (calculate_task_priority ex_capacity sample_now) true
           ex_capacity_final "M1" (start_date + 30) list_order_In).
  - vm_compute; reflexivity.
  - right. vm_compute. discriminate.
Defined.

(** C3 as stated fails for a team without work whose head count is
    negative, which the capacity table may hold: in the run on
    [ex_negative_head_count] task 1 of team M1 is placed from the start
    date, and at that minute, inside the span of the schedule, team M2 has
    nobody at work, which is more than its capacity of -1. *)
Lemma C3_counterexample_negative_head_count :
  sample_run ex_negative_head_count true
  = Finished ex_negative_head_count_final
  /\ (exists p,
         dict_get 1 (task_schedule ex_negative_head_count_final) = Some p
         /\ start_time p <= start_date < end_time p)
  /\ dict_get "M2" (team_capacity ex_negative_head_count) = Some (-1)
  /\ capacity_of ex_negative_head_count "M2" = -1
  /\ usage_at (team_tasks (task_schedule ex_negative_head_count_final) "M2")
       start_date = 0
  /\ ~ usage_at (team_tasks (task_schedule ex_negative_head_count_final)
                   "M2") start_date
       <= capacity_of ex_negative_head_count "M2".
Proof.
  split; [vm_compute; reflexivity |]. split.
  - eexists. split; [vm_compute; reflexivity |].
    split; vm_compute; [discriminate | reflexivity].
  - split; [reflexivity |]. split; [reflexivity |].
    split; [reflexivity |]. vm_compute. intros H. now apply H.
Qed.

(** ** C5: late parts *)

Lemma timedelta_whole_days (d : Q) (k : Z) :
  (d == inject_Z k)%Q -> timedelta_days d = k * minutes_per_day.
Proof.
  intros Hd. unfold timedelta_days. rewrite Hd.
  rewrite <- inject_Z_mult. apply Qfloor_Z.
Qed.

Lemma replace_time_whole_days (t k : Z) :
  replace_time (t + k * minutes_per_day) 6 0
  = replace_time t 6 0 + k * minutes_per_day.
Proof.
  unfold replace_time, date_of, minutes_per_day.
  rewrite Z.div_add by lia. lia.
Qed.

Lemma no_finish_equals_start_check_sound (self : ProductionScheduler)
  (task_id : Z) :
  no_finish_equals_start_check (build_dynamic_dependencies self) task_id = true ->
  no_finish_equals_start_into self task_id.
Proof.
  unfold no_finish_equals_start_check, no_finish_equals_start_into,
    is_finish_equals_start.
  intros Hall d. rewrite forallb_forall in Hall.
  destruct (existsb _ _) eqn:E; [| reflexivity].
  apply existsb_exists in E as (c & Hc & Hf).
  specialize (Hall c Hc). apply negb_true_iff in Hall.
  apply andb_true_iff in Hf as [Hf Hrel]. apply andb_true_iff in Hf as [_ Hsec].
  rewrite Hsec, Hrel in Hall. discriminate.
Qed.

(** X27.  A placed late part task with an on-dock date, which no
    ['Finish = Start'] edge enters, starts no earlier than 06:00 of the
    calendar day on which on-dock date plus delay falls.  When the delay is
    a whole number of days and the on-dock instant is not later than 06:00
    (the loader reads dates, 00:00), the start is therefore no earlier than
    on-dock date plus delay. *)
Theorem X27_late_part_start_bound
  (self : ProductionScheduler) (set_iter : list Z -> list Z)
  (priority_of : Z -> option Q) (silent_mode : bool)
  (st : LoopState) (t : Z) (p : Placement) (on_dock_date : datetime) :
  (forall l x, In x (set_iter l) <-> In x l) ->
  schedule_tasks self set_iter priority_of silent_mode = Finished st ->
  dict_get t (task_schedule st) = Some p ->
  mem t (late_part_tasks self) = true ->
  dict_get t (on_dock_dates self) = Some on_dock_date ->
  no_finish_equals_start_into self t ->
  replace_time (on_dock_date + timedelta_days (late_part_delay_days self)) 6 0
  <= start_time p
  /\ (forall k : Z,
         (late_part_delay_days self == inject_Z k)%Q ->
         minute_of_day on_dock_date <= 360 ->
         after_on_dock_delay self on_dock_date p).
Proof.
  intros Hiter Hrun Hp Hlp Hdock Hfs.
  pose proof (schedule_tasks_Inv _ _ _ _ Hiter _ Hrun) as HI.
  destruct (inv_entries _ _ _ _ HI t p Hp) as (info & _ & _ & _ & _ & _ & Hlate).
  specialize (Hlate Hlp Hfs).
  unfold get_earliest_start_for_late_part in Hlate. rewrite Hdock in Hlate.
  split; [exact Hlate |].
  intros k Hk Hmorning.
  rewrite (timedelta_whole_days _ _ Hk), replace_time_whole_days in Hlate.
  unfold after_on_dock_delay. rewrite Hk.
  rewrite <- inject_Z_mult, <- inject_Z_plus, <- Zle_Qle.
  rewrite minute_of_day_eq in Hmorning.
  unfold replace_time in Hlate. lia.
Qed.

Lemma X27_witness_one_day :
  exists p,
    dict_get 301 (task_schedule ex_late_part_one_final) = Some p
    /\ start_time p = 8 * minutes_per_day + 360
    /\ after_on_dock_delay (ex_late_part 1) (7 * minutes_per_day) p.
Proof.
  eexists. split; [vm_compute; reflexivity |]. split; [reflexivity |].
  refine (proj2 (X27_late_part_start_bound (ex_late_part 1)
                   (fun l => l)
                   (calculate_task_priority (ex_late_part 1) sample_now) true
                   ex_late_part_one_final 301 _ (7 * minutes_per_day)
                   list_order_In _ _ _ _ _) 1 _ _).
  - vm_compute; reflexivity.
  - vm_compute; reflexivity.
  - vm_compute; reflexivity.
  - vm_compute; reflexivity.
  - apply no_finish_equals_start_check_sound. vm_compute; reflexivity.
  - reflexivity.
  - vm_compute. discriminate.
Defined.

(** C5.  The code at a delay that is not a whole number of days: with
    [late_part_delay_days] = 0.5 and the part on dock on Monday 00:00,
    [get_earliest_start_for_late_part] replaces the time of day of on-dock
    date plus delay (Monday 12:00) by 06:00, and the late part task 301
    starts on that Monday at 06:00, six hours before on-dock date plus
    delay. *)
Lemma C5_half_day_delay_starts_early :
  exists p,
    (0 < late_part_delay_days (ex_late_part (1 # 2)))%Q
    /\ sample_run (ex_late_part (1 # 2)) true
       = Finished ex_late_part_half_final
    /\ mem 301 (late_part_tasks (ex_late_part (1 # 2))) = true
    /\ dict_get 301 (on_dock_dates (ex_late_part (1 # 2)))
       = Some (7 * minutes_per_day)
    /\ dict_get 301 (task_schedule ex_late_part_half_final) = Some p
    /\ start_time p = 7 * minutes_per_day + 360
    /\ ~ after_on_dock_delay (ex_late_part (1 # 2)) (7 * minutes_per_day) p.
Proof.
  eexists. split; [reflexivity |]. split; [vm_compute; reflexivity |].
  split; [reflexivity |]. split; [reflexivity |].
  split; [vm_compute; reflexivity |]. split; [reflexivity |].
  unfold after_on_dock_delay, Qle. simpl. lia.
Qed.

(** ** C10: termination *)

Lemma find_window_search_error (self : ProductionScheduler)
  (task_schedule : Schedule) (info : TaskInfo) (earliest_start : datetime)
  (product_line : string) (n : Z) :
  is_quality info = false ->
  get_next_working_time_with_capacity self task_schedule earliest_start
    product_line (team info) (mechanics_required info) (duration info) false
    = SearchError n ->
  find_window self task_schedule info earliest_start product_line = None.
Proof.
  intros Hq Hsearch. unfold find_window. now rewrite Hq, Hsearch.
Qed.

Lemma retry_or_fail_counts (st : LoopState) (priority : Q) (t : Z) :
  task_schedule (retry_or_fail st priority t) = task_schedule st
  /\ get_default t (task_retry_counts (retry_or_fail st priority t)) 0
     = get_default t (task_retry_counts st) 0 + 1.
Proof.
  unfold retry_or_fail.
  destruct (get_default t (task_retry_counts st) 0 + 1 <? 3); simpl;
    (split; [reflexivity |]);
    unfold get_default at 1; now rewrite dict_get_set_same.
Qed.

Lemma search_is_bounded (self : ProductionScheduler)
  (task_schedule : Schedule) (t0 : datetime) (product_line team : string)
  (mechanics_needed duration : Z) (is_quality : bool) :
  search_bounded
    (get_next_working_time_with_capacity self task_schedule t0 product_line
       team mechanics_needed duration is_quality).
Proof.
  destruct (get_next_working_time_with_capacity self task_schedule t0
              product_line team mechanics_needed duration is_quality)
    as [t shift n | n |] eqn:Hsearch; simpl.
  - apply get_next_working_time_found in Hsearch. tauto.
  - unfold get_next_working_time_with_capacity in Hsearch.
    apply next_working_loop_error in Hsearch;
      [assumption | unfold max_search_iterations; lia].
  - now apply get_next_working_time_returns in Hsearch.
Qed.

(** C10, as amended.  [schedule_tasks] always ends (it returns or raises):
    its loop runs at most ten times the number of tasks iterations, and a
    window search takes at most 5000 steps before it returns a slot or
    raises.  The error is caught: for a mechanic task no window is found,
    and whenever no window is found for the task popped from the queue, the
    iteration goes on with the schedule unchanged and the retry count of
    that task raised by one.  For a quality task the error of the search of
    one shift only skips that shift: the round of that shift leaves the
    slot, team and shift found so far as they are. *)
Theorem C10_loops_are_bounded
  (self : ProductionScheduler) (set_iter : list Z -> list Z)
  (priority_of : Z -> option Q) (silent_mode : bool) :
  schedule_tasks self set_iter priority_of silent_mode <> OutOfFuel
  /\ (forall st,
         schedule_tasks self set_iter priority_of silent_mode = Finished st ->
         0 <= iteration_count st <= 10 * total_tasks self)
  /\ (forall task_schedule t0 product_line team mechanics_needed duration
             is_quality,
         search_bounded
           (get_next_working_time_with_capacity self task_schedule t0
              product_line team mechanics_needed duration is_quality))
  /\ (forall task_schedule info earliest_start product_line n,
         is_quality info = false ->
         get_next_working_time_with_capacity self task_schedule earliest_start
           product_line (team info) (mechanics_required info) (duration info)
           false = SearchError n ->
         find_window self task_schedule info earliest_start product_line
         = None)
  /\ (forall st priority task_id rest product_line info,
         heappop (ready_tasks st) = Some ((priority, task_id), rest) ->
         get_default task_id (task_retry_counts st) 0 < 3 ->
         find_product_line self task_id = Some product_line ->
         truthy product_line = true ->
         dict_get task_id (tasks self) = Some info ->
         find_window self (task_schedule st) info
           (earliest_start_of self set_iter (task_schedule st) task_id)
           product_line = None ->
         exists st',
           place_next self set_iter priority_of st = Continue st'
           /\ task_schedule st' = task_schedule st
           /\ get_default task_id (task_retry_counts st') 0
              = get_default task_id (task_retry_counts st) 0 + 1)
  /\ (forall task_schedule earliest_start product_line mechanics_needed
             duration best try_shift temp_team n,
         assign_quality_team_balanced self task_schedule try_shift
           mechanics_needed = Some temp_team ->
         get_next_working_time_with_capacity self task_schedule earliest_start
           product_line temp_team mechanics_needed duration true
         = SearchError n ->
         try_quality_shift self task_schedule earliest_start product_line
           mechanics_needed duration best try_shift = best).
Proof.
  assert (Hmax : 0 <= max_iterations self)
    by (unfold max_iterations, total_tasks; lia).
  split; [| split; [| split; [| split; [| split]]]].
  - unfold schedule_tasks.
    destruct (negb silent_mode && negb (validate_dag self)); [discriminate |].
    destruct (push_all priority_of (initial_ready self) []);
      [| discriminate].
    apply schedule_loop_fuel.
    change (iteration_count (initial_state h)) with 0. lia.
  - intros st. unfold schedule_tasks.
    destruct (negb silent_mode && negb (validate_dag self)); [discriminate |].
    destruct (push_all priority_of (initial_ready self) []);
      [| discriminate].
    intros Hrun. apply schedule_loop_iterations in Hrun.
    + change (iteration_count (initial_state h)) with 0 in Hrun.
      unfold max_iterations in Hrun. lia.
    + exact Hmax.
  - intros. apply search_is_bounded.
  - intros task_schedule info earliest_start product_line n.
    apply find_window_search_error.
  - intros st priority task_id rest product_line info
           Hpop Hretry Hproduct Htruthy Hinfo Hwindow.
    exists (retry_or_fail (set_ready st rest) priority task_id).
    destruct (retry_or_fail_counts (set_ready st rest) priority task_id)
      as [Hsched Hcount].
    split; [| split; assumption].
    unfold place_next. rewrite Hpop. cbn [set_ready task_retry_counts].
    destruct (Z.leb_spec 3 (get_default task_id (task_retry_counts st) 0));
      [lia |].
    rewrite Hproduct, Htruthy. cbn [negb]. rewrite Hinfo.
    change (task_schedule (set_ready st rest)) with (task_schedule st).
    rewrite Hwindow. reflexivity.
  - intros task_schedule earliest_start product_line mechanics_needed
           duration best try_shift temp_team n Hteam Hsearch.
    unfold try_quality_shift. rewrite Hteam, Hsearch.
    destruct (truthy temp_team); reflexivity.
Qed.

Lemma C10_witness_no_shift_sample :
  sample_run ex_no_shift true = Finished ex_no_shift_final
  /\ 0 <= iteration_count ex_no_shift_final <= 10 * total_tasks ex_no_shift
  /\ exists st',
      place_next ex_no_shift (fun l => l)
        (calculate_task_priority ex_no_shift sample_now) ex_no_shift_start
      = Continue st'
      /\ task_schedule st' = task_schedule ex_no_shift_start
      /\ get_default 1 (task_retry_counts st') 0
         = get_default 1 (task_retry_counts ex_no_shift_start) 0 + 1.
Proof.
  pose proof (C10_loops_are_bounded ex_no_shift (fun l => l)
                (calculate_task_priority ex_no_shift sample_now) true)
    as (_ & Hiterations & _ & Hnone & Hretry & _).
  split; [vm_compute; reflexivity |].
  split.
  - apply Hiterations. vm_compute; reflexivity.
  - eapply (Hretry ex_no_shift_start _ 1 [] "P" (production_task 60 "M9" 1)).
    + vm_compute; reflexivity.
    + vm_compute; reflexivity.
    + vm_compute; reflexivity.
    + vm_compute; reflexivity.
    + vm_compute; reflexivity.
    + apply (Hnone _ _ _ _ 5000); vm_compute; reflexivity.
Defined.

(** C10 as stated fails in its last clause: the error of a window search is
    caught but not always counted as a retry.  In [ex_busy_quality_team],
    after three iterations the inspection 102 is popped; the search on team
    Q1, busy with the 20000-minute inspection 101, raises after 5000 steps;
    the search on Q2 then finds a slot, the task is placed and no retry is
    counted in this iteration or anywhere in the run. *)
Lemma C10_counterexample_uncounted_error :
  run_prefix ex_busy_quality_team (fun l => l)
    (calculate_task_priority ex_busy_quality_team sample_now) true 3
    (sample_start ex_busy_quality_team)
  = Some ex_busy_quality_team_third
  /\ heappop (ready_tasks ex_busy_quality_team_third)
     = Some ((inject_Z (-1000), 102), [])
  /\ assign_quality_team_balanced ex_busy_quality_team
       (task_schedule ex_busy_quality_team_third) "1st" 1 = Some "Q1"
  /\ get_next_working_time_with_capacity ex_busy_quality_team
       (task_schedule ex_busy_quality_team_third)
       (earliest_start_of ex_busy_quality_team (fun l => l)
          (task_schedule ex_busy_quality_team_third) 102)
       "P" "Q1" 1 30 true
     = SearchError 5000
  /\ loop_body ex_busy_quality_team (fun l => l)
       (calculate_task_priority ex_busy_quality_team sample_now) true
       ex_busy_quality_team_third
     = Continue ex_busy_quality_team_final
  /\ sample_run ex_busy_quality_team true
     = Finished ex_busy_quality_team_final
  /\ dict_mem 102 (task_schedule ex_busy_quality_team_final) = true
  /\ task_retry_counts ex_busy_quality_team_final = [].
Proof.
  repeat split; vm_compute; reflexivity.
Qed.

(** ** C4: the makespan of a partial schedule *)

Lemma length_lt_of_missing (l l' : list Z) (y : Z) :
  NoDup l -> (forall x, In x l -> In x l') -> In y l' -> ~ In y l ->
  (List.length l < List.length l')%nat.
Proof.
  intros Hnd Hsub Hy Hny.
  assert (Hle : (List.length (y :: l) <= List.length l')%nat).
  { apply NoDup_incl_length; [now constructor |].
    intros x [<- | Hx]; auto. }
  simpl in Hle. lia.
Qed.

Lemma placed_tasks_are_tasks (self : ProductionScheduler)
  (task_schedule : Schedule) (ready failed : list Z) (t : Z) :
  Inv self task_schedule ready failed ->
  In t (dict_keys task_schedule) -> In t (all_tasks self).
Proof.
  intros HI Ht. apply dict_mem_In, dict_mem_get in Ht as [p Hp].
  destruct (inv_entries _ _ _ _ HI t p Hp) as (info & Hinfo & _).
  unfold all_tasks. apply to_set_In, dict_mem_In, dict_mem_get. eauto.
Qed.

(** C4, as amended.  For a schedule returned by [schedule_tasks] that
    leaves some task unplaced, [calculate_makespan] returns the sentinel
    999999, one less than 10^6, when at least one task is placed, and 0
    when no task is placed. *)
Theorem C4_makespan_of_partial_schedule
  (self : ProductionScheduler) (set_iter : list Z -> list Z)
  (priority_of : Z -> option Q) (silent_mode : bool) (st : LoopState) :
  (forall l x, In x (set_iter l) <-> In x l) ->
  schedule_tasks self set_iter priority_of silent_mode = Finished st ->
  (exists t, In t (all_tasks self)
             /\ dict_get t (task_schedule st) = None) ->
  (task_schedule st <> [] ->
   calculate_makespan self (task_schedule st) = SENTINEL)
  /\ (task_schedule st = [] -> calculate_makespan self (task_schedule st) = 0)
  /\ SENTINEL = 10 ^ 6 - 1.
Proof.
  intros Hiter Hrun (t & Htask & Hmissing).
  pose proof (schedule_tasks_Inv _ _ _ _ Hiter _ Hrun) as HI.
  split; [| split; [intros ->; reflexivity | reflexivity]].
  intros Hne. unfold calculate_makespan.
  destruct (task_schedule st) as [| [k v] rest] eqn:Hsched;
    [congruence |].
  cbn [dict_values map snd].
  rewrite <- Hsched in *.
  assert (Hlt : (List.length (dict_keys (task_schedule st))
                 < List.length (all_tasks self))%nat).
  { apply (length_lt_of_missing _ _ t).
    - apply (inv_keys _ _ _ _ HI).
    - intros x. apply (placed_tasks_are_tasks _ _ _ _ _ HI).
    - exact Htask.
    - now apply dict_get_None. }
  unfold dict_keys in Hlt. rewrite length_map in Hlt.
  unfold total_tasks.
  destruct (Z.ltb_spec (Z.of_nat (List.length (task_schedule st)))
              (Z.of_nat (List.length (all_tasks self)))); [reflexivity | lia].
Qed.

Lemma C4_witness_partial_sample :
  sample_run ex_partial true = Finished ex_partial_final
  /\ dict_get 2 (task_schedule ex_partial_final) = None
  /\ calculate_makespan ex_partial (task_schedule ex_partial_final) = SENTINEL.
Proof.
  split; [vm_compute; reflexivity |]. split; [vm_compute; reflexivity |].
  refine (proj1 (C4_makespan_of_partial_schedule ex_partial (fun l => l)
                   (calculate_task_priority ex_partial sample_now) true
                   ex_partial_final list_order_In _ _) _).
  - vm_compute; reflexivity.
  - exists 2. split; [vm_compute; auto | vm_compute; reflexivity].
  - vm_compute; discriminate.
Defined.

(** C4 as stated fails twice over.  [ex_partial] places task 1 and leaves
    task 2, and the makespan is 999999, which is less than 10^6;
    [ex_nothing_placed] has one task and places none, and the makespan is 0. *)
Lemma C4_counterexample_sentinel :
  sample_run ex_partial true = Finished ex_partial_final
  /\ In 2 (all_tasks ex_partial)
  /\ dict_get 2 (task_schedule ex_partial_final) = None
  /\ calculate_makespan ex_partial (task_schedule ex_partial_final) = 999999
  /\ ~ 10 ^ 6 <= calculate_makespan ex_partial (task_schedule ex_partial_final)
  /\ sample_run ex_nothing_placed true = Finished ex_nothing_placed_final
  /\ In 2 (all_tasks ex_nothing_placed)
  /\ task_schedule ex_nothing_placed_final = []
  /\ calculate_makespan ex_nothing_placed
       (task_schedule ex_nothing_placed_final) = 0.
Proof.
  repeat split; try (vm_compute; reflexivity); try (vm_compute; auto).
Qed.

(** ** C6: quality interposition on base edges *)

Lemma fold_left_appends {A B : Type} (f : list A -> B -> list A)
  (l : list B) :
  (forall acc x, exists more, f acc x = acc ++ more) ->
  forall acc, exists rest, fold_left f l acc = acc ++ rest.
Proof.
  intros Hf. induction l as [| x l IH]; intros acc; simpl.
  - exists []. now rewrite app_nil_r.
  - destruct (Hf acc x) as [more ->].
    destruct (IH (acc ++ more)) as [rest ->].
    exists (more ++ rest). now rewrite app_assoc.
Qed.


Lemma late_part_step_appends (dc : list Constraint) (c : LatePartConstraint) :
  exists more, late_part_step dc c = dc ++ more.
Proof. unfold late_part_step. eauto. Qed.

Lemma rework_step_appends (qr : dict Z Z) (dc : list Constraint)
  (c : ReworkConstraint) :
  exists more, rework_step qr dc c = dc ++ more.
Proof.
  unfold rework_step. destruct (dict_get (rw_First c) qr) as [q |].
  - rewrite <- app_assoc. eauto.
  - eauto.
Qed.

Lemma residual_step_appends (dc : list Constraint) (link : Z * Z) :
  exists more, residual_step dc link = dc ++ more.
Proof.
  unfold residual_step. destruct link as [a q].
  destruct (has_edge a q dc).
  - exists []. now rewrite app_nil_r.
  - eauto.
Qed.

Lemma has_edge_In (a b : Z) (dc : list Constraint) :
  has_edge a b dc = true <-> exists c, In c dc /\ First c = a /\ Second c = b.
Proof.
  unfold has_edge. rewrite existsb_exists. split.
  - intros (c & Hc & H). apply andb_true_iff in H.
    rewrite !Z.eqb_eq in H. exists c. tauto.
  - intros (c & Hc & Ha & Hb). exists c. split; [assumption |].
    apply andb_true_iff. now rewrite !Z.eqb_eq.
Qed.



(** ** C9: utilization *)

Lemma dict_get_map_values {V W : Type} (f : string -> V -> W)
  (d : dict string V) (k : string) :
  dict_get k (map (fun '(t, v) => (t, f t v)) d)
  = option_map (f k) (dict_get k d).
Proof.
  induction d as [| [t v] d IH]; simpl; [reflexivity |].
  destruct (String.eqb_spec k t) as [-> | Hne]; [reflexivity | exact IH].
Qed.

Lemma fold_sum_nonneg (f : Placement -> Z) (l : list Placement) :
  forall acc,
    0 <= acc -> (forall p, In p l -> 0 <= f p) ->
    0 <= fold_left (fun a p => a + f p) l acc.
Proof.
  induction l as [| p l IH]; intros acc Hacc Hl; simpl; [exact Hacc |].
  apply IH.
  - specialize (Hl p (or_introl eq_refl)). lia.
  - intros q Hq. apply Hl. now right.
Qed.

Lemma scheduled_minutes_nonneg (task_schedule : Schedule) (team : string) :
  (forall p, In p (dict_values task_schedule) ->
             0 <= sched_duration p * sched_mechanics_required p) ->
  0 <= scheduled_minutes task_schedule team.
Proof.
  intros Hpos. unfold scheduled_minutes.
  apply (fold_sum_nonneg
           (fun p => sched_duration p * sched_mechanics_required p));
    [lia |].
  intros p Hp. apply Hpos. unfold team_tasks in Hp.
  now apply filter_In in Hp.
Qed.

Lemma team_utilization_formula (self : ProductionScheduler)
  (task_schedule : Schedule) (team : string) (capacity : Z)
  (shifts : list string) :
  let u := team_utilization self task_schedule team capacity shifts in
  ((0 < available_minutes u)%Q ->
   utilization u = spec_utilization self task_schedule team capacity shifts)
  /\ ((available_minutes u <= 0)%Q -> utilization u = 0%Q)
  /\ ((forall p, In p (dict_values task_schedule) ->
                 0 <= sched_duration p * sched_mechanics_required p) ->
      (0 <= utilization u)%Q).
Proof.
  cbn zeta. unfold team_utilization. cbn [utilization available_minutes].
  set (available := (inject_Z capacity
                     * inject_Z (Z.of_nat (List.length shifts))
                     * minutes_per_shift
                     * inject_Z (calculate_makespan self task_schedule))%Q).
  destruct (Qle_bool available 0) eqn:E.
  - apply Qle_bool_iff in E. repeat split.
    + intros Hpos. exfalso. apply (Qlt_irrefl 0).
      eapply Qlt_le_trans; eauto.
    + intros _. apply Qle_refl.
  - assert (Hpos : (0 < available)%Q).
    { apply Qnot_le_lt. intros Hle. apply Qle_bool_iff in Hle. congruence. }
    repeat split.
    + intros Habs. exfalso. apply (Qlt_irrefl 0).
      eapply Qlt_le_trans; eauto.
    + intros Hnonneg. apply Qle_shift_div_l; [exact Hpos |].
      rewrite Qmult_0_l. rewrite <- (Zle_Qle 0).
      now apply scheduled_minutes_nonneg.
Qed.

(** C9, as amended.  The utilization reported for a team is the scheduled
    worker minutes divided by capacity times shifts worked times 510 times
    makespan days whenever that product is positive, and 0 otherwise.  It is
    not clamped: it is not negative as long as no entry has a negative
    product of duration and workers, but nothing bounds it by 1. *)
Theorem C9_utilization_formula
  (self : ProductionScheduler) (task_schedule : Schedule) (team : string)
  (u : TeamUtilization) (capacity : Z) (shifts : list string) :
  utilization_entry self task_schedule team u capacity shifts ->
  ((0 < available_minutes u)%Q ->
   utilization u = spec_utilization self task_schedule team capacity shifts)
  /\ ((available_minutes u <= 0)%Q -> utilization u = 0%Q)
  /\ ((forall p, In p (dict_values task_schedule) ->
                 0 <= sched_duration p * sched_mechanics_required p) ->
      (0 <= utilization u)%Q).
Proof.
  unfold utilization_entry, _calculate_team_utilization. cbn [fst snd].
  rewrite !dict_get_map_values.
  intros [(Hu & Hcap & ->) | (Hu & Hcap & ->)]; rewrite Hcap in Hu;
    injection Hu as <-; apply team_utilization_formula.
Qed.

Lemma C9_witness_capacity_sample :
  exists u,
    utilization_entry ex_capacity (task_schedule ex_capacity_final) "M1" u 2
      ["1st"]
    /\ (utilization u == 180 # 1020)%Q
    /\ (0 <= utilization u)%Q.
Proof.
  eexists. split; [left; repeat split; vm_compute; reflexivity |].
  split; [vm_compute; reflexivity |].
  refine (proj2 (proj2 (C9_utilization_formula ex_capacity
                          (task_schedule ex_capacity_final) "M1" _ 2 ["1st"]
                          _)) _).
  - left. repeat split; vm_compute; reflexivity.
  - intros p Hp. vm_compute in Hp.
    destruct Hp as [<- | [<- | [<- | []]]]; vm_compute; discriminate.
Defined.

(** C9 as stated fails: the value is not clamped.  For the full schedule of
    [ex_long_task] (one task of 600 worker minutes, a team of one working
    one shift, a makespan of one day) the utilization of team M1 is
    600 / 510, more than 1. *)
Lemma C9_counterexample_above_one :
  exists u,
    sample_run ex_long_task true = Finished ex_long_task_final
    /\ List.length (task_schedule ex_long_task_final)
       = List.length (all_tasks ex_long_task)
    /\ dict_get "M1"
         (fst (_calculate_team_utilization ex_long_task
                 (task_schedule ex_long_task_final)))
       = Some u
    /\ (utilization u == 600 # 510)%Q
    /\ ~ (utilization u <= 1)%Q.
Proof.
  eexists. split; [vm_compute; reflexivity |].
  split; [vm_compute; reflexivity |].
  split; [vm_compute; reflexivity |].
  split; [vm_compute; reflexivity |].
  intros H. vm_compute in H. apply H. reflexivity.
Qed.

(** ** The successor search of the slack computation ends *)

Section Successors.
Variable dynamic_constraints : list Constraint.

Local Abbreviation targets := (to_set (map Second dynamic_constraints)).

Lemma mem_set_add (x y : Z) (seen : list Z) :
  mem y (set_add x seen) = (y =? x) || mem y seen.
Proof.
  destruct (mem y (set_add x seen)) eqn:E.
  - apply mem_In, set_add_In in E. symmetry. apply orb_true_iff.
    destruct E as [-> | E]; [left; apply Z.eqb_refl | right; now apply mem_In].
  - symmetry. apply orb_false_iff. apply mem_false in E.
    rewrite set_add_In in E. split.
    + apply Z.eqb_neq. intros ->. tauto.
    + apply mem_false. tauto.
Qed.

Lemma filter_add_length (x : Z) (seen l : list Z) :
  NoDup l -> mem x seen = false ->
  (List.length (filter (fun y => negb (mem y (set_add x seen))) l)
   + (if mem x l then 1 else 0)
   = List.length (filter (fun y => negb (mem y seen)) l))%nat.
Proof.
  intros Hnd Hx. induction l as [| y l IH]; [reflexivity |].
  inversion Hnd as [| ? ? Hy Hl]; subst. specialize (IH Hl).
  cbn [filter]. rewrite mem_set_add.
  change (mem x (y :: l)) with (key_eqb x y || mem x l).
  cbn [key_eqb Z_EqKey].
  destruct (Z.eqb_spec y x) as [-> | Hne].
  - rewrite Z.eqb_refl, Hx. cbn [orb negb List.length].
    assert (Hxl : mem x l = false) by now apply mem_false.
    rewrite Hxl in IH. lia.
  - assert (Hxy : (x =? y) = false) by (apply Z.eqb_neq; congruence).
    rewrite Hxy. cbn [orb].
    destruct (mem y seen); cbn [negb List.length]; lia.
Qed.

Lemma unseen_add (x : Z) (seen : list Z) :
  In x targets -> mem x seen = false ->
  (List.length (unseen dynamic_constraints (set_add x seen)) + 1
   = List.length (unseen dynamic_constraints seen))%nat.
Proof.
  intros Hx Hseen. unfold unseen.
  pose proof (filter_add_length x seen targets (to_set_NoDup _) Hseen) as H.
  apply mem_In in Hx. rewrite Hx in H. exact H.
Qed.

Lemma visit_measure (current : Z) (l : list Constraint) :
  (forall c, In c l -> In c dynamic_constraints) ->
  forall seen stack,
    let '(seen', stack') :=
      fold_left (visit_successor current) l (seen, stack) in
    (List.length stack' + List.length (unseen dynamic_constraints seen')
     = List.length stack + List.length (unseen dynamic_constraints seen))%nat.
Proof.
  induction l as [| c l IH]; intros Hsub seen stack; [reflexivity |].
  cbn [fold_left]. unfold visit_successor at 2.
  destruct ((First c =? current) && negb (mem (Second c) seen)) eqn:E.
  - apply andb_true_iff in E as [_ E]. apply negb_true_iff in E.
    specialize (IH (fun c' H => Hsub c' (or_intror H))
                  (set_add (Second c) seen) (Second c :: stack)).
    destruct (fold_left (visit_successor current) l
                (set_add (Second c) seen, Second c :: stack))
      as [seen' stack'].
    assert (Hin : In (Second c) targets).
    { apply to_set_In, in_map, Hsub. now left. }
    pose proof (unseen_add (Second c) seen Hin E). simpl in IH. lia.
  - apply IH. intros c' H. apply Hsub. now right.
Qed.

Lemma collect_successors_fuel (fuel : nat) :
  forall stack seen,
    (List.length stack + List.length (unseen dynamic_constraints seen)
     <= fuel)%nat ->
    collect_successors dynamic_constraints fuel stack seen <> None.
Proof.
  induction fuel as [| fuel IH]; intros stack seen Hm.
  - destruct stack as [| current stack]; [discriminate | simpl in Hm; lia].
  - destruct stack as [| current stack]; [discriminate |].
    cbn [collect_successors].
    pose proof (visit_measure current dynamic_constraints (fun c H => H)
                  seen stack) as Hv.
    destruct (fold_left (visit_successor current) dynamic_constraints
                (seen, stack)) as [seen' stack'].
    apply IH. simpl in Hm. lia.
Qed.

(** The fuel given by [calculate_slack_time] is enough. *)
Lemma collect_successors_returns (task_id : Z) :
  collect_successors dynamic_constraints (successor_fuel dynamic_constraints)
    [task_id] [] <> None.
Proof.
  apply collect_successors_fuel. unfold successor_fuel, unseen. simpl.
  pose proof (filter_length_le (fun _ : Z => true)
                (to_set (map Second dynamic_constraints))). lia.
Qed.

End Successors.

(** ** C8: reproducibility *)

Lemma priority_same_days (self : ProductionScheduler) (now1 now2 : datetime) :
  same_days_to_delivery self now1 now2 ->
  calculate_task_priority self now1 = calculate_task_priority self now2.
Proof.
  intros Hdays. apply functional_extensionality. intros task_id.
  unfold calculate_task_priority.
  destruct (mem task_id (late_part_tasks self)); [reflexivity |].
  destruct (dict_mem task_id (quality_inspections self)); [reflexivity |].
  destruct (mem task_id (rework_tasks self)); [reflexivity |].
  destruct (match dict_get task_id (task_to_product self) with
            | Some p => Some p
            | None => first_product self (mem task_id)
            end) as [product_line |]; [| reflexivity].
  destruct (negb (truthy product_line)); [reflexivity |].
  destruct (dict_get product_line (delivery_dates self))
    as [delivery_date |] eqn:Hdelivery; [| reflexivity].
  now rewrite (Hdays _ _ Hdelivery).
Qed.

Lemma same_days_check_sound (self : ProductionScheduler)
  (now1 now2 : datetime) :
  same_days_check self now1 now2 = true ->
  same_days_to_delivery self now1 now2.
Proof.
  unfold same_days_check, same_days_to_delivery.
  intros Hall product delivery_date Hget.
  rewrite forallb_forall in Hall.
  specialize (Hall _ (dict_get_In _ _ _ Hget)). simpl in Hall. lia.
Qed.

Lemma min_by_load_first (l : list (string * Z)) :
  forall best,
  exists l1 l2,
    best :: l = l1 ++ min_by_load best l :: l2
    /\ (forall x, In x l1 -> snd (min_by_load best l) < snd x)
    /\ (forall x, In x l2 -> snd (min_by_load best l) <= snd x).
Proof.
  induction l as [| x l IH]; intros best; cbn [min_by_load].
  - exists [], []. repeat split; intros y [].
  - destruct (Z.ltb_spec (snd x) (snd best)) as [Hlt | Hge].
    + destruct (IH x) as (l1 & l2 & Heq & Hbefore & Hafter).
      exists (best :: l1), l2. rewrite Heq. repeat split; [| exact Hafter].
      intros y [<- | Hy]; [| now apply Hbefore].
      assert (Hx : In x (l1 ++ min_by_load x l :: l2))
        by (rewrite <- Heq; now left).
      apply in_app_iff in Hx as [Hx | [Hx | Hx]].
      * specialize (Hbefore x Hx). lia.
      * rewrite Hx. exact Hlt.
      * specialize (Hafter x Hx). lia.
    + destruct (IH best) as (l1 & l2 & Heq & Hbefore & Hafter).
      set (r := min_by_load best l) in *.
      destruct l1 as [| b l1].
      * injection Heq as Hbest Hl. exists [], (x :: l).
        split; [simpl; congruence |]. split; [intros y [] |].
        intros y [<- | Hy]; [rewrite <- Hbest; lia |].
        apply Hafter. rewrite <- Hl. exact Hy.
      * injection Heq as Hb Hl. subst b.
        exists (best :: x :: l1), l2.
        split; [simpl; now rewrite <- Hl |]. split; [| exact Hafter].
        intros y [<- | [<- | Hy]].
        -- apply Hbefore. now left.
        -- specialize (Hbefore best (or_introl eq_refl)). lia.
        -- apply Hbefore. now right.
Qed.

Lemma team_loads_fold (self : ProductionScheduler) (task_schedule : Schedule)
  (mechanics_needed : Z) (l : list string) :
  NoDup l ->
  forall acc,
    (forall team, In team l -> dict_get team acc = None) ->
    fold_left
      (fun loads team =>
         if get_default team (quality_team_capacity self) 0 <? mechanics_needed
         then loads
         else dict_set team (scheduled_minutes task_schedule team) loads)
      l acc
    = acc ++ map (fun team => (team, scheduled_minutes task_schedule team))
               (filter (fun team =>
                          negb (get_default team (quality_team_capacity self) 0
                                <? mechanics_needed)) l).
Proof.
  intros Hnd. induction l as [| team l IH]; intros acc Hfresh; cbn [fold_left].
  - simpl. now rewrite app_nil_r.
  - inversion Hnd as [| ? ? Hteam Hl]; subst. cbn [filter].
    destruct (get_default team (quality_team_capacity self) 0
              <? mechanics_needed); cbn [negb].
    + apply IH; [assumption |]. intros t Ht. apply Hfresh. now right.
    + rewrite IH; [| assumption |].
      * rewrite dict_set_fresh by (apply Hfresh; now left).
        cbn [map]. now rewrite <- app_assoc.
      * intros t Ht. rewrite dict_get_set_other.
        -- apply Hfresh. now right.
        -- intros ->. contradiction.
Qed.

Lemma available_teams_NoDup (self : ProductionScheduler) (shift : string) :
  NoDup (dict_keys (quality_team_shifts self)) ->
  NoDup (available_teams self shift).
Proof.
  unfold available_teams, dict_keys.
  induction (quality_team_shifts self) as [| [t shifts] d IH]; simpl;
    intros Hnd; [constructor |].
  inversion Hnd as [| ? ? Ht Hd]; subst.
  destruct (mem shift shifts); simpl; [| auto].
  constructor; [| auto]. intros Hin. apply Ht.
  apply in_map_iff in Hin as ([t' s'] & <- & Hin).
  apply filter_In in Hin as [Hin _]. now apply (in_map fst) in Hin.
Qed.

Lemma team_loads_eligible (self : ProductionScheduler)
  (task_schedule : Schedule) (shift : string) (mechanics_needed : Z) :
  NoDup (dict_keys (quality_team_shifts self)) ->
  team_loads self task_schedule shift mechanics_needed
  = eligible_teams self task_schedule shift mechanics_needed.
Proof.
  intros Hnd. unfold team_loads, eligible_teams.
  rewrite team_loads_fold; [reflexivity | | reflexivity].
  now apply available_teams_NoDup.
Qed.

(** C8, as amended.  For every bundle and capacities, two invocations of
    [generate_global_priority_list] with the same iteration order of the
    sets return the same list, ranks included, when the clock readings
    leave the same whole number of days to every delivery date.  A tie
    between the eligible quality teams goes to the team listed first in the
    quality team calendar table: whenever the selector returns a team, that
    team has a load strictly below every eligible team listed before it,
    and not above any listed after it. *)
Theorem C8_reproducible_at_equal_days
  (self : ProductionScheduler) (set_iter : list Z -> list Z)
  (now1 now2 : datetime) (silent_mode : bool) :
  (same_days_to_delivery self now1 now2 ->
   generate_global_priority_list self set_iter now1 silent_mode
   = generate_global_priority_list self set_iter now2 silent_mode)
  /\ (forall task_schedule shift mechanics_needed chosen,
         NoDup (dict_keys (quality_team_shifts self)) ->
         assign_quality_team_balanced self task_schedule shift
           mechanics_needed = Some chosen ->
         exists before load after,
           eligible_teams self task_schedule shift mechanics_needed
           = before ++ (chosen, load) :: after
           /\ (forall x, In x before -> load < snd x)
           /\ (forall x, In x after -> load <= snd x)).
Proof.
  split.
  - intros Hdays. unfold generate_global_priority_list.
    now rewrite (priority_same_days self now1 now2 Hdays).
  - intros task_schedule shift mechanics_needed chosen Hnd Hchosen.
    unfold assign_quality_team_balanced in Hchosen.
    destruct (available_teams self shift) eqn:Hav; [discriminate |].
    rewrite <- (team_loads_eligible _ _ _ _ Hnd).
    destruct (team_loads self task_schedule shift mechanics_needed)
      as [| x rest]; [discriminate |].
    injection Hchosen as <-.
    destruct (min_by_load_first rest x) as (l1 & l2 & Heq & Hbefore & Hafter).
    exists l1, (snd (min_by_load x rest)), l2.
    rewrite <- surjective_pairing. auto.
Qed.

Lemma C8_witness_quality_sample :
  returned_rows
    (generate_global_priority_list ex_quality (fun l => l) sample_now true)
  = returned_rows
      (generate_global_priority_list ex_quality (fun l => l)
         (sample_now + 60) true)
  /\ exists before load after,
      eligible_teams ex_quality [] "1st" 1
      = before ++ ("Q2", load) :: after
      /\ (forall x, In x before -> load < snd x)
      /\ (forall x, In x after -> load <= snd x).
Proof.
  destruct (C8_reproducible_at_equal_days ex_quality (fun l => l)
              sample_now (sample_now + 60) true) as [Hsame Htie].
  split.
  - rewrite Hsame; [reflexivity |].
    apply same_days_check_sound. vm_compute; reflexivity.
  - apply (Htie [] "1st" 1 "Q2").
    + simpl. repeat constructor; simpl; intuition discriminate.
    + vm_compute; reflexivity.
Defined.

(** C8 as stated fails on both counts.  A tie between quality teams goes to
    the team listed first, not to the least name: with the table listing Q2
    before Q1 and equal loads the selector returns Q2.  And the output
    depends on the clock: a day later the priority scores of the same
    bundle differ. *)
Lemma C8_counterexample_tie_and_clock :
  quality_team_shifts ex_quality = [("Q2", ["1st"]); ("Q1", ["1st"])]
  /\ eligible_teams ex_quality [] "1st" 1 = [("Q2", 0); ("Q1", 0)]
  /\ String.ltb "Q1" "Q2" = true
  /\ assign_quality_team_balanced ex_quality [] "1st" 1 = Some "Q2"
  /\ map row_team
       (returned_rows
          (generate_global_priority_list ex_quality (fun l => l) sample_now
             true))
     = ["M1"; "Q2"; "M1"]
  /\ returned_rows
       (generate_global_priority_list ex_quality (fun l => l) sample_now true)
     <> returned_rows
          (generate_global_priority_list ex_quality (fun l => l)
             (sample_now + minutes_per_day) true).
Proof.
  repeat split; try (vm_compute; reflexivity).
  intros H. vm_compute in H. discriminate.
Qed.

(** ** Capacities across the scenarios *)

Lemma write_all_other (team : string) (src d : dict string Z) :
  ~ In team (dict_keys src) ->
  dict_get team (write_all src d) = dict_get team d.
Proof.
  unfold write_all. revert d.
  induction src as [| [k c] src IH]; intros d Hnot; simpl; [reflexivity |].
  simpl in Hnot. rewrite IH by tauto.
  apply dict_get_set_other. intros ->. tauto.
Qed.

Lemma write_all_get (team : string) (v : Z) (src d : dict string Z) :
  NoDup (dict_keys src) ->
  dict_get team src = Some v ->
  dict_get team (write_all src d) = Some v.
Proof.
  revert d.
  induction src as [| [k c] src IH]; intros d Hnd Hget; simpl in *;
    [discriminate |].
  inversion Hnd as [| ? ? Hnot Hnd']; subst.
  destruct (String.eqb_spec team k) as [-> | Hne].
  - injection Hget as <-.
    change (dict_get k (write_all src (dict_set k c d)) = Some c).
    rewrite write_all_other by assumption. apply dict_get_set_same.
  - now apply IH.
Qed.

Lemma restore_originals_restored (originals caps : Capacities) :
  NoDup (dict_keys (caps_team originals)) ->
  NoDup (dict_keys (caps_quality originals)) ->
  restored originals (restore_originals originals caps).
Proof.
  intros Ht Hq. split; intros team v Hget; simpl;
    now apply write_all_get.
Qed.

Lemma midpoint_bounds (low high : Z) :
  low <= high -> low <= (low + high) / 2 <= high.
Proof.
  intros Hle.
  pose proof (Z.div_mod (low + high) 2 ltac:(lia)).
  pose proof (Z.mod_pos_bound (low + high) 2 ltac:(lia)).
  lia.
Qed.

Section BinarySearches.
Variable Run : Type.
Variable generate : Capacities -> bool -> option Run.
Variable run_scheduled_count : Run -> Z.
Variable n_tasks : Z.
Variable run_makespan : Run -> Z.

(** The interval shrinks at every probe, so its length is enough fuel. *)
Lemma mechanic_search_returns (max_quality : Z) (fuel : nat) :
  forall caps low high best_makespan best_mech,
    (search_fuel_for low high <= fuel)%nat ->
    mechanic_search Run generate run_scheduled_count n_tasks run_makespan
      max_quality fuel caps low high best_makespan best_mech <> None.
Proof.
  unfold search_fuel_for.
  induction fuel as [| fuel IH]; intros caps low high bm b Hfuel; simpl.
  - destruct (Z.leb_spec low high); [lia | discriminate].
  - destruct (Z.leb_spec low high) as [Hle | Hgt]; [| discriminate].
    pose proof (midpoint_bounds low high Hle) as Hmid.
    set (mid := (low + high) / 2) in *.
    destruct (generate _ true) as [run |].
    + destruct (run_scheduled_count run <? n_tasks); [apply IH; lia |].
      destruct (lt_inf _ _); apply IH; lia.
    + apply IH; lia.
Qed.

Lemma quality_search_returns (fuel : nat) :
  forall caps low high best_makespan best_qual,
    (search_fuel_for low high <= fuel)%nat ->
    quality_search Run generate run_scheduled_count n_tasks run_makespan
      fuel caps low high best_makespan best_qual <> None.
Proof.
  unfold search_fuel_for.
  induction fuel as [| fuel IH]; intros caps low high bm b Hfuel; simpl.
  - destruct (Z.leb_spec low high); [lia | discriminate].
  - destruct (Z.leb_spec low high) as [Hle | Hgt]; [| discriminate].
    pose proof (midpoint_bounds low high Hle) as Hmid.
    set (mid := (low + high) / 2) in *.
    destruct (generate _ true) as [run |].
    + destruct (run_scheduled_count run <? n_tasks); [apply IH; lia |].
      destruct (le_inf _ _); apply IH; lia.
    + apply IH; lia.
Qed.

End BinarySearches.

(** * Further properties *)

(** ** The conflict report *)

Lemma event_ltb_spec (x y : Event) :
  event_ltb x y = true
  <-> event_time x < event_time y
      \/ (event_time x = event_time y /\ event_delta x < event_delta y).
Proof.
  unfold event_ltb.
  rewrite orb_true_iff, andb_true_iff, !Z.ltb_lt, Z.eqb_eq. tauto.
Qed.

Lemma event_le_spec (x y : Event) :
  event_le x y
  <-> event_time x < event_time y
      \/ (event_time x = event_time y /\ event_delta x <= event_delta y).
Proof.
  unfold event_le. rewrite <- not_true_iff_false, event_ltb_spec. lia.
Qed.

Lemma insert_event_perm (x : Event) (l : list Event) :
  Permutation (insert_event x l) (x :: l).
Proof.
  induction l as [| y l IH]; simpl; [reflexivity |].
  destruct (event_ltb x y); [reflexivity |].
  rewrite IH. apply perm_swap.
Qed.

Lemma sort_events_perm (l : list Event) : Permutation (sort_events l) l.
Proof.
  unfold sort_events.
  assert (H : forall acc, Permutation
                (fold_left (fun acc x => insert_event x acc) l acc)
                (acc ++ l)).
  { induction l as [| x l IH]; intros acc; simpl.
    - now rewrite app_nil_r.
    - rewrite IH, insert_event_perm. apply Permutation_middle. }
  apply (H []).
Qed.

Lemma insert_event_sorted (x : Event) (l : list Event) :
  StronglySorted event_le l -> StronglySorted event_le (insert_event x l).
Proof.
  induction l as [| y l IH]; intros Hs; simpl.
  - constructor; constructor.
  - inversion Hs as [| ? ? Hl Hall]; subst.
    destruct (event_ltb x y) eqn:Hlt.
    + constructor; [assumption |].
      apply event_ltb_spec in Hlt.
      constructor.
      * apply event_le_spec. lia.
      * rewrite Forall_forall in *. intros z Hz.
        specialize (Hall z Hz). apply event_le_spec in Hall.
        apply event_le_spec. lia.
    + constructor; [now apply IH |].
      rewrite Forall_forall in *. intros z Hz.
      apply (Permutation_in _ (insert_event_perm x l)) in Hz.
      destruct Hz as [<- | Hz]; [exact Hlt | now apply Hall].
Qed.

Lemma sort_events_sorted (l : list Event) :
  StronglySorted event_le (sort_events l).
Proof.
  unfold sort_events.
  assert (H : forall acc, StronglySorted event_le acc ->
                StronglySorted event_le
                  (fold_left (fun acc x => insert_event x acc) l acc)).
  { induction l as [| x l IH]; intros acc Hacc; simpl; [assumption |].
    apply IH. now apply insert_event_sorted. }
  apply H. constructor.
Qed.

Lemma sorted_split (l1 l2 : list Event) (e : Event) :
  StronglySorted event_le (l1 ++ e :: l2) ->
  Forall (fun x => event_le x e) l1 /\ Forall (event_le e) l2.
Proof.
  induction l1 as [| x l1 IH]; simpl; intros Hs;
    inversion Hs as [| ? ? Hl Hall]; subst.
  - split; [constructor | assumption].
  - destruct (IH Hl) as [H1 H2]. split; [| assumption].
    constructor; [| assumption].
    rewrite Forall_forall in Hall. apply Hall.
    apply in_or_app. right. now left.
Qed.

Lemma scan_fold (tm : string) (capacity : Z) (l : list Event) :
  forall u c,
    fold_left (scan_event tm capacity) l (u, c)
    = (u + delta_sum l, c ++ conflicts_from tm capacity u l).
Proof.
  induction l as [| e l IH]; intros u c.
  - simpl. now rewrite Z.add_0_r, app_nil_r.
  - cbn [fold_left].
    replace (scan_event tm capacity (u, c) e)
      with (u + event_delta e,
            c ++ (if event_is_start e && (u + event_delta e >? capacity)
                  then [{| conflict_team := tm;
                           conflict_time := event_time e;
                           conflict_usage := u + event_delta e;
                           conflict_capacity := capacity;
                           conflict_task := event_task e |}]
                  else []))
      by (unfold scan_event;
          destruct (event_is_start e && (u + event_delta e >? capacity));
          [reflexivity | now rewrite app_nil_r]).
    rewrite IH. unfold delta_sum. cbn [fold_right conflicts_from].
    f_equal; [lia | now rewrite <- app_assoc].
Qed.

Lemma conflicts_from_nil (tm : string) (capacity : Z) (l : list Event) :
  forall u,
    conflicts_from tm capacity u l = []
    <-> (forall l1 e l2,
            l = l1 ++ e :: l2 -> event_is_start e = true ->
            u + delta_sum l1 + event_delta e <= capacity).
Proof.
  induction l as [| x l IH]; intros u; simpl.
  - split; [| reflexivity]. intros _ [| ? ?] ? ? H; discriminate.
  - split.
    + intros Hnil l1 e l2 Hsplit Hstart.
      apply app_eq_nil in Hnil. destruct Hnil as [Hx Hrest].
      destruct l1 as [| y l1]; simpl in Hsplit; injection Hsplit as -> ->.
      * simpl. rewrite Hstart in Hx. simpl in Hx.
        destruct (u + event_delta e >? capacity) eqn:Hgt; [discriminate |].
        rewrite Z.gtb_ltb, Z.ltb_ge in Hgt. lia.
      * simpl. pose proof (proj1 (IH _) Hrest l1 e l2 eq_refl Hstart). lia.
    + intros H.
      assert (Hx : (if event_is_start x && (u + event_delta x >? capacity)
                    then [{| conflict_team := tm;
                             conflict_time := event_time x;
                             conflict_usage := u + event_delta x;
                             conflict_capacity := capacity;
                             conflict_task := event_task x |}]
                    else []) = []).
      { destruct (event_is_start x) eqn:Hstart; [| reflexivity]. simpl.
        destruct (u + event_delta x >? capacity) eqn:Hgt; [| reflexivity].
        rewrite Z.gtb_ltb, Z.ltb_lt in Hgt.
        specialize (H [] x l eq_refl Hstart). simpl in H. lia. }
      rewrite Hx. simpl. apply IH. intros l1 e l2 -> Hstart.
      specialize (H (x :: l1) e l2 eq_refl Hstart). simpl in H. lia.
Qed.

Lemma weight_until_app (t : datetime) (l1 l2 : list Event) :
  weight_until t (l1 ++ l2) = weight_until t l1 + weight_until t l2.
Proof.
  induction l1 as [| x l1 IH]; simpl; [reflexivity |].
  unfold weight_until in *. simpl. rewrite IH. lia.
Qed.

Lemma weight_until_perm (t : datetime) (l l' : list Event) :
  Permutation l l' -> weight_until t l = weight_until t l'.
Proof.
  unfold weight_until.
  induction 1; simpl; try lia.
Qed.

Lemma weight_until_before (t : datetime) (l : list Event) :
  Forall (fun x => event_time x <= t) l -> weight_until t l = delta_sum l.
Proof.
  unfold weight_until, delta_sum.
  induction 1 as [| x l Hx _ IH]; simpl; [reflexivity |].
  destruct (Z.leb_spec (event_time x) t); lia.
Qed.

Lemma team_tasks_entries (task_schedule : Schedule) (tm : string) :
  team_tasks task_schedule tm = map snd (team_entries task_schedule tm).
Proof.
  unfold team_tasks, team_entries, dict_values.
  induction task_schedule as [| [k p] l IH]; simpl; [reflexivity |].
  destruct (sched_team p =? tm)%string; simpl; congruence.
Qed.

Lemma team_entries_In (task_schedule : Schedule) (tm : string) (k : Z)
  (p : Placement) :
  In (k, p) (team_entries task_schedule tm)
  <-> In (k, p) task_schedule /\ sched_team p = tm.
Proof.
  unfold team_entries. rewrite filter_In, String.eqb_eq. tauto.
Qed.

Lemma weight_until_events (t : datetime) (entries : list (Z * Placement)) :
  (forall k p, In (k, p) entries -> start_time p < end_time p) ->
  weight_until t (events_of entries) = usage_at (map snd entries) t.
Proof.
  induction entries as [| [k p] l IH]; intros Hpos; [reflexivity |].
  assert (Hp : start_time p < end_time p) by (apply (Hpos k); now left).
  change (events_of ((k, p) :: l))
    with ([(start_time p, sched_mechanics_required p, true, k);
           (end_time p, - sched_mechanics_required p, false, k)]
          ++ events_of l).
  rewrite weight_until_app, IH by (intros; eapply Hpos; right; eassumption).
  unfold weight_until. simpl. unfold covers, event_time, event_delta. simpl.
  destruct (Z.leb_spec (start_time p) t), (Z.leb_spec (end_time p) t),
    (Z.ltb_spec t (end_time p)); simpl; lia.
Qed.

Lemma events_of_In (entries : list (Z * Placement)) (e : Event) :
  In e (events_of entries)
  <-> exists k p,
      In (k, p) entries
      /\ (e = (start_time p, sched_mechanics_required p, true, k)
          \/ e = (end_time p, - sched_mechanics_required p, false, k)).
Proof.
  unfold events_of. rewrite in_flat_map. split.
  - intros [[k p] [Hin He]]. exists k, p. simpl in He. intuition.
  - intros (k & p & Hin & He). exists (k, p). simpl. intuition.
Qed.

Lemma events_signed (entries : list (Z * Placement)) (e : Event) :
  (forall k p, In (k, p) entries -> 0 <= sched_mechanics_required p) ->
  In e (events_of entries) -> signed e.
Proof.
  intros Hpos He. apply events_of_In in He.
  destruct He as (k & p & Hin & [-> | ->]); specialize (Hpos k p Hin);
    unfold signed, event_is_start, event_delta; simpl; split;
    intros; try discriminate; lia.
Qed.

Lemma prefix_le_weight (l1 l2 : list Event) (e : Event) :
  StronglySorted event_le (l1 ++ e :: l2) ->
  (forall x, In x (l1 ++ e :: l2) -> signed x) ->
  event_is_start e = true ->
  delta_sum l1 + event_delta e <= weight_until (event_time e) (l1 ++ e :: l2)
  /\ ((forall y, In y l2 -> event_time y = event_time e ->
                 event_is_start y = false) ->
      delta_sum l1 + event_delta e
      = weight_until (event_time e) (l1 ++ e :: l2)).
Proof.
  intros Hs Hsigned Hstart.
  destruct (sorted_split _ _ _ Hs) as [Hbefore Hafter].
  assert (He : 0 <= event_delta e).
  { apply (Hsigned e); [apply in_or_app; right; now left | assumption]. }
  rewrite weight_until_app.
  rewrite (weight_until_before _ l1).
  2:{ eapply Forall_impl; [| exact Hbefore]. intros x Hx.
      apply event_le_spec in Hx. lia. }
  change (weight_until (event_time e) (e :: l2))
    with ((if event_time e <=? event_time e then event_delta e else 0)
          + weight_until (event_time e) l2).
  rewrite Z.leb_refl.
  assert (Hrest : 0 <= weight_until (event_time e) l2
                  /\ ((forall y, In y l2 -> event_time y = event_time e ->
                                 event_is_start y = false) ->
                      weight_until (event_time e) l2 = 0)).
  { assert (Hs2 : forall y, In y l2 -> signed y).
    { intros y Hy. apply Hsigned. apply in_or_app. right. now right. }
    clear Hs Hsigned Hbefore. unfold weight_until.
    induction l2 as [| y l2 IH]; simpl; [split; [lia | reflexivity] |].
    inversion Hafter as [| ? ? Hy Hafter']; subst.
    destruct (IH Hafter') as [IH1 IH2]; [intros; apply Hs2; now right |].
    apply event_le_spec in Hy.
    pose proof (Hs2 y (or_introl eq_refl)) as [Hpos Hneg].
    destruct (Z.leb_spec (event_time y) (event_time e)) as [Hle | Hgt].
    - split.
      + lia.
      + intros Hends.
        rewrite IH2 by (intros; apply Hends; [now right | assumption]).
        assert (event_is_start y = false)
          by (apply Hends; [now left | lia]).
        specialize (Hneg H). lia.
    - split; [lia |]. intros Hends.
      rewrite IH2 by (intros; apply Hends; [now right | assumption]). lia. }
  destruct Hrest as [H1 H2]. split; [lia |].
  intros Hends. rewrite (H2 Hends). lia.
Qed.

Lemma last_such (P : Event -> bool) (l : list Event) :
  (exists x, In x l /\ P x = true) ->
  exists l1 e l2,
    l = l1 ++ e :: l2 /\ P e = true /\ forall y, In y l2 -> P y = false.
Proof.
  induction l as [| x l IH]; intros (x0 & Hin & HP); [destruct Hin |].
  destruct (existsb P l) eqn:Hex.
  - apply existsb_exists in Hex. destruct (IH Hex) as (l1 & e & l2 & -> & He & Hl2).
    exists (x :: l1), e, l2. auto.
  - assert (Hnone : forall y, In y l -> P y = false).
    { intros y Hy. destruct (P y) eqn:HPy; [| reflexivity].
      assert (existsb P l = true) by (apply existsb_exists; eauto). congruence. }
    destruct Hin as [-> | Hin].
    + exists [], x0, l. auto.
    + rewrite Hnone in HP by assumption. discriminate.
Qed.

(** The scan of one team reports nothing exactly when, at the start of each
    of its entries, the team is within its capacity. *)
Lemma team_conflicts_nil (self : ProductionScheduler)
  (task_schedule : Schedule) (tm : string) :
  positive_entries task_schedule ->
  conflicts_from tm (capacity_of self tm) 0
    (sort_events (events_of (team_entries task_schedule tm))) = []
  <-> (forall p, In p (team_tasks task_schedule tm) ->
                 usage_at (team_tasks task_schedule tm) (start_time p)
                 <= capacity_of self tm).
Proof.
  intros Hpos.
  set (entries := team_entries task_schedule tm).
  assert (Hpos1 : forall k p, In (k, p) entries ->
                              start_time p < end_time p).
  { intros k p Hin. apply team_entries_In in Hin. now apply (Hpos k p). }
  assert (Hpos2 : forall k p, In (k, p) entries ->
                              0 <= sched_mechanics_required p).
  { intros k p Hin. apply team_entries_In in Hin. now apply (Hpos k p). }
  assert (Hsigned : forall x, In x (sort_events (events_of entries)) ->
                              signed x).
  { intros x Hx. apply (events_signed entries); [assumption |].
    now apply (Permutation_in _ (sort_events_perm _)). }
  assert (Hweight : forall t,
             weight_until t (sort_events (events_of entries))
             = usage_at (team_tasks task_schedule tm) t).
  { intros t. rewrite (weight_until_perm _ _ _ (sort_events_perm _)).
    rewrite weight_until_events by assumption.
    now rewrite team_tasks_entries. }
  pose proof (sort_events_sorted (events_of entries)) as Hsorted.
  rewrite conflicts_from_nil. split.
  - intros Hscan p Hp.
    rewrite team_tasks_entries in Hp. apply in_map_iff in Hp.
    destruct Hp as ([k p'] & <- & Hin). simpl.
    destruct (last_such
                (fun e => event_is_start e
                          && (event_time e =? start_time p'))
                (sort_events (events_of entries)))
      as (l1 & e & l2 & Hsplit & He & Hl2).
    { exists (start_time p', sched_mechanics_required p', true, k). split.
      - apply (Permutation_in _ (Permutation_sym (sort_events_perm _))).
        apply events_of_In. exists k, p'. auto.
      - unfold event_is_start, event_time. simpl. apply Z.eqb_refl. }
    apply andb_true_iff in He. destruct He as [Hstart Htime].
    apply Z.eqb_eq in Htime.
    rewrite Hsplit in Hsorted, Hsigned.
    destruct (prefix_le_weight l1 l2 e Hsorted Hsigned Hstart) as [_ Heq].
    rewrite <- Htime, <- Hweight, Hsplit, <- Heq.
    + specialize (Hscan l1 e l2 Hsplit Hstart). lia.
    + intros y Hy Hty. specialize (Hl2 y Hy).
      apply andb_false_iff in Hl2. destruct Hl2 as [H | H]; [exact H |].
      apply Z.eqb_neq in H. lia.
  - intros Hbound l1 e l2 Hsplit Hstart.
    rewrite Hsplit in Hsorted, Hsigned.
    destruct (prefix_le_weight l1 l2 e Hsorted Hsigned Hstart) as [Hle _].
    rewrite <- Hsplit, Hweight in Hle.
    assert (Hin : In e (events_of entries)).
    { apply (Permutation_in _ (sort_events_perm _)). rewrite Hsplit.
      apply in_or_app. right. now left. }
    apply events_of_In in Hin. destruct Hin as (k & p & Hin & [-> | ->]);
      [| discriminate].
    assert (Hp : In p (team_tasks task_schedule tm)).
    { rewrite team_tasks_entries. apply in_map_iff. now exists (k, p). }
    specialize (Hbound p Hp). unfold event_time, event_delta in *.
    simpl in *. lia.
Qed.

Lemma usage_at_mono (l : list Placement) (m t : datetime) :
  (forall p, In p l -> 0 <= sched_mechanics_required p) ->
  (forall p, In p l -> covers p m = true -> covers p t = true) ->
  usage_at l m <= usage_at l t.
Proof.
  induction l as [| p l IH]; intros Hpos Hcov; simpl; [lia |].
  specialize (IH (fun q Hq => Hpos q (or_intror Hq))
                 (fun q Hq => Hcov q (or_intror Hq))).
  specialize (Hpos p (or_introl eq_refl)).
  specialize (Hcov p (or_introl eq_refl)).
  destruct (covers p m).
  - rewrite Hcov by reflexivity. lia.
  - destruct (covers p t); lia.
Qed.

Lemma latest_covering_start (l : list Placement) (m : datetime) :
  (exists p, In p l /\ covers p m = true) ->
  exists q, In q l /\ covers q m = true
            /\ forall p, In p l -> covers p m = true ->
                         start_time p <= start_time q.
Proof.
  induction l as [| x l IH]; intros (p0 & Hin & Hcov); [destruct Hin |].
  destruct (existsb (fun q => covers q m) l) eqn:Hex.
  - apply existsb_exists in Hex. destruct (IH Hex) as (q & Hq & Hqc & Hmax).
    destruct (covers x m) eqn:Hx.
    + destruct (Z.le_gt_cases (start_time x) (start_time q)).
      * exists q. repeat split; [now right | assumption |].
        intros p [<- | Hp] Hpc; [assumption | now apply Hmax].
      * exists x. repeat split; [now left | assumption |].
        intros p [<- | Hp] Hpc; [lia |]. specialize (Hmax p Hp Hpc). lia.
    + exists q. repeat split; [now right | assumption |].
      intros p [<- | Hp] Hpc; [congruence | now apply Hmax].
  - assert (Hnone : forall y, In y l -> covers y m = false).
    { intros y Hy. destruct (covers y m) eqn:Hc; [| reflexivity].
      assert (existsb (fun q => covers q m) l = true)
        by (apply existsb_exists; eauto). congruence. }
    destruct Hin as [-> | Hin]; [| rewrite Hnone in Hcov by assumption;
                                   discriminate].
    exists p0. repeat split; [now left | assumption |].
    intros p [<- | Hp] Hpc; [lia |]. rewrite Hnone in Hpc by assumption.
    discriminate.
Qed.

Lemma fold_team_conflicts (self : ProductionScheduler)
  (task_schedule : Schedule) (teams : list string) :
  forall c,
    fold_left (team_conflicts self task_schedule) teams c
    = c ++ flat_map
             (fun tm =>
                conflicts_from tm (capacity_of self tm) 0
                  (sort_events (events_of (team_entries task_schedule tm))))
             teams.
Proof.
  induction teams as [| tm teams IH]; intros c; simpl.
  - now rewrite app_nil_r.
  - rewrite IH. unfold team_conflicts. rewrite scan_fold. simpl.
    now rewrite <- app_assoc.
Qed.

Lemma flat_map_nil {A B : Type} (f : A -> list B) (l : list A) :
  flat_map f l = [] <-> forall x, In x l -> f x = [].
Proof.
  induction l as [| x l IH]; simpl; [tauto |].
  split.
  - intros H. apply app_eq_nil in H. destruct H as [Hx Hl].
    intros y [<- | Hy]; [assumption | now apply IH].
  - intros H. rewrite (H x) by now left. simpl. apply IH. auto.
Qed.

(** With entries of positive length and no negative head count,
    [check_resource_conflicts] reports nothing exactly when no team is over
    its capacity at an instant one of its entries covers. *)
Lemma check_resource_conflicts_nil (self : ProductionScheduler)
  (task_schedule : Schedule) :
  positive_entries task_schedule ->
  check_resource_conflicts self task_schedule = []
  <-> (forall tm m,
          busy task_schedule tm m ->
          usage_at (team_tasks task_schedule tm) m <= capacity_of self tm).
Proof.
  intros Hpos.
  assert (Hmech : forall tm p, In p (team_tasks task_schedule tm) ->
                               0 <= sched_mechanics_required p
                               /\ start_time p < end_time p).
  { intros tm p Hp. rewrite team_tasks_entries in Hp.
    apply in_map_iff in Hp. destruct Hp as ([k q] & <- & Hin).
    apply team_entries_In in Hin. now apply (Hpos k q). }
  assert (Hfold : check_resource_conflicts self task_schedule
                  = flat_map
                      (fun tm =>
                         conflicts_from tm (capacity_of self tm) 0
                           (sort_events
                              (events_of (team_entries task_schedule tm))))
                      (to_set (map sched_team (dict_values task_schedule)))).
  { unfold check_resource_conflicts.
    destruct task_schedule as [| x l]; [reflexivity |].
    now rewrite fold_team_conflicts. }
  rewrite Hfold, flat_map_nil. split.
  - intros Hnil tm m (p & Hp & Hcov).
    assert (Htm : In tm (to_set (map sched_team (dict_values task_schedule)))).
    { apply to_set_In. unfold team_tasks in Hp. apply filter_In in Hp.
      destruct Hp as [Hp Heq]. apply String.eqb_eq in Heq.
      apply in_map_iff. now exists p. }
    pose proof (proj1 (team_conflicts_nil self task_schedule tm Hpos)
                  (Hnil tm Htm)) as Hstarts.
    destruct (latest_covering_start (team_tasks task_schedule tm) m)
      as (q & Hq & Hqc & Hmax); [now exists p |].
    apply Z.le_trans
      with (usage_at (team_tasks task_schedule tm) (start_time q));
      [| now apply Hstarts].
    apply usage_at_mono; [intros; now apply (Hmech tm) |].
    intros r Hr Hrc. specialize (Hmax r Hr Hrc).
    unfold covers in *. apply andb_true_iff in Hrc, Hqc.
    apply andb_true_iff. rewrite Z.leb_le, Z.ltb_lt in *. lia.
  - intros Hbound tm _.
    apply (team_conflicts_nil self task_schedule tm Hpos).
    intros p Hp. apply Hbound. exists p. split; [assumption |].
    destruct (Hmech tm p Hp) as [_ Hlen].
    unfold covers. apply andb_true_iff. rewrite Z.leb_le, Z.ltb_lt. lia.
Qed.

Lemma dict_get_of_In {V : Type} (k : Z) (v : V) (d : dict Z V) :
  NoDup (dict_keys d) -> In (k, v) d -> dict_get k d = Some v.
Proof.
  induction d as [| [k' v'] d IH]; simpl; intros Hnd Hin; [destruct Hin |].
  inversion Hnd as [| ? ? Hnot Hnd']; subst.
  destruct Hin as [[= -> ->] | Hin].
  - now rewrite Z.eqb_refl.
  - destruct (Z.eqb_spec k k') as [-> | Hne]; [| now apply IH].
    exfalso. apply Hnot. unfold dict_keys. apply in_map_iff.
    now exists (k', v).
Qed.

Lemma positive_tasks_spec (self : ProductionScheduler) (t : Z)
  (info : TaskInfo) :
  positive_tasks self = true ->
  dict_get t (tasks self) = Some info ->
  0 <= mechanics_required info /\ 0 < duration info.
Proof.
  unfold positive_tasks. rewrite forallb_forall. intros Hall Hget.
  apply dict_get_In in Hget.
  assert (Hin : In info (dict_values (tasks self))).
  { unfold dict_values. apply in_map_iff. now exists (t, info). }
  specialize (Hall info Hin). apply andb_true_iff in Hall.
  rewrite Z.leb_le, Z.ltb_lt in Hall. exact Hall.
Qed.

(** X1.  [check_resource_conflicts], on a schedule whose entries have a
    positive length and no negative head count, returns the empty list
    exactly when no team is over its capacity at any instant that one of
    its entries covers. *)
Theorem X1_conflict_report_exact (self : ProductionScheduler)
  (task_schedule : Schedule) :
  positive_entries task_schedule ->
  check_resource_conflicts self task_schedule = []
  <-> (forall tm m,
          busy task_schedule tm m ->
          usage_at (team_tasks task_schedule tm) m <= capacity_of self tm).
Proof.
  apply check_resource_conflicts_nil.
Qed.

Lemma X1_witness_capacity_sample :
  positive_entries (task_schedule ex_capacity_final)
  /\ check_resource_conflicts ex_capacity (task_schedule ex_capacity_final)
     = []
  /\ usage_at (team_tasks (task_schedule ex_capacity_final) "M1") 6130 = 2
  /\ usage_at (team_tasks (task_schedule ex_capacity_final) "M1") 6130
     <= capacity_of ex_capacity "M1"
  /\ List.length ex_capacity_overbooked = 1%nat.
Proof.
  assert (Hpos : positive_entries (task_schedule ex_capacity_final)).
  { intros t p [H | [H | [H | []]]]; injection H as <- <-; simpl; lia. }
  split; [exact Hpos |]. split; [vm_compute; reflexivity |].
  split; [vm_compute; reflexivity |]. split; [| vm_compute; reflexivity].
  apply (proj1 (X1_conflict_report_exact ex_capacity
                  (task_schedule ex_capacity_final) Hpos)).
  - vm_compute. reflexivity.
  - exists {| start_time := 6120; end_time := 6180; sched_team := "M1";
              sched_product_line := "P"; sched_duration := 60;
              sched_mechanics_required := 1; sched_is_quality := false;
              sched_task_type := "Production"; sched_shift := "1st" |}.
    split; [vm_compute; auto | vm_compute; reflexivity].
Defined.

(** X2.  The scheduler passes its own conflict check: when every task has a
    positive duration and no negative head count, the schedule that
    [schedule_tasks] leaves makes [check_resource_conflicts] return the
    empty list, so the warning of [generate_global_priority_list] never
    fires. *)
Theorem X2_schedule_has_no_conflict
  (self : ProductionScheduler) (set_iter : list Z -> list Z)
  (priority_of : Z -> option Q) (silent_mode : bool) (st : LoopState) :
  (forall l x, In x (set_iter l) <-> In x l) ->
  positive_tasks self = true ->
  schedule_tasks self set_iter priority_of silent_mode = Finished st ->
  check_resource_conflicts self (task_schedule st) = [].
Proof.
  intros Hiter Hpos Hrun.
  pose proof (schedule_tasks_Inv _ _ _ _ Hiter _ Hrun) as HI.
  apply check_resource_conflicts_nil.
  - intros t p Hin.
    apply (dict_get_of_In _ _ _ (inv_keys _ _ _ _ HI)) in Hin.
    destruct (inv_entries _ _ _ _ HI t p Hin)
      as (info & Hinfo & (Hend & _ & Hmech & _) & _).
    destruct (positive_tasks_spec self t info Hpos Hinfo). lia.
  - intros tm m Hbusy. now apply (inv_capacity _ _ _ _ HI).
Qed.

Lemma X2_witness_capacity_sample :
  sample_run ex_capacity true = Finished ex_capacity_final
  /\ check_resource_conflicts ex_capacity (task_schedule ex_capacity_final)
     = [].
Proof.
  split; [vm_compute; reflexivity |].
  apply (X2_schedule_has_no_conflict ex_capacity (fun l => l)
           (calculate_task_priority ex_capacity sample_now) true).
  - intros l x. reflexivity.
  - vm_compute. reflexivity.
  - vm_compute. reflexivity.
Defined.

(** ** validate_dag *)

Lemma graph_of_In (dc : list Constraint) (u v : Z) :
  In v (graph_of dc u) <-> follows dc u v.
Proof.
  unfold graph_of, follows. rewrite to_set_In, in_map_iff. split.
  - intros (c & <- & Hc). apply filter_In in Hc. destruct Hc as [Hc Hu].
    apply Z.eqb_eq in Hu. eauto.
  - intros (c & Hc & Hu & Hv). exists c. split; [assumption |].
    apply filter_In. split; [assumption | now apply Z.eqb_eq].
Qed.

Lemma reaches_closed (dc : list Constraint) (B : Z -> Prop) :
  (forall u v, B u -> follows dc u v -> B v) ->
  forall u w, reaches dc u w -> B u -> B w.
Proof.
  intros Hclosed u w Hr. induction Hr as [u v He | u v w He _ IH]; intros Hu.
  - now apply (Hclosed u).
  - apply IH. now apply (Hclosed u).
Qed.

(** A node whose successors are all finished can be finished itself. *)
Lemma settled_finish (dc : list Constraint) (node : Z)
  (visited rec_stack : list Z) :
  ~ In node rec_stack ->
  In node visited ->
  settled dc visited (set_add node rec_stack) ->
  (forall v, follows dc node v ->
             finished visited (set_add node rec_stack) v) ->
  settled dc visited rec_stack.
Proof.
  intros Hnode Hvis [Hclosed Hacyclic] Hsucc.
  assert (Hsplit : forall u, finished visited rec_stack u ->
                             u = node
                             \/ finished visited (set_add node rec_stack) u).
  { intros u [Hu1 Hu2]. destruct (Z.eq_dec u node) as [-> | Hne];
      [now left | right].
    split; [assumption |]. rewrite set_add_In. tauto. }
  assert (Hweak : forall u, finished visited (set_add node rec_stack) u ->
                            finished visited rec_stack u).
  { intros u [Hu1 Hu2]. split; [assumption |].
    intros Hin. apply Hu2. apply set_add_In. now right. }
  assert (Hself : ~ finished visited (set_add node rec_stack) node).
  { intros [_ H]. apply H. apply set_add_In. now left. }
  split.
  - intros u v Hu Huv. apply Hweak.
    destruct (Hsplit u Hu) as [-> | Hu']; [now apply Hsucc |].
    now apply (Hclosed u).
  - intros u Hu Hcycle.
    destruct (Hsplit u Hu) as [-> | Hu']; [| now apply (Hacyclic u)].
    inversion Hcycle as [? ? He | ? n ? He Hrest]; subst.
    + apply Hself. now apply Hsucc.
    + apply Hself.
      apply (reaches_closed dc _ Hclosed n node Hrest). now apply Hsucc.
Qed.

(** Marking a node that was not visited and putting it on the stack leaves
    the finished nodes as they were. *)
Lemma settled_enter (dc : list Constraint) (node : Z)
  (visited rec_stack : list Z) :
  ~ In node visited ->
  settled dc visited rec_stack ->
  settled dc (set_add node visited) (set_add node rec_stack).
Proof.
  intros Hnode [Hclosed Hacyclic].
  assert (Hsame : forall u,
             finished (set_add node visited) (set_add node rec_stack) u
             <-> finished visited rec_stack u).
  { intros u. unfold finished. rewrite !set_add_In. split.
    - intros [[-> | Hu] Hs]; [exfalso; apply Hs; now left |].
      split; [assumption | tauto].
    - intros [Hu Hs]. split; [now right |].
      intros [-> | H]; tauto. }
  split.
  - intros u v Hu Huv. apply Hsame. apply (Hclosed u); [now apply Hsame | assumption].
  - intros u Hu. apply Hacyclic. now apply Hsame.
Qed.

Lemma has_cycle_dfs_settled (dc : list Constraint) (fuel : nat) :
  forall node visited rec_stack visited',
    has_cycle_dfs (graph_of dc) fuel node visited rec_stack
    = (false, visited') ->
    ~ In node visited ->
    (forall x, In x rec_stack -> In x visited) ->
    settled dc visited rec_stack ->
    settled dc visited' rec_stack
    /\ In node visited'
    /\ (forall x, In x visited -> In x visited').
Proof.
  induction fuel as [| fuel IH];
    intros node visited rec_stack visited' Hrun Hnode Hsub Hset;
    [discriminate |].
  assert (Hnode_stack : ~ In node rec_stack) by (intros H; auto).
  cbn [has_cycle_dfs] in Hrun.
  set (stack1 := set_add node rec_stack) in *.
  set (loop := fix neighbors (l : list Z) (visited : list Z)
                 : bool * list Z :=
                 match l with
                 | [] => (false, visited)
                 | neighbor :: l' =>
                     if negb (mem neighbor visited) then
                       let '(found, visited') :=
                         has_cycle_dfs (graph_of dc) fuel neighbor visited
                           stack1 in
                       if found then (true, visited') else neighbors l' visited'
                     else if mem neighbor stack1 then (true, visited)
                     else neighbors l' visited
                 end) in *.
  assert (Hloop : forall l w w',
             loop l w = (false, w') ->
             (forall x, In x stack1 -> In x w) ->
             settled dc w stack1 ->
             settled dc w' stack1
             /\ (forall x, In x w -> In x w')
             /\ (forall v, In v l -> finished w' stack1 v)).
  { induction l as [| n l IHl]; intros w w' Hl Hsubw Hsetw.
    - injection Hl as <-.
      split; [exact Hsetw | split; [auto | intros v []]].
    - cbn [loop] in Hl. fold loop in Hl.
      destruct (mem n w) eqn:Hmem; cbn [negb] in Hl.
      + destruct (mem n stack1) eqn:Hst; [discriminate |].
        destruct (IHl w w' Hl Hsubw Hsetw) as (H1 & H2 & H3).
        split; [exact H1 | split; [assumption |]].
        intros v [<- | Hv]; [| now apply H3].
        split; [apply H2; now apply mem_In | now apply mem_false].
      + destruct (has_cycle_dfs (graph_of dc) fuel n w stack1)
          as [found w1] eqn:Hrec.
        destruct found; [discriminate |].
        apply mem_false in Hmem.
        destruct (IH n w stack1 w1 Hrec Hmem Hsubw Hsetw)
          as (Hset1 & Hn1 & Hsub1).
        destruct (IHl w1 w' Hl (fun x Hx => Hsub1 x (Hsubw x Hx)) Hset1)
          as (H1 & H2 & H3).
        split; [exact H1 | split; [auto |]].
        intros v [<- | Hv]; [| now apply H3].
        split; [now apply H2 |]. intros Hs. apply Hmem. now apply Hsubw. }
  destruct (Hloop (graph_of dc node) (set_add node visited) visited' Hrun)
    as (H1 & H2 & H3).
  - intros x Hx. apply set_add_In. apply set_add_In in Hx.
    destruct Hx as [-> | Hx]; [now left | right; now apply Hsub].
  - now apply settled_enter.
  - assert (Hin : In node visited') by (apply H2, set_add_In; now left).
    split; [| split].
    + apply (settled_finish dc node visited' rec_stack Hnode_stack Hin H1).
      intros v Hv. apply H3. now apply graph_of_In.
    + exact Hin.
    + intros x Hx. apply H2, set_add_In. now right.
Qed.

Lemma cycle_from_any_settled (dc : list Constraint) (fuel : nat)
  (nodes : list Z) :
  forall visited,
    cycle_from_any (graph_of dc) fuel nodes visited = false ->
    settled dc visited [] ->
    exists visited',
      settled dc visited' []
      /\ (forall x, In x visited -> In x visited')
      /\ (forall x, In x nodes -> In x visited').
Proof.
  induction nodes as [| n nodes IH]; intros visited Hrun Hset.
  - exists visited. split; [assumption | split; [auto | intros x []]].
  - cbn [cycle_from_any] in Hrun.
    destruct (mem n visited) eqn:Hmem; cbn [negb] in Hrun.
    + destruct (IH visited Hrun Hset) as (w & Hw & Hsub & Hall).
      exists w. split; [assumption |]. split; [assumption |].
      intros x [<- | Hx]; [| now apply Hall].
      apply Hsub. now apply mem_In.
    + destruct (has_cycle_dfs (graph_of dc) fuel n visited [])
        as [found w1] eqn:Hrec.
      destruct found; [discriminate |].
      apply mem_false in Hmem.
      destruct (has_cycle_dfs_settled dc fuel n visited [] w1 Hrec Hmem)
        as (Hset1 & Hn1 & Hsub1); [intros x [] | assumption |].
      destruct (IH w1 Hrun Hset1) as (w & Hw & Hsub & Hall).
      exists w. split; [assumption |]. split; [auto |].
      intros x [<- | Hx]; [auto | now apply Hall].
Qed.

(** A bundle that [validate_dag] accepts has every edge between defined
    tasks and no cycle. *)
Lemma validate_dag_sound (self : ProductionScheduler) :
  validate_dag self = true ->
  (forall c, In c (build_dynamic_dependencies self) ->
             dict_mem (First c) (tasks self) = true
             /\ dict_mem (Second c) (tasks self) = true)
  /\ (forall t, ~ reaches (build_dynamic_dependencies self) t t).
Proof.
  unfold validate_dag.
  set (dc := build_dynamic_dependencies self).
  set (nodes := all_tasks_in_constraints dc).
  assert (Hnodes : forall c, In c dc -> In (First c) nodes /\ In (Second c) nodes).
  { intros c Hc. unfold nodes, all_tasks_in_constraints.
    rewrite !to_set_In, !in_flat_map. split; exists c; simpl; auto. }
  destruct (filter (fun t => negb (dict_mem t (tasks self))) nodes)
    as [| x l] eqn:Hmissing; [| discriminate].
  intros Hrun. apply negb_true_iff in Hrun.
  assert (Hdefined : forall t, In t nodes -> dict_mem t (tasks self) = true).
  { intros t Ht. destruct (dict_mem t (tasks self)) eqn:Hm; [reflexivity |].
    assert (Hin : In t (filter (fun t => negb (dict_mem t (tasks self)))
                          nodes))
      by (apply filter_In; now rewrite Hm).
    rewrite Hmissing in Hin. destruct Hin. }
  split.
  - intros c Hc. destruct (Hnodes c Hc). split; now apply Hdefined.
  - destruct (cycle_from_any_settled dc _ nodes [] Hrun)
      as (w & [_ Hacyclic] & _ & Hall).
    { split; [intros u v [[] _] | intros u [[] _]]. }
    intros t Hcycle. apply (Hacyclic t); [| assumption].
    split; [| intros []]. apply Hall.
    inversion Hcycle as [? ? (c & Hc & Hu & _) | ? ? ? (c & Hc & Hu & _) _];
      subst; now apply Hnodes.
Qed.

(** X3.  When [validate_dag] returns [True], every edge of the graph built
    by [build_dynamic_dependencies] joins two defined tasks, and no task is
    reached from itself along the edges: the graph is acyclic. *)
Theorem X3_validated_graph_is_acyclic (self : ProductionScheduler) :
  validate_dag self = true ->
  (forall c, In c (build_dynamic_dependencies self) ->
             dict_mem (First c) (tasks self) = true
             /\ dict_mem (Second c) (tasks self) = true)
  /\ (forall t, ~ reaches (build_dynamic_dependencies self) t t).
Proof.
  apply validate_dag_sound.
Qed.

Lemma X3_witness_quality_sample :
  validate_dag ex_quality = true
  /\ ((forall c, In c (build_dynamic_dependencies ex_quality) ->
                 dict_mem (First c) (tasks ex_quality) = true
                 /\ dict_mem (Second c) (tasks ex_quality) = true)
      /\ (forall t, ~ reaches (build_dynamic_dependencies ex_quality) t t))
  /\ validate_dag ex_cycle = false
  /\ reaches (build_dynamic_dependencies ex_cycle) 1 1.
Proof.
  split; [vm_compute; reflexivity |].
  split; [apply (X3_validated_graph_is_acyclic ex_quality);
          vm_compute; reflexivity |].
  split; [vm_compute; reflexivity |].
  apply (reaches_step _ 1 2 1).
  - exists (plain_edge 1 2 FINISH_LE_START). vm_compute. auto.
  - apply reaches_edge. exists (plain_edge 2 1 FINISH_LE_START).
    vm_compute. auto.
Defined.

(** ** The quality gate in the graph *)

Lemma has_edge_app (a b : Z) (dc more : list Constraint) :
  has_edge a b dc = true -> has_edge a b (dc ++ more) = true.
Proof.
  unfold has_edge. rewrite existsb_app. intros ->. reflexivity.
Qed.

Lemma residual_fold_links (links : list (Z * Z)) :
  forall dc,
    (forall a b, has_edge a b dc = true ->
                 has_edge a b (fold_left residual_step links dc) = true)
    /\ (forall p q, In (p, q) links ->
                    has_edge p q (fold_left residual_step links dc) = true).
Proof.
  induction links as [| [p0 q0] links IH]; intros dc; simpl.
  - split; [auto | intros p q []].
  - destruct (IH (if has_edge p0 q0 dc then dc
                  else dc ++ [plain_edge p0 q0 FINISH_EQ_START]))
      as [Hmono Hall].
    assert (Hstep : forall a b, has_edge a b dc = true ->
                    has_edge a b (if has_edge p0 q0 dc then dc
                                  else dc ++ [plain_edge p0 q0 FINISH_EQ_START])
                    = true).
    { intros a b H. destruct (has_edge p0 q0 dc); [assumption |].
      now apply has_edge_app. }
    split.
    + intros a b H. apply Hmono. now apply Hstep.
    + intros p q [[= -> ->] | Hin]; [| now apply Hall].
      apply Hmono. destruct (has_edge p q dc) eqn:He; [assumption |].
      apply has_edge_In. exists (plain_edge p q FINISH_EQ_START).
      split; [apply in_or_app; right; now left | auto].
Qed.

Lemma gated_fold {A : Type} (qr : dict Z Z)
  (step : list Constraint -> A -> list Constraint) (l : list A)
  (ok : A -> Prop) :
  (forall dc x, ok x -> Forall (gated qr) dc -> Forall (gated qr) (step dc x)) ->
  (forall x, In x l -> ok x) ->
  forall dc, Forall (gated qr) dc -> Forall (gated qr) (fold_left step l dc).
Proof.
  intros Hstep. induction l as [| x l IH]; intros Hok dc Hdc; simpl;
    [assumption |].
  apply IH; [intros; apply Hok; now right |].
  apply Hstep; [apply Hok; now left | assumption].
Qed.

Lemma gated_interposed (qr : dict Z Z) (dc : list Constraint)
  (a q : Z) (link after : Constraint) :
  (forall x y, dict_get x qr = Some y -> dict_get y qr = None) ->
  dict_get a qr = Some q ->
  First link = a -> Second link = q -> Relationship link = FINISH_EQ_START ->
  First after = q ->
  Forall (gated qr) dc ->
  Forall (gated qr)
    ((dc ++ (if has_edge a q dc then [] else [link])) ++ [after]).
Proof.
  intros Hnest Hq Hl1 Hl2 Hl3 Ha Hdc.
  apply Forall_app. split; [apply Forall_app; split; [assumption |] |].
  - destruct (has_edge a q dc); constructor; [| constructor].
    intros q' Hq'. right. rewrite Hl1, Hq in Hq'. injection Hq' as <-. auto.
  - constructor; [| constructor].
    intros q' Hq'. rewrite Ha, (Hnest a q Hq) in Hq'. discriminate.
Qed.

Lemma gated_direct (qr : dict Z Z) (dc : list Constraint) (c : Constraint) :
  dict_get (First c) qr = None ->
  Forall (gated qr) dc -> Forall (gated qr) (dc ++ [c]).
Proof.
  intros Hnone Hdc. apply Forall_app. split; [assumption |].
  constructor; [| constructor]. intros q Hq. congruence.
Qed.

Lemma no_nested_inspection_spec (self : ProductionScheduler) (x y : Z) :
  no_nested_inspection self = true ->
  dict_get x (quality_requirements self) = Some y ->
  dict_get y (quality_requirements self) = None.
Proof.
  unfold no_nested_inspection. rewrite forallb_forall. intros Hall Hget.
  apply dict_get_In in Hget. specialize (Hall _ Hget). simpl in Hall.
  apply negb_true_iff in Hall. unfold dict_mem in Hall.
  now destruct (dict_get y (quality_requirements self)).
Qed.

(** Every inspected task is linked to its inspection, and nothing but a late
    part edge leaves it for another task. *)
Lemma quality_gate (self : ProductionScheduler) (p q : Z) :
  dict_get p (quality_requirements self) = Some q ->
  (exists c, In c (build_dynamic_dependencies self)
             /\ First c = p /\ Second c = q)
  /\ (no_nested_inspection self = true ->
      NoDup (dict_keys (quality_requirements self)) ->
      forall c, In c (build_dynamic_dependencies self) -> First c = p ->
                Type_ c = Some "Late Part"
                \/ (Second c = q /\ Relationship c = FINISH_EQ_START)).
Proof.
  intros Hq. unfold build_dynamic_dependencies.
  set (qr := quality_requirements self). fold qr in Hq. split.
  - apply has_edge_In. apply residual_fold_links. now apply dict_get_In.
  - intros Hnest Hnd.
    assert (Hnest' : forall x y, dict_get x qr = Some y -> dict_get y qr = None)
      by (intros x y; now apply no_nested_inspection_spec).
    assert (Hall : Forall (gated qr)
                     (fold_left residual_step qr
                        (fold_left (rework_step qr) (rework_constraints self)
                           (fold_left late_part_step
                              (late_part_constraints self)
                              (base_pass qr (precedence_constraints self)))))).
    { apply (gated_fold qr residual_step qr (fun link => In link qr));
        [| auto |].
      { intros dc [a b] Hin Hdc. unfold residual_step.
        destruct (has_edge a b dc); [assumption |].
        apply Forall_app. split; [assumption |]. constructor; [| constructor].
        intros q' Hq'. right. simpl in *.
        rewrite (dict_get_of_In _ _ _ Hnd Hin) in Hq'. injection Hq' as <-.
        auto. }
      apply (gated_fold qr (rework_step qr) _ (fun _ => True)); [| auto |].
      { intros dc c _ Hdc. unfold rework_step.
        destruct (dict_get (rw_First c) qr) as [qi |] eqn:Hqi.
        - now apply gated_interposed.
        - now apply gated_direct. }
      apply (gated_fold qr late_part_step _ (fun _ => True)); [| auto |].
      { intros dc c _ Hdc. unfold late_part_step.
        apply Forall_app. split; [assumption |]. constructor; [| constructor].
        intros q' _. now left. }
      unfold base_pass.
      apply (gated_fold qr (base_step qr) _ (fun _ => True));
        [| auto | constructor].
      intros dc c _ Hdc. unfold base_step.
      destruct (relationship_of c) as [rel |]; [| assumption].
      destruct (dict_get (raw_First c) qr) as [qi |] eqn:Hqi.
      - now apply gated_interposed.
      - now apply gated_direct. }
    rewrite Forall_forall in Hall. intros c Hc Hp.
    apply (Hall c Hc). now rewrite Hp.
Qed.

(** X4.  In the graph that [build_dynamic_dependencies] returns, every task
    with a quality requirement has an edge to its inspection.  When no
    inspection has an inspection of its own, every edge that leaves an
    inspected task is either a late part edge or the edge to its inspection
    with relationship ['Finish = Start']: the tasks that follow an inspected
    task in the tables wait for the inspection. *)
Theorem X4_quality_gate (self : ProductionScheduler) (p q : Z) :
  dict_get p (quality_requirements self) = Some q ->
  (exists c, In c (build_dynamic_dependencies self)
             /\ First c = p /\ Second c = q)
  /\ (no_nested_inspection self = true ->
      NoDup (dict_keys (quality_requirements self)) ->
      forall c, In c (build_dynamic_dependencies self) -> First c = p ->
                Type_ c = Some "Late Part"
                \/ (Second c = q /\ Relationship c = FINISH_EQ_START)).
Proof.
  apply quality_gate.
Qed.

Lemma X4_witness_quality_sample :
  dict_get 1 (quality_requirements ex_quality) = Some 101
  /\ no_nested_inspection ex_quality = true
  /\ build_dynamic_dependencies ex_quality
     = [plain_edge 1 101 FINISH_EQ_START; plain_edge 101 2 FINISH_LE_START]
  /\ (forall c, In c (build_dynamic_dependencies ex_quality) -> First c = 1 ->
                Type_ c = Some "Late Part"
                \/ (Second c = 101 /\ Relationship c = FINISH_EQ_START)).
Proof.
  split; [reflexivity |]. split; [reflexivity |]. split; [reflexivity |].
  apply (proj2 (X4_quality_gate ex_quality 1 101 eq_refl)).
  - reflexivity.
  - simpl. repeat constructor. simpl. tauto.
Defined.

(** ** The global priority list *)

Lemma insert_row_perm (x : PriorityRow) (l : list PriorityRow) :
  Permutation (insert_row x l) (x :: l).
Proof.
  induction l as [| y l IH]; simpl; [reflexivity |].
  destruct (row_ltb x y); [reflexivity |].
  rewrite IH. apply perm_swap.
Qed.

Lemma sort_rows_perm (l : list PriorityRow) : Permutation (sort_rows l) l.
Proof.
  unfold sort_rows.
  assert (H : forall acc, Permutation
                (fold_left (fun acc x => insert_row x acc) l acc) (acc ++ l)).
  { induction l as [| x l IH]; intros acc; simpl.
    - now rewrite app_nil_r.
    - rewrite IH, insert_row_perm. apply Permutation_middle. }
  apply (H []).
Qed.

Lemma insert_row_sorted (x : PriorityRow) (l : list PriorityRow) :
  StronglySorted starts_no_later l ->
  StronglySorted starts_no_later (insert_row x l).
Proof.
  unfold starts_no_later.
  induction l as [| y l IH]; intros Hs; simpl.
  - constructor; constructor.
  - inversion Hs as [| ? ? Hl Hall]; subst.
    destruct (row_ltb x y) eqn:Hlt.
    + constructor; [assumption |].
      unfold row_ltb in Hlt. apply orb_true_iff in Hlt.
      rewrite andb_true_iff, Z.ltb_lt, Z.eqb_eq in Hlt.
      assert (Hxy : scheduled_start x <= scheduled_start y) by lia.
      constructor; [assumption |].
      eapply Forall_impl; [| exact Hall]. simpl. intros z Hz. lia.
    + constructor; [now apply IH |].
      rewrite Forall_forall in *. intros z Hz.
      apply (Permutation_in _ (insert_row_perm x l)) in Hz.
      destruct Hz as [<- | Hz]; [| now apply Hall].
      unfold row_ltb in Hlt. apply orb_false_iff in Hlt.
      destruct Hlt as [Hlt _]. apply Z.ltb_ge in Hlt. exact Hlt.
Qed.

Lemma sort_rows_sorted (l : list PriorityRow) :
  StronglySorted starts_no_later (sort_rows l).
Proof.
  unfold sort_rows.
  assert (H : forall acc, StronglySorted starts_no_later acc ->
                StronglySorted starts_no_later
                  (fold_left (fun acc x => insert_row x acc) l acc)).
  { induction l as [| x l IH]; intros acc Hacc; simpl; [assumption |].
    apply IH. now apply insert_row_sorted. }
  apply H. constructor.
Qed.

(** [assign_ranks] changes the rank only. *)
Lemma assign_ranks_fields {A : Type} (f : PriorityRow -> A)
  (Hf : forall r i,
      f {| row_task_id := row_task_id r; row_task_type := row_task_type r;
           row_product_line := row_product_line r; row_team := row_team r;
           scheduled_start := scheduled_start r;
           scheduled_end := scheduled_end r;
           duration_minutes := duration_minutes r;
           row_mechanics_required := row_mechanics_required r;
           slack_hours := slack_hours r; priority_score := priority_score r;
           row_shift := row_shift r; global_priority := i |} = f r)
  (l : list PriorityRow) :
  forall i, map f (assign_ranks i l) = map f l.
Proof.
  induction l as [| r l IH]; intros i; simpl; [reflexivity |].
  now rewrite IH, Hf.
Qed.

Lemma assign_ranks_nth (l : list PriorityRow) :
  forall i k r,
    nth_error (assign_ranks i l) k = Some r ->
    global_priority r = i + Z.of_nat k.
Proof.
  induction l as [| x l IH]; intros i k r; simpl.
  - destruct k; discriminate.
  - destruct k as [| k]; simpl.
    + intros [= <-]. simpl. lia.
    + intros H. rewrite (IH _ _ _ H). lia.
Qed.

Lemma assign_ranks_ranked (l : list PriorityRow) :
  forall i, StronglySorted ranked_before (assign_ranks i l)
            /\ Forall (fun r => i <= global_priority r) (assign_ranks i l).
Proof.
  unfold ranked_before.
  induction l as [| x l IH]; intros i; simpl.
  - split; constructor.
  - destruct (IH (i + 1)) as [Hs Hall]. split.
    + constructor; [assumption |].
      eapply Forall_impl; [| exact Hall]. simpl. intros r Hr. lia.
    + constructor; [simpl; lia |].
      eapply Forall_impl; [| exact Hall]. simpl. intros r Hr. lia.
Qed.

Lemma assign_ranks_sorted (l : list PriorityRow) :
  forall i, StronglySorted starts_no_later l ->
            StronglySorted starts_no_later (assign_ranks i l).
Proof.
  unfold starts_no_later.
  induction l as [| x l IH]; intros i Hs; simpl; [constructor |].
  inversion Hs as [| ? ? Hl Hall]; subst.
  constructor; [now apply IH |].
  rewrite Forall_forall in *. intros r Hr. simpl.
  assert (Hin : In (scheduled_start r) (map scheduled_start (assign_ranks (i + 1) l)))
    by (apply in_map; exact Hr).
  rewrite (assign_ranks_fields scheduled_start) in Hin by reflexivity.
  apply in_map_iff in Hin. destruct Hin as (r0 & <- & Hr0). now apply Hall.
Qed.

Lemma priority_rows_entries (self : ProductionScheduler)
  (priority_of : Z -> option Q) (task_schedule : Schedule) (items : Schedule) :
  forall rows,
    priority_rows self priority_of task_schedule items = Some rows ->
    map row_task_id rows = dict_keys items
    /\ forall r, In r rows ->
                 global_priority r = 0
                 /\ exists p, In (row_task_id r, p) items /\ row_of_entry r p.
Proof.
  induction items as [| [t p] items IH]; intros rows; simpl.
  - intros [= <-]. split; [reflexivity | intros r []].
  - destruct (calculate_slack_time self task_schedule t); [| discriminate].
    destruct (priority_of t); [| discriminate].
    destruct (priority_rows self priority_of task_schedule items) as [l |];
      [| discriminate].
    intros [= <-]. destruct (IH l eq_refl) as [Hkeys Hrows]. split.
    + simpl. now rewrite Hkeys.
    + intros r [<- | Hr].
      * split; [reflexivity |]. exists p. simpl.
        split; [now left | repeat split].
      * destruct (Hrows r Hr) as (Hz & p' & Hin & Hrow).
        split; [assumption |]. exists p'. auto.
Qed.

(** The list returned for a run that finished: one row per entry of the
    schedule, in the order of the starts, ranked 1, 2, ... *)
Lemma global_priority_list_order
  (self : ProductionScheduler) (set_iter : list Z -> list Z)
  (now : datetime) (silent_mode : bool) (st : LoopState)
  (rows : list PriorityRow) :
  generate_global_priority_list self set_iter now silent_mode
  = Some (st, rows) ->
  schedule_tasks self set_iter (calculate_task_priority self now) silent_mode
  = Finished st
  /\ Permutation (map row_task_id rows) (dict_keys (task_schedule st))
  /\ (forall k r, nth_error rows k = Some r ->
                  global_priority r = Z.of_nat k + 1)
  /\ StronglySorted starts_no_later rows
  /\ StronglySorted ranked_before rows
  /\ (forall r, In r rows ->
                exists p, In (row_task_id r, p) (task_schedule st)
                          /\ row_of_entry r p).
Proof.
  unfold generate_global_priority_list.
  destruct (schedule_tasks self set_iter (calculate_task_priority self now)
              silent_mode) as [st' | |] eqn:Hrun; try discriminate.
  destruct (priority_rows self (calculate_task_priority self now)
              (task_schedule st') (task_schedule st')) as [l |] eqn:Hrows;
    [| discriminate].
  intros [= <- <-].
  destruct (priority_rows_entries _ _ _ _ _ Hrows) as [Hkeys Hentries].
  split; [reflexivity |]. split; [| split; [| split; [| split]]].
  - rewrite (assign_ranks_fields row_task_id) by reflexivity.
    rewrite <- Hkeys. apply Permutation_map. apply sort_rows_perm.
  - intros k r Hk. rewrite (assign_ranks_nth _ _ _ _ Hk). lia.
  - apply assign_ranks_sorted. apply sort_rows_sorted.
  - apply assign_ranks_ranked.
  - intros r Hr.
    assert (Hin : exists r0, In r0 l
                             /\ row_task_id r = row_task_id r0
                             /\ forall p, row_of_entry r0 p -> row_of_entry r p).
    { clear - Hr. revert Hr. generalize 1. generalize (sort_rows_perm l).
      generalize (sort_rows l). intros s Hperm.
      assert (Hs : forall r0, In r0 s -> In r0 l)
        by (intros r0; apply Permutation_in; exact Hperm).
      clear Hperm. induction s as [| x s IH]; intros i; simpl; [intros [] |].
      intros [<- | Hr].
      - exists x. split; [apply Hs; now left |]. split; [reflexivity |].
        intros p Hp. exact Hp.
      - apply (IH (fun r0 H => Hs r0 (or_intror H)) (i + 1) Hr). }
    destruct Hin as (r0 & Hr0 & Hid & Hrow).
    destruct (Hentries r0 Hr0) as (_ & p & Hp & Hrp).
    exists p. split; [now rewrite Hid | now apply Hrow].
Qed.

Lemma sorted_app_inv {A : Type} (R : A -> A -> Prop) (l1 l2 : list A) :
  StronglySorted R (l1 ++ l2) ->
  StronglySorted R l1 /\ StronglySorted R l2
  /\ forall x y, In x l1 -> In y l2 -> R x y.
Proof.
  induction l1 as [| a l1 IH]; simpl; intros Hs.
  - split; [constructor | split; [assumption | intros x y []]].
  - inversion Hs as [| ? ? Hl Hall]; subst.
    destruct (IH Hl) as (H1 & H2 & H3).
    rewrite Forall_forall in Hall. split; [| split; [assumption |]].
    + constructor; [assumption |]. apply Forall_forall.
      intros x Hx. apply Hall. apply in_or_app. now left.
    + intros x y [<- | Hx] Hy; [| now apply H3].
      apply Hall. apply in_or_app. now right.
Qed.

Lemma sorted_filter {A : Type} (R : A -> A -> Prop) (f : A -> bool)
  (l : list A) :
  StronglySorted R l -> StronglySorted R (filter f l).
Proof.
  induction 1 as [| a l Hl IH Hall]; simpl; [constructor |].
  destruct (f a); [| assumption].
  constructor; [assumption |].
  rewrite Forall_forall in *. intros x Hx. apply filter_In in Hx.
  now apply Hall.
Qed.

Lemma insert_by_start_last (x : PriorityRow) (l : list PriorityRow) :
  (forall y, In y l -> starts_no_later y x) ->
  insert_by_start x l = l ++ [x].
Proof.
  unfold starts_no_later.
  induction l as [| y l IH]; intros Hall; simpl; [reflexivity |].
  destruct (Z.ltb_spec (scheduled_start x) (scheduled_start y)) as [Hlt | _].
  - specialize (Hall y (or_introl eq_refl)). lia.
  - rewrite IH by (intros; apply Hall; now right). reflexivity.
Qed.

(** Sorting by start a list that is in the order of the starts changes
    nothing. *)
Lemma sorted_by_start_id (l : list PriorityRow) :
  StronglySorted starts_no_later l -> sorted_by_start l = l.
Proof.
  unfold sorted_by_start.
  assert (H : forall acc, StronglySorted starts_no_later (acc ++ l) ->
                fold_left (fun acc x => insert_by_start x acc) l acc
                = acc ++ l).
  { induction l as [| x l IH]; intros acc Hs; simpl.
    - now rewrite app_nil_r.
    - destruct (sorted_app_inv _ _ _ Hs) as (_ & _ & Hle).
      rewrite insert_by_start_last
        by (intros y Hy; apply Hle; [assumption | now left]).
      rewrite IH; rewrite <- app_assoc; [reflexivity | exact Hs]. }
  intros Hs. apply (H [] Hs).
Qed.

(** X5.  The list that [generate_global_priority_list] returns has one row
    for each entry of the schedule and no other, carrying the start, the
    end, the team, the product, the duration, the head count and the shift
    of the entry; its rows are in the order of their scheduled starts, and
    the row at position k (from 0) has [global_priority] k + 1. *)
Theorem X5_global_priority_list_shape
  (self : ProductionScheduler) (set_iter : list Z -> list Z)
  (now : datetime) (silent_mode : bool) (st : LoopState)
  (rows : list PriorityRow) :
  generate_global_priority_list self set_iter now silent_mode
  = Some (st, rows) ->
  Permutation (map row_task_id rows) (dict_keys (task_schedule st))
  /\ (forall k r, nth_error rows k = Some r ->
                  global_priority r = Z.of_nat k + 1)
  /\ StronglySorted starts_no_later rows
  /\ (forall r, In r rows ->
                exists p, In (row_task_id r, p) (task_schedule st)
                          /\ row_of_entry r p).
Proof.
  intros Hgen.
  destruct (global_priority_list_order _ _ _ _ _ _ Hgen)
    as (_ & H1 & H2 & H3 & _ & H4).
  auto.
Qed.

Lemma X5_witness_quality_sample :
  generate_global_priority_list ex_quality (fun l => l) sample_now true
  = Some (ex_quality_final, ex_quality_rows)
  /\ map (fun r => (row_task_id r, global_priority r, scheduled_start r))
         ex_quality_rows
     = [(1, 1, 6120); (101, 2, 6180); (2, 3, 6210)]
  /\ StronglySorted starts_no_later ex_quality_rows.
Proof.
  assert (Hgen : generate_global_priority_list ex_quality (fun l => l)
                   sample_now true
                 = Some (ex_quality_final, ex_quality_rows))
    by (vm_compute; reflexivity).
  split; [exact Hgen |]. split; [vm_compute; reflexivity |].
  apply (X5_global_priority_list_shape _ _ _ _ _ _ Hgen).
Defined.

(** X6.  On the list that [generate_global_priority_list] returns,
    [get_daily_schedule] gives the rows of the day (and of the team, when
    one is named) in the order of the list: its final sort by start moves
    nothing.  These rows, and the rows [filter_by_team] gives, are in
    increasing [global_priority]. *)
Theorem X6_daily_schedule_in_rank_order
  (self : ProductionScheduler) (set_iter : list Z -> list Z)
  (now : datetime) (silent_mode : bool) (st : LoopState)
  (rows : list PriorityRow) (target_date : Z) (team_name : option string)
  (name : string) :
  generate_global_priority_list self set_iter now silent_mode
  = Some (st, rows) ->
  get_daily_schedule rows target_date team_name
  = filter (on_day target_date team_name) rows
  /\ StronglySorted ranked_before
       (get_daily_schedule rows target_date team_name)
  /\ StronglySorted ranked_before (filter_by_team rows name).
Proof.
  intros Hgen.
  destruct (global_priority_list_order _ _ _ _ _ _ Hgen)
    as (_ & _ & _ & Hstart & Hrank & _).
  assert (Heq : get_daily_schedule rows target_date team_name
                = filter (on_day target_date team_name) rows).
  { unfold get_daily_schedule. apply sorted_by_start_id.
    now apply sorted_filter. }
  split; [exact Heq |]. split.
  - rewrite Heq. now apply sorted_filter.
  - unfold filter_by_team. now apply sorted_filter.
Qed.

Lemma X6_witness_quality_sample :
  generate_global_priority_list ex_quality (fun l => l) sample_now true
  = Some (ex_quality_final, ex_quality_rows)
  /\ map row_task_id (get_daily_schedule ex_quality_rows 4 (Some "M1"))
     = [1; 2]
  /\ StronglySorted ranked_before
       (get_daily_schedule ex_quality_rows 4 (Some "M1")).
Proof.
  assert (Hgen : generate_global_priority_list ex_quality (fun l => l)
                   sample_now true
                 = Some (ex_quality_final, ex_quality_rows))
    by (vm_compute; reflexivity).
  split; [exact Hgen |]. split; [vm_compute; reflexivity |].
  apply (X6_daily_schedule_in_rank_order _ _ _ _ _ _ 4 (Some "M1") "M1" Hgen).
Defined.

(** ** The critical path *)

(** One level of [get_path_length], with its loop spelled out. *)
Lemma get_path_length_unfold (self : ProductionScheduler)
  (dc : list Constraint) (fuel : nat) (task : Z) :
  get_path_length self dc (S fuel) task
  = match dict_get task (tasks self) with
    | None => None
    | Some info =>
        match successor_paths self (get_path_length self dc fuel) task dc 0
        with
        | None => None
        | Some max_successor_path => Some (duration info + max_successor_path)
        end
    end.
Proof.
  cbn [get_path_length].
  destruct (dict_get task (tasks self)) as [info |]; [| reflexivity].
  match goal with
  | |- context [?f dc 0] =>
      lazymatch f with
      | successor_paths _ _ _ => fail
      | _ => set (loop := f)
      end
  end.
  assert (H : forall l acc,
             loop l acc
             = successor_paths self (get_path_length self dc fuel) task l acc).
  { induction l as [| c l IH]; intros acc; [reflexivity |].
    cbn [loop successor_paths]. fold loop.
    destruct ((First c =? task) && dict_mem (Second c) (tasks self)).
    - destruct (get_path_length self dc fuel (Second c)) as [v |];
        [apply IH | reflexivity].
    - apply IH. }
  now rewrite H.
Qed.

Lemma successor_paths_ext (self : ProductionScheduler)
  (rec rec' : Z -> option Z) (task : Z) (l : list Constraint) :
  (forall s v, rec s = Some v -> rec' s = Some v) ->
  forall acc m,
    successor_paths self rec task l acc = Some m ->
    successor_paths self rec' task l acc = Some m.
Proof.
  intros Hext. induction l as [| c l IH]; intros acc m; simpl; [auto |].
  destruct ((First c =? task) && dict_mem (Second c) (tasks self));
    [| apply IH].
  destruct (rec (Second c)) as [v |] eqn:Hrec; [| discriminate].
  rewrite (Hext _ _ Hrec). apply IH.
Qed.

(** More depth does not change a length already computed. *)
Lemma get_path_length_mono (self : ProductionScheduler)
  (dc : list Constraint) (fuel : nat) :
  forall task v,
    get_path_length self dc fuel task = Some v ->
    get_path_length self dc (S fuel) task = Some v.
Proof.
  induction fuel as [| fuel IH]; intros task v; [discriminate |].
  rewrite (get_path_length_unfold self dc (S fuel)),
    (get_path_length_unfold self dc fuel).
  destruct (dict_get task (tasks self)) as [info |]; [| discriminate].
  destruct (successor_paths self (get_path_length self dc fuel) task dc 0)
    as [m |] eqn:Hloop; [| discriminate].
  now rewrite (successor_paths_ext _ _ _ _ _ IH _ _ Hloop).
Qed.

Lemma successor_paths_max (self : ProductionScheduler)
  (rec : Z -> option Z) (task : Z) (l : list Constraint) :
  forall acc m,
    successor_paths self rec task l acc = Some m ->
    acc <= m
    /\ (forall c, In c l -> First c = task ->
                  dict_mem (Second c) (tasks self) = true ->
                  exists v, rec (Second c) = Some v /\ v <= m)
    /\ (m = acc
        \/ exists c, In c l /\ First c = task
                     /\ dict_mem (Second c) (tasks self) = true
                     /\ rec (Second c) = Some m).
Proof.
  induction l as [| c l IH]; intros acc m; simpl.
  - intros [= <-]. split; [lia |]. split; [intros c [] | now left].
  - destruct ((First c =? task) && dict_mem (Second c) (tasks self))
      eqn:Hguard.
    + apply andb_true_iff in Hguard. destruct Hguard as [Hf Hm].
      apply Z.eqb_eq in Hf.
      destruct (rec (Second c)) as [v |] eqn:Hrec; [| discriminate].
      intros Hloop. destruct (IH _ _ Hloop) as (Hle & Hall & Hex).
      split; [lia |]. split.
      * intros c' [<- | Hc'] Hf' Hm'; [| now apply Hall].
        exists v. split; [assumption | lia].
      * destruct Hex as [-> | (c' & Hc' & H)].
        -- destruct (Z.max_spec acc v) as [[_ ->] | [_ ->]];
             [right; exists c; auto | now left].
        -- right. exists c'. tauto.
    + intros Hloop. destruct (IH _ _ Hloop) as (Hle & Hall & Hex).
      split; [assumption |]. split.
      * intros c' [<- | Hc'] Hf' Hm'; [| now apply Hall].
        apply Z.eqb_eq in Hf'. rewrite Hf', Hm' in Hguard. discriminate.
      * destruct Hex as [-> | (c' & Hc' & H)]; [now left |].
        right. exists c'. tauto.
Qed.

(** X8.  When [calculate_critical_path_length] returns a length for a task,
    the task is defined and the length obeys the longest-path recurrence
    over the graph of [build_dynamic_dependencies]: it is at least the
    task's duration, at least the duration plus the length returned for any
    defined successor, and equal to one of these. *)
Theorem X8_critical_path_recurrence (self : ProductionScheduler)
  (task_id v : Z) :
  calculate_critical_path_length self task_id = Some v ->
  exists info,
    dict_get task_id (tasks self) = Some info
    /\ duration info <= v
    /\ (forall c, In c (build_dynamic_dependencies self) ->
                  First c = task_id ->
                  dict_mem (Second c) (tasks self) = true ->
                  exists v', calculate_critical_path_length self (Second c)
                             = Some v'
                             /\ duration info + v' <= v)
    /\ (v = duration info
        \/ exists c v',
            In c (build_dynamic_dependencies self) /\ First c = task_id
            /\ calculate_critical_path_length self (Second c) = Some v'
            /\ v = duration info + v').
Proof.
  unfold calculate_critical_path_length.
  set (dc := build_dynamic_dependencies self).
  set (n := List.length (all_tasks self)).
  rewrite get_path_length_unfold.
  destruct (dict_get task_id (tasks self)) as [info |]; [| discriminate].
  destruct (successor_paths self (get_path_length self dc n) task_id dc 0)
    as [m |] eqn:Hloop; [| discriminate].
  intros [= <-]. exists info.
  destruct (successor_paths_max _ _ _ _ _ _ Hloop) as (Hle & Hall & Hex).
  split; [reflexivity |]. split; [lia |]. split.
  - intros c Hc Hf Hm. destruct (Hall c Hc Hf Hm) as (v' & Hv' & Hle').
    exists v'. split; [now apply get_path_length_mono | lia].
  - destruct Hex as [-> | (c & Hc & Hf & _ & Hrec)]; [left; lia |].
    right. exists c, m. repeat split; try assumption.
    now apply get_path_length_mono.
Qed.

Lemma X8_witness_quality_sample :
  calculate_critical_path_length ex_quality 1 = Some 150
  /\ calculate_critical_path_length ex_quality 101 = Some 90
  /\ exists info,
      dict_get 1 (tasks ex_quality) = Some info
      /\ duration info <= 150
      /\ (forall c, In c (build_dynamic_dependencies ex_quality) ->
                    First c = 1 ->
                    dict_mem (Second c) (tasks ex_quality) = true ->
                    exists v', calculate_critical_path_length ex_quality
                                 (Second c) = Some v'
                               /\ duration info + v' <= 150)
      /\ (150 = duration info
          \/ exists c v',
              In c (build_dynamic_dependencies ex_quality) /\ First c = 1
              /\ calculate_critical_path_length ex_quality (Second c)
                 = Some v'
              /\ 150 = duration info + v').
Proof.
  split; [vm_compute; reflexivity |]. split; [vm_compute; reflexivity |].
  apply (X8_critical_path_recurrence ex_quality 1 150).
  vm_compute. reflexivity.
Defined.

(** ** The quality team selector *)

Lemma eligible_teams_In (self : ProductionScheduler)
  (task_schedule : Schedule) (shift : string) (mechanics_needed : Z)
  (tm : string) (load : Z) :
  In (tm, load) (eligible_teams self task_schedule shift mechanics_needed)
  <-> load = scheduled_minutes task_schedule tm
      /\ mechanics_needed <= get_default tm (quality_team_capacity self) 0
      /\ exists shifts, In (tm, shifts) (quality_team_shifts self)
                        /\ mem shift shifts = true.
Proof.
  unfold eligible_teams, available_teams.
  rewrite in_map_iff. split.
  - intros (t & [= <- <-] & Hin). apply filter_In in Hin.
    destruct Hin as [Hin Hcap]. apply negb_true_iff, Z.ltb_ge in Hcap.
    apply in_map_iff in Hin. destruct Hin as ([t' shifts] & <- & Hin).
    apply filter_In in Hin. simpl. split; [reflexivity |].
    split; [assumption |]. exists shifts. tauto.
  - intros (-> & Hcap & shifts & Hin & Hmem). exists tm.
    split; [reflexivity |]. apply filter_In. split.
    + apply in_map_iff. exists (tm, shifts). split; [reflexivity |].
      apply filter_In. auto.
    + apply negb_true_iff, Z.ltb_ge. exact Hcap.
Qed.

(** X9.  [assign_quality_team_balanced] returns a team exactly when some
    quality team works the shift with a capacity of at least the inspectors
    needed; the team it returns is such a team, and no such team has fewer
    scheduled worker minutes. *)
Theorem X9_quality_team_is_eligible (self : ProductionScheduler)
  (task_schedule : Schedule) (shift : string) (mechanics_needed : Z) :
  NoDup (dict_keys (quality_team_shifts self)) ->
  (assign_quality_team_balanced self task_schedule shift mechanics_needed
   = None
   <-> forall tm shifts,
       In (tm, shifts) (quality_team_shifts self) ->
       mem shift shifts = true ->
       get_default tm (quality_team_capacity self) 0 < mechanics_needed)
  /\ (forall chosen,
         assign_quality_team_balanced self task_schedule shift
           mechanics_needed = Some chosen ->
         (exists shifts, In (chosen, shifts) (quality_team_shifts self)
                         /\ mem shift shifts = true)
         /\ mechanics_needed
            <= get_default chosen (quality_team_capacity self) 0
         /\ forall tm shifts,
             In (tm, shifts) (quality_team_shifts self) ->
             mem shift shifts = true ->
             mechanics_needed
             <= get_default tm (quality_team_capacity self) 0 ->
             scheduled_minutes task_schedule chosen
             <= scheduled_minutes task_schedule tm).
Proof.
  intros Hnd.
  pose proof (eligible_teams_In self task_schedule shift mechanics_needed)
    as Hel.
  assert (Hassign :
            assign_quality_team_balanced self task_schedule shift
              mechanics_needed
            = match eligible_teams self task_schedule shift mechanics_needed
              with
              | [] => None
              | x :: l => Some (fst (min_by_load x l))
              end).
  { unfold assign_quality_team_balanced.
    rewrite (team_loads_eligible _ _ _ _ Hnd).
    destruct (available_teams self shift) eqn:Hav; [| reflexivity].
    unfold eligible_teams. now rewrite Hav. }
  rewrite Hassign.
  destruct (eligible_teams self task_schedule shift mechanics_needed)
    as [| x l] eqn:Hlist.
  - split; [| discriminate]. split; [| reflexivity].
    intros _ tm shifts Hin Hmem.
    destruct (Z.lt_ge_cases (get_default tm (quality_team_capacity self) 0)
                mechanics_needed) as [Hlt | Hge]; [assumption |].
    exfalso.
    apply (proj2 (Hel tm (scheduled_minutes task_schedule tm))).
    split; [reflexivity |]. split; [lia |]. now exists shifts.
  - split.
    + split; [discriminate |]. intros Hnone. exfalso.
      destruct x as [tm load].
      destruct (proj1 (Hel tm load) (or_introl eq_refl))
        as (_ & Hcap & shifts & Hin & Hmem).
      specialize (Hnone tm shifts Hin Hmem). lia.
    + intros chosen [= <-].
      destruct (min_by_load_first l x) as (l1 & l2 & Heq & Hbefore & Hafter).
      set (best := min_by_load x l) in *.
      assert (Hbest : In best (x :: l))
        by (rewrite Heq; apply in_or_app; right; now left).
      destruct best as [tm load] eqn:Hb. simpl.
      destruct (proj1 (Hel tm load) Hbest) as (-> & Hcap & Hshifts).
      split; [assumption |]. split; [assumption |].
      intros tm' shifts' Hin' Hmem' Hcap'.
      assert (Hin2 : In (tm', scheduled_minutes task_schedule tm') (x :: l)).
      { apply Hel. split; [reflexivity |]. split; [assumption |].
        now exists shifts'. }
      rewrite Heq in Hin2. apply in_app_or in Hin2.
      destruct Hin2 as [H | [H | H]].
      * specialize (Hbefore _ H). simpl in Hbefore. lia.
      * injection H as _ H. lia.
      * specialize (Hafter _ H). simpl in Hafter. lia.
Qed.

Lemma X9_witness_quality_sample :
  NoDup (dict_keys (quality_team_shifts ex_quality))
  /\ assign_quality_team_balanced ex_quality [] "1st" 1 = Some "Q2"
  /\ assign_quality_team_balanced ex_quality [] "1st" 2 = None
  /\ assign_quality_team_balanced ex_quality [] "2nd" 1 = None
  /\ ((exists shifts, In ("Q2", shifts) (quality_team_shifts ex_quality)
                      /\ mem "1st" shifts = true)
      /\ 1 <= get_default "Q2" (quality_team_capacity ex_quality) 0
      /\ forall tm shifts,
          In (tm, shifts) (quality_team_shifts ex_quality) ->
          mem "1st" shifts = true ->
          1 <= get_default tm (quality_team_capacity ex_quality) 0 ->
          scheduled_minutes [] "Q2" <= scheduled_minutes [] tm).
Proof.
  assert (Hnd : NoDup (dict_keys (quality_team_shifts ex_quality))).
  { simpl. repeat constructor; simpl; intuition discriminate. }
  split; [exact Hnd |]. split; [reflexivity |]. split; [reflexivity |].
  split; [reflexivity |].
  apply (proj2 (X9_quality_team_is_eligible ex_quality [] "1st" 1 Hnd) "Q2").
  reflexivity.
Defined.

(** ** The configurations of the scenarios *)

Lemma dict_set_keys_present (k : string) (v : Z) (d : dict string Z) :
  dict_mem k d = true -> dict_keys (dict_set k v d) = dict_keys d.
Proof.
  unfold dict_mem, dict_keys.
  induction d as [| [k' v'] d IH]; simpl; [discriminate |].
  destruct (String.eqb_spec k k') as [-> | Hne]; simpl; [reflexivity |].
  intros H. now rewrite IH.
Qed.

Lemma dict_set_in_range (lo hi : Z) (k : string) (v : Z) (d : dict string Z) :
  lo <= v <= hi -> in_range lo hi d -> in_range lo hi (dict_set k v d).
Proof.
  unfold in_range. intros Hv.
  induction d as [| [k' v'] d IH]; simpl; intros Hd.
  - constructor; [exact Hv | constructor].
  - inversion Hd as [| ? ? Hx Hd']; subst.
    destruct (k =? k')%string; constructor; simpl; auto.
Qed.

Lemma in_range_get (lo hi : Z) (k : string) (v : Z) (d : dict string Z) :
  in_range lo hi d -> dict_get k d = Some v -> lo <= v <= hi.
Proof.
  unfold in_range. rewrite Forall_forall. intros Hd Hget.
  apply dict_get_In in Hget. apply (Hd (k, v) Hget).
Qed.

Lemma set_all_keys (v : Z) (d : dict string Z) :
  dict_keys (set_all v d) = dict_keys d.
Proof.
  unfold set_all, dict_keys. rewrite map_map. apply map_ext.
  now intros [k x].
Qed.

Lemma set_all_in_range (lo hi v : Z) (d : dict string Z) :
  lo <= v <= hi -> in_range lo hi (set_all v d).
Proof.
  unfold in_range, set_all. intros Hv. apply Forall_forall.
  intros [k x] Hin. apply in_map_iff in Hin.
  destruct Hin as ([k' x'] & [= <- <-] & _). exact Hv.
Qed.

Lemma write_all_keys (src d : dict string Z) :
  (forall k, In k (dict_keys src) -> In k (dict_keys d)) ->
  dict_keys (write_all src d) = dict_keys d.
Proof.
  unfold write_all. revert d.
  induction src as [| [k c] src IH]; intros d Hsub; simpl; [reflexivity |].
  assert (Hk : dict_mem k d = true)
    by (apply dict_mem_In, Hsub; now left).
  rewrite IH; [now apply dict_set_keys_present |].
  intros k' Hk'. rewrite dict_set_keys_present by assumption.
  apply Hsub. now right.
Qed.

(** Two dictionaries with the same keys, listed once, and the same values
    are the same dictionary. *)
Lemma dict_ext (d1 d2 : dict string Z) :
  dict_keys d1 = dict_keys d2 ->
  NoDup (dict_keys d1) ->
  (forall k, dict_get k d1 = dict_get k d2) ->
  d1 = d2.
Proof.
  unfold dict_keys. revert d2.
  induction d1 as [| [k v] d1 IH]; intros [| [k' v'] d2]; simpl;
    try discriminate; [reflexivity |].
  intros [= <- Hkeys] Hnd Hget. inversion Hnd as [| ? ? Hk Hnd']; subst.
  pose proof (Hget k) as Hv. simpl in Hv. rewrite String.eqb_refl in Hv.
  injection Hv as <-. f_equal. apply IH; [assumption | assumption |].
  intros x. destruct (String.eqb_spec x k) as [Heq | Hne].
  - rewrite Heq.
    assert (H1 : dict_get k d1 = None) by (now apply dict_get_None).
    assert (H2 : dict_get k d2 = None)
      by (apply dict_get_None; unfold dict_keys; now rewrite <- Hkeys).
    congruence.
  - specialize (Hget x). simpl in Hget.
    apply String.eqb_neq in Hne. now rewrite Hne in Hget.
Qed.

(** Writing back a dictionary over one with the same teams gives the
    dictionary written. *)
Lemma write_all_same_teams (src d : dict string Z) :
  NoDup (dict_keys src) -> same_teams d src -> write_all src d = src.
Proof.
  intros Hnd Hsame. unfold same_teams in Hsame.
  assert (Hkeys : dict_keys (write_all src d) = dict_keys src).
  { rewrite write_all_keys; [assumption |]. intros k. now rewrite Hsame. }
  apply dict_ext; [assumption | now rewrite Hkeys |].
  intros k. destruct (dict_get k src) as [v |] eqn:Hget.
  - now apply write_all_get.
  - apply dict_get_None. rewrite Hkeys. now apply dict_get_None.
Qed.

Lemma restore_originals_exact (originals caps : Capacities) :
  NoDup (dict_keys (caps_team originals)) ->
  NoDup (dict_keys (caps_quality originals)) ->
  same_teams_caps caps originals ->
  restore_originals originals caps = originals.
Proof.
  intros Ht Hq [Hst Hsq]. unfold restore_originals, apply_config.
  rewrite !write_all_same_teams by assumption. now destruct originals.
Qed.

Lemma apply_config_same_teams (mech qual : dict string Z)
  (caps originals : Capacities) :
  same_teams mech (caps_team originals) ->
  same_teams qual (caps_quality originals) ->
  same_teams_caps caps originals ->
  same_teams_caps (apply_config mech qual caps) originals.
Proof.
  unfold same_teams_caps, same_teams, apply_config. simpl.
  intros Hm Hq [Ht Hqq].
  rewrite !write_all_keys; [tauto | |]; intros k; congruence.
Qed.

Lemma bump_teams_ok (lo hi step limit : Z) (once : bool)
  (teams : list string) :
  0 <= step -> limit + step - 1 <= hi ->
  forall d increased d' increased' raised,
    bump_teams step limit once teams d increased = (d', increased', raised) ->
    dict_keys d' = dict_keys d
    /\ (in_range lo hi d -> in_range lo hi d').
Proof.
  intros Hstep Hlimit.
  induction teams as [| tm teams IH]; intros d inc d' inc' raised; simpl.
  - intros [= <- _ _]. auto.
  - destruct (dict_get tm d) as [cap |] eqn:Hget;
      [| intros [= <- _ _]; auto].
    assert (Hset : dict_keys (dict_set tm (cap + step) d) = dict_keys d
                   /\ (in_range lo hi d ->
                       cap < limit ->
                       in_range lo hi (dict_set tm (cap + step) d))).
    { split.
      - apply dict_set_keys_present. unfold dict_mem. now rewrite Hget.
      - intros Hd Hcap. apply dict_set_in_range; [| assumption].
        pose proof (in_range_get _ _ _ _ _ Hd Hget). lia. }
    destruct Hset as [Hkeys Hrange].
    destruct (Z.ltb_spec cap limit) as [Hlt | Hge].
    + destruct once.
      * intros [= <- _ _]. auto.
      * intros Hrec. destruct (IH _ _ _ _ _ Hrec) as [H1 H2].
        split; [congruence | auto].
    + apply IH.
Qed.

Lemma bump_first_at_ok (lo hi m limit : Z) (rest : dict string Z) :
  limit <= hi ->
  forall seen d' increased,
    bump_first_at m limit seen rest = (d', increased) ->
    dict_keys d' = dict_keys (seen ++ rest)
    /\ (in_range lo hi (seen ++ rest) -> in_range lo hi d').
Proof.
  intros Hlimit.
  induction rest as [| [tm cap] rest IH]; intros seen d' inc; simpl.
  - intros [= <- _]. rewrite app_nil_r. auto.
  - destruct ((cap =? m) && (cap <? limit)) eqn:Hguard.
    + intros [= <- _]. split.
      * unfold dict_keys. now rewrite !map_app.
      * unfold in_range. rewrite !Forall_app. intros [Hs Hr].
        inversion Hr as [| ? ? Hx Hr']; subst. simpl in Hx.
        apply andb_true_iff in Hguard. destruct Hguard as [_ Hlt].
        apply Z.ltb_lt in Hlt.
        split; [assumption |]. constructor; [simpl; lia | assumption].
    + intros Hrec. destruct (IH _ _ _ Hrec) as [H1 H2].
      rewrite <- app_assoc in H1, H2. simpl in H1, H2. auto.
Qed.

Section ScenarioInvariants.
Variable Run : Type.
Variable generate : Capacities -> bool -> option Run.
Variable run_scheduled_count : Run -> Z.
Variable n_tasks : Z.
Variable run_makespan : Run -> Z.
Variable run_lateness : Run -> Z * Z.
Variable run_blocking : Run -> list string * list string.
Variable run_bottlenecks : Run -> Capacities -> list string * list string.
Variable run_utilization :
  Run -> Capacities -> list (string * (Q * Z)) * list (string * (Q * Z)).
Variable export_results : Run -> bool.
Variable originals : Capacities.
Variables min_mechanics max_mechanics min_quality max_quality : Z.

Local Abbreviation cfg :=
  (config_ok originals min_mechanics max_mechanics min_quality max_quality).
Local Abbreviation ok :=
  (phase1_ok originals min_mechanics max_mechanics min_quality max_quality).

Lemma with_configs_ok (s : Phase1) (mech qual : dict string Z)
  (complete : bool) :
  cfg mech qual ->
  (forall b, best_config s = Some b -> cfg (best_mechanic b) (best_quality b)) ->
  ok (with_configs s mech qual complete).
Proof. intros Hc Hb. split; assumption. Qed.

Lemma cfg_mechanic (mech mech' qual : dict string Z) :
  cfg mech qual ->
  dict_keys mech' = dict_keys mech ->
  (in_range min_mechanics (Z.max (max_mechanics + 1) min_mechanics) mech ->
   in_range min_mechanics (Z.max (max_mechanics + 1) min_mechanics) mech') ->
  cfg mech' qual.
Proof.
  intros (H1 & H2 & H3 & H4) Hk Hr. unfold config_ok, same_teams in *.
  repeat split; auto. congruence.
Qed.

Lemma cfg_quality (mech qual qual' : dict string Z) :
  cfg mech qual ->
  dict_keys qual' = dict_keys qual ->
  (in_range min_quality (Z.max max_quality min_quality) qual ->
   in_range min_quality (Z.max max_quality min_quality) qual') ->
  cfg mech qual'.
Proof.
  intros (H1 & H2 & H3 & H4) Hk Hr. unfold config_ok, same_teams in *.
  repeat split; auto. congruence.
Qed.

Lemma grow_blocking_ok (run : Run) (s s' : Phase1) (raised : bool) :
  ok s ->
  grow_blocking Run run_blocking max_mechanics max_quality run s
  = (s', raised) ->
  ok s'.
Proof.
  intros [Hc Hb]. unfold grow_blocking.
  destruct (run_blocking run) as [blocking_mechanic blocking_quality].
  destruct (bump_teams 1 max_mechanics false blocking_mechanic
              (current_mech_config s) false)
    as [[mech inc] r1] eqn:Hm.
  destruct (bump_teams_ok min_mechanics (Z.max (max_mechanics + 1) min_mechanics) 1 max_mechanics
              false blocking_mechanic ltac:(lia) ltac:(lia) _ _ _ _ _ Hm)
    as [Hk1 Hr1].
  pose proof (cfg_mechanic _ mech _ Hc Hk1 Hr1) as Hc1.
  destruct r1; [intros [= <- _]; now apply with_configs_ok |].
  destruct (bump_teams 1 max_quality false blocking_quality
              (current_qual_config s) inc)
    as [[qual inc2] r2] eqn:Hq.
  destruct (bump_teams_ok min_quality (Z.max max_quality min_quality) 1 max_quality
              false blocking_quality ltac:(lia) ltac:(lia) _ _ _ _ _ Hq)
    as [Hk2 Hr2].
  pose proof (cfg_quality _ _ qual Hc1 Hk2 Hr2) as Hc2.
  destruct r2; intros [= <- _]; now apply with_configs_ok.
Qed.

Lemma grow_bottleneck_ok (run : Run) (caps : Capacities) (s s' : Phase1)
  (raised : bool) :
  ok s ->
  grow_bottleneck Run run_bottlenecks max_mechanics max_quality run caps s
  = (s', raised) ->
  ok s'.
Proof.
  intros [Hc Hb]. unfold grow_bottleneck.
  destruct (run_bottlenecks run caps) as [bm bq].
  destruct (bump_teams 2 max_mechanics true bm (current_mech_config s) false)
    as [[mech inc] r1] eqn:Hm.
  destruct (bump_teams_ok min_mechanics (Z.max (max_mechanics + 1) min_mechanics) 2 max_mechanics
              true bm ltac:(lia) ltac:(lia) _ _ _ _ _ Hm) as [Hk1 Hr1].
  pose proof (cfg_mechanic _ mech _ Hc Hk1 Hr1) as Hc1.
  destruct r1; [intros [= <- _]; now apply with_configs_ok |].
  assert (Hq : exists qual inc2 r2,
             (if inc then (current_qual_config s, true, false)
              else bump_teams 1 max_quality true bq (current_qual_config s)
                     false) = (qual, inc2, r2)
             /\ cfg mech qual).
  { destruct inc.
    - exists (current_qual_config s), true, false. auto.
    - destruct (bump_teams 1 max_quality true bq (current_qual_config s)
                  false) as [[qual inc2] r2] eqn:Hq.
      destruct (bump_teams_ok min_quality (Z.max max_quality min_quality) 1 max_quality
                  true bq ltac:(lia) ltac:(lia) _ _ _ _ _ Hq) as [Hk2 Hr2].
      exists qual, inc2, r2. split; [reflexivity |].
      exact (cfg_quality _ _ qual Hc1 Hk2 Hr2). }
  destruct Hq as (qual & inc2 & r2 & -> & Hc2).
  destruct r2; [intros [= <- _]; now apply with_configs_ok |].
  destruct inc2; [intros [= <- _]; now apply with_configs_ok |].
  destruct (min_value mech) as [min_mech_cap |];
    [| intros [= <- _]; now apply with_configs_ok].
  destruct (bump_first_at min_mech_cap max_mechanics [] mech)
    as [mech2 inc3] eqn:Hm2.
  destruct (bump_first_at_ok min_mechanics (Z.max (max_mechanics + 1) min_mechanics) min_mech_cap
              max_mechanics mech ltac:(lia) _ _ _ Hm2) as [Hk3 Hr3].
  simpl in Hk3, Hr3.
  pose proof (cfg_mechanic _ mech2 _ Hc2 Hk3 Hr3) as Hc3.
  destruct inc3; [intros [= <- _]; now apply with_configs_ok |].
  destruct (min_value qual) as [min_qual_cap |];
    [| intros [= <- _]; now apply with_configs_ok].
  destruct (bump_first_at min_qual_cap max_quality [] qual)
    as [qual2 inc4] eqn:Hq2.
  destruct (bump_first_at_ok min_quality (Z.max max_quality min_quality) min_qual_cap
              max_quality qual ltac:(lia) _ _ _ Hq2) as [Hk4 Hr4].
  simpl in Hk4, Hr4.
  pose proof (cfg_quality _ _ qual2 Hc3 Hk4 Hr4) as Hc4.
  intros [= <- _]. now apply with_configs_ok.
Qed.

Lemma phase1_try_ok (run : Run) (caps : Capacities) (s s' : Phase1)
  (raised : bool) :
  ok s ->
  phase1_try Run run_scheduled_count n_tasks run_lateness run_blocking
    run_bottlenecks max_mechanics max_quality run caps s = (s', raised) ->
  ok s'.
Proof.
  intros Hok. unfold phase1_try.
  destruct (run_scheduled_count run <? n_tasks);
    [now apply grow_blocking_ok |].
  destruct (run_lateness run) as [max_lateness total_lateness].
  assert (Hrest : forall (improved : bool) s1,
             current_mech_config s1 = current_mech_config s ->
             current_qual_config s1 = current_qual_config s ->
             (forall b, best_config s1 = Some b ->
                        cfg (best_mechanic b) (best_quality b)) ->
             (if max_iterations_without_improvement
                 <=? iterations_without_improvement s1
              then (with_configs s1 (current_mech_config s1)
                      (current_qual_config s1) true, false)
              else if improved then (s1, false)
              else grow_bottleneck Run run_bottlenecks max_mechanics
                     max_quality run caps s1) = (s', raised) ->
             ok s').
  { intros improved s1 Hm Hq Hb.
    assert (Hok1 : ok s1).
    { split; [rewrite Hm, Hq; exact (proj1 Hok) | exact Hb]. }
    destruct (max_iterations_without_improvement
              <=? iterations_without_improvement s1).
    - intros [= <- _]. destruct Hok1 as [Hc _]. now apply with_configs_ok.
    - destruct improved; [intros [= <- _]; exact Hok1 |].
      now apply grow_bottleneck_ok. }
  assert (Hbest : forall (is_best : bool) b,
             (if is_best
              then Some {| best_mechanic := current_mech_config s;
                           best_quality := current_qual_config s;
                           best_max_lateness := max_lateness;
                           best_total_lateness := total_lateness |}
              else best_config s) = Some b ->
             cfg (best_mechanic b) (best_quality b)).
  { intros is_best b.
    destruct is_best; [intros [= <-]; exact (proj1 Hok) |].
    apply (proj2 Hok). }
  destruct (if lt_inf max_lateness (previous_max_lateness s)
            then (true, Some max_lateness, previous_total_lateness s)
            else if eq_inf max_lateness (previous_max_lateness s)
                    && lt_inf total_lateness (previous_total_lateness s)
            then (true, previous_max_lateness s, Some total_lateness)
            else (false, previous_max_lateness s, previous_total_lateness s))
    as [[improved previous_max] previous_total].
  cbv zeta.
  eapply Hrest; [reflexivity | reflexivity | apply Hbest].
Qed.

Lemma phase1_handler_ok (s s' : Phase1) :
  ok s -> phase1_handler max_mechanics s = Some s' -> ok s'.
Proof.
  intros [Hc Hb]. unfold phase1_handler.
  destruct (min_value (current_mech_config s)) as [min_mech |];
    [| discriminate].
  destruct (bump_first_at min_mech max_mechanics [] (current_mech_config s))
    as [mech inc] eqn:Hm.
  destruct (bump_first_at_ok min_mechanics (Z.max (max_mechanics + 1) min_mechanics) min_mech
              max_mechanics _ ltac:(lia) _ _ _ Hm) as [Hk Hr].
  simpl in Hk, Hr. intros [= <-]. apply with_configs_ok; [| assumption].
  exact (cfg_mechanic _ mech _ Hc Hk Hr).
Qed.

Lemma phase1_loop_ok (left : nat) :
  forall caps s caps' s',
    phase1_loop Run generate run_scheduled_count n_tasks run_lateness
      run_blocking run_bottlenecks max_mechanics max_quality left caps s
    = (caps', Returns s') ->
    ok s ->
    ok s'
    /\ (same_teams_caps caps originals -> same_teams_caps caps' originals).
Proof.
  induction left as [| left IH]; intros caps s caps' s'; simpl.
  - intros [= <- <-]. auto.
  - destruct (phase1_complete s); [intros [= <- <-]; auto |].
    intros Hrun Hok.
    set (caps1 := apply_config (current_mech_config s)
                    (current_qual_config s) caps) in *.
    assert (Hcaps1 : same_teams_caps caps originals ->
                     same_teams_caps caps1 originals).
    { destruct Hok as [(H1 & H2 & _) _].
      now apply apply_config_same_teams. }
    destruct (match generate caps1 true with
              | Some run =>
                  phase1_try Run run_scheduled_count n_tasks run_lateness
                    run_blocking run_bottlenecks max_mechanics max_quality
                    run caps1 s
              | None => (s, true)
              end) as [s1 raised] eqn:Hbody.
    assert (Hok1 : ok s1).
    { destruct (generate caps1 true) as [run |].
      - eapply phase1_try_ok; eassumption.
      - injection Hbody as <- _. exact Hok. }
    destruct raised.
    + destruct (phase1_handler max_mechanics s1) as [s2 |] eqn:Hh;
        [| discriminate].
      destruct (IH _ _ _ _ Hrun (phase1_handler_ok _ _ Hok1 Hh)) as [H1 H2].
      auto.
    + destruct (IH _ _ _ _ Hrun Hok1) as [H1 H2]. auto.
Qed.

Lemma test_configuration_teams (mech qual : dict string Z)
  (target_max_lateness : Z) (target_total_lateness : Q)
  (caps caps' : Capacities) (accepted : bool) :
  _test_configuration_with_lateness_target Run generate run_scheduled_count
    n_tasks run_lateness mech qual target_max_lateness target_total_lateness
    caps = (caps', accepted) ->
  caps' = apply_config mech qual caps.
Proof.
  unfold _test_configuration_with_lateness_target.
  destruct (generate _ true) as [run |]; [| now intros [= <- _]].
  destruct (run_scheduled_count run <? n_tasks); [now intros [= <- _] |].
  destruct (run_lateness run). now intros [= <- _].
Qed.

Lemma try_reductions_ok (quality : bool) (target_max_lateness : Z)
  (target_total_lateness : Q) (b : Best)
  (candidates : list (string * (Q * Z))) :
  cfg (best_mechanic b) (best_quality b) ->
  forall caps caps' result,
    try_reductions Run generate run_scheduled_count n_tasks run_lateness
      min_mechanics min_quality quality target_max_lateness
      target_total_lateness b candidates caps = (caps', Returns result) ->
    (same_teams_caps caps originals -> same_teams_caps caps' originals)
    /\ forall b', result = Some b' ->
                  cfg (best_mechanic b') (best_quality b').
Proof.
  intros Hc.
  induction candidates as [| [tm [util max_conc]] candidates IH];
    intros caps caps' result; simpl.
  - intros [= <- <-]. split; [auto | discriminate].
  - destruct (negb (Qle_bool (7 # 10) util)); [| apply IH].
    destruct (dict_get tm (if quality then best_quality b
                           else best_mechanic b)) as [current |] eqn:Hget;
      [| discriminate].
    destruct ((if quality then min_quality else min_mechanics) <? current)
      eqn:Hmin; [| apply IH].
    apply Z.ltb_lt in Hmin.
    destruct (negb quality || (max_conc <? current)); [| apply IH].
    set (mech := if quality then best_mechanic b
                 else dict_set tm (current - 1) (best_mechanic b)).
    set (qual := if quality then dict_set tm (current - 1) (best_quality b)
                 else best_quality b).
    assert (Hc' : cfg mech qual).
    { unfold mech, qual. destruct quality.
      - apply (cfg_quality _ _ _ Hc).
        + apply dict_set_keys_present. unfold dict_mem. now rewrite Hget.
        + intros Hr. apply dict_set_in_range; [| assumption].
          pose proof (in_range_get _ _ _ _ _ Hr Hget). lia.
      - apply (cfg_mechanic _ _ _ Hc).
        + apply dict_set_keys_present. unfold dict_mem. now rewrite Hget.
        + intros Hr. apply dict_set_in_range; [| assumption].
          pose proof (in_range_get _ _ _ _ _ Hr Hget). lia. }
    destruct (_test_configuration_with_lateness_target Run generate
                run_scheduled_count n_tasks run_lateness mech qual
                target_max_lateness target_total_lateness caps)
      as [caps1 accepted] eqn:Htest.
    apply test_configuration_teams in Htest. subst caps1.
    assert (Hcaps : same_teams_caps caps originals ->
                    same_teams_caps (apply_config mech qual caps) originals).
    { destruct Hc' as (H1 & H2 & _). now apply apply_config_same_teams. }
    destruct accepted.
    + intros [= <- <-]. split; [exact Hcaps |].
      intros b' [= <-]. exact Hc'.
    + intros Hrec. destruct (IH _ _ _ Hrec) as [H1 H2]. auto.
Qed.

Lemma phase2_loop_ok (left : nat) (target_max_lateness : Z)
  (target_total_lateness : Q) :
  forall b caps caps' b',
    phase2_loop Run generate run_scheduled_count n_tasks run_lateness
      run_utilization min_mechanics min_quality left target_max_lateness
      target_total_lateness b caps = (caps', Returns b') ->
    cfg (best_mechanic b) (best_quality b) ->
    cfg (best_mechanic b') (best_quality b')
    /\ (same_teams_caps caps originals -> same_teams_caps caps' originals).
Proof.
  induction left as [| left IH]; intros b caps caps' b'; simpl.
  - intros [= <- <-]. auto.
  - intros Hrun Hc.
    set (caps1 := apply_config (best_mechanic b) (best_quality b) caps) in *.
    assert (Hcaps1 : same_teams_caps caps originals ->
                     same_teams_caps caps1 originals).
    { destruct Hc as (H1 & H2 & _). now apply apply_config_same_teams. }
    destruct (generate caps1 true) as [run |]; [| discriminate].
    destruct (run_utilization run caps1) as [by_mechanic by_quality].
    destruct (try_reductions Run generate run_scheduled_count n_tasks
                run_lateness min_mechanics min_quality false
                target_max_lateness target_total_lateness b by_mechanic
                caps1) as [caps2 [r1 |]] eqn:Hm; [| discriminate].
    destruct (try_reductions_ok _ _ _ _ _ Hc _ _ _ Hm) as [Hk1 Hb1].
    destruct r1 as [b1 |].
    + destruct (IH _ _ _ _ Hrun (Hb1 b1 eq_refl)) as [H1 H2].
      split; [assumption |]. intros H. apply H2, Hk1, Hcaps1, H.
    + destruct (try_reductions Run generate run_scheduled_count n_tasks
                  run_lateness min_mechanics min_quality true
                  target_max_lateness target_total_lateness b by_quality
                  caps2) as [caps3 [r2 |]] eqn:Hq; [| discriminate].
      destruct (try_reductions_ok _ _ _ _ _ Hc _ _ _ Hq) as [Hk2 Hb2].
      destruct r2 as [b2 |].
      * destruct (IH _ _ _ _ Hrun (Hb2 b2 eq_refl)) as [H1 H2].
        split; [assumption |]. intros H. apply H2, Hk2, Hk1, Hcaps1, H.
      * injection Hrun as <- <-.
        split; [assumption |]. intros H. apply Hk2, Hk1, Hcaps1, H.
Qed.

End ScenarioInvariants.

Section SearchInvariants.
Variable Run : Type.
Variable generate : Capacities -> bool -> option Run.
Variable run_scheduled_count : Run -> Z.
Variable n_tasks : Z.
Variable run_makespan : Run -> Z.

Lemma mechanic_search_result (max_quality : Z) (fuel : nat) :
  forall caps low high best_makespan best_mech caps' best_makespan' best_mech',
    mechanic_search Run generate run_scheduled_count n_tasks run_makespan
      max_quality fuel caps low high best_makespan best_mech
    = Some (caps', best_makespan', best_mech') ->
    dict_keys (caps_team caps') = dict_keys (caps_team caps)
    /\ dict_keys (caps_quality caps') = dict_keys (caps_quality caps)
    /\ (best_mech' = best_mech \/ low <= best_mech' <= high).
Proof.
  induction fuel as [| fuel IH];
    intros caps low high bm b caps' bm' b'; simpl.
  - destruct (low <=? high); [discriminate |]. intros [= <- _ <-]. auto.
  - destruct (Z.leb_spec low high) as [Hle | Hgt];
      [| intros [= <- _ <-]; auto].
    pose proof (midpoint_bounds low high Hle) as Hmid.
    set (mid := (low + high) / 2) in *.
    set (caps1 := {| caps_team := set_all mid (caps_team caps);
                     caps_quality := set_all max_quality (caps_quality caps) |}).
    assert (Hmore : forall lo hi bm0 b0,
               (b0 = b \/ low <= b0 <= high) ->
               low <= lo -> hi <= high ->
               mechanic_search Run generate run_scheduled_count n_tasks
                 run_makespan max_quality fuel caps1 lo hi bm0 b0
               = Some (caps', bm', b') ->
               dict_keys (caps_team caps') = dict_keys (caps_team caps)
               /\ dict_keys (caps_quality caps')
                  = dict_keys (caps_quality caps)
               /\ (b' = b \/ low <= b' <= high)).
    { intros lo hi bm0 b0 Hb0 Hlo Hhi Hrec.
      destruct (IH _ _ _ _ _ _ _ _ Hrec) as (H1 & H2 & H3).
      unfold caps1 in H1, H2. simpl in H1, H2.
      rewrite set_all_keys in H1, H2. split; [assumption |].
      split; [assumption |]. destruct H3 as [-> | H3]; [assumption |].
      right. lia. }
    destruct (generate caps1 true) as [run |].
    + destruct (run_scheduled_count run <? n_tasks);
        [apply Hmore; auto; lia |].
      destruct (lt_inf (run_makespan run) bm);
        apply Hmore; auto; try lia.
    + apply Hmore; auto; lia.
Qed.

Lemma quality_search_result (fuel : nat) :
  forall caps low high best_makespan best_qual caps' best_makespan' best_qual',
    quality_search Run generate run_scheduled_count n_tasks run_makespan
      fuel caps low high best_makespan best_qual
    = Some (caps', best_makespan', best_qual') ->
    dict_keys (caps_team caps') = dict_keys (caps_team caps)
    /\ dict_keys (caps_quality caps') = dict_keys (caps_quality caps)
    /\ (best_qual' = best_qual \/ low <= best_qual' <= high).
Proof.
  induction fuel as [| fuel IH];
    intros caps low high bm b caps' bm' b'; simpl.
  - destruct (low <=? high); [discriminate |]. intros [= <- _ <-]. auto.
  - destruct (Z.leb_spec low high) as [Hle | Hgt];
      [| intros [= <- _ <-]; auto].
    pose proof (midpoint_bounds low high Hle) as Hmid.
    set (mid := (low + high) / 2) in *.
    set (caps1 := {| caps_team := caps_team caps;
                     caps_quality := set_all mid (caps_quality caps) |}).
    assert (Hmore : forall lo hi bm0 b0,
               (b0 = b \/ low <= b0 <= high) ->
               low <= lo -> hi <= high ->
               quality_search Run generate run_scheduled_count n_tasks
                 run_makespan fuel caps1 lo hi bm0 b0
               = Some (caps', bm', b') ->
               dict_keys (caps_team caps') = dict_keys (caps_team caps)
               /\ dict_keys (caps_quality caps')
                  = dict_keys (caps_quality caps)
               /\ (b' = b \/ low <= b' <= high)).
    { intros lo hi bm0 b0 Hb0 Hlo Hhi Hrec.
      destruct (IH _ _ _ _ _ _ _ _ Hrec) as (H1 & H2 & H3).
      unfold caps1 in H1, H2. simpl in H1, H2.
      rewrite set_all_keys in H2. split; [assumption |].
      split; [assumption |]. destruct H3 as [-> | H3]; [assumption |].
      right. lia. }
    destruct (generate caps1 true) as [run |].
    + destruct (run_scheduled_count run <? n_tasks);
        [apply Hmore; auto; lia |].
      destruct (le_inf (run_makespan run) bm);
        apply Hmore; auto; try lia.
    + apply Hmore; auto; lia.
Qed.

End SearchInvariants.

Lemma set_all_get (v : Z) (d : dict string Z) (tm : string) (x : Z) :
  dict_get tm (set_all v d) = Some x -> x = v.
Proof.
  intros H. apply dict_get_In in H. unfold set_all in H.
  apply in_map_iff in H. destruct H as ([k y] & [= _ <-] & _). reflexivity.
Qed.

(** What scenario 2 reports and the state it leaves. *)
Lemma scenario_2_report
  (Run : Type) (generate : Capacities -> bool -> option Run)
  (run_scheduled_count : Run -> Z) (n_tasks : Z) (run_makespan : Run -> Z)
  (export_results : Run -> bool) (originals : Capacities)
  (min_mechanics max_mechanics min_quality max_quality : Z)
  (caps caps' : Capacities) (best_mech best_qual makespan : Z) :
  scenario_2_minimize_makespan Run generate run_scheduled_count n_tasks
    run_makespan export_results originals min_mechanics max_mechanics
    min_quality max_quality caps
  = Some (caps', Returns (best_mech, best_qual, makespan)) ->
  (best_mech = max_mechanics \/ min_mechanics <= best_mech <= max_mechanics)
  /\ (best_qual = max_quality \/ min_quality <= best_qual <= max_quality)
  /\ (exists final run,
         generate final true = Some run
         /\ makespan = run_makespan run
         /\ dict_keys (caps_team final) = dict_keys (caps_team caps)
         /\ dict_keys (caps_quality final) = dict_keys (caps_quality caps)
         /\ (forall tm v, dict_get tm (caps_team final) = Some v ->
                          v = best_mech)
         /\ (forall tm v, dict_get tm (caps_quality final) = Some v ->
                          v = best_qual)
         /\ caps' = restore_originals originals final).
Proof.
  unfold scenario_2_minimize_makespan.
  destruct (mechanic_search _ _ _ _ _ _ _ _ _ _ _ _)
    as [[[caps1 bmk] bm] |] eqn:Hm; [| discriminate].
  destruct (mechanic_search_result _ _ _ _ _ _ _ _ _ _ _ _ _ _ _ Hm)
    as (Hk1 & Hk2 & Hbm).
  destruct (quality_search _ _ _ _ _ _ _ _ _ _ _)
    as [[[caps2 bmk2] bq] |] eqn:Hq; [| discriminate].
  destruct (quality_search_result _ _ _ _ _ _ _ _ _ _ _ _ _ _ Hq)
    as (Hk3 & Hk4 & Hbq).
  simpl in Hk3, Hk4. rewrite set_all_keys in Hk3.
  destruct (generate _ true) as [run |] eqn:Hgen; [| discriminate].
  destruct (export_results run); [| discriminate].
  intros [= <- <- <- <-]. split; [assumption |]. split; [assumption |].
  eexists. exists run. split; [exact Hgen |]. split; [reflexivity |].
  simpl. rewrite !set_all_keys.
  repeat split; try congruence; intros tm v; apply set_all_get.
Qed.

(** Where scenario 3 returns: the configuration it reports and the state it
    leaves. *)
Lemma scenario_3_result
  (Run : Type) (generate : Capacities -> bool -> option Run)
  (run_scheduled_count : Run -> Z) (n_tasks : Z) (run_makespan : Run -> Z)
  (run_lateness : Run -> Z * Z)
  (run_blocking : Run -> list string * list string)
  (run_bottlenecks : Run -> Capacities -> list string * list string)
  (run_utilization :
     Run -> Capacities -> list (string * (Q * Z)) * list (string * (Q * Z)))
  (export_results : Run -> bool) (originals : Capacities)
  (min_mechanics max_mechanics min_quality max_quality max_iterations : Z)
  (caps caps' : Capacities) (result : option (Best * Z)) :
  scenario_3_multidimensional_optimization Run generate run_scheduled_count
    n_tasks run_makespan run_lateness run_blocking run_bottlenecks
    run_utilization export_results originals min_mechanics max_mechanics
    min_quality max_quality max_iterations caps = (caps', Returns result) ->
  (forall b makespan,
      result = Some (b, makespan) ->
      config_ok originals min_mechanics max_mechanics min_quality max_quality
        (best_mechanic b) (best_quality b))
  /\ (NoDup (dict_keys (caps_team originals)) ->
      NoDup (dict_keys (caps_quality originals)) ->
      same_teams_caps caps originals ->
      caps' = originals).
Proof.
  unfold scenario_3_multidimensional_optimization.
  set (start := {| current_mech_config := set_all min_mechanics
                                            (caps_team originals);
                   current_qual_config := set_all min_quality
                                            (caps_quality originals);
                   best_config := None;
                   iterations_without_improvement := 0;
                   previous_max_lateness := None;
                   previous_total_lateness := None;
                   phase1_complete := false |}).
  assert (Hstart : phase1_ok originals min_mechanics max_mechanics
                     min_quality max_quality start).
  { split; [| discriminate]. unfold start. simpl.
    repeat split; try apply set_all_keys; apply set_all_in_range; lia. }
  destruct (phase1_loop _ _ _ _ _ _ _ _ _ _ _ _)
    as [caps1 [s |]] eqn:Hp1; [| discriminate].
  destruct (phase1_loop_ok _ _ _ _ _ _ _ _ _ _ _ _ _ _ _ _ _ Hp1 Hstart)
    as [[_ Hbest] Hcaps1].
  destruct (best_config s) as [b |].
  - destruct (phase2_loop _ _ _ _ _ _ _ _ _ _ _ _ _)
      as [caps2 [b' |]] eqn:Hp2; [| discriminate].
    destruct (phase2_loop_ok _ _ _ _ _ _ _ _ _ _ _ _ _ _ _ _ _ _ Hp2
                (Hbest b eq_refl)) as [Hb' Hcaps2].
    destruct (generate _ true) as [run |]; [| discriminate].
    destruct (_ && _); [discriminate |].
    destruct (export_results run); [| discriminate].
    intros [= <- <-]. split.
    + intros b0 mk [= <- _]. exact Hb'.
    + intros Ht Hq Hsame. apply restore_originals_exact; try assumption.
      destruct Hb' as (H1 & H2 & _).
      apply apply_config_same_teams; auto.
  - intros [= <- <-]. split; [discriminate |].
    intros Ht Hq Hsame. apply restore_originals_exact; auto.
Qed.

(** X10.  The configuration that scenario 3 reports gives a capacity to
    exactly the teams recorded when the data was loaded; with the bounds in
    order, every mechanic capacity lies between [min_mechanics] and
    [max_mechanics + 1] (the step of two taken on a bottleneck can pass the
    maximum by one) and every quality capacity between [min_quality] and
    [max_quality]. *)
Theorem X10_scenario_3_configuration_bounds
  (Run : Type) (generate : Capacities -> bool -> option Run)
  (run_scheduled_count : Run -> Z) (n_tasks : Z) (run_makespan : Run -> Z)
  (run_lateness : Run -> Z * Z)
  (run_blocking : Run -> list string * list string)
  (run_bottlenecks : Run -> Capacities -> list string * list string)
  (run_utilization :
     Run -> Capacities -> list (string * (Q * Z)) * list (string * (Q * Z)))
  (export_results : Run -> bool) (originals : Capacities)
  (min_mechanics max_mechanics min_quality max_quality max_iterations : Z)
  (caps caps' : Capacities) (b : Best) (makespan : Z) :
  min_mechanics <= max_mechanics ->
  min_quality <= max_quality ->
  scenario_3_multidimensional_optimization Run generate run_scheduled_count
    n_tasks run_makespan run_lateness run_blocking run_bottlenecks
    run_utilization export_results originals min_mechanics max_mechanics
    min_quality max_quality max_iterations caps
  = (caps', Returns (Some (b, makespan))) ->
  dict_keys (best_mechanic b) = dict_keys (caps_team originals)
  /\ dict_keys (best_quality b) = dict_keys (caps_quality originals)
  /\ (forall tm v, dict_get tm (best_mechanic b) = Some v ->
                   min_mechanics <= v <= max_mechanics + 1)
  /\ (forall tm v, dict_get tm (best_quality b) = Some v ->
                   min_quality <= v <= max_quality).
Proof.
  intros Hm Hq Hrun.
  destruct (proj1 (scenario_3_result _ _ _ _ _ _ _ _ _ _ _ _ _ _ _ _ _ _ _
                     Hrun) b makespan eq_refl) as (H1 & H2 & H3 & H4).
  split; [exact H1 |]. split; [exact H2 |]. split.
  - intros tm v Hget. pose proof (in_range_get _ _ _ _ _ H3 Hget). lia.
  - intros tm v Hget. pose proof (in_range_get _ _ _ _ _ H4 Hget). lia.
Qed.

Lemma X10_witness_five_sample :
  sample_scenario_3 ex_five 1 2 1 1 10
  = (capacities_of ex_five, Returns (Some (ex_five_best, 1)))
  /\ dict_get "M1" (best_mechanic ex_five_best) = Some 3
  /\ (dict_keys (best_mechanic ex_five_best)
      = dict_keys (caps_team (capacities_of ex_five))
      /\ dict_keys (best_quality ex_five_best)
         = dict_keys (caps_quality (capacities_of ex_five))
      /\ (forall tm v, dict_get tm (best_mechanic ex_five_best) = Some v ->
                       1 <= v <= 2 + 1)
      /\ (forall tm v, dict_get tm (best_quality ex_five_best) = Some v ->
                       1 <= v <= 1)).
Proof.
  assert (Hrun : sample_scenario_3 ex_five 1 2 1 1 10
                 = (capacities_of ex_five, Returns (Some (ex_five_best, 1))))
    by (vm_compute; reflexivity).
  split; [exact Hrun |]. split; [reflexivity |].
  refine (X10_scenario_3_configuration_bounds _ _ _ _ _ _ _ _ _ _ _ _ _ _ _ _
            _ _ _ _ _ _ Hrun); lia.
Defined.

(** X11.  Entered with capacity dictionaries that hold the teams recorded
    at load time, as after loading or after another scenario has returned,
    scenarios 2 and 3 leave on return exactly the dictionaries recorded at
    load time: run one after the other, each scenario starts from the same
    capacities. *)
Theorem X11_scenarios_return_to_load_time_capacities
  (Run : Type) (generate : Capacities -> bool -> option Run)
  (run_scheduled_count : Run -> Z) (n_tasks : Z) (run_makespan : Run -> Z)
  (run_lateness : Run -> Z * Z)
  (run_blocking : Run -> list string * list string)
  (run_bottlenecks : Run -> Capacities -> list string * list string)
  (run_utilization :
     Run -> Capacities -> list (string * (Q * Z)) * list (string * (Q * Z)))
  (export_results : Run -> bool) (originals caps : Capacities) :
  NoDup (dict_keys (caps_team originals)) ->
  NoDup (dict_keys (caps_quality originals)) ->
  same_teams_caps caps originals ->
  (forall min_mechanics max_mechanics min_quality max_quality caps' r,
      scenario_2_minimize_makespan Run generate run_scheduled_count n_tasks
        run_makespan export_results originals min_mechanics max_mechanics
        min_quality max_quality caps = Some (caps', Returns r) ->
      caps' = originals)
  /\ (forall min_mechanics max_mechanics min_quality max_quality
             max_iterations caps' r,
         scenario_3_multidimensional_optimization Run generate
           run_scheduled_count n_tasks run_makespan run_lateness
           run_blocking run_bottlenecks run_utilization export_results
           originals min_mechanics max_mechanics min_quality max_quality
           max_iterations caps = (caps', Returns r) ->
         caps' = originals).
Proof.
  intros Ht Hq Hsame. split.
  - intros min_mechanics max_mechanics min_quality max_quality caps'
           [[bm bq] mk] Hrun.
    destruct (scenario_2_report _ _ _ _ _ _ _ _ _ _ _ _ _ _ _ _ Hrun)
      as (_ & _ & final & run & _ & _ & Hk1 & Hk2 & _ & _ & ->).
    apply restore_originals_exact; try assumption.
    destruct Hsame as [H1 H2]. split; unfold same_teams in *; congruence.
  - intros min_mechanics max_mechanics min_quality max_quality
           max_iterations caps' r Hrun.
    now apply (proj2 (scenario_3_result _ _ _ _ _ _ _ _ _ _ _ _ _ _ _ _ _ _
                        _ Hrun)).
Qed.

Lemma X11_witness_five_sample :
  sample_scenario_2 ex_five 1 4 1 2
  = Some (capacities_of ex_five, Returns (2, 1, 2))
  /\ sample_scenario_3 ex_five 1 2 1 1 10
     = (capacities_of ex_five, Returns (Some (ex_five_best, 1)))
  /\ (forall min_mechanics max_mechanics min_quality max_quality caps' r,
         sample_scenario_2 ex_five min_mechanics max_mechanics min_quality
           max_quality = Some (caps', Returns r) ->
         caps' = capacities_of ex_five)
  /\ (forall min_mechanics max_mechanics min_quality max_quality
             max_iterations caps' r,
         sample_scenario_3 ex_five min_mechanics max_mechanics min_quality
           max_quality max_iterations = (caps', Returns r) ->
         caps' = capacities_of ex_five).
Proof.
  split; [vm_compute; reflexivity |]. split; [vm_compute; reflexivity |].
  apply (X11_scenarios_return_to_load_time_capacities SampleRun
           (sample_generate ex_five) sample_scheduled_count
           (total_tasks ex_five) (sample_makespan ex_five)
           (sample_lateness ex_five) (sample_blocking ex_five)
           (sample_bottlenecks ex_five) (sample_utilization ex_five)
           (fun _ => true) (capacities_of ex_five) (capacities_of ex_five)).
  - simpl. repeat constructor. simpl. tauto.
  - simpl. constructor.
  - split; reflexivity.
Defined.

(** X12.  The head counts scenario 2 reports are the upper bound given or a
    value between the bounds, and the makespan it reports is that of a run
    of the scheduler in which every mechanic team has the mechanic head
    count reported and every quality team the quality head count reported,
    over the teams present at entry. *)
Theorem X12_scenario_2_report
  (Run : Type) (generate : Capacities -> bool -> option Run)
  (run_scheduled_count : Run -> Z) (n_tasks : Z) (run_makespan : Run -> Z)
  (export_results : Run -> bool) (originals : Capacities)
  (min_mechanics max_mechanics min_quality max_quality : Z)
  (caps caps' : Capacities) (best_mech best_qual makespan : Z) :
  scenario_2_minimize_makespan Run generate run_scheduled_count n_tasks
    run_makespan export_results originals min_mechanics max_mechanics
    min_quality max_quality caps
  = Some (caps', Returns (best_mech, best_qual, makespan)) ->
  (best_mech = max_mechanics \/ min_mechanics <= best_mech <= max_mechanics)
  /\ (best_qual = max_quality \/ min_quality <= best_qual <= max_quality)
  /\ (exists final run,
         generate final true = Some run
         /\ makespan = run_makespan run
         /\ dict_keys (caps_team final) = dict_keys (caps_team caps)
         /\ dict_keys (caps_quality final) = dict_keys (caps_quality caps)
         /\ (forall tm v, dict_get tm (caps_team final) = Some v ->
                          v = best_mech)
         /\ (forall tm v, dict_get tm (caps_quality final) = Some v ->
                          v = best_qual)).
Proof.
  intros Hrun.
  destruct (scenario_2_report _ _ _ _ _ _ _ _ _ _ _ _ _ _ _ _ Hrun)
    as (H1 & H2 & final & run & H3 & H4 & H5 & H6 & H7 & H8 & _).
  split; [assumption |]. split; [assumption |].
  exists final, run. auto 10.
Qed.

Lemma X12_witness_five_sample :
  sample_scenario_2 ex_five 1 4 1 2
  = Some (capacities_of ex_five, Returns (2, 1, 2))
  /\ (2 = 4 \/ 1 <= 2 <= 4).
Proof.
  assert (Hrun : sample_scenario_2 ex_five 1 4 1 2
                 = Some (capacities_of ex_five, Returns (2, 1, 2)))
    by (vm_compute; reflexivity).
  split; [exact Hrun |].
  apply (X12_scenario_2_report _ _ _ _ _ _ _ _ _ _ _ _ _ _ _ _ Hrun).
Defined.

(** ** The section parser *)

Lemma lstrip_split (s : text) :
  exists w, s = w ++ lstrip s /\ forallb isspace w = true.
Proof.
  induction s as [| c s IH]; simpl.
  - exists []. auto.
  - destruct (isspace c) eqn:Hc.
    + destruct IH as (w & Hs & Hw). exists (c :: w). simpl.
      rewrite Hc, Hw. split; [now f_equal | reflexivity].
    + exists []. auto.
Qed.

Lemma lstrip_starts (s : text) :
  lstrip s = [] \/ starts_nonspace (lstrip s) = true.
Proof.
  induction s as [| c s IH]; simpl; [now left |].
  destruct (isspace c) eqn:Hc; [exact IH |].
  right. simpl. now rewrite Hc.
Qed.

Lemma lstrip_fixed (s : text) : starts_nonspace s = true -> lstrip s = s.
Proof.
  destruct s as [| c s]; simpl; [discriminate |].
  intros H. apply negb_true_iff in H. now rewrite H.
Qed.

Lemma lstrip_spaces (w s : text) :
  forallb isspace w = true -> lstrip (w ++ s) = lstrip s.
Proof.
  induction w as [| c w IH]; simpl; [reflexivity |].
  intros H. apply andb_true_iff in H. destruct H as [Hc Hw].
  rewrite Hc. now apply IH.
Qed.

Lemma rstrip_split (s : text) :
  exists w, s = rstrip s ++ w /\ forallb isspace w = true.
Proof.
  unfold rstrip. destruct (lstrip_split (rev s)) as (w & Hs & Hw).
  exists (rev w). split.
  - rewrite <- rev_app_distr, <- Hs. now rewrite rev_involutive.
  - rewrite forallb_forall in *. intros x Hx. apply Hw. now apply in_rev.
Qed.

Lemma rstrip_fixed (s : text) : ends_nonspace s = true -> rstrip s = s.
Proof.
  unfold ends_nonspace, rstrip. intros H.
  rewrite lstrip_fixed by assumption. apply rev_involutive.
Qed.

Lemma strip_fixed (s : text) :
  starts_nonspace s = true -> ends_nonspace s = true -> strip s = s.
Proof.
  intros H1 H2. unfold strip. rewrite lstrip_fixed by assumption.
  now apply rstrip_fixed.
Qed.

Lemma strip_ends (s : text) :
  strip s = []
  \/ (starts_nonspace (strip s) = true /\ ends_nonspace (strip s) = true).
Proof.
  unfold strip.
  destruct (rstrip (lstrip s)) as [| c t] eqn:Hr; [now left |]. right.
  split.
  - destruct (rstrip_split (lstrip s)) as (w & Hs & Hw). rewrite Hr in Hs.
    destruct (lstrip_starts s) as [He | Hst].
    + rewrite He in Hs. discriminate.
    + rewrite Hs in Hst. exact Hst.
  - unfold ends_nonspace. rewrite <- Hr. unfold rstrip.
    rewrite rev_involutive.
    destruct (lstrip_starts (rev (lstrip s))) as [He | Hst];
      [| assumption].
    unfold rstrip in Hr. rewrite He in Hr. discriminate.
Qed.

Lemma strip_idempotent (s : text) : strip (strip s) = strip s.
Proof.
  destruct (strip_ends s) as [-> | [H1 H2]]; [reflexivity |].
  now apply strip_fixed.
Qed.

(** Stripping removes characters at the two ends only. *)
Lemma strip_split (s : text) :
  exists w1 w2, s = w1 ++ strip s ++ w2.
Proof.
  destruct (lstrip_split s) as (w1 & Hs & _).
  destruct (rstrip_split (lstrip s)) as (w2 & Ht & _).
  exists w1, w2. unfold strip. now rewrite <- Ht.
Qed.

Lemma strip_In (s : text) (c : Z) : In c (strip s) -> In c s.
Proof.
  destruct (strip_split s) as (w1 & w2 & Hs). intros H. rewrite Hs.
  apply in_or_app. right. apply in_or_app. now left.
Qed.

Lemma join_lines_nonempty (lines : list text) :
  lines <> [] -> (forall l, In l lines -> l <> []) -> join_lines lines <> [].
Proof.
  destruct lines as [| l lines]; [congruence |]. intros _ Hall.
  assert (Hl : l <> []) by (apply Hall; now left).
  destruct l as [| c l]; [congruence |].
  simpl. destruct lines; discriminate.
Qed.

Lemma split_lines_join (lines : list text) :
  lines <> [] ->
  (forall l, In l lines -> ~ In NEWLINE l) ->
  split_lines (join_lines lines) = lines.
Proof.
  assert (Hone : forall l rest,
             ~ In NEWLINE l ->
             split_lines (l ++ NEWLINE :: rest) = l :: split_lines rest).
  { induction l as [| c l IH]; intros rest Hno; simpl.
    - reflexivity.
    - destruct (Z.eqb_spec c NEWLINE) as [-> | Hne];
        [exfalso; apply Hno; now left |].
      rewrite IH by (intros H; apply Hno; now right). reflexivity. }
  assert (Hlast : forall l, ~ In NEWLINE l -> split_lines l = [l]).
  { induction l as [| c l IH]; intros Hno; simpl; [reflexivity |].
    destruct (Z.eqb_spec c NEWLINE) as [-> | Hne];
      [exfalso; apply Hno; now left |].
    rewrite IH by (intros H; apply Hno; now right). reflexivity. }
  induction lines as [| l lines IH]; intros Hne Hall; [congruence |].
  destruct lines as [| l' lines].
  - simpl. apply Hlast. apply Hall. now left.
  - change (join_lines (l :: l' :: lines))
      with (l ++ NEWLINE :: join_lines (l' :: lines)).
    rewrite Hone by (apply Hall; now left).
    rewrite IH; [reflexivity | discriminate |].
    intros x Hx. apply Hall. now right.
Qed.

Lemma dict_set_In_inv {K V : Type} `{EqKey K} (k k0 : K) (v v0 : V)
  (d : dict K V) :
  In (k, v) (dict_set k0 v0 d) -> (k = k0 /\ v = v0) \/ In (k, v) d.
Proof.
  induction d as [| [k' v'] d IH]; simpl.
  - intros [[= <- <-] | []]. now left.
  - destruct (key_eqb_spec k0 k') as [<- | Hne]; simpl.
    + intros [[= <- <-] | Hin]; [now left | right; now right].
    + intros [Heq | Hin]; [right; now left |].
      destruct (IH Hin) as [Hl | Hr]; [now left | right; now right].
Qed.

Lemma remove_equals_clean (line : text) : ~ In EQUALS (remove_equals line).
Proof.
  unfold remove_equals. intros H. apply filter_In in H.
  destruct H as [_ H]. now rewrite Z.eqb_refl in H.
Qed.

Lemma parse_line_ok (file_content : text) (st : ParseState) (line : text) :
  In line (split_lines (strip file_content)) ->
  parse_ok file_content st ->
  parse_ok file_content (parse_line st line).
Proof.
  intros Hline (Hs & Hc & Hd). unfold parse_line.
  destruct (is_marker_line line) eqn:Hm.
  - split; [| split]; simpl.
    + intros name content. unfold save_section.
      destruct (current_section st) as [[| c name0] |] eqn:Hcs;
        [apply Hs | | apply Hs].
      destruct (current_data st) as [| l data] eqn:Hdata; [apply Hs |].
      intros Hin. apply dict_set_In_inv in Hin.
      destruct Hin as [[-> ->] | Hin]; [| now apply Hs].
      split; [discriminate |]. split; [now apply Hc |].
      exists (l :: data). split; [discriminate |]. split; [reflexivity |].
      exact Hd.
    + intros name [= <-]. split.
      * intros H. apply strip_In in H. now apply remove_equals_clean in H.
      * apply strip_idempotent.
    + intros l [].
  - destruct (strip line) eqn:Hstrip; [exact (conj Hs (conj Hc Hd)) |].
    split; [| split]; simpl; [assumption | assumption |].
    intros l Hl. apply in_app_or in Hl. destruct Hl as [Hl | [<- | []]].
    + now apply Hd.
    + split; [assumption |]. split; [now rewrite Hstrip | assumption].
Qed.

(** X13.  Every section that [parse_csv_sections] returns has a name that
    is not empty, holds no ['='] and has no white space at either end; its
    content is not empty and is the join of lines of the stripped file none
    of which is blank or a marker line.  So a marker line followed by no
    data gives no entry, and lines before the first marker are dropped. *)
Theorem X13_sections_are_well_formed (file_content name content : text) :
  In (name, content) (parse_csv_sections file_content) ->
  name <> [] /\ ~ In EQUALS name /\ strip name = name
  /\ content <> []
  /\ exists data,
      data <> []
      /\ content = join_lines data
      /\ forall line, In line data ->
                      In line (split_lines (strip file_content))
                      /\ strip line <> []
                      /\ is_marker_line line = false.
Proof.
  unfold parse_csv_sections.
  assert (Hfold : forall lines st,
             (forall l, In l lines ->
                        In l (split_lines (strip file_content))) ->
             parse_ok file_content st ->
             parse_ok file_content (fold_left parse_line lines st)).
  { induction lines as [| l lines IH]; intros st Hsub Hst; simpl;
      [assumption |].
    apply IH; [intros; apply Hsub; now right |].
    apply parse_line_ok; [apply Hsub; now left | assumption]. }
  set (final := fold_left parse_line (split_lines (strip file_content)) _).
  assert (Hfinal : parse_ok file_content final).
  { apply Hfold; [auto |]. split; [intros ? ? [] |].
    split; [discriminate | intros ? []]. }
  destruct Hfinal as (Hs & Hc & Hd).
  assert (Hsec : section_ok file_content name content ->
                 name <> [] /\ ~ In EQUALS name /\ strip name = name
                 /\ content <> []
                 /\ exists data,
                     data <> []
                     /\ content = join_lines data
                     /\ forall line, In line data ->
                                     In line (split_lines (strip file_content))
                                     /\ strip line <> []
                                     /\ is_marker_line line = false).
  { intros (Hn & [Hn1 Hn2] & data & Hne & -> & Hdata).
    split; [assumption |]. split; [assumption |]. split; [assumption |].
    split.
    - apply join_lines_nonempty; [assumption |].
      intros l Hl Hempty. destruct (Hdata l Hl) as (_ & Hblank & _).
      now rewrite Hempty in Hblank.
    - exists data. auto. }
  unfold save_section.
  destruct (current_section final) as [[| c name0] |] eqn:Hcs;
    [intros Hin; now apply Hsec, Hs | | intros Hin; now apply Hsec, Hs].
  destruct (current_data final) as [| l data] eqn:Hdata;
    [intros Hin; now apply Hsec, Hs |].
  intros Hin. apply dict_set_In_inv in Hin.
  destruct Hin as [[-> ->] | Hin]; [| now apply Hsec, Hs].
  apply Hsec. split; [discriminate |]. split; [now apply Hc |].
  exists (l :: data). split; [discriminate |]. split; [reflexivity |].
  exact Hd.
Qed.

Lemma X13_witness_tables_sample :
  In (codes "REWORK RELATIONSHIPS TABLE",
      join_lines [codes "First,Second,Relationship Type,Product Line";
                  codes "401,10,Finish <= Start,Product E"])
     (parse_csv_sections (render ex_tables))
  /\ codes "REWORK RELATIONSHIPS TABLE" <> []
  /\ strip (codes "REWORK RELATIONSHIPS TABLE")
     = codes "REWORK RELATIONSHIPS TABLE".
Proof.
  assert (Hin : In (codes "REWORK RELATIONSHIPS TABLE",
                    join_lines
                      [codes "First,Second,Relationship Type,Product Line";
                       codes "401,10,Finish <= Start,Product E"])
                   (parse_csv_sections (render ex_tables)))
    by (vm_compute; auto).
  split; [exact Hin |].
  destruct (X13_sections_are_well_formed _ _ _ Hin) as (H1 & _ & H3 & _).
  auto.
Defined.

(** *** Files laid out as the format describes *)

Lemma valid_name_spec (name : text) :
  valid_name name = true ->
  starts_nonspace name = true /\ ends_nonspace name = true
  /\ ~ In EQUALS name /\ ~ In NEWLINE name.
Proof.
  unfold valid_name. rewrite !andb_true_iff, forallb_forall.
  intros [[H1 H2] H3]. split; [assumption |]. split; [assumption |].
  split; intros Hin; specialize (H3 _ Hin); apply andb_true_iff in H3;
    destruct H3 as [Ha Hb]; [now rewrite Z.eqb_refl in Ha |
                             now rewrite Z.eqb_refl in Hb].
Qed.

Lemma valid_line_spec (line : text) :
  valid_line line = true ->
  ~ In NEWLINE line /\ strip line <> [] /\ is_marker_line line = false.
Proof.
  unfold valid_line, is_marker_line.
  rewrite !andb_true_iff, forallb_forall, negb_true_iff.
  intros [[H1 H2] H3]. split; [| split].
  - intros Hin. specialize (H1 _ Hin). now rewrite Z.eqb_refl in H1.
  - intros He. now rewrite He in H2.
  - rewrite H3. apply andb_false_r.
Qed.

Lemma remove_equals_id (s : text) :
  ~ In EQUALS s -> remove_equals s = s.
Proof.
  unfold remove_equals. induction s as [| c s IH]; simpl; [reflexivity |].
  intros Hno. destruct (Z.eqb_spec c EQUALS) as [-> | Hne];
    [exfalso; apply Hno; now left |].
  simpl. rewrite IH; [reflexivity |]. intros H. apply Hno. now right.
Qed.

Lemma marker_line_parsed (name : text) :
  valid_name name = true ->
  is_marker_line (marker_line name) = true
  /\ strip (remove_equals (marker_line name)) = name
  /\ ~ In NEWLINE (marker_line name).
Proof.
  intros Hv. destruct (valid_name_spec name Hv) as (H1 & H2 & H3 & H4).
  assert (Hends : ends_nonspace (marker_line name) = true).
  { unfold ends_nonspace, marker_line. rewrite !rev_app_distr. reflexivity. }
  split; [| split].
  - unfold is_marker_line.
    rewrite (strip_fixed (marker_line name) eq_refl Hends). reflexivity.
  - unfold marker_line, remove_equals. rewrite !filter_app.
    fold (remove_equals name). rewrite (remove_equals_id name H3).
    change (filter (fun c => negb (c =? EQUALS)) MARKER) with (@nil Z).
    change (filter (fun c => negb (c =? EQUALS)) [32]) with [32].
    rewrite app_nil_r. cbn [app]. unfold strip.
    change (lstrip (32 :: name ++ [32])) with (lstrip (name ++ [32])).
    assert (Hl : lstrip (name ++ [32]) = name ++ [32]).
    { apply lstrip_fixed. destruct name; [discriminate | exact H1]. }
    rewrite Hl. unfold rstrip. rewrite rev_app_distr.
    change (rev [32] ++ rev name) with (32 :: rev name).
    change (lstrip (32 :: rev name)) with (lstrip (rev name)).
    rewrite lstrip_fixed by exact H2. apply rev_involutive.
  - unfold marker_line. rewrite !in_app_iff.
    intros [H | [H | [H | [H | H]]]]; try (now apply H4);
      simpl in H; unfold NEWLINE, EQUALS in H; intuition lia.
Qed.

Lemma data_lines_kept (lines : list text) :
  forallb valid_line lines = true ->
  forall st,
    fold_left parse_line lines st
    = {| sections := sections st;
         current_section := current_section st;
         current_data := current_data st ++ lines |}.
Proof.
  induction lines as [| l lines IH]; intros Hv st; simpl.
  - rewrite app_nil_r. now destruct st.
  - apply andb_true_iff in Hv. destruct Hv as [Hl Hv].
    destruct (valid_line_spec l Hl) as (_ & Hblank & Hm).
    rewrite IH by assumption. unfold parse_line at 1 2 3. rewrite Hm.
    destruct (strip l); [congruence |]. simpl. now rewrite <- app_assoc.
Qed.

Lemma render_lines_parsed (tables : list (text * list text)) :
  valid_tables tables = true ->
  forall st,
    save_section (fold_left parse_line (render_lines tables) st)
    = fold_left
        (fun acc '(name, lines) => dict_set name (join_lines lines) acc)
        tables (save_section st).
Proof.
  induction tables as [| [name lines] tables IH]; intros Hv st;
    [reflexivity |].
  simpl in Hv. apply andb_true_iff in Hv. destruct Hv as [Hblock Hv].
  apply andb_true_iff in Hblock. destruct Hblock as [Hblock Hlines].
  apply andb_true_iff in Hblock. destruct Hblock as [Hname Hne].
  destruct (marker_line_parsed name Hname) as (Hm & Hstrip & _).
  destruct (valid_name_spec name Hname) as (Hstart & _).
  assert (Hstep : parse_line st (marker_line name)
                  = {| sections := save_section st;
                       current_section := Some name;
                       current_data := [] |}).
  { unfold parse_line. now rewrite Hm, Hstrip. }
  cbn [render_lines flat_map]. rewrite <- app_comm_cons.
  cbn [fold_left]. rewrite fold_left_app, Hstep.
  rewrite (data_lines_kept lines Hlines). cbn [sections current_section
                                                current_data app].
  fold (render_lines tables). rewrite IH by assumption. f_equal.
  unfold save_section at 1. cbn [sections current_section current_data].
  destruct name as [| c name]; [discriminate |].
  destruct lines as [| l lines]; [discriminate |]. reflexivity.
Qed.

Lemma render_lines_clean (tables : list (text * list text)) :
  valid_tables tables = true ->
  forall l, In l (render_lines tables) -> ~ In NEWLINE l.
Proof.
  unfold valid_tables, render_lines. rewrite forallb_forall.
  intros Hv l Hl. apply in_flat_map in Hl.
  destruct Hl as ([name lines] & Hin & Hl). specialize (Hv _ Hin).
  simpl in Hv. apply andb_true_iff in Hv. destruct Hv as [Hblock Hlines].
  apply andb_true_iff in Hblock. destruct Hblock as [Hname _].
  destruct Hl as [<- | Hl].
  - now apply marker_line_parsed.
  - rewrite forallb_forall in Hlines. now apply valid_line_spec, Hlines.
Qed.

(** X14.  A file laid out as the format describes, each table under its
    marker line ['==== NAME ===='] with at least one line, and ending
    without white space, is parsed into the tables it holds: each name is
    mapped to its lines joined, in the order of the file, a later table of
    the same name taking the place of the earlier one. *)
Theorem X14_well_formed_file_is_parsed (tables : list (text * list text)) :
  valid_tables tables = true ->
  ends_nonspace (render tables) = true ->
  parse_csv_sections (render tables) = tables_dict tables.
Proof.
  intros Hv Hends.
  assert (Hne : render_lines tables <> []).
  { destruct tables as [| [name lines] tables]; [discriminate |].
    discriminate. }
  assert (Hstart : starts_nonspace (render tables) = true).
  { unfold render. destruct tables as [| [name lines] tables];
      [discriminate |].
    cbn [render_lines flat_map]. rewrite <- app_comm_cons.
    destruct (lines ++ flat_map _ tables); reflexivity. }
  unfold parse_csv_sections. rewrite strip_fixed by assumption.
  unfold render.
  rewrite split_lines_join
    by (assumption || now apply render_lines_clean).
  now rewrite render_lines_parsed.
Qed.

Lemma X14_witness_tables_sample :
  valid_tables ex_tables = true
  /\ ends_nonspace (render ex_tables) = true
  /\ parse_csv_sections (render ex_tables)
     = [(codes "LATE PARTS RELATIONSHIPS TABLE",
         join_lines
           [codes "First,Second,Estimated On Dock Date,Product Line";
            codes "301,2,8/30/2025,Product E"]);
        (codes "REWORK RELATIONSHIPS TABLE",
         join_lines [codes "First,Second,Relationship Type,Product Line";
                     codes "401,10,Finish <= Start,Product E"])].
Proof.
  split; [reflexivity |]. split; [reflexivity |].
  rewrite (X14_well_formed_file_is_parsed ex_tables); reflexivity.
Defined.

(** ** The entries of the schedule *)

Section EntriesInvariant.
Variable self : ProductionScheduler.
Variable set_iter : list Z -> list Z.
Variable priority_of : Z -> option Q.
Variable silent_mode : bool.
Variable P : Z -> Placement -> Prop.

(** [P] holds of whatever the window search hands to the placement, in a
    schedule whose entries satisfy [P]. *)
Hypothesis P_window :
  forall task_schedule t info product_line start tm shift,
    all_entries P task_schedule ->
    find_product_line self t = Some product_line ->
    dict_get t (tasks self) = Some info ->
    find_window self task_schedule info
      (earliest_start_of self set_iter task_schedule t) product_line
    = Some (start, tm, shift) ->
    P t (make_placement info product_line start tm shift).

Lemma retry_or_fail_schedule (st : LoopState) (priority : Q) (t : Z) :
  task_schedule (retry_or_fail st priority t) = task_schedule st.
Proof.
  unfold retry_or_fail.
  destruct (get_default t (task_retry_counts st) 0 + 1 <? 3); reflexivity.
Qed.

Lemma place_next_entries (st : LoopState) :
  all_entries P (task_schedule st) ->
  keeps_entries P (place_next self set_iter priority_of st).
Proof.
  intros Hall. unfold place_next.
  destruct (heappop (ready_tasks st)) as [[[priority t] rest] |];
    [| exact Hall].
  destruct (3 <=? _); [exact Hall |].
  destruct (find_product_line self t) as [product_line |] eqn:Hproduct;
    [| exact Hall].
  destruct (negb (truthy product_line)); [exact Hall |].
  destruct (dict_get t (tasks self)) as [info |] eqn:Hinfo; [| exact I].
  destruct (find_window _ _ _ _ _) as [[[start tm] shift] |] eqn:Hwin.
  - destruct (push_all _ _ _); [| exact I].
    simpl. intros t' p' Hin. apply dict_set_In_inv in Hin.
    destruct Hin as [[-> ->] | Hin]; [| now apply Hall].
    exact (P_window _ _ _ _ _ _ _ Hall Hproduct Hinfo Hwin).
  - simpl. rewrite retry_or_fail_schedule. exact Hall.
Qed.

Lemma loop_body_entries (st : LoopState) :
  all_entries P (task_schedule st) ->
  keeps_entries P (loop_body self set_iter priority_of silent_mode st).
Proof.
  intros Hall. unfold loop_body.
  set (st1 := next_iteration st).
  assert (H1 : all_entries P (task_schedule st1)) by exact Hall.
  clearbody st1.
  destruct (ready_tasks st1); [| now apply place_next_entries].
  destruct (_ <? _); [| now apply place_next_entries].
  destruct (push_all _ _ _) as [h |]; [| exact I].
  destruct (newly_ready_unscheduled self st1).
  - destruct (negb silent_mode); [exact H1 |].
    now apply place_next_entries.
  - now apply place_next_entries.
Qed.

Lemma schedule_loop_entries (fuel : nat) :
  forall st st',
    all_entries P (task_schedule st) ->
    schedule_loop self set_iter priority_of silent_mode fuel st
    = Finished st' ->
    all_entries P (task_schedule st').
Proof.
  induction fuel as [| fuel IH]; intros st st' Hall; simpl.
  - destruct (loop_condition self st); [discriminate | now intros [= <-]].
  - destruct (loop_condition self st); [| now intros [= <-]].
    pose proof (loop_body_entries st Hall) as Hstep.
    destruct (loop_body self set_iter priority_of silent_mode st)
      as [st1 | st1 |]; simpl in Hstep.
    + apply IH, Hstep.
    + now intros [= <-].
    + discriminate.
Qed.

Lemma schedule_tasks_entries (st : LoopState) :
  schedule_tasks self set_iter priority_of silent_mode = Finished st ->
  all_entries P (task_schedule st).
Proof.
  unfold schedule_tasks.
  destruct (negb silent_mode && negb (validate_dag self)); [discriminate |].
  destruct (push_all priority_of (initial_ready self) []) as [h |];
    [| discriminate].
  apply schedule_loop_entries. intros t p [].
Qed.

End EntriesInvariant.

(** The teams with a load are teams that work the shift with the head
    count needed. *)
Lemma team_loads_In (self : ProductionScheduler) (task_schedule : Schedule)
  (shift : string) (mechanics_needed : Z) (tm : string) (load : Z) :
  In (tm, load) (team_loads self task_schedule shift mechanics_needed) ->
  In tm (available_teams self shift)
  /\ mechanics_needed <= get_default tm (quality_team_capacity self) 0.
Proof.
  unfold team_loads.
  assert (Hgen : forall l acc,
             (forall x, In x l -> In x (available_teams self shift)) ->
             (forall t v, In (t, v) acc ->
                In t (available_teams self shift)
                /\ mechanics_needed
                   <= get_default t (quality_team_capacity self) 0) ->
             forall t v,
               In (t, v)
                 (fold_left
                    (fun loads team =>
                       if get_default team (quality_team_capacity self) 0
                          <? mechanics_needed
                       then loads
                       else dict_set team
                              (scheduled_minutes task_schedule team) loads)
                    l acc) ->
               In t (available_teams self shift)
               /\ mechanics_needed
                  <= get_default t (quality_team_capacity self) 0).
  { induction l as [| x l IH]; intros acc Hl Hacc; simpl; [exact Hacc |].
    apply IH; [intros y Hy; apply Hl; now right |].
    destruct (Z.ltb_spec (get_default x (quality_team_capacity self) 0)
                mechanics_needed) as [Hlt | Hge]; [exact Hacc |].
    intros t v Hin. apply dict_set_In_inv in Hin.
    destruct Hin as [[-> _] | Hin]; [| now apply (Hacc t v)].
    split; [apply Hl; now left | exact Hge]. }
  apply Hgen; [auto | intros t v []].
Qed.

Lemma assign_quality_team_works (self : ProductionScheduler)
  (task_schedule : Schedule) (shift : string) (mechanics_needed : Z)
  (chosen : string) :
  assign_quality_team_balanced self task_schedule shift mechanics_needed
  = Some chosen ->
  (exists shifts, In (chosen, shifts) (quality_team_shifts self)
                  /\ mem shift shifts = true)
  /\ mechanics_needed <= get_default chosen (quality_team_capacity self) 0.
Proof.
  unfold assign_quality_team_balanced.
  destruct (available_teams self shift); [discriminate |].
  destruct (team_loads self task_schedule shift mechanics_needed)
    as [| x rest] eqn:Hloads; [discriminate |].
  intros [= <-].
  destruct (min_by_load_first rest x) as (l1 & l2 & Heq & _).
  assert (Hin : In (min_by_load x rest)
                  (team_loads self task_schedule shift mechanics_needed)).
  { rewrite Hloads, Heq. apply in_or_app. right. now left. }
  destruct (min_by_load x rest) as [tm load]. simpl.
  apply team_loads_In in Hin. destruct Hin as [Hav Hcap].
  split; [| exact Hcap].
  unfold available_teams in Hav. apply in_map_iff in Hav.
  destruct Hav as ([tm' shifts] & Hfst & Hin). simpl in Hfst. subst tm'.
  apply filter_In in Hin. exists shifts. exact Hin.
Qed.

Lemma find_window_inspection (self : ProductionScheduler)
  (task_schedule : Schedule) (info : TaskInfo) (earliest_start : datetime)
  (product_line : string) (start : datetime) (tm shift : string) :
  is_quality info = true ->
  find_window self task_schedule info earliest_start product_line
  = Some (start, tm, shift) ->
  In shift ["1st"; "2nd"; "3rd"]
  /\ (exists shifts, In (tm, shifts) (quality_team_shifts self)
                     /\ mem shift shifts = true)
  /\ mechanics_required info
     <= get_default tm (quality_team_capacity self) 0.
Proof.
  intros Hq. unfold find_window. rewrite Hq.
  set (Q := fun x : datetime * string * string =>
              let '(_, tm, shift) := x in
              In shift ["1st"; "2nd"; "3rd"]
              /\ (exists shifts, In (tm, shifts) (quality_team_shifts self)
                                 /\ mem shift shifts = true)
              /\ mechanics_required info
                 <= get_default tm (quality_team_capacity self) 0).
  assert (Hstep : forall best try_shift,
             In try_shift ["1st"; "2nd"; "3rd"] ->
             (forall x, best = Some x -> Q x) ->
             forall x,
               try_quality_shift self task_schedule earliest_start
                 product_line (mechanics_required info) (duration info)
                 best try_shift = Some x ->
               Q x).
  { intros best try_shift Hin Hbest x. unfold try_quality_shift.
    destruct (assign_quality_team_balanced self task_schedule try_shift
                (mechanics_required info)) as [team |] eqn:Hassign;
      [| apply Hbest].
    apply assign_quality_team_works in Hassign.
    destruct (truthy team); [| apply Hbest].
    destruct (get_next_working_time_with_capacity _ _ _ _ _ _ _ _)
      as [t sh n | n |]; try apply Hbest.
    destruct best as [[[s0 tm0] sh0] |].
    - destruct (t <? s0); [| apply Hbest].
      intros [= <-]. split; [exact Hin | exact Hassign].
    - intros [= <-]. split; [exact Hin | exact Hassign]. }
  cbn [fold_left]. intros Hres.
  assert (H0 : forall x, @None (datetime * string * string) = Some x -> Q x)
    by discriminate.
  pose proof (Hstep None "1st" ltac:(simpl; tauto) H0) as H1.
  pose proof (Hstep _ "2nd" ltac:(simpl; tauto) H1) as H2.
  pose proof (Hstep _ "3rd" ltac:(simpl; tauto) H2) as H3.
  exact (H3 (start, tm, shift) Hres).
Qed.

(** X15.  Every inspection in a schedule that [schedule_tasks] returns is
    recorded with one of the shifts '1st', '2nd', '3rd', with a quality team
    that works that shift, and the team's head count is at least the
    number of inspectors the inspection needs. *)
Theorem X15_inspection_team_works_recorded_shift
  (self : ProductionScheduler) (set_iter : list Z -> list Z)
  (priority_of : Z -> option Q) (silent_mode : bool)
  (st : LoopState) (t : Z) (p : Placement) :
  schedule_tasks self set_iter priority_of silent_mode = Finished st ->
  dict_get t (task_schedule st) = Some p ->
  sched_is_quality p = true ->
  In (sched_shift p) ["1st"; "2nd"; "3rd"]
  /\ (exists shifts,
         In (sched_team p, shifts) (quality_team_shifts self)
         /\ mem (sched_shift p) shifts = true)
  /\ sched_mechanics_required p
     <= get_default (sched_team p) (quality_team_capacity self) 0.
Proof.
  intros Hrun Hp.
  apply (schedule_tasks_entries self set_iter priority_of silent_mode
           (fun _ p => inspection_team_ok self p)) with (st := st) (t := t);
    [| exact Hrun | apply dict_get_In, Hp].
  intros task_schedule t' info product_line start tm shift _ _ _ Hwin Hq.
  simpl in Hq |- *.
  eapply find_window_inspection; eassumption.
Qed.

(** On [ex_busy_quality_team] the inspection 102 is recorded for team Q2
    and the second shift, which Q2 works; it starts at 07:00, which is
    outside the window of that shift. *)
Lemma X15_witness_busy_quality_team :
  exists p,
    sample_run ex_busy_quality_team true = Finished ex_busy_quality_team_final
    /\ dict_get 102 (task_schedule ex_busy_quality_team_final) = Some p
    /\ sched_team p = "Q2" /\ sched_shift p = "2nd"
    /\ shift_window (sched_shift p) (minute_of_day (start_time p)) = false
    /\ (In (sched_shift p) ["1st"; "2nd"; "3rd"]
        /\ (exists shifts,
               In (sched_team p, shifts)
                 (quality_team_shifts ex_busy_quality_team)
               /\ mem (sched_shift p) shifts = true)
        /\ sched_mechanics_required p
           <= get_default (sched_team p)
                (quality_team_capacity ex_busy_quality_team) 0).
Proof.
  eexists. split; [vm_compute; reflexivity |].
  split; [vm_compute; reflexivity |].
  split; [reflexivity |]. split; [reflexivity |].
  split; [vm_compute; reflexivity |].
  eapply (X15_inspection_team_works_recorded_shift ex_busy_quality_team
            (fun l => l)
            (calculate_task_priority ex_busy_quality_team sample_now) true
            ex_busy_quality_team_final 102).
  - vm_compute; reflexivity.
  - vm_compute; reflexivity.
  - reflexivity.
Defined.

(** X16.  In the state [schedule_tasks] ends in, no task is both placed and
    given up, every placed task is a task of the task table, and for every
    edge of the effective graph with one of the three relationships whose
    second task is placed, the first task is placed or was given up. *)
Theorem X16_predecessors_placed_or_given_up
  (self : ProductionScheduler) (set_iter : list Z -> list Z)
  (priority_of : Z -> option Q) (silent_mode : bool) (st : LoopState) :
  (forall l x, In x (set_iter l) <-> In x l) ->
  schedule_tasks self set_iter priority_of silent_mode = Finished st ->
  (forall t, dict_mem t (task_schedule st) = true ->
             mem t (failed_tasks st) = false
             /\ dict_mem t (tasks self) = true)
  /\ (forall c,
         In c (build_dynamic_dependencies self) ->
         is_dependency_relationship (Relationship c) = true ->
         dict_mem (Second c) (task_schedule st) = true ->
         dict_mem (First c) (task_schedule st) = true
         \/ mem (First c) (failed_tasks st) = true).
Proof.
  intros Hiter Hrun.
  pose proof (schedule_tasks_Inv _ _ _ _ Hiter _ Hrun) as HI.
  split.
  - intros t Ht. split; [exact (inv_disjoint _ _ _ _ HI t Ht) |].
    apply dict_mem_get in Ht. destruct Ht as [p Hp].
    destruct (inv_entries _ _ _ _ HI t p Hp) as (info & Hinfo & _).
    apply dict_mem_get. now exists info.
  - intros c Hc Hrel Hb. apply orb_true_iff.
    apply (inv_placed_deps _ _ _ _ HI (Second c) (First c) Hb).
    apply dependencies_of_In. exists c. auto.
Qed.

(** On [ex_failed_predecessor] task 1 is given up and task 2, which it
    precedes, is placed at the start of the schedule. *)
Lemma X16_witness_failed_predecessor :
  sample_run ex_failed_predecessor true = Finished ex_failed_predecessor_final
  /\ failed_tasks ex_failed_predecessor_final = [1]
  /\ option_map start_time
       (dict_get 2 (task_schedule ex_failed_predecessor_final))
     = Some start_date
  /\ (forall c,
         In c (build_dynamic_dependencies ex_failed_predecessor) ->
         is_dependency_relationship (Relationship c) = true ->
         dict_mem (Second c) (task_schedule ex_failed_predecessor_final)
         = true ->
         dict_mem (First c) (task_schedule ex_failed_predecessor_final)
         = true
         \/ mem (First c) (failed_tasks ex_failed_predecessor_final) = true).
Proof.
  split; [vm_compute; reflexivity |]. split; [reflexivity |].
  split; [reflexivity |].
  refine (proj2 (X16_predecessors_placed_or_given_up ex_failed_predecessor
                   (fun l => l)
                   (calculate_task_priority ex_failed_predecessor sample_now)
                   true ex_failed_predecessor_final list_order_In _)).
  vm_compute; reflexivity.
Defined.

(** ** The successors counted by the slack *)

Section SuccessorSearch.
Variable dynamic_constraints : list Constraint.
Variable task_id : Z.

Local Abbreviation seen_or_source seen u := (u = task_id \/ In u seen).

Lemma reaches_snoc (u v w : Z) :
  reaches dynamic_constraints u v -> follows dynamic_constraints v w ->
  reaches dynamic_constraints u w.
Proof.
  intros Hr Hf. induction Hr as [u v He | u v x He _ IH].
  - eapply reaches_step; [exact He | now apply reaches_edge].
  - eapply reaches_step; [exact He | now apply IH].
Qed.

(** One pass over the edges for the node [current] popped from the stack. *)
Lemma visit_fold (current : Z) (l : list Constraint) :
  forall all_successors stack all_successors' stack',
    fold_left (visit_successor current) l (all_successors, stack)
    = (all_successors', stack') ->
    (NoDup all_successors -> NoDup all_successors')
    /\ (forall x, In x all_successors -> In x all_successors')
    /\ (forall x, In x stack -> In x stack')
    /\ (forall x, In x all_successors' ->
                  In x all_successors
                  \/ (In x stack'
                      /\ exists c, In c l /\ First c = current
                                   /\ Second c = x))
    /\ (forall x, In x stack' ->
                  In x stack
                  \/ exists c, In c l /\ First c = current /\ Second c = x)
    /\ (forall c, In c l -> First c = current ->
                  In (Second c) all_successors').
Proof.
  induction l as [| c l IH]; intros seen stack seen' stack'.
  - cbn [fold_left]. intros [= <- <-].
    repeat split; try tauto. intros c [].
  - cbn [fold_left]. intros Hfold.
    set (mid := visit_successor current (seen, stack) c) in Hfold.
    assert (Hmid :
              (NoDup seen -> NoDup (fst mid))
              /\ (forall x, In x seen -> In x (fst mid))
              /\ (forall x, In x stack -> In x (snd mid))
              /\ (forall x, In x (fst mid) ->
                            In x seen
                            \/ (In x (snd mid) /\ First c = current
                                /\ Second c = x))
              /\ (forall x, In x (snd mid) ->
                            In x stack
                            \/ (First c = current /\ Second c = x))
              /\ (First c = current -> In (Second c) (fst mid))).
    { subst mid. unfold visit_successor.
      destruct (Z.eqb_spec (First c) current) as [Hc | Hc]; cbn [andb].
      - destruct (mem (Second c) seen) eqn:Hm; cbn [negb fst snd].
        + apply mem_In in Hm. repeat split; tauto.
        + repeat split.
          * apply set_add_NoDup.
          * intros x Hx. apply set_add_In. tauto.
          * intros x Hx. now right.
          * intros x Hx. apply set_add_In in Hx.
            destruct Hx as [-> | Hx]; [right | tauto].
            split; [now left | tauto].
          * intros x [<- | Hx]; tauto.
          * intros _. apply set_add_In. now left.
      - cbn [fst snd]. repeat split; tauto. }
    destruct mid as [seen1 stack1]. cbn [fst snd] in Hmid.
    destruct Hmid as (Hnd1 & Hs1 & Hk1 & Hnew1 & Hpush1 & Hc1).
    destruct (IH _ _ _ _ Hfold) as (Hnd & Hs & Hk & Hnew & Hpush & Hall).
    split; [auto |]. split; [auto |]. split; [auto |].
    split; [| split].
    + intros x Hx. destruct (Hnew x Hx) as [Hx1 | (Hst & c' & Hc' & Hfc)].
      * destruct (Hnew1 x Hx1) as [? | (Hst & Hf & Hsnd)]; [tauto |].
        right. split; [auto |]. exists c. simpl. tauto.
      * right. split; [exact Hst |]. exists c'. simpl. tauto.
    + intros x Hx. destruct (Hpush x Hx) as [Hx1 | (c' & Hc' & Hfc)].
      * destruct (Hpush1 x Hx1) as [? | Hf]; [tauto |].
        right. exists c. simpl. tauto.
      * right. exists c'. simpl. tauto.
    + intros c' [<- | Hc'] Hf; [apply Hs, Hc1, Hf | now apply Hall].
Qed.

(** The invariant of the search: what is in the set is reached from the
    task, what is on the stack is the task or in the set, and each node that
    is the task or in the set is still on the stack or has all its
    successors in the set. *)
Lemma collect_successors_inv (fuel : nat) :
  forall stack all_successors result,
    NoDup all_successors ->
    (forall x, In x all_successors ->
               reaches dynamic_constraints task_id x) ->
    (forall x, In x stack -> seen_or_source all_successors x) ->
    (forall u v, seen_or_source all_successors u ->
                 follows dynamic_constraints u v ->
                 In u stack \/ In v all_successors) ->
    collect_successors dynamic_constraints fuel stack all_successors
    = Some result ->
    NoDup result
    /\ forall x, In x result <-> reaches dynamic_constraints task_id x.
Proof.
  induction fuel as [| fuel IH]; intros stack seen result Hnd Hsound Hstack
                                        Hclosed.
  - destruct stack as [| current stack]; [| discriminate].
    cbn [collect_successors]. intros [= <-]. split; [exact Hnd |].
    intros x. split; [apply Hsound |].
    intros Hr.
    assert (Hgen : forall u w, reaches dynamic_constraints u w ->
                               seen_or_source seen u -> In w seen).
    { intros u w Huw. induction Huw as [u v He | u v w He _ IHr]; intros Hu.
      - destruct (Hclosed u v Hu He) as [[] | Hv]. exact Hv.
      - apply IHr. right. destruct (Hclosed u v Hu He) as [[] | Hv].
        exact Hv. }
    apply (Hgen task_id x Hr). now left.
  - destruct stack as [| current stack].
    + cbn [collect_successors]. intros [= <-]. split; [exact Hnd |].
      intros x. split; [apply Hsound |].
      intros Hr.
      assert (Hgen : forall u w, reaches dynamic_constraints u w ->
                                 seen_or_source seen u -> In w seen).
      { intros u w Huw. induction Huw as [u v He | u v w He _ IHr]; intros Hu.
        - destruct (Hclosed u v Hu He) as [[] | Hv]. exact Hv.
        - apply IHr. right. destruct (Hclosed u v Hu He) as [[] | Hv].
          exact Hv. }
      apply (Hgen task_id x Hr). now left.
    + cbn [collect_successors].
      destruct (fold_left (visit_successor current) dynamic_constraints
                  (seen, stack)) as [seen' stack'] eqn:Hfold.
      destruct (visit_fold _ _ _ _ _ _ Hfold)
        as (Hnd' & Hs & Hk & Hnew & Hpush & Hall).
      assert (Hcur : seen_or_source seen current)
        by (apply Hstack; now left).
      apply IH.
      * auto.
      * intros x Hx. destruct (Hnew x Hx) as [Hold | (_ & c & Hc & Hf & Hsnd)].
        -- now apply Hsound.
        -- assert (He : follows dynamic_constraints current x)
             by (exists c; auto).
           destruct Hcur as [-> | Hcur]; [now apply reaches_edge |].
           eapply reaches_snoc; [apply Hsound, Hcur | exact He].
      * intros x Hx. destruct (Hpush x Hx) as [Hold | (c & Hc & Hf & Hsnd)].
        -- destruct (Hstack x (or_intror Hold)) as [-> | Hin];
             [now left | right; now apply Hs].
        -- right. apply Hall in Hc; [| exact Hf]. now rewrite <- Hsnd.
      * intros u v Hu He.
        destruct (Z.eq_dec u current) as [-> | Hne].
        { right. destruct He as (c & Hc & Hf & Hsnd).
          rewrite <- Hsnd. now apply Hall. }
        assert (Hcase : seen_or_source seen u \/ In u stack').
        { destruct Hu as [-> | Hu]; [left; now left |].
          destruct (Hnew u Hu) as [Hold | [Hst _]];
            [left; now right | now right]. }
        destruct Hcase as [Hold | Hst]; [| now left].
        destruct (Hclosed u v Hold He) as [[Heq | Hin] | Hv].
        -- congruence.
        -- left. now apply Hk.
        -- right. now apply Hs.
Qed.

(** The search started by [calculate_slack_time] returns the tasks reached
    from the task, each once. *)
Lemma collect_successors_reaches :
  exists all_successors,
    collect_successors dynamic_constraints
      (successor_fuel dynamic_constraints) [task_id] []
    = Some all_successors
    /\ NoDup all_successors
    /\ forall x, In x all_successors
                 <-> reaches dynamic_constraints task_id x.
Proof.
  destruct (collect_successors dynamic_constraints
              (successor_fuel dynamic_constraints) [task_id] [])
    as [l |] eqn:Hrun.
  - exists l. split; [reflexivity |].
    apply (collect_successors_inv _ _ _ _ (NoDup_nil Z)) in Hrun;
      [exact Hrun | intros x [] | |].
    + intros x [<- | []]. now left.
    + intros u v [-> | []] _. left. now left.
  - exfalso. exact (collect_successors_returns _ _ Hrun).
Qed.

End SuccessorSearch.

Lemma minutes_of_fold (self : ProductionScheduler) (l : list Z) :
  forall acc,
    fold_left
      (fun acc succ =>
         match dict_get succ (tasks self) with
         | Some info => acc + duration info
         | None => acc
         end)
      l acc
    = acc + minutes_of self l.
Proof.
  induction l as [| x l IH]; intros acc; cbn [fold_left].
  - unfold minutes_of. simpl. lia.
  - rewrite IH.
    change (minutes_of self (x :: l))
      with (match dict_get x (tasks self) with
            | Some info => duration info + minutes_of self l
            | None => minutes_of self l
            end).
    destruct (dict_get x (tasks self)); lia.
Qed.

Lemma minutes_of_perm (self : ProductionScheduler) (l l' : list Z) :
  Permutation l l' -> minutes_of self l = minutes_of self l'.
Proof.
  induction 1 as [| x l l' _ IH | x y l | l l' l'' _ IH1 _ IH2].
  - reflexivity.
  - unfold minutes_of in *. simpl. rewrite IH. reflexivity.
  - unfold minutes_of. simpl.
    destruct (dict_get x (tasks self)), (dict_get y (tasks self)); lia.
  - congruence.
Qed.

(** X17.  For a scheduled task whose product has a delivery date, the slack
    is, in hours, the delivery date minus the start of the task, minus two
    days, minus three minutes for each minute of duration of every task of
    the task table that is reached from the task along one or more edges of
    the effective graph, of whatever relationship; each such task counts
    once. *)
Theorem X17_slack_counts_every_reachable_task
  (self : ProductionScheduler) (task_schedule : Schedule) (task_id : Z)
  (product_line : string) (delivery_date : datetime) (sched : Placement)
  (successors : list Z) :
  slack_product_line self task_id = Some product_line ->
  truthy product_line = true ->
  dict_get product_line (delivery_dates self) = Some delivery_date ->
  dict_get task_id task_schedule = Some sched ->
  NoDup successors ->
  (forall x, In x successors
             <-> reaches (build_dynamic_dependencies self) task_id x) ->
  calculate_slack_time self task_schedule task_id
  = Some (SlackHours
            (inject_Z (delivery_date
                       - (3 * minutes_of self successors + 2 * 1440)
                       - start_time sched)
             / inject_Z 60)%Q).
Proof.
  intros Hproduct Htruthy Hdelivery Hsched Hnd Hreach.
  unfold calculate_slack_time.
  rewrite Hproduct, Htruthy, Hdelivery, Hsched.
  destruct (collect_successors_reaches (build_dynamic_dependencies self)
              task_id) as (l & -> & Hndl & Hl).
  rewrite minutes_of_fold.
  rewrite (minutes_of_perm self l successors).
  - reflexivity.
  - apply NoDup_Permutation; [assumption | assumption |].
    intros x. rewrite Hl, Hreach. tauto.
Qed.

Lemma X17_witness_quality_sample :
  exists sched,
    dict_get 1 (task_schedule ex_quality_final) = Some sched
    /\ minutes_of ex_quality [101; 2] = 90
    /\ calculate_slack_time ex_quality (task_schedule ex_quality_final) 1
       = Some (SlackHours
                 (inject_Z (25920
                            - (3 * minutes_of ex_quality [101; 2]%Z + 2 * 1440)
                            - start_time sched)
                  / inject_Z 60)%Q).
Proof.
  eexists. split; [vm_compute; reflexivity |]. split; [reflexivity |].
  apply (X17_slack_counts_every_reachable_task ex_quality
           (task_schedule ex_quality_final) 1 "P" 25920 _ [101; 2]).
  - reflexivity.
  - reflexivity.
  - reflexivity.
  - vm_compute; reflexivity.
  - repeat constructor; simpl; intuition discriminate.
  - assert (Hedge : forall u v,
               follows (build_dynamic_dependencies ex_quality) u v ->
               In v [101; 2]).
    { intros u v (c & Hc & <- & <-). vm_compute in Hc.
      destruct Hc as [<- | [<- | []]]; simpl; tauto. }
    intros x. split.
    + intros [<- | [<- | []]].
      * apply reaches_edge. eexists. split; [left; reflexivity |].
        split; reflexivity.
      * eapply reaches_step.
        -- eexists. split; [left; reflexivity |]. split; reflexivity.
        -- apply reaches_edge. eexists.
           split; [right; left; reflexivity |]. split; reflexivity.
    + intros Hr. induction Hr as [u v He | u v w _ _ IH].
      * exact (Hedge u v He).
      * exact IH.
Defined.

(** ** Starts, products and the makespan of a complete schedule *)

Lemma find_product_line_spec (self : ProductionScheduler) (t : Z)
  (product_line : string) :
  find_product_line self t = Some product_line ->
  exists l,
    In (product_line, l) (product_tasks self)
    /\ (mem t l = true
        \/ exists primary_task,
            dict_get t (quality_inspections self) = Some primary_task
            /\ mem primary_task l = true).
Proof.
  unfold find_product_line, first_product.
  destruct (dict_get t (quality_inspections self)) as [primary_task |].
  - destruct (find _ (product_tasks self)) as [[product l] |] eqn:Hfind;
      [| discriminate].
    intros [= <-]. apply find_some in Hfind. destruct Hfind as [Hin Hp].
    exists l. split; [exact Hin |].
    apply orb_true_iff in Hp. destruct Hp as [Hp | Hp]; [right | now left].
    now exists primary_task.
  - destruct (find _ (product_tasks self)) as [[product l] |] eqn:Hfind;
      [| discriminate].
    intros [= <-]. apply find_some in Hfind. destruct Hfind as [Hin Hp].
    exists l. split; [exact Hin | now left].
Qed.

Lemma earliest_start_of_ge (self : ProductionScheduler)
  (set_iter : list Z -> list Z) (task_schedule : Schedule) (t : Z) :
  (forall d p, dict_get d task_schedule = Some p -> start_date <= end_time p) ->
  start_date <= earliest_start_of self set_iter task_schedule t.
Proof.
  intros Hends. unfold earliest_start_of.
  assert (Hfold : forall l acc,
             start_date <= acc ->
             start_date
             <= fold_left
                  (dependency_step (build_dynamic_dependencies self)
                     task_schedule t) l acc).
  { induction l as [| d l IH]; intros acc Hacc; cbn [fold_left];
      [exact Hacc |].
    apply IH. unfold dependency_step.
    destruct (dict_get d task_schedule) as [p |] eqn:Hd; [| exact Hacc].
    specialize (Hends d p Hd).
    destruct (is_finish_equals_start _ d t); lia. }
  apply Hfold. destruct (mem t (late_part_tasks self)); lia.
Qed.

Lemma schedule_entries_sound (self : ProductionScheduler)
  (set_iter : list Z -> list Z) (priority_of : Z -> option Q)
  (silent_mode : bool) (st : LoopState) :
  positive_tasks self = true ->
  schedule_tasks self set_iter priority_of silent_mode = Finished st ->
  all_entries (entry_sound self) (task_schedule st).
Proof.
  intros Hpos. apply schedule_tasks_entries.
  intros task_schedule t info product_line start tm shift Hall Hproduct
         Hinfo Hwin.
  destruct (positive_tasks_spec self t info Hpos Hinfo) as [_ Hdur].
  destruct (find_window_spec _ _ _ _ _ _ _ _ Hwin)
    as (Hearliest & sh & (Hday & _) & _).
  assert (Hge : start_date
                <= earliest_start_of self set_iter task_schedule t).
  { apply earliest_start_of_ge. intros d p Hd.
    destruct (Hall d p (dict_get_In _ _ _ Hd)) as (H1 & H2 & _). lia. }
  unfold entry_sound. cbn [make_placement start_time end_time
                             sched_product_line].
  split; [lia |]. split; [lia |]. split; [exact Hday |].
  now apply find_product_line_spec.
Qed.

(** X18.  When every task of the task table lasts a positive time and needs
    no negative number of workers, every entry of a schedule that [schedule_tasks] returns starts no earlier than
    the start date 2025-08-22 06:00, ends after it starts, and is recorded
    under a product of the product table whose task list holds the task or,
    for an inspection, the task it inspects. *)
Theorem X18_entries_start_on_or_after_the_start_date
  (self : ProductionScheduler) (set_iter : list Z -> list Z)
  (priority_of : Z -> option Q) (silent_mode : bool)
  (st : LoopState) (t : Z) (p : Placement) :
  positive_tasks self = true ->
  schedule_tasks self set_iter priority_of silent_mode = Finished st ->
  dict_get t (task_schedule st) = Some p ->
  start_date <= start_time p
  /\ start_time p < end_time p
  /\ exists l,
       In (sched_product_line p, l) (product_tasks self)
       /\ (mem t l = true
           \/ exists primary_task,
               dict_get t (quality_inspections self) = Some primary_task
               /\ mem primary_task l = true).
Proof.
  intros Hpos Hrun Hp.
  destruct (schedule_entries_sound _ _ _ _ _ Hpos Hrun t p
              (dict_get_In _ _ _ Hp)) as (H1 & H2 & _ & H4).
  auto.
Qed.

Lemma X18_witness_quality_sample :
  positive_tasks ex_quality = true
  /\ sample_run ex_quality true = Finished ex_quality_final
  /\ dict_get 101 (task_schedule ex_quality_final) = Some ex_quality_entry
  /\ start_date <= start_time ex_quality_entry
  /\ start_time ex_quality_entry < end_time ex_quality_entry
  /\ exists l,
       In (sched_product_line ex_quality_entry, l) (product_tasks ex_quality)
       /\ (mem 101 l = true
           \/ exists primary_task,
               dict_get 101 (quality_inspections ex_quality)
               = Some primary_task
               /\ mem primary_task l = true).
Proof.
  split; [reflexivity |]. split; [vm_compute; reflexivity |].
  split; [vm_compute; reflexivity |].
  apply (X18_entries_start_on_or_after_the_start_date ex_quality
           (fun l => l) (calculate_task_priority ex_quality sample_now) true
           ex_quality_final 101 ex_quality_entry).
  - reflexivity.
  - vm_compute; reflexivity.
  - vm_compute; reflexivity.
Defined.

Lemma min_start_spec (first : Placement) (rest : list Placement) :
  (exists p, In p (first :: rest) /\ min_start first rest = start_time p)
  /\ forall q, In q (first :: rest) -> min_start first rest <= start_time q.
Proof.
  unfold min_start.
  assert (Hgen : forall l m,
             let r := fold_left (fun m sched => Z.min m (start_time sched))
                        l m in
             r <= m
             /\ (forall q, In q l -> r <= start_time q)
             /\ (r = m \/ exists p, In p l /\ r = start_time p)).
  { induction l as [| x l IH]; intros m; cbn [fold_left].
    - cbv zeta. split; [lia |]. split; [intros q [] | now left].
    - specialize (IH (Z.min m (start_time x))). cbv zeta in *.
      destruct IH as (Hle & Hall & Hatt).
      split; [lia |]. split.
      + intros q [<- | Hq]; [lia | now apply Hall].
      + destruct Hatt as [Heq | (p & Hp & Heq)].
        * destruct (Z.min_spec m (start_time x)) as [[_ Hm] | [_ Hm]].
          -- left. congruence.
          -- right. exists x. split; [now left | congruence].
        * right. exists p. split; [now right | exact Heq]. }
  destruct (Hgen rest (start_time first)) as (Hle & Hall & Hatt).
  cbv zeta in *. split.
  - destruct Hatt as [Heq | (p & Hp & Heq)].
    + exists first. split; [now left | exact Heq].
    + exists p. split; [now right | exact Heq].
  - intros q [<- | Hq]; [exact Hle | now apply Hall].
Qed.

Lemma max_end_spec (first : Placement) (rest : list Placement) :
  (exists p, In p (first :: rest) /\ max_end first rest = end_time p)
  /\ forall q, In q (first :: rest) -> end_time q <= max_end first rest.
Proof.
  unfold max_end.
  assert (Hgen : forall l m,
             let r := fold_left (fun m sched => Z.max m (end_time sched))
                        l m in
             m <= r
             /\ (forall q, In q l -> end_time q <= r)
             /\ (r = m \/ exists p, In p l /\ r = end_time p)).
  { induction l as [| x l IH]; intros m; cbn [fold_left].
    - cbv zeta. split; [lia |]. split; [intros q [] | now left].
    - specialize (IH (Z.max m (end_time x))). cbv zeta in *.
      destruct IH as (Hle & Hall & Hatt).
      split; [lia |]. split.
      + intros q [<- | Hq]; [lia | now apply Hall].
      + destruct Hatt as [Heq | (p & Hp & Heq)].
        * destruct (Z.max_spec m (end_time x)) as [[_ Hm] | [_ Hm]].
          -- right. exists x. split; [now left | congruence].
          -- left. congruence.
        * right. exists p. split; [now right | exact Heq]. }
  destruct (Hgen rest (end_time first)) as (Hle & Hall & Hatt).
  cbv zeta in *. split.
  - destruct Hatt as [Heq | (p & Hp & Heq)].
    + exists first. split; [now left | exact Heq].
    + exists p. split; [now right | exact Heq].
  - intros q [<- | Hq]; [exact Hle | now apply Hall].
Qed.

Lemma count_working_days_bounds (self : ProductionScheduler) (n : nat) :
  forall current,
    0 <= count_working_days self n current <= Z.of_nat n.
Proof.
  induction n as [| n IH]; intros current; cbn [count_working_days].
  - simpl. lia.
  - specialize (IH (current + 1)).
    destruct (existsb _ (dict_keys (product_tasks self))); lia.
Qed.

Lemma is_working_day_midnight (self : ProductionScheduler) (t : datetime)
  (product_line : string) :
  is_working_day self (date_of t * minutes_per_day) product_line
  = is_working_day self t product_line.
Proof.
  unfold is_working_day, weekday.
  assert (Hd : date_of (date_of t * minutes_per_day) = date_of t).
  { unfold date_of at 1. apply Z.div_mul. discriminate. }
  rewrite Hd. reflexivity.
Qed.

(** X19.  For a schedule returned by [schedule_tasks] in which every task
    of the task table is placed, with every task lasting a positive time
    and needing no negative number of workers,
    [calculate_makespan] is at least one day and at most the number of
    calendar days from the day of the earliest start to the day of the
    latest end. *)
Theorem X19_makespan_of_complete_schedule
  (self : ProductionScheduler) (set_iter : list Z -> list Z)
  (priority_of : Z -> option Q) (silent_mode : bool) (st : LoopState) :
  positive_tasks self = true ->
  schedule_tasks self set_iter priority_of silent_mode = Finished st ->
  task_schedule st <> [] ->
  (forall t, In t (all_tasks self) ->
             dict_mem t (task_schedule st) = true) ->
  exists first last,
    In first (dict_values (task_schedule st))
    /\ In last (dict_values (task_schedule st))
    /\ (forall p, In p (dict_values (task_schedule st)) ->
                  start_time first <= start_time p
                  /\ end_time p <= end_time last)
    /\ 1 <= calculate_makespan self (task_schedule st)
       <= date_of (end_time last) - date_of (start_time first) + 1.
Proof.
  intros Hpos Hrun Hne Hcomplete.
  pose proof (schedule_entries_sound _ _ _ _ _ Hpos Hrun) as Hsound.
  assert (Hlen : total_tasks self
                 <= Z.of_nat (List.length (task_schedule st))).
  { unfold total_tasks. apply inj_le.
    replace (List.length (task_schedule st))
      with (List.length (dict_keys (task_schedule st)))
      by (unfold dict_keys; apply length_map).
    apply NoDup_incl_length; [apply to_set_NoDup |].
    intros t Ht. apply dict_mem_In. now apply Hcomplete. }
  unfold calculate_makespan.
  destruct (dict_values (task_schedule st)) as [| v0 rest] eqn:Hvalues.
  { destruct (task_schedule st); [congruence | discriminate]. }
  destruct (Z.ltb_spec (Z.of_nat (List.length (task_schedule st)))
              (total_tasks self)) as [Hlt | _]; [lia |].
  destruct (min_start_spec v0 rest) as ((p0 & Hp0 & Hmin) & Hmin_le).
  destruct (max_end_spec v0 rest) as ((p1 & Hp1 & Hmax) & Hmax_ge).
  assert (Hentry : forall p, In p (v0 :: rest) ->
                             exists t, entry_sound self t p).
  { intros p Hp. rewrite <- Hvalues in Hp. unfold dict_values in Hp.
    apply in_map_iff in Hp. destruct Hp as ([t p'] & Heq & Hin).
    simpl in Heq. subst p'. exists t. now apply Hsound. }
  destruct (Hentry p0 Hp0) as (t0 & _ & Hlast0 & Hday0 & l0 & Hl0 & _).
  exists p0, p1. split; [exact Hp0 |]. split; [exact Hp1 |]. split.
  { intros p Hp. rewrite <- Hmin, <- Hmax. split; auto. }
  cbv zeta. rewrite Hmin, Hmax.
  set (current := date_of (start_time p0)).
  set (end_date := date_of (end_time p1)).
  assert (Hdates : current <= end_date).
  { unfold current, end_date, date_of, minutes_per_day.
    apply Z.div_le_mono; [lia |].
    specialize (Hmax_ge p0 Hp0). lia. }
  pose proof (count_working_days_bounds self
                (Z.to_nat (end_date - current + 1)) current) as Hbounds.
  rewrite Z2Nat.id in Hbounds by lia.
  split; [| lia].
  destruct (Z.to_nat (end_date - current + 1)) as [| n] eqn:Hn; [lia |].
  cbn [count_working_days].
  pose proof (count_working_days_bounds self n (current + 1)) as Hrest.
  assert (Hany : existsb
                   (fun product =>
                      is_working_day self (current * minutes_per_day) product)
                   (dict_keys (product_tasks self)) = true).
  { apply existsb_exists. exists (sched_product_line p0). split.
    - unfold dict_keys. apply in_map_iff.
      exists (sched_product_line p0, l0). split; [reflexivity | exact Hl0].
    - unfold current. rewrite is_working_day_midnight. exact Hday0. }
  rewrite Hany. lia.
Qed.

Lemma X19_witness_quality_sample :
  exists first last,
    In first (dict_values (task_schedule ex_quality_final))
    /\ In last (dict_values (task_schedule ex_quality_final))
    /\ (forall p, In p (dict_values (task_schedule ex_quality_final)) ->
                  start_time first <= start_time p
                  /\ end_time p <= end_time last)
    /\ 1 <= calculate_makespan ex_quality (task_schedule ex_quality_final)
       <= date_of (end_time last) - date_of (start_time first) + 1.
Proof.
  apply (X19_makespan_of_complete_schedule ex_quality (fun l => l)
           (calculate_task_priority ex_quality sample_now) true
           ex_quality_final).
  - reflexivity.
  - vm_compute; reflexivity.
  - vm_compute; discriminate.
  - intros t Ht. vm_compute in Ht.
    destruct Ht as [<- | [<- | [<- | []]]]; reflexivity.
Defined.

(** ** Lateness *)

Lemma lateness_metrics_get (self : ProductionScheduler)
  (global_priority_list : list PriorityRow) (product : string) :
  dict_get product
    (calculate_lateness_metrics self global_priority_list)
  = match dict_get product (delivery_dates self) with
    | None => None
    | Some delivery_date =>
        match filter (fun t => (row_product_line t =? product)%string)
                global_priority_list with
        | [] => Some SENTINEL
        | t :: l =>
            Some ((fold_left (fun m t' => Z.max m (scheduled_end t')) l
                     (scheduled_end t) - delivery_date) / minutes_per_day)
        end
    end.
Proof.
  unfold calculate_lateness_metrics.
  induction (delivery_dates self) as [| [k d] dd IH]; [reflexivity |].
  cbn [map dict_get].
  destruct (filter (fun t => (row_product_line t =? k)%string)
              global_priority_list) as [| t l] eqn:Hk;
    cbn [dict_get fst snd];
    (destruct (key_eqb_spec product k) as [-> | Hne];
     [rewrite Hk; reflexivity | exact IH]).
Qed.

Lemma fold_max_end_lt (l : list PriorityRow) (bound : Z) :
  forall m,
    fold_left (fun m t' => Z.max m (scheduled_end t')) l m < bound
    <-> m < bound /\ forall t, In t l -> scheduled_end t < bound.
Proof.
  induction l as [| x l IH]; intros m; cbn [fold_left].
  - split; [intros H; split; [exact H | intros t []] | tauto].
  - rewrite IH. split.
    + intros [Hm Hall]. split; [lia |].
      intros t [<- | Ht]; [lia | now apply Hall].
    + intros [Hm Hall]. split.
      * specialize (Hall x (or_introl eq_refl)). lia.
      * intros t Ht. apply Hall. now right.
Qed.

(** X20.  For a product with a delivery date, [calculate_lateness_metrics]
    gives 999999 when no row of the priority list belongs to the product;
    otherwise it gives the lateness in whole days rounded down: the
    lateness is at most [k] exactly when every row of the product ends less
    than [k + 1] days after the delivery date.  So a product counts as on
    time ([k = 0]) whenever its last task ends less than one full day after
    the delivery date. *)
Theorem X20_lateness_in_whole_days (self : ProductionScheduler)
  (global_priority_list : list PriorityRow) (product : string)
  (delivery_date : datetime) :
  dict_get product (delivery_dates self) = Some delivery_date ->
  ((forall t, In t global_priority_list -> row_product_line t <> product) ->
   dict_get product (calculate_lateness_metrics self global_priority_list)
   = Some SENTINEL)
  /\ ((exists t, In t global_priority_list /\ row_product_line t = product) ->
      exists lateness_days,
        dict_get product
          (calculate_lateness_metrics self global_priority_list)
        = Some lateness_days
        /\ forall k,
            lateness_days <= k
            <-> forall t, In t global_priority_list ->
                          row_product_line t = product ->
                          scheduled_end t
                          < delivery_date + (k + 1) * minutes_per_day).
Proof.
  intros Hdate. rewrite lateness_metrics_get, Hdate.
  destruct (filter (fun t => (row_product_line t =? product)%string)
              global_priority_list) as [| t0 l] eqn:Hrows.
  - split; [reflexivity |].
    intros (t & Hin & Hp). exfalso.
    assert (Hf : In t (filter (fun t => (row_product_line t =? product)%string)
                         global_priority_list)).
    { apply filter_In. split; [exact Hin | now apply String.eqb_eq]. }
    rewrite Hrows in Hf. destruct Hf.
  - split.
    + intros Hnone. exfalso.
      assert (Hf : In t0 (t0 :: l)) by now left.
      rewrite <- Hrows in Hf. apply filter_In in Hf.
      destruct Hf as [Hin Hp]. apply String.eqb_eq in Hp.
      exact (Hnone t0 Hin Hp).
    + intros _. eexists. split; [reflexivity |].
      intros k.
      set (last_task_end :=
             fold_left (fun m t' => Z.max m (scheduled_end t')) l
               (scheduled_end t0)).
      assert (Hfloor : (last_task_end - delivery_date) / minutes_per_day <= k
                       <-> last_task_end
                           < delivery_date + (k + 1) * minutes_per_day).
      { unfold minutes_per_day.
        pose proof (Z.div_mod (last_task_end - delivery_date) 1440
                      ltac:(discriminate)) as Hdm.
        pose proof (Z.mod_pos_bound (last_task_end - delivery_date) 1440
                      ltac:(lia)) as Hmod.
        split; intros H; nia. }
      rewrite Hfloor. unfold last_task_end. rewrite fold_max_end_lt.
      split.
      * intros [H0 Hl] t Hin Hp.
        assert (Hf : In t (t0 :: l)).
        { rewrite <- Hrows. apply filter_In.
          split; [exact Hin | now apply String.eqb_eq]. }
        destruct Hf as [<- | Hf]; [exact H0 | now apply Hl].
      * intros Hall.
        assert (Hsub : forall t, In t (t0 :: l) ->
                                 scheduled_end t
                                 < delivery_date + (k + 1) * minutes_per_day).
        { intros t Ht. rewrite <- Hrows in Ht. apply filter_In in Ht.
          destruct Ht as [Hin Hp]. apply String.eqb_eq in Hp.
          now apply Hall. }
        split; [apply Hsub; now left | intros t Ht; apply Hsub; now right].
Qed.

Lemma X20_witness_same_day :
  dict_get "P" (delivery_dates ex_quality) = Some (18 * minutes_per_day)
  /\ (forall t, In t ex_same_day_rows ->
                scheduled_end t = 18 * minutes_per_day + 840)
  /\ exists lateness_days,
       dict_get "P" (calculate_lateness_metrics ex_quality ex_same_day_rows)
       = Some lateness_days
       /\ lateness_days <= 0.
Proof.
  split; [reflexivity |]. split.
  - intros t [<- | []]. reflexivity.
  - destruct (proj2 (X20_lateness_in_whole_days ex_quality ex_same_day_rows
                       "P" (18 * minutes_per_day) eq_refl))
      as (lateness_days & Hget & Hk).
    + eexists. split; [left; reflexivity | reflexivity].
    + exists lateness_days. split; [exact Hget |].
      apply Hk. intros t [<- | []] _. vm_compute. reflexivity.
Defined.

Lemma fold_max_ge (l : list Z) :
  forall m,
    m <= fold_left Z.max l m
    /\ (forall x, In x l -> x <= fold_left Z.max l m)
    /\ (fold_left Z.max l m <= 0 <-> m <= 0 /\ forall x, In x l -> x <= 0).
Proof.
  induction l as [| y l IH]; intros m; cbn [fold_left].
  - split; [lia |]. split; [intros x [] |].
    split; [intros H; split; [exact H | intros x []] | tauto].
  - destruct (IH (Z.max m y)) as (Hle & Hall & Hiff).
    split; [lia |]. split.
    + intros x [<- | Hx]; [lia | now apply Hall].
    + rewrite Hiff. split.
      * intros [Hm Hl]. split; [lia |].
        intros x [<- | Hx]; [lia | now apply Hl].
      * intros [Hm Hl]. split.
        -- specialize (Hl y (or_introl eq_refl)). lia.
        -- intros x Hx. apply Hl. now right.
Qed.

Lemma fold_sum_late (l : list Z) :
  forall acc,
    0 <= acc ->
    acc <= fold_left (fun acc l => acc + Z.max 0 l) l acc
    /\ (forall x, In x l ->
                  x <= fold_left (fun acc l => acc + Z.max 0 l) l acc)
    /\ (fold_left (fun acc l => acc + Z.max 0 l) l acc = 0
        <-> acc = 0 /\ forall x, In x l -> x <= 0).
Proof.
  induction l as [| y l IH]; intros acc Hacc; cbn [fold_left].
  - split; [lia |]. split; [intros x [] |].
    split; [intros H; split; [exact H | intros x []] | tauto].
  - destruct (IH (acc + Z.max 0 y) ltac:(lia)) as (Hle & Hall & Hiff).
    split; [lia |]. split.
    + intros x [<- | Hx]; [lia | now apply Hall].
    + rewrite Hiff. split.
      * intros [Hm Hl]. split; [lia |].
        intros x [<- | Hx]; [lia | now apply Hl].
      * intros [Hm Hl]. split.
        -- specialize (Hl y (or_introl eq_refl)). lia.
        -- intros x Hx. apply Hl. now right.
Qed.

(** X21.  In the two lateness figures of scenario 3, products without a
    scheduled task (lateness 999999 or more) are left out.  The total
    lateness is never negative, it is zero exactly when the maximum
    lateness is at most zero, every product that counts has a lateness of
    at most the maximum and at most the total, and when no product counts
    both figures are zero. *)
Theorem X21_lateness_figures (metrics : dict string Z) :
  0 <= snd (lateness_summary metrics)
  /\ (snd (lateness_summary metrics) = 0
      <-> fst (lateness_summary metrics) <= 0)
  /\ (forall product lateness_days,
         In (product, lateness_days) metrics ->
         lateness_days < SENTINEL ->
         lateness_days <= fst (lateness_summary metrics)
         /\ lateness_days <= snd (lateness_summary metrics))
  /\ ((forall product lateness_days,
          In (product, lateness_days) metrics ->
          SENTINEL <= lateness_days) ->
      lateness_summary metrics = (0, 0)).
Proof.
  unfold lateness_summary. cbn [fst snd].
  set (counted := filter (fun l => l <? SENTINEL) (dict_values metrics)).
  assert (Hcounted : forall product l,
             In (product, l) metrics -> l < SENTINEL -> In l counted).
  { intros product l Hin Hlt. apply filter_In. split.
    - unfold dict_values. apply in_map_iff. now exists (product, l).
    - now apply Z.ltb_lt. }
  destruct (fold_sum_late counted 0 ltac:(lia)) as (Hle & Hall & Hiff).
  split; [exact Hle |]. split; [| split].
  - rewrite Hiff. destruct counted as [| l rest]; [intuition lia |].
    destruct (fold_max_ge rest l) as (_ & _ & Hmax). rewrite Hmax.
    split.
    + intros [_ H]. split; [apply H; now left | intros x Hx; apply H; now right].
    + intros [H0 H]. split; [reflexivity |].
      intros x [<- | Hx]; [exact H0 | now apply H].
  - intros product l Hin Hlt. specialize (Hcounted product l Hin Hlt).
    split; [| now apply Hall].
    destruct counted as [| l0 rest]; [destruct Hcounted |].
    destruct (fold_max_ge rest l0) as (H0 & Hrest & _).
    destruct Hcounted as [<- | Hx]; [exact H0 | now apply Hrest].
  - intros Hnone.
    assert (Hnil : counted = []).
    { destruct counted as [| l rest] eqn:Hc; [reflexivity |].
      assert (Hin : In l counted) by (rewrite Hc; now left).
      apply filter_In in Hin. destruct Hin as [Hin Hlt].
      apply Z.ltb_lt in Hlt. unfold dict_values in Hin.
      apply in_map_iff in Hin. destruct Hin as ([product l'] & Heq & Hin).
      simpl in Heq. subst l'. specialize (Hnone product l Hin). lia. }
    rewrite Hnil. reflexivity.
Qed.

(** ** Where the edges of the effective graph come from *)

Lemma fold_left_Forall {A B : Type} (Q : A -> Prop)
  (step : list A -> B -> list A) (l : list B) :
  (forall dc x, In x l -> Forall Q dc -> Forall Q (step dc x)) ->
  forall dc, Forall Q dc -> Forall Q (fold_left step l dc).
Proof.
  induction l as [| x l IH]; intros Hstep dc Hdc; simpl; [assumption |].
  apply IH; [intros dc' y Hy; apply Hstep; now right |].
  apply Hstep; [now left | assumption].
Qed.

(** An append-only pass keeps what it is given and what each step emits. *)
Lemma fold_left_emitted {A B : Type} (step : list A -> B -> list A)
  (l : list B) (emitted : B -> A -> Prop) :
  (forall acc x, exists more, step acc x = acc ++ more) ->
  (forall acc x, exists e, In e (step acc x) /\ emitted x e) ->
  forall acc,
    (forall e, In e acc -> In e (fold_left step l acc))
    /\ (forall x, In x l ->
                  exists e, In e (fold_left step l acc) /\ emitted x e).
Proof.
  intros Happ Hemit. induction l as [| x l IH]; intros acc; simpl.
  - split; [auto | intros x []].
  - destruct (IH (step acc x)) as [Hkeep Hall]. split.
    + intros e He. apply Hkeep. destruct (Happ acc x) as [more ->].
      apply in_or_app. now left.
    + intros y [<- | Hy]; [| now apply Hall].
      destruct (Hemit acc x) as (e & He & Hx). exists e.
      split; [now apply Hkeep | exact Hx].
Qed.

Section EdgeOrigins.
Variable self : ProductionScheduler.

Local Abbreviation qr := (quality_requirements self).

Lemma link_origin (a q : Z) (ty : option string)
  (product : option (option string)) :
  dict_get a qr = Some q ->
  edge_origin self
    {| First := a; Second := q; Relationship := FINISH_EQ_START;
       Type_ := ty; Product_Line := product |}.
Proof.
  intros Hq. left. split; [| reflexivity]. simpl. now apply dict_get_In.
Qed.

Lemma base_step_origin (dc : list Constraint) (c : RawConstraint) :
  In c (precedence_constraints self) ->
  Forall (edge_origin self) dc ->
  Forall (edge_origin self) (base_step qr dc c).
Proof.
  intros Hc Hdc. unfold base_step.
  destruct (relationship_of c) as [rel |] eqn:Hrel; [| exact Hdc].
  assert (Hrow : forall x,
             x = match dict_get (raw_First c) qr with
                 | Some qi_task => qi_task
                 | None => raw_First c
                 end ->
             edge_origin self (plain_edge x (raw_Second c) rel)).
  { intros x Hx. right. left. exists c, rel.
    split; [exact Hc |]. split; [exact Hrel |].
    split; [reflexivity |]. split; [reflexivity | exact Hx]. }
  destruct (dict_get (raw_First c) qr) as [q |] eqn:Hq.
  - apply Forall_app. split; [apply Forall_app; split; [exact Hdc |] |].
    + destruct (has_edge (raw_First c) q dc); constructor; [| constructor].
      now apply link_origin.
    + constructor; [now apply Hrow | constructor].
  - apply Forall_app. split; [exact Hdc |].
    constructor; [now apply Hrow | constructor].
Qed.

Lemma late_part_step_origin (dc : list Constraint) (c : LatePartConstraint) :
  In c (late_part_constraints self) ->
  Forall (edge_origin self) dc ->
  Forall (edge_origin self) (late_part_step dc c).
Proof.
  intros Hc Hdc. unfold late_part_step. apply Forall_app.
  split; [exact Hdc |]. constructor; [| constructor].
  right. right. left. now exists c.
Qed.

Lemma rework_step_origin (dc : list Constraint) (c : ReworkConstraint) :
  In c (rework_constraints self) ->
  Forall (edge_origin self) dc ->
  Forall (edge_origin self) (rework_step qr dc c).
Proof.
  intros Hc Hdc. unfold rework_step.
  assert (Hrow : forall x,
             x = match dict_get (rw_First c) qr with
                 | Some qi_task => qi_task
                 | None => rw_First c
                 end ->
             edge_origin self
               (typed_edge x (rw_Second c) (rw_Relationship c) "Rework"
                  (rw_Product_Line c))).
  { intros x Hx. right. right. right. exists c.
    split; [exact Hc |]. split; [reflexivity |].
    split; [reflexivity |]. split; [reflexivity | exact Hx]. }
  destruct (dict_get (rw_First c) qr) as [q |] eqn:Hq.
  - apply Forall_app. split; [apply Forall_app; split; [exact Hdc |] |].
    + destruct (has_edge (rw_First c) q dc); constructor; [| constructor].
      now apply link_origin.
    + constructor; [now apply Hrow | constructor].
  - apply Forall_app. split; [exact Hdc |].
    constructor; [now apply Hrow | constructor].
Qed.

Lemma residual_step_origin (dc : list Constraint) (link : Z * Z) :
  In link qr ->
  Forall (edge_origin self) dc ->
  Forall (edge_origin self) (residual_step dc link).
Proof.
  intros Hlink Hdc. unfold residual_step. destruct link as [a q].
  destruct (has_edge a q dc); [exact Hdc |].
  apply Forall_app. split; [exact Hdc |]. constructor; [| constructor].
  left. split; [exact Hlink | reflexivity].
Qed.

Lemma edges_have_origins :
  Forall (edge_origin self) (build_dynamic_dependencies self).
Proof.
  unfold build_dynamic_dependencies, base_pass.
  apply fold_left_Forall; [intros; now apply residual_step_origin |].
  apply fold_left_Forall; [intros; now apply rework_step_origin |].
  apply fold_left_Forall; [intros; now apply late_part_step_origin |].
  apply fold_left_Forall; [intros; now apply base_step_origin |].
  constructor.
Qed.

Lemma late_part_rows_kept (c : LatePartConstraint) :
  In c (late_part_constraints self) ->
  In (typed_edge (lp_First c) (lp_Second c) FINISH_LE_START "Late Part"
        (lp_Product_Line c))
     (build_dynamic_dependencies self).
Proof.
  intros Hc. unfold build_dynamic_dependencies.
  set (dc1 := base_pass qr (precedence_constraints self)).
  destruct (fold_left_emitted late_part_step (late_part_constraints self)
              (fun c e =>
                 e = typed_edge (lp_First c) (lp_Second c) FINISH_LE_START
                       "Late Part" (lp_Product_Line c))
              late_part_step_appends) with (acc := dc1) as [_ Hlate].
  { intros acc x. eexists. split; [| reflexivity].
    unfold late_part_step. apply in_or_app. right. now left. }
  destruct (Hlate c Hc) as (e & He & ->).
  destruct (fold_left_appends (rework_step qr) (rework_constraints self)
              (rework_step_appends qr)
              (fold_left late_part_step (late_part_constraints self) dc1))
    as [r3 Hr3].
  rewrite Hr3.
  destruct (fold_left_appends residual_step qr residual_step_appends
              (fold_left late_part_step (late_part_constraints self) dc1
               ++ r3)) as [r4 ->].
  apply in_or_app. left. apply in_or_app. now left.
Qed.

Lemma rework_rows_kept (c : ReworkConstraint) :
  In c (rework_constraints self) ->
  exists e,
    In e (build_dynamic_dependencies self)
    /\ Type_ e = Some "Rework"
    /\ carries self e (rw_First c) (rw_Second c) (rw_Relationship c).
Proof.
  intros Hc. unfold build_dynamic_dependencies.
  set (dc2 := fold_left late_part_step (late_part_constraints self)
                (base_pass qr (precedence_constraints self))).
  destruct (fold_left_emitted (rework_step qr) (rework_constraints self)
              (fun c e =>
                 Type_ e = Some "Rework"
                 /\ carries self e (rw_First c) (rw_Second c)
                      (rw_Relationship c))
              (rework_step_appends qr)) with (acc := dc2) as [_ Hrework].
  { intros acc x. unfold rework_step, carries.
    destruct (dict_get (rw_First x) qr) as [q |]; eexists;
      (split; [apply in_or_app; right; left; reflexivity |]);
      repeat split. }
  destruct (Hrework c Hc) as (e & He & Hty & Hcarries).
  exists e. split; [| now split].
  destruct (fold_left_appends residual_step qr residual_step_appends
              (fold_left (rework_step qr) (rework_constraints self) dc2))
    as [r4 ->].
  apply in_or_app. now left.
Qed.

End EdgeOrigins.

(** X22.  Every edge of the graph that [build_dynamic_dependencies] returns
    comes from the tables: it is the link from a task to its inspection, or
    it carries a row of the task relationships or of the rework table (from
    the first task, or from its inspection when it has one, to the second
    task, with the row's relationship), or it is the edge of a late part
    row.  Conversely every late part row is an edge of the graph, from the
    late part itself even when it has an inspection, and every rework row
    is carried by an edge of type 'Rework'. *)
Theorem X22_edges_come_from_the_tables (self : ProductionScheduler) :
  (forall e, In e (build_dynamic_dependencies self) -> edge_origin self e)
  /\ (forall c, In c (late_part_constraints self) ->
        In (typed_edge (lp_First c) (lp_Second c) FINISH_LE_START "Late Part"
              (lp_Product_Line c))
           (build_dynamic_dependencies self))
  /\ (forall c, In c (rework_constraints self) ->
        exists e,
          In e (build_dynamic_dependencies self)
          /\ Type_ e = Some "Rework"
          /\ carries self e (rw_First c) (rw_Second c) (rw_Relationship c)).
Proof.
  split; [| split].
  - apply Forall_forall, edges_have_origins.
  - apply late_part_rows_kept.
  - apply rework_rows_kept.
Qed.

(** ** The teams scenario 3 gives more capacity *)

Lemma fold_max_reaches {A : Type} (g : A -> Z) (l : list A) (bound : Z) :
  forall m,
    bound <= fold_left (fun m x => Z.max m (g x)) l m
    <-> bound <= m \/ exists x, In x l /\ bound <= g x.
Proof.
  induction l as [| y l IH]; intros m; cbn [fold_left].
  - split; [now left | intros [H | (x & [] & _)]; exact H].
  - rewrite IH. split.
    + intros [H | (x & Hx & Hb)].
      * destruct (Z.max_spec m (g y)) as [[_ Hm] | [_ Hm]];
          rewrite Hm in H; [right; exists y; split; [now left | exact H]
                            | now left].
      * right. exists x. split; [now right | exact Hb].
    + intros [H | (x & [<- | Hx] & Hb)].
      * left. lia.
      * left. lia.
      * right. now exists x.
Qed.

(** A pass that adds the members of [l] that satisfy [cond] to one of two
    sets, chosen by [first]. *)
Lemma fold_two_sets (cond first : string -> bool) (l : list string)
  (x : string) :
  forall a b,
    let r :=
      fold_left
        (fun '(a, b) tm =>
           if cond tm then
             if first tm then (set_add tm a, b) else (a, set_add tm b)
           else (a, b))
        l (a, b) in
    (In x (fst r)
     <-> In x a \/ (In x l /\ cond x = true /\ first x = true))
    /\ (In x (snd r)
        <-> In x b \/ (In x l /\ cond x = true /\ first x = false)).
Proof.
  induction l as [| y l IH]; intros a b; cbn [fold_left].
  - cbv zeta. simpl. tauto.
  - cbv zeta in *.
    destruct (cond y) eqn:Hc; [destruct (first y) eqn:Hf |].
    + destruct (IH (set_add y a) b) as [H1 H2].
      rewrite H1, H2, set_add_In. simpl.
      split; [| intuition congruence].
      split; [intros [[-> | H] | H]; tauto | ].
      intros [H | ([<- | H] & H')]; tauto.
    + destruct (IH a (set_add y b)) as [H1 H2].
      rewrite H1, H2, set_add_In. simpl.
      split; [intuition congruence |].
      split; [intros [[-> | H] | H]; tauto | ].
      intros [H | ([<- | H] & H')]; tauto.
    + destruct (IH a b) as [H1 H2]. rewrite H1, H2. simpl.
      split; intuition congruence.
Qed.

(** X23.  [_identify_bottleneck_teams] reports a team exactly when the team
    has an entry in the schedule and either its capacity is zero or less,
    or at the start of one of its entries the workers of the team in use
    are at least nine tenths of its capacity.  A reported team goes to the
    mechanic set when it is in the mechanic capacity table and to the
    quality set otherwise. *)
Theorem X23_bottleneck_teams (self : ProductionScheduler)
  (task_schedule : Schedule) (tm : string) :
  (In tm (fst (_identify_bottleneck_teams self task_schedule))
   <-> near_capacity self task_schedule tm
       /\ dict_mem tm (team_capacity self) = true)
  /\ (In tm (snd (_identify_bottleneck_teams self task_schedule))
      <-> near_capacity self task_schedule tm
          /\ dict_mem tm (team_capacity self) = false).
Proof.
  unfold near_capacity. set (mine := team_tasks task_schedule tm).
  cbv zeta. unfold _identify_bottleneck_teams.
  set (cond := fun tm =>
                 9 * capacity_of self tm
                 <=? 10 * fold_left
                           (fun m sched =>
                              Z.max m (usage_at (team_tasks task_schedule tm)
                                         (start_time sched)))
                           (team_tasks task_schedule tm) 0).
  set (teams := to_set (map sched_team (dict_values task_schedule))).
  destruct (fold_two_sets cond (fun tm => dict_mem tm (team_capacity self))
              teams tm [] []) as [H1 H2].
  cbv zeta in H1, H2.
  assert (Hteams : In tm teams <-> mine <> []).
  { unfold teams, mine, team_tasks. rewrite to_set_In, in_map_iff. split.
    - intros (p & Hp & Hin) Hnil.
      assert (Hf : In p (filter (fun sched => (sched_team sched =? tm)%string)
                           (dict_values task_schedule))).
      { apply filter_In. split; [exact Hin | now apply String.eqb_eq]. }
      rewrite Hnil in Hf. destruct Hf.
    - intros Hne.
      destruct (filter (fun sched => (sched_team sched =? tm)%string)
                  (dict_values task_schedule)) as [| p l] eqn:Hf;
        [congruence |].
      assert (Hp : In p (p :: l)) by now left.
      rewrite <- Hf in Hp. apply filter_In in Hp. destruct Hp as [Hin Hp].
      apply String.eqb_eq in Hp. now exists p. }
  assert (Hcond : cond tm = true
                  <-> capacity_of self tm <= 0
                      \/ exists sched,
                          In sched mine
                          /\ 9 * capacity_of self tm
                             <= 10 * usage_at mine (start_time sched)).
  { unfold cond. fold mine. rewrite Z.leb_le.
    set (c := capacity_of self tm).
    set (g := fun sched => 10 * usage_at mine (start_time sched)).
    assert (Hscale : forall l m,
               10 * fold_left (fun m sched =>
                                 Z.max m (usage_at mine (start_time sched)))
                      l m
               = fold_left (fun m sched => Z.max m (g sched)) l (10 * m)).
    { induction l as [| y l IH]; intros m; cbn [fold_left]; [reflexivity |].
      rewrite IH. f_equal. unfold g. lia. }
    rewrite Hscale, fold_max_reaches. unfold g. split.
    - intros [H | H]; [left; lia | now right].
    - intros [H | H]; [left; lia | now right]. }
  split.
  - etransitivity; [exact H1 |].
    rewrite <- Hteams, <- Hcond. simpl. tauto.
  - etransitivity; [exact H2 |].
    rewrite <- Hteams, <- Hcond. simpl. tauto.
Qed.

(** X24.  [_identify_blocking_teams], on the tasks of the table that have
    no entry in the schedule, puts in the mechanic set exactly the teams of
    those that are not inspections, and in the quality set every team of
    the quality capacity table as soon as one of them is an inspection. *)
Theorem X24_blocking_teams (self : ProductionScheduler)
  (task_schedule : Schedule) (tm : string) :
  (In tm (fst (_identify_blocking_teams self task_schedule))
   <-> exists task_id info,
         In (task_id, info) (tasks self)
         /\ dict_mem task_id task_schedule = false
         /\ is_quality info = false /\ team info = tm)
  /\ (In tm (snd (_identify_blocking_teams self task_schedule))
      <-> In tm (dict_keys (quality_team_capacity self))
          /\ exists task_id info,
               In (task_id, info) (tasks self)
               /\ dict_mem task_id task_schedule = false
               /\ is_quality info = true).
Proof.
  unfold _identify_blocking_teams.
  assert (Hgen : forall l a b,
             let r :=
               fold_left
                 (fun '(mechanic, quality) '(task_id, info) =>
                    if dict_mem task_id task_schedule
                    then (mechanic, quality)
                    else if is_quality info
                    then (mechanic,
                          fold_left (fun acc t => set_add t acc)
                            (dict_keys (quality_team_capacity self)) quality)
                    else (set_add (team info) mechanic, quality))
                 l (a, b) in
             (In tm (fst r)
              <-> In tm a
                  \/ exists task_id info,
                      In (task_id, info) l
                      /\ dict_mem task_id task_schedule = false
                      /\ is_quality info = false /\ team info = tm)
             /\ (In tm (snd r)
                 <-> In tm b
                     \/ (In tm (dict_keys (quality_team_capacity self))
                         /\ exists task_id info,
                             In (task_id, info) l
                             /\ dict_mem task_id task_schedule = false
                             /\ is_quality info = true))).
  { induction l as [| [t info] l IH]; intros a b; cbn [fold_left].
    - cbv zeta. simpl. split; split; try tauto.
      + intros [H | (? & ? & [] & _)]. exact H.
      + intros [H | (_ & ? & ? & [] & _)]. exact H.
    - cbv zeta in *.
      destruct (dict_mem t task_schedule) eqn:Hm;
        [| destruct (is_quality info) eqn:Hq].
      + destruct (IH a b) as [H1 H2]. rewrite H1, H2. split.
        * split; [intros [H | (t' & i' & H & H')];
                  [now left | right; exists t', i'; simpl; tauto] |].
          intros [H | (t' & i' & [[= <- <-] | H] & Hn & H')];
            [now left | congruence | right; now exists t', i'].
        * split; [intros [H | (Hk & t' & i' & H & H')];
                  [now left | right; split; [exact Hk |];
                              exists t', i'; simpl; tauto] |].
          intros [H | (Hk & t' & i' & [[= <- <-] | H] & Hn & H')];
            [now left | congruence | right; split; [exact Hk |];
                                     now exists t', i'].
      + destruct (IH a (fold_left (fun acc t => set_add t acc)
                          (dict_keys (quality_team_capacity self)) b))
          as [H1 H2].
        rewrite H1, H2, fold_set_add_In. split.
        * split; [intros [H | (t' & i' & H & H')];
                  [now left | right; exists t', i'; simpl; tauto] |].
          intros [H | (t' & i' & [[= <- <-] | H] & Hn & Hq' & H')];
            [now left | congruence | right; now exists t', i'].
        * split.
          -- intros [[H | H] | (Hk & t' & i' & H & H')].
             ++ right. split; [exact H |]. exists t, info. simpl. tauto.
             ++ now left.
             ++ right. split; [exact Hk |]. exists t', i'. simpl. tauto.
          -- intros [H | (Hk & t' & i' & [[= <- <-] | H] & Hn & H')].
             ++ left. now right.
             ++ left. now left.
             ++ right. split; [exact Hk |]. now exists t', i'.
      + destruct (IH (set_add (team info) a) b) as [H1 H2].
        rewrite H1, H2, set_add_In. split.
        * split.
          -- intros [[-> | H] | (t' & i' & H & H')].
             ++ right. exists t, info. simpl. tauto.
             ++ now left.
             ++ right. exists t', i'. simpl. tauto.
          -- intros [H | (t' & i' & [[= <- <-] | H] & Hn & Hq' & Ht)].
             ++ left. now right.
             ++ left. left. now symmetry.
             ++ right. now exists t', i'.
        * split; [intros [H | (Hk & t' & i' & H & H')];
                  [now left | right; split; [exact Hk |];
                              exists t', i'; simpl; tauto] |].
          intros [H | (Hk & t' & i' & [[= <- <-] | H] & Hn & H')];
            [now left | congruence | right; split; [exact Hk |];
                                     now exists t', i']. }
  destruct (Hgen (tasks self) [] []) as [H1 H2]. cbv zeta in H1, H2.
  split.
  - etransitivity; [exact H1 |]. simpl. tauto.
  - etransitivity; [exact H2 |]. simpl. tauto.
Qed.

(** ** The capacity check and the first fit of the window search *)

Lemma capacity_scan_complete (n : nat) (l : list Placement)
  (capacity needed : Z) :
  forall s,
    (forall m, s <= m < s + Z.of_nat n -> usage_at l m + needed <= capacity) ->
    capacity_scan n l capacity needed s = true.
Proof.
  induction n as [| n IH]; intros s Hall; [reflexivity |].
  cbn [capacity_scan].
  destruct (Z.gtb_spec (usage_at l s + needed) capacity) as [Hgt | Hle].
  - specialize (Hall s). lia.
  - apply IH. intros m Hm. apply Hall. lia.
Qed.

(** X25.  [check_team_capacity_at_time] returns true exactly when, at every
    minute from the start up to but not including the end, the workers of
    the team in use plus the workers needed do not exceed the capacity of
    the team; so it returns true whenever the end is not after the start. *)
Theorem X25_capacity_check_exact (self : ProductionScheduler)
  (task_schedule : Schedule) (team : string)
  (start_time end_time : datetime) (mechanics_needed : Z) :
  check_team_capacity_at_time self task_schedule team start_time end_time
    mechanics_needed = true
  <-> forall m, start_time <= m < end_time ->
                usage_at (team_tasks task_schedule team) m + mechanics_needed
                <= capacity_of self team.
Proof.
  split.
  - intros Hcheck m Hm. eapply check_team_capacity_sound; eassumption.
  - intros Hall. unfold check_team_capacity_at_time.
    apply capacity_scan_complete. intros m Hm. apply Hall. lia.
Qed.

Lemma is_working_day_date (self : ProductionScheduler) (a b : datetime)
  (product_line : string) :
  date_of a = date_of b ->
  is_working_day self a product_line = is_working_day self b product_line.
Proof. intros H. unfold is_working_day, weekday. now rewrite H. Qed.

Lemma shift_window_night (shift : string) (c : Z) :
  c < 360 \/ 1380 <= c ->
  shift_window shift c = (shift =? "3rd")%string.
Proof.
  intros Hc. unfold shift_window.
  destruct (Z.leb_spec 360 c), (Z.ltb_spec c 870), (Z.leb_spec 870 c),
    (Z.ltb_spec c 1380), (Z.leb_spec 1380 c), (Z.ltb_spec c 360);
    try lia;
    destruct (shift =? "1st")%string, (shift =? "2nd")%string,
      (shift =? "3rd")%string; reflexivity.
Qed.

Lemma shift_window_same (shift : string) (a b : Z) :
  (360 <= a < 870 /\ 360 <= b < 870)
  \/ (870 <= a < 1380 /\ 870 <= b < 1380)
  \/ ((a < 360 \/ 1380 <= a) /\ (b < 360 \/ 1380 <= b)) ->
  shift_window shift a = shift_window shift b.
Proof.
  intros [H | [H | [Ha Hb]]].
  - unfold shift_window.
    destruct (Z.leb_spec 360 a), (Z.ltb_spec a 870), (Z.leb_spec 870 a),
      (Z.ltb_spec a 1380), (Z.leb_spec 1380 a), (Z.ltb_spec a 360);
      try lia;
    destruct (Z.leb_spec 360 b), (Z.ltb_spec b 870), (Z.leb_spec 870 b),
      (Z.ltb_spec b 1380), (Z.leb_spec 1380 b), (Z.ltb_spec b 360);
      try lia; reflexivity.
  - unfold shift_window.
    destruct (Z.leb_spec 360 a), (Z.ltb_spec a 870), (Z.leb_spec 870 a),
      (Z.ltb_spec a 1380), (Z.leb_spec 1380 a), (Z.ltb_spec a 360);
      try lia;
    destruct (Z.leb_spec 360 b), (Z.ltb_spec b 870), (Z.leb_spec 870 b),
      (Z.ltb_spec b 1380), (Z.leb_spec 1380 b), (Z.ltb_spec b 360);
      try lia; reflexivity.
  - now rewrite !shift_window_night.
Qed.

Lemma available_shift_same (self : ProductionScheduler) (team : string)
  (is_quality : bool) (a b : Z) :
  (360 <= a < 870 /\ 360 <= b < 870)
  \/ (870 <= a < 1380 /\ 870 <= b < 1380)
  \/ ((a < 360 \/ 1380 <= a) /\ (b < 360 \/ 1380 <= b)) ->
  available_shift self team is_quality a
  = available_shift self team is_quality b.
Proof.
  intros H. unfold available_shift.
  assert (Hfind : forall (f g : string -> bool) l,
             (forall x, f x = g x) -> find f l = find g l).
  { intros f g l Hfg. induction l as [| x l IH]; simpl; [reflexivity |].
    rewrite Hfg, IH. reflexivity. }
  destruct is_quality; apply Hfind; intros x;
    now rewrite (shift_window_same x a b H).
Qed.

Lemma third_shift_closed_spec (self : ProductionScheduler) (team : string)
  (is_quality : bool) (c : Z) :
  third_shift_closed self team is_quality = true ->
  c < 360 \/ 1380 <= c ->
  available_shift self team is_quality c = None.
Proof.
  unfold third_shift_closed, available_shift. intros Hclosed Hc.
  destruct is_quality.
  - apply negb_true_iff in Hclosed. cbn [find].
    rewrite !(shift_window_night _ c Hc), Hclosed. reflexivity.
  - apply negb_true_iff in Hclosed.
    destruct (find (fun shift => shift_window shift c)
                (team_shifts_of self team)) as [sh |] eqn:Hfind;
      [| reflexivity].
    apply find_some in Hfind. destruct Hfind as [Hin Hw].
    rewrite (shift_window_night _ c Hc) in Hw. apply String.eqb_eq in Hw.
    subst sh. apply mem_In in Hin. congruence.
Qed.

Lemma minute_of_day_bounds (t : datetime) : 0 <= minute_of_day t < 1440.
Proof. unfold minute_of_day, minutes_per_day. apply Z.mod_pos_bound. lia. Qed.

Lemma date_of_unique (t d : Z) :
  d * minutes_per_day <= t < d * minutes_per_day + minutes_per_day ->
  date_of t = d.
Proof.
  intros H. pose proof (date_of_bounds t). unfold minutes_per_day in *. nia.
Qed.

Section FirstFit.
Variable self : ProductionScheduler.
Variable task_schedule : Schedule.
Variables product_line team : string.
Variables mechanics_needed duration : Z.
Variable is_quality : bool.

Hypothesis closed : third_shift_closed self team is_quality = true.

Local Abbreviation loop :=
  (next_working_loop self task_schedule product_line team mechanics_needed
     duration is_quality).
Local Abbreviation ok :=
  (feasible self task_schedule product_line team mechanics_needed duration
     is_quality).

(** The instants that the jump over a day off leaves out. *)
Lemma day_off_skipped (t0 m : datetime) :
  is_working_day self t0 product_line = false ->
  t0 <= m < replace_time t0 6 0 + minutes_per_day ->
  ~ ok m.
Proof.
  intros Hday Hm (Hwork & Hshift & _).
  pose proof (date_of_bounds t0) as Ht0.
  pose proof (date_of_bounds m) as Hdm.
  pose proof (minute_of_day_eq m) as Hmin.
  unfold replace_time, minutes_per_day in *.
  destruct (Z.eq_dec (date_of m) (date_of t0)) as [Heq | Hne].
  - rewrite (is_working_day_date self m t0 product_line Heq) in Hwork.
    congruence.
  - apply Hshift. apply third_shift_closed_spec; [exact closed |].
    left. nia.
Qed.

(** The instants that the jump to the next shift leaves out. *)
Lemma shift_jump_skipped (t0 m : datetime) :
  available_shift self team is_quality (minute_of_day t0) = None ->
  t0 <= m < next_shift_start t0 ->
  ~ ok m.
Proof.
  intros Hnone Hm (_ & Hshift & _). apply Hshift.
  rewrite <- Hnone. apply available_shift_same.
  pose proof (date_of_bounds t0) as Ht0.
  pose proof (date_of_bounds m) as Hdm.
  pose proof (minute_of_day_eq m) as Hmin.
  pose proof (minute_of_day_eq t0) as Hmin0.
  unfold next_shift_start in Hm. rewrite Hmin0 in Hm.
  unfold replace_time, minutes_per_day in *.
  repeat match type of Hm with
         | context [?a <? ?b] => destruct (Z.ltb_spec a b)
         end; nia.
Qed.

Lemma next_working_loop_first (fuel : nat) :
  forall (iterations : Z) (t0 t : datetime) (shift : string) (n : Z),
    loop fuel iterations t0 = Found t shift n ->
    forall m, t0 <= m < t -> ~ ok m.
Proof.
  induction fuel as [| fuel IH]; intros iterations t0 t shift n; simpl;
    [discriminate |].
  destruct (Z.ltb_spec iterations max_search_iterations) as [Hlt | Hge];
    [| discriminate].
  destruct (is_working_day self t0 product_line) eqn:Hday; simpl.
  - destruct (available_shift self team is_quality (minute_of_day t0))
      as [shift0 |] eqn:Hshift.
    + destruct (check_team_capacity_at_time self task_schedule team t0
                  (t0 + duration) mechanics_needed) eqn:Hcap.
      * intros [= <- <- <-] m Hm. lia.
      * intros Hrec m Hm.
        destruct (Z.eq_dec m t0) as [-> | Hne].
        -- intros (_ & _ & Hc). congruence.
        -- apply (IH _ _ _ _ _ Hrec). lia.
    + intros Hrec m Hm.
      destruct (Z.lt_ge_cases m (next_shift_start t0)) as [Hbefore | Hafter].
      * apply (shift_jump_skipped t0 m Hshift). lia.
      * apply (IH _ _ _ _ _ Hrec). lia.
  - intros Hrec m Hm.
    destruct (Z.lt_ge_cases m (replace_time t0 6 0 + minutes_per_day))
      as [Hbefore | Hafter].
    + apply (day_off_skipped t0 m Hday). lia.
    + apply (IH _ _ _ _ _ Hrec). lia.
Qed.

End FirstFit.

(** X26.  When nobody the search looks at works the third shift (the team
    of a mechanic task, every quality team for an inspection), the instant
    [get_next_working_time_with_capacity] returns is the first fit: no
    instant from the one the search starts at up to the one it returns is on
    a working day of the product, inside an available shift and with
    capacity for the task. *)
Theorem X26_window_search_is_first_fit (self : ProductionScheduler)
  (task_schedule : Schedule) (current_time : datetime)
  (product_line team : string) (mechanics_needed duration : Z)
  (is_quality : bool) (t : datetime) (shift : string) (iterations : Z) :
  third_shift_closed self team is_quality = true ->
  get_next_working_time_with_capacity self task_schedule current_time
    product_line team mechanics_needed duration is_quality
  = Found t shift iterations ->
  forall m, current_time <= m < t ->
            ~ feasible self task_schedule product_line team mechanics_needed
                duration is_quality m.
Proof.
  intros Hclosed Hsearch.
  exact (next_working_loop_first self task_schedule product_line team
           mechanics_needed duration is_quality Hclosed _ _ _ _ _ _ Hsearch).
Qed.

(** The third task of [ex_capacity] is placed at 07:00, the first instant
    at which its team of two is free.  In [ex_night_shift], whose team
    works the third shift, a search that starts on Saturday at 00:00
    returns Monday 23:00 although Monday 00:00 passes the three tests. *)
Lemma X26_witness_capacity_sample :
  get_next_working_time_with_capacity ex_capacity ex_capacity_two start_date
    "P" "M1" 1 60 false
  = Found (start_date + 60) "1st" 61
  /\ (forall m, start_date <= m < start_date + 60 ->
                ~ feasible ex_capacity ex_capacity_two "P" "M1" 1 60 false m)
  /\ third_shift_closed ex_night_shift "M3" false = false
  /\ get_next_working_time_with_capacity ex_night_shift []
       (5 * minutes_per_day) "P" "M3" 1 60 false
     = Found (7 * minutes_per_day + 1380) "3rd" 5
  /\ is_working_day ex_night_shift (7 * minutes_per_day) "P" = true
  /\ available_shift ex_night_shift "M3" false
       (minute_of_day (7 * minutes_per_day)) = Some "3rd"
  /\ check_team_capacity_at_time ex_night_shift [] "M3"
       (7 * minutes_per_day) (7 * minutes_per_day + 60) 1 = true.
Proof.
  assert (Hsearch :
            get_next_working_time_with_capacity ex_capacity ex_capacity_two
              start_date "P" "M1" 1 60 false
            = Found (start_date + 60) "1st" 61)
    by (vm_compute; reflexivity).
  split; [exact Hsearch |]. split.
  - exact (X26_window_search_is_first_fit ex_capacity ex_capacity_two
             start_date "P" "M1" 1 60 false (start_date + 60) "1st" 61
             eq_refl Hsearch).
  - repeat split; vm_compute; reflexivity.
Defined.

(** ** C7: the capacities across the scenarios *)

Lemma set_all_mem_get (h : Z) (d : dict string Z) (team : string) :
  dict_mem team d = true -> dict_get team (set_all h d) = Some h.
Proof.
  unfold dict_mem, set_all.
  induction d as [| [k v] d IH]; simpl; [discriminate |].
  destruct (String.eqb_spec team k) as [-> | Hne]; [reflexivity | exact IH].
Qed.

Lemma set_all_all_at (h : Z) (before d : dict string Z) :
  dict_keys d = dict_keys before -> all_at h before (set_all h d).
Proof.
  intros Hkeys team Hmem. apply set_all_mem_get.
  apply dict_mem_In. rewrite Hkeys. now apply dict_mem_In.
Qed.

Lemma write_known_other (team : string) (src : dict string Z) :
  forall d,
    ~ In team (dict_keys src) ->
    dict_get team (write_known src d) = dict_get team d.
Proof.
  unfold write_known.
  induction src as [| [k c] src IH]; intros d Hnot; simpl; [reflexivity |].
  simpl in Hnot. rewrite IH by tauto.
  destruct (dict_mem k d); [| reflexivity].
  apply dict_get_set_other. intros ->. tauto.
Qed.

Lemma write_known_get (team : string) (v : Z) (src : dict string Z) :
  forall d,
    NoDup (dict_keys src) ->
    dict_get team src = Some v ->
    dict_mem team d = true ->
    dict_get team (write_known src d) = Some v.
Proof.
  induction src as [| [k c] src IH]; intros d Hnd Hget Hmem; simpl in *;
    [discriminate |].
  inversion Hnd as [| ? ? Hnot Hnd']; subst.
  destruct (String.eqb_spec team k) as [-> | Hne].
  - injection Hget as <-.
    change (dict_get k
              (write_known src (if dict_mem k d then dict_set k c d else d))
            = Some c).
    rewrite write_known_other by assumption.
    rewrite Hmem. apply dict_get_set_same.
  - change (dict_get team
              (write_known src (if dict_mem k d then dict_set k c d else d))
            = Some v).
    apply IH; [assumption | assumption |].
    destruct (dict_mem k d); [| exact Hmem].
    unfold dict_mem. rewrite dict_get_set_other by congruence. exact Hmem.
Qed.

Lemma scenario_1_written (headcount : option Z)
  (custom : option (dict string Z)) (before : dict string Z) :
  keeps_written headcount custom before
    match custom with
    | Some (x :: l) => write_known (x :: l) before
    | _ => match headcount with
           | Some h => set_all h before
           | None => before
           end
    end.
Proof.
  split.
  - intros table team capacity -> Hne Hnd Hget Hmem.
    destruct table as [| x l]; [congruence |].
    now apply write_known_get.
  - intros h team Hcustom -> Hmem.
    destruct Hcustom as [-> | ->]; now apply set_all_mem_get.
Qed.

Section ScenarioExceptions.
Variable Run : Type.
Variable generate : Capacities -> bool -> option Run.
Variable run_scheduled_count : Run -> Z.
Variable n_tasks : Z.
Variable run_makespan : Run -> Z.
Variable run_lateness : Run -> Z * Z.
Variable run_blocking : Run -> list string * list string.
Variable run_bottlenecks : Run -> Capacities -> list string * list string.
Variable run_utilization :
  Run -> Capacities -> list (string * (Q * Z)) * list (string * (Q * Z)).
Variable export_results : Run -> bool.
Variable originals : Capacities.
Variables min_mechanics max_mechanics min_quality max_quality : Z.

Local Abbreviation cfg :=
  (config_ok originals min_mechanics max_mechanics min_quality max_quality).
Local Abbreviation ok :=
  (phase1_ok originals min_mechanics max_mechanics min_quality max_quality).
Local Abbreviation written :=
  (written_from originals min_mechanics max_mechanics min_quality
     max_quality).

Lemma apply_config_written (mech qual : dict string Z) (caps : Capacities) :
  cfg mech qual -> written (apply_config mech qual caps).
Proof. intros Hc. exists mech, qual, caps. auto. Qed.

Lemma written_restored (caps : Capacities) :
  NoDup (dict_keys (caps_team originals)) ->
  NoDup (dict_keys (caps_quality originals)) ->
  written caps ->
  exists mech qual,
    cfg mech qual
    /\ restored {| caps_team := mech; caps_quality := qual |} caps.
Proof.
  intros Ht Hq (mech & qual & caps0 & Hc & ->).
  exists mech, qual. split; [exact Hc |].
  destruct Hc as (H1 & H2 & _). unfold same_teams in H1, H2.
  split; intros team v Hget; simpl in *; apply write_all_get;
    try assumption; congruence.
Qed.

Lemma phase1_loop_raises (left : nat) :
  forall caps s caps',
    phase1_loop Run generate run_scheduled_count n_tasks run_lateness
      run_blocking run_bottlenecks max_mechanics max_quality left caps s
    = (caps', Raises) ->
    ok s ->
    written caps'.
Proof.
  induction left as [| left IH]; intros caps s caps'; simpl;
    [discriminate |].
  destruct (phase1_complete s); [discriminate |].
  intros Hrun Hok.
  set (caps1 := apply_config (current_mech_config s)
                  (current_qual_config s) caps) in *.
  assert (Hw1 : written caps1) by (apply apply_config_written, Hok).
  destruct (match generate caps1 true with
            | Some run =>
                phase1_try Run run_scheduled_count n_tasks run_lateness
                  run_blocking run_bottlenecks max_mechanics max_quality
                  run caps1 s
            | None => (s, true)
            end) as [s1 raised] eqn:Hbody.
  assert (Hok1 : ok s1).
  { destruct (generate caps1 true) as [run |].
    - eapply phase1_try_ok; eassumption.
    - injection Hbody as <- _. exact Hok. }
  destruct raised.
  - destruct (phase1_handler max_mechanics s1) as [s2 |] eqn:Hh.
    + apply (IH _ _ _ Hrun).
      eapply phase1_handler_ok; eassumption.
    + injection Hrun as <-. exact Hw1.
  - apply (IH _ _ _ Hrun Hok1).
Qed.

Lemma try_reductions_written (quality : bool) (target_max_lateness : Z)
  (target_total_lateness : Q) (b : Best)
  (candidates : list (string * (Q * Z))) :
  cfg (best_mechanic b) (best_quality b) ->
  forall caps caps' result,
    try_reductions Run generate run_scheduled_count n_tasks run_lateness
      min_mechanics min_quality quality target_max_lateness
      target_total_lateness b candidates caps = (caps', result) ->
    written caps -> written caps'.
Proof.
  intros Hc.
  induction candidates as [| [tm [util max_conc]] candidates IH];
    intros caps caps' result; simpl.
  - now intros [= <- _].
  - destruct (negb (Qle_bool (7 # 10) util)); [| apply IH].
    destruct (dict_get tm (if quality then best_quality b
                           else best_mechanic b)) as [current |] eqn:Hget;
      [| now intros [= <- _]].
    destruct ((if quality then min_quality else min_mechanics) <? current)
      eqn:Hmin; [| apply IH].
    apply Z.ltb_lt in Hmin.
    destruct (negb quality || (max_conc <? current)); [| apply IH].
    set (mech := if quality then best_mechanic b
                 else dict_set tm (current - 1) (best_mechanic b)).
    set (qual := if quality then dict_set tm (current - 1) (best_quality b)
                 else best_quality b).
    assert (Hc' : cfg mech qual).
    { unfold mech, qual. destruct quality.
      - apply (cfg_quality _ _ _ _ _ _ _ _ Hc).
        + apply dict_set_keys_present. unfold dict_mem. now rewrite Hget.
        + intros Hr. apply dict_set_in_range; [| assumption].
          pose proof (in_range_get _ _ _ _ _ Hr Hget). lia.
      - apply (cfg_mechanic _ _ _ _ _ _ _ _ Hc).
        + apply dict_set_keys_present. unfold dict_mem. now rewrite Hget.
        + intros Hr. apply dict_set_in_range; [| assumption].
          pose proof (in_range_get _ _ _ _ _ Hr Hget). lia. }
    destruct (_test_configuration_with_lateness_target Run generate
                run_scheduled_count n_tasks run_lateness mech qual
                target_max_lateness target_total_lateness caps)
      as [caps1 accepted] eqn:Htest.
    apply test_configuration_teams in Htest. subst caps1.
    destruct accepted.
    + intros [= <- _] _. now apply apply_config_written.
    + intros Hrec _. apply (IH _ _ _ Hrec). now apply apply_config_written.
Qed.

Lemma phase2_loop_raises (left : nat) (target_max_lateness : Z)
  (target_total_lateness : Q) :
  forall b caps caps',
    phase2_loop Run generate run_scheduled_count n_tasks run_lateness
      run_utilization min_mechanics min_quality left target_max_lateness
      target_total_lateness b caps = (caps', Raises) ->
    cfg (best_mechanic b) (best_quality b) ->
    written caps'.
Proof.
  induction left as [| left IH]; intros b caps caps'; simpl;
    [discriminate |].
  intros Hrun Hc.
  set (caps1 := apply_config (best_mechanic b) (best_quality b) caps) in *.
  assert (Hw1 : written caps1) by now apply apply_config_written.
  destruct (generate caps1 true) as [run |];
    [| injection Hrun as <-; exact Hw1].
  destruct (run_utilization run caps1) as [by_mechanic by_quality].
  destruct (try_reductions Run generate run_scheduled_count n_tasks
              run_lateness min_mechanics min_quality false
              target_max_lateness target_total_lateness b by_mechanic
              caps1) as [caps2 r1] eqn:Hm.
  pose proof (try_reductions_written _ _ _ _ _ Hc _ _ _ Hm Hw1) as Hw2.
  destruct r1 as [r1 |]; [| injection Hrun as <-; exact Hw2].
  destruct (try_reductions_ok _ _ _ _ _ _ _ _ _ _ _ _ _ _ _ Hc _ _ _ Hm)
    as [_ Hb1].
  destruct r1 as [b1 |].
  - apply (IH _ _ _ Hrun (Hb1 b1 eq_refl)).
  - destruct (try_reductions Run generate run_scheduled_count n_tasks
                run_lateness min_mechanics min_quality true
                target_max_lateness target_total_lateness b by_quality
                caps2) as [caps3 r2] eqn:Hq.
    pose proof (try_reductions_written _ _ _ _ _ Hc _ _ _ Hq Hw2) as Hw3.
    destruct r2 as [r2 |]; [| injection Hrun as <-; exact Hw3].
    destruct (try_reductions_ok _ _ _ _ _ _ _ _ _ _ _ _ _ _ _ Hc _ _ _ Hq)
      as [_ Hb2].
    destruct r2 as [b2 |]; [| discriminate].
    apply (IH _ _ _ Hrun (Hb2 b2 eq_refl)).
Qed.

Lemma scenario_3_raises (max_iterations : Z) (caps caps' : Capacities) :
  scenario_3_multidimensional_optimization Run generate run_scheduled_count
    n_tasks run_makespan run_lateness run_blocking run_bottlenecks
    run_utilization export_results originals min_mechanics max_mechanics
    min_quality max_quality max_iterations caps = (caps', Raises) ->
  written caps'.
Proof.
  unfold scenario_3_multidimensional_optimization.
  set (start := {| current_mech_config := set_all min_mechanics
                                            (caps_team originals);
                   current_qual_config := set_all min_quality
                                            (caps_quality originals);
                   best_config := None;
                   iterations_without_improvement := 0;
                   previous_max_lateness := None;
                   previous_total_lateness := None;
                   phase1_complete := false |}).
  assert (Hstart : ok start).
  { split; [| discriminate]. unfold start. simpl.
    repeat split; try apply set_all_keys; apply set_all_in_range; lia. }
  destruct (phase1_loop _ _ _ _ _ _ _ _ _ _ _ _)
    as [caps1 [s |]] eqn:Hp1.
  2:{ intros [= <-]. eapply phase1_loop_raises; eassumption. }
  destruct (phase1_loop_ok _ _ _ _ _ _ _ _ _ _ _ _ _ _ _ _ _ Hp1 Hstart)
    as [[_ Hbest] _].
  destruct (best_config s) as [b |]; [| discriminate].
  destruct (phase2_loop _ _ _ _ _ _ _ _ _ _ _ _ _)
    as [caps2 [b' |]] eqn:Hp2.
  2:{ intros [= <-]. eapply phase2_loop_raises; [eassumption |].
      now apply Hbest. }
  destruct (phase2_loop_ok _ _ _ _ _ _ _ _ _ _ _ _ _ _ _ _ _ _ Hp2
              (Hbest b eq_refl)) as [Hb' _].
  assert (Hw : written (apply_config (best_mechanic b') (best_quality b')
                          caps2)) by now apply apply_config_written.
  destruct (generate _ true) as [run |]; [| now intros [= <-]].
  destruct (_ && _); [now intros [= <-] |].
  destruct (export_results run); [discriminate | now intros [= <-]].
Qed.

End ScenarioExceptions.

Lemma scenario_2_raises
  (Run : Type) (generate : Capacities -> bool -> option Run)
  (run_scheduled_count : Run -> Z) (n_tasks : Z) (run_makespan : Run -> Z)
  (export_results : Run -> bool) (originals : Capacities)
  (min_mechanics max_mechanics min_quality max_quality : Z)
  (caps caps' : Capacities) :
  scenario_2_minimize_makespan Run generate run_scheduled_count n_tasks
    run_makespan export_results originals min_mechanics max_mechanics
    min_quality max_quality caps = Some (caps', Raises) ->
  exists best_mech best_qual,
    (best_mech = max_mechanics \/ min_mechanics <= best_mech <= max_mechanics)
    /\ (best_qual = max_quality \/ min_quality <= best_qual <= max_quality)
    /\ all_at best_mech (caps_team caps) (caps_team caps')
    /\ all_at best_qual (caps_quality caps) (caps_quality caps').
Proof.
  unfold scenario_2_minimize_makespan.
  destruct (mechanic_search _ _ _ _ _ _ _ _ _ _ _ _)
    as [[[caps1 bmk] bm] |] eqn:Hm; [| discriminate].
  destruct (mechanic_search_result _ _ _ _ _ _ _ _ _ _ _ _ _ _ _ Hm)
    as (Hk1 & Hk2 & Hbm).
  destruct (quality_search _ _ _ _ _ _ _ _ _ _ _)
    as [[[caps2 bmk2] bq] |] eqn:Hq; [| discriminate].
  destruct (quality_search_result _ _ _ _ _ _ _ _ _ _ _ _ _ _ Hq)
    as (Hk3 & Hk4 & Hbq).
  simpl in Hk3, Hk4. rewrite set_all_keys in Hk3.
  assert (Hfinal : forall final,
             final = {| caps_team := set_all bm (caps_team caps2);
                        caps_quality := set_all bq (caps_quality caps2) |} ->
             all_at bm (caps_team caps) (caps_team final)
             /\ all_at bq (caps_quality caps) (caps_quality final)).
  { intros final ->. simpl. split; apply set_all_all_at; congruence. }
  destruct (generate _ true) as [run |].
  - destruct (export_results run); [discriminate |].
    intros [= <-]. exists bm, bq. split; [assumption |].
    split; [assumption |]. now apply Hfinal.
  - intros [= <-]. exists bm, bq. split; [assumption |].
    split; [assumption |]. now apply Hfinal.
Qed.

(** C7, as amended.  The scenarios put the capacities back only where they
    return normally.  Scenario 1 with a custom head count copies the two
    dictionaries at entry and reinstalls the copies before returning.
    Scenarios 2 and 3 take no copy at entry: scenario 2 always reaches its
    end or an exception, and where scenarios 2 and 3 return they have
    written back, for every team recorded when the data was loaded, the
    capacity recorded then.  An exit by an exception restores nothing, the
    capacities stay as they were written last: after scenario 1, the custom
    capacities or head counts given; after scenario 2, one head count for
    every mechanic team and one for every quality team, each the upper
    bound given or a value between the bounds; after scenario 3, for every
    team recorded when the data was loaded, its capacity in one
    configuration of the scenario.  This holds whatever the scheduler, the
    metrics and the export do. *)
Theorem C7_capacities_restored_on_return
  (Run : Type) (generate : Capacities -> bool -> option Run)
  (run_scheduled_count : Run -> Z) (n_tasks : Z) (run_makespan : Run -> Z)
  (run_lateness : Run -> Z * Z)
  (run_blocking : Run -> list string * list string)
  (run_bottlenecks : Run -> Capacities -> list string * list string)
  (run_utilization :
     Run -> Capacities -> list (string * (Q * Z)) * list (string * (Q * Z)))
  (export_results : Run -> bool) (originals : Capacities) :
  NoDup (dict_keys (caps_team originals)) ->
  NoDup (dict_keys (caps_quality originals)) ->
  (forall mechanic_headcount quality_headcount custom_team_capacity
          custom_quality_capacity caps caps' r,
      scenario_1_custom_headcount Run generate run_makespan export_results
        mechanic_headcount quality_headcount custom_team_capacity
        custom_quality_capacity caps = (caps', Returns r) ->
      caps' = caps)
  /\ (forall min_mechanics max_mechanics min_quality max_quality caps,
         scenario_2_minimize_makespan Run generate run_scheduled_count
           n_tasks run_makespan export_results originals
           min_mechanics max_mechanics min_quality max_quality caps <> None
         /\ forall caps' r,
             scenario_2_minimize_makespan Run generate run_scheduled_count
               n_tasks run_makespan export_results originals
               min_mechanics max_mechanics min_quality max_quality caps
             = Some (caps', Returns r) ->
             restored originals caps')
  /\ (forall min_mechanics max_mechanics min_quality max_quality
             max_iterations caps caps' r,
         scenario_3_multidimensional_optimization Run generate
           run_scheduled_count n_tasks run_makespan run_lateness
           run_blocking run_bottlenecks run_utilization export_results
           originals min_mechanics max_mechanics min_quality max_quality
           max_iterations caps = (caps', Returns r) ->
         restored originals caps')
  /\ (forall mechanic_headcount quality_headcount custom_team_capacity
             custom_quality_capacity caps caps',
         scenario_1_custom_headcount Run generate run_makespan export_results
           mechanic_headcount quality_headcount custom_team_capacity
           custom_quality_capacity caps = (caps', Raises) ->
         keeps_written mechanic_headcount custom_team_capacity
           (caps_team caps) (caps_team caps')
         /\ keeps_written quality_headcount custom_quality_capacity
              (caps_quality caps) (caps_quality caps'))
  /\ (forall min_mechanics max_mechanics min_quality max_quality caps caps',
         scenario_2_minimize_makespan Run generate run_scheduled_count
           n_tasks run_makespan export_results originals
           min_mechanics max_mechanics min_quality max_quality caps
         = Some (caps', Raises) ->
         exists best_mech best_qual,
           (best_mech = max_mechanics
            \/ min_mechanics <= best_mech <= max_mechanics)
           /\ (best_qual = max_quality
               \/ min_quality <= best_qual <= max_quality)
           /\ all_at best_mech (caps_team caps) (caps_team caps')
           /\ all_at best_qual (caps_quality caps) (caps_quality caps'))
  /\ (forall min_mechanics max_mechanics min_quality max_quality
             max_iterations caps caps',
         scenario_3_multidimensional_optimization Run generate
           run_scheduled_count n_tasks run_makespan run_lateness
           run_blocking run_bottlenecks run_utilization export_results
           originals min_mechanics max_mechanics min_quality max_quality
           max_iterations caps = (caps', Raises) ->
         exists mech qual,
           config_ok originals min_mechanics max_mechanics min_quality
             max_quality mech qual
           /\ restored {| caps_team := mech; caps_quality := qual |} caps').
Proof.
  intros Hteam Hquality.
  split; [| split; [| split; [| split; [| split]]]].
  - intros mh qh ctc cqc caps caps' r. unfold scenario_1_custom_headcount.
    destruct (generate _ false) as [run |]; [| discriminate].
    destruct (export_results run); [| discriminate].
    intros [= <- _]. now destruct caps.
  - intros min_mechanics max_mechanics min_quality max_quality caps.
    unfold scenario_2_minimize_makespan.
    pose proof (mechanic_search_returns Run generate run_scheduled_count
                  n_tasks run_makespan max_quality
                  (search_fuel_for min_mechanics max_mechanics) caps
                  min_mechanics max_mechanics None max_mechanics
                  (Nat.le_refl _)) as Hmech.
    destruct (mechanic_search _ _ _ _ _ _ _ _ _ _ _ _)
      as [[[caps1 best_makespan] best_mech] |]; [clear Hmech | congruence].
    set (caps2 := {| caps_team := set_all best_mech (caps_team caps1);
                     caps_quality := caps_quality caps1 |}).
    pose proof (quality_search_returns Run generate run_scheduled_count
                  n_tasks run_makespan
                  (search_fuel_for min_quality max_quality) caps2
                  min_quality max_quality best_makespan max_quality
                  (Nat.le_refl _)) as Hqual.
    destruct (quality_search _ _ _ _ _ _ _ _ _ _ _)
      as [[[caps3 ?] best_qual] |]; [clear Hqual | congruence].
    destruct (generate _ true) as [run |].
    + destruct (export_results run).
      * split; [discriminate |]. intros caps' r [= <- _].
        now apply restore_originals_restored.
      * split; discriminate.
    + split; discriminate.
  - intros min_mechanics max_mechanics min_quality max_quality
           max_iterations caps caps' r.
    unfold scenario_3_multidimensional_optimization.
    destruct (phase1_loop _ _ _ _ _ _ _ _ _ _ _ _)
      as [caps1 [s |]]; [| discriminate].
    destruct (best_config s) as [b |].
    + destruct (phase2_loop _ _ _ _ _ _ _ _ _ _ _ _ _)
        as [caps2 [b' |]]; [| discriminate].
      destruct (generate _ true) as [run |]; [| discriminate].
      destruct (_ && _); [discriminate |].
      destruct (export_results run); [| discriminate].
      intros [= <- _]. now apply restore_originals_restored.
    + intros [= <- _]. now apply restore_originals_restored.
  - intros mh qh ctc cqc caps caps'. unfold scenario_1_custom_headcount.
    assert (Hw : forall c,
               c = {| caps_team :=
                        match ctc with
                        | Some (x :: l) => write_known (x :: l) (caps_team caps)
                        | _ => match mh with
                               | Some h => set_all h (caps_team caps)
                               | None => caps_team caps
                               end
                        end;
                      caps_quality :=
                        match cqc with
                        | Some (x :: l) =>
                            write_known (x :: l) (caps_quality caps)
                        | _ => match qh with
                               | Some h => set_all h (caps_quality caps)
                               | None => caps_quality caps
                               end
                        end |} ->
               keeps_written mh ctc (caps_team caps) (caps_team c)
               /\ keeps_written qh cqc (caps_quality caps) (caps_quality c)).
    { intros c ->. split; apply scenario_1_written. }
    destruct (generate _ false) as [run |].
    + destruct (export_results run); [discriminate |].
      intros [= <-]. now apply Hw.
    + intros [= <-]. now apply Hw.
  - intros min_mechanics max_mechanics min_quality max_quality caps caps'.
    apply scenario_2_raises.
  - intros min_mechanics max_mechanics min_quality max_quality
           max_iterations caps caps' Hrun.
    apply written_restored; try assumption.
    eapply scenario_3_raises. exact Hrun.
Qed.

Lemma C7_witness_quality_sample :
  fst (sample_scenario_1 ex_quality (Some 3) (Some 2))
  = capacities_of ex_quality
  /\ sample_scenario_2 ex_quality 1 4 1 2 <> None
  /\ (exists caps' r,
         sample_scenario_2 ex_quality 1 4 1 2 = Some (caps', Returns r)
         /\ restored (capacities_of ex_quality) caps')
  /\ restored (capacities_of ex_quality)
       (fst (sample_scenario_3 ex_quality 1 4 1 2 30))
  /\ (exists caps',
         sample_scenario_1 ex_dangling (Some 5) None = (caps', Raises)
         /\ dict_get "M1" (caps_team caps') = Some 5)
  /\ (exists caps' best_mech best_qual,
         sample_scenario_2 ex_no_delivery 1 2 1 2 = Some (caps', Raises)
         /\ all_at best_mech (caps_team (capacities_of ex_no_delivery))
              (caps_team caps')
         /\ all_at best_qual (caps_quality (capacities_of ex_no_delivery))
              (caps_quality caps'))
  /\ (exists caps' mech qual,
         sample_scenario_3 ex_no_mechanic_table 1 2 1 2 10 = (caps', Raises)
         /\ config_ok (capacities_of ex_no_mechanic_table) 1 2 1 2 mech qual
         /\ restored {| caps_team := mech; caps_quality := qual |} caps').
Proof.
  pose proof
    (fun self =>
       C7_capacities_restored_on_return SampleRun
         (sample_generate self) sample_scheduled_count
         (total_tasks self) (sample_makespan self)
         (sample_lateness self) (sample_blocking self)
         (sample_bottlenecks self) (sample_utilization self)
         (fun _ => true) (capacities_of self)) as Hnodup.
  destruct (Hnodup ex_quality) as (Hone & Htwo & Hthree & _).
  { simpl; repeat constructor; simpl; intuition discriminate. }
  { simpl; repeat constructor; simpl; intuition discriminate. }
  destruct (Hnodup ex_dangling) as (_ & _ & _ & Hone_raises & _).
  { simpl; repeat constructor; simpl; intuition discriminate. }
  { simpl; repeat constructor; simpl; intuition discriminate. }
  destruct (Hnodup ex_no_delivery) as (_ & _ & _ & _ & Htwo_raises & _).
  { simpl; repeat constructor; simpl; intuition discriminate. }
  { simpl; repeat constructor; simpl; intuition discriminate. }
  destruct (Hnodup ex_no_mechanic_table)
    as (_ & _ & _ & _ & _ & Hthree_raises).
  { simpl; repeat constructor; simpl; intuition discriminate. }
  { simpl; repeat constructor; simpl; intuition discriminate. }
  split; [| split; [| split; [| split; [| split; [| split]]]]].
  - eapply (Hone (Some 3) (Some 2) None None (capacities_of ex_quality)).
    vm_compute. reflexivity.
  - apply (Htwo 1 4 1 2).
  - eexists. eexists. split; [vm_compute; reflexivity |].
    eapply (proj2 (Htwo 1 4 1 2 (capacities_of ex_quality))).
    vm_compute. reflexivity.
  - eapply (Hthree 1 4 1 2 30 (capacities_of ex_quality)).
    vm_compute. reflexivity.
  - eexists. split; [vm_compute; reflexivity |].
    refine (proj2 (proj1 (Hone_raises (Some 5) None None None
                            (capacities_of ex_dangling) _ _))
              5 "M1" (or_introl eq_refl) eq_refl eq_refl).
    vm_compute. reflexivity.
  - assert (Hrun : sample_scenario_2 ex_no_delivery 1 2 1 2
                   = Some ({| caps_team := [("M1", 2)]; caps_quality := [] |},
                           Raises)) by (vm_compute; reflexivity).
    destruct (Htwo_raises 1 2 1 2 (capacities_of ex_no_delivery) _ Hrun)
      as (best_mech & best_qual & _ & _ & Hm & Hq).
    eexists. exists best_mech, best_qual. split; [exact Hrun |]. now split.
  - assert (Hrun : sample_scenario_3 ex_no_mechanic_table 1 2 1 2 10
                   = ({| caps_team := []; caps_quality := [("Q1", 1)] |},
                      Raises)) by (vm_compute; reflexivity).
    destruct (Hthree_raises 1 2 1 2 10 (capacities_of ex_no_mechanic_table)
                _ Hrun) as (mech & qual & Hc & Hr).
    eexists. exists mech, qual. split; [exact Hrun |]. now split.
Defined.

(** C7 as stated fails: no exit by exception restores anything.  In
    scenario 1 the scheduler run is outside any handler: on a bundle whose
    precedence table names an undefined task the run raises, and the head
    count of 5 written at entry stays in place of the capacity 1.  In
    scenario 2 the probes of the search swallow the exception but the final
    run does not: on a bundle whose product has no delivery date the
    scenario exits by exception with the capacity left at the largest head
    count tried.  In scenario 3 the handler of the first phase takes the
    minimum of the mechanic configuration: on a bundle without mechanic
    capacity table it raises, and the quality team of five is left with the
    head count 1 of the first configuration. *)
Lemma C7_counterexample_exception_exit :
  validate_dag ex_dangling = false
  /\ capacities_of ex_dangling
     = {| caps_team := [("M1", 1)]; caps_quality := [] |}
  /\ sample_scenario_1 ex_dangling (Some 5) None
     = ({| caps_team := [("M1", 5)]; caps_quality := [] |}, Raises)
  /\ capacities_of ex_no_delivery
     = {| caps_team := [("M1", 1)]; caps_quality := [] |}
  /\ sample_scenario_2 ex_no_delivery 1 2 1 2
     = Some ({| caps_team := [("M1", 2)]; caps_quality := [] |}, Raises)
  /\ capacities_of ex_no_mechanic_table
     = {| caps_team := []; caps_quality := [("Q1", 5)] |}
  /\ sample_scenario_3 ex_no_mechanic_table 1 2 1 2 10
     = ({| caps_team := []; caps_quality := [("Q1", 1)] |}, Raises).
Proof.
  repeat split; vm_compute; reflexivity.
Qed.
